(** * Tool orchestration of idp-cloudgenie-backend: result cache, cache keys,
    the bounded orchestration loop and the protocol clients.

    Shallow embedding of
      - internal/handlers/orchestration.go (ResultCache, generateCacheKey,
        ProcessPrompt, formatToolResult, formatToolResultsForPrompt,
        NewOrchestrationService) and the chat handler,
      - the protocol client over stdio (call, notify, readResponses,
        Initialize, ListTools, CallTool) and over the SDK session,
      - the providers (tool calls read off the text of the model),
      - the crossplane adaptor (BuildXRD) and the resource service
        (CreateResource),
    followed by the properties of the specification, one theorem each,
    and by further properties of the code. *)

From Stdlib Require Import ZArith List String Ascii Lia Bool Permutation.
From Stdlib Require OrderedTypeEx.
From stdpp Require Import gmap strings pretty list fin_maps sorting.

Open Scope string_scope.
Open Scope Z_scope.
Open Scope list_scope.

(* ===================================================================== *)
(** ** time.Time and time.Duration *)
(* ===================================================================== *)

Module GoTime.

(** A [time.Duration] is an int64 count of nanoseconds. *)
Definition Duration := Z.
Definition minDuration : Duration := - 2 ^ 63.
Definition maxDuration : Duration := 2 ^ 63 - 1.

Definition Nanosecond : Duration := 1.
Definition Microsecond : Duration := 1000 * Nanosecond.
Definition Millisecond : Duration := 1000 * Microsecond.
Definition Second : Duration := 1000 * Millisecond.
Definition Minute : Duration := 60 * Second.

(** A [time.Time] as read from the clock: nanoseconds on the monotonic
    clock of the process. *)
Definition Time := Z.

(** [t.Sub(u)]: the difference, saturated to the int64 range as the
    standard library does. *)
Definition Sub (t u : Time) : Duration :=
  let d := t - u in
  if d <? minDuration then minDuration
  else if maxDuration <? d then maxDuration
  else d.

End GoTime.
Import GoTime.

(* ===================================================================== *)
(** ** ResultCache (orchestration.go, lines 22-103) *)
(* ===================================================================== *)

Definition MaxToolIterations : nat := 5.
Definition CacheTTL : Duration := 5 * Minute.

Record CachedResult := mkCachedResult {
  Content : string;
  Timestamp : Time;
  IsError : bool;
}.

Record ResultCache := mkResultCache {
  store : gmap string CachedResult;
  ttl : Duration;
}.

(** [NewResultCache]: an empty store; the sweeping goroutine it starts is
    [cleanupExpired] below, one pass per tick. *)
Definition NewResultCache (ttl : Duration) : ResultCache :=
  {| store := ∅; ttl := ttl |}.

(** [Get], with the clock reading of [time.Since] as [now]. The Go pair
    [(nil, false)] is [None], [(result, true)] is [Some result]. *)
Definition Get (c : ResultCache) (now : Time) (key : string)
  : option CachedResult :=
  match store c !! key with
  | None => None
  | Some result =>
      if ttl c <? Sub now (Timestamp result) then None else Some result
  end.

(** [Set], with the clock reading of [time.Now] as [now]. *)
Definition Set_ (c : ResultCache) (now : Time) (key content : string)
    (isError : bool) : ResultCache :=
  {| store := <[key := {| Content := content; Timestamp := now;
                          IsError := isError |}]> (store c);
     ttl := ttl c |}.

(** One pass of the loop body of [cleanupExpired]: every entry older than
    the ttl at [now] is deleted. *)
Definition cleanupExpired (c : ResultCache) (now : Time) : ResultCache :=
  {| store := filter (fun kv => ¬ (ttl c < Sub now (Timestamp kv.2))) (store c);
     ttl := ttl c |}.

(** [Stats]: the map with the single key "total_entries". *)
Definition Stats (c : ResultCache) : gmap string Z :=
  {[ "total_entries" := Z.of_nat (size (store c)) ]}.

(* ===================================================================== *)
(** ** Go values and results *)
(* ===================================================================== *)

(** An [error] value is represented by the text of its [Error()]. *)
Definition error := string.

(** A Go pair [(T, error)]. *)
Inductive result (T : Type) : Type :=
| Ok (v : T)
| Err (e : error).
Arguments Ok {T} v.
Arguments Err {T} e.

(** A [float64]. Finite values are [(-1)^neg * mant * 2^exp]. *)
Inductive float64 : Type :=
| NaN
| Inf (neg : bool)
| Finite (neg : bool) (mant : N) (exp : Z).

(** A dynamic value held in an [interface{}]: what encoding/json decodes
    (nil, bool, float64, string, slice, map) and a value of a kind it
    refuses to encode (channel, function, complex number). A map is the
    list of its entries in one enumeration order; a Go map has no
    duplicate key. Slices and maps nested in a value are non-nil. *)
#[warnings="-register-all"]
Inductive Value : Type :=
| VNil
| VBool (b : bool)
| VFloat (f : float64)
| VString (s : string)
| VSlice (l : list Value)
| VMap (m : list (string * Value))
| VChan.

(** [map[string]interface{}] as a variable: [None] is the nil map. *)
Definition Args := option (list (string * Value)).

(* ===================================================================== *)
(** ** crypto/sha256 *)
(* ===================================================================== *)

Module SHA256.

Definition w32 (x : Z) : Z := x mod 2 ^ 32.
Definition add32 (x y : Z) : Z := w32 (x + y).
Definition rotr (n x : Z) : Z :=
  Z.lor (Z.shiftr x n) (w32 (Z.shiftl x (32 - n))).
Definition Ch (x y z : Z) : Z :=
  Z.lxor (Z.land x y) (Z.land (Z.lnot x) z).
Definition Maj (x y z : Z) : Z :=
  Z.lxor (Z.lxor (Z.land x y) (Z.land x z)) (Z.land y z).
Definition bsig0 (x : Z) : Z :=
  Z.lxor (Z.lxor (rotr 2 x) (rotr 13 x)) (rotr 22 x).
Definition bsig1 (x : Z) : Z :=
  Z.lxor (Z.lxor (rotr 6 x) (rotr 11 x)) (rotr 25 x).
Definition ssig0 (x : Z) : Z :=
  Z.lxor (Z.lxor (rotr 7 x) (rotr 18 x)) (Z.shiftr x 3).
Definition ssig1 (x : Z) : Z :=
  Z.lxor (Z.lxor (rotr 17 x) (rotr 19 x)) (Z.shiftr x 10).

Definition primes : list Z :=
  [ 2; 3; 5; 7; 11; 13; 17; 19; 23; 29; 31; 37; 41; 43; 47; 53;
    59; 61; 67; 71; 73; 79; 83; 89; 97; 101; 103; 107; 109; 113; 127; 131;
    137; 139; 149; 151; 157; 163; 167; 173; 179; 181; 191; 193; 197; 199;
    211; 223; 227; 229; 233; 239; 241; 251; 257; 263; 269; 271; 277; 281;
    283; 293; 307; 311 ].

(** The integer cube root of a number below [2^108], bit by bit. *)
Definition cubeRoot (n : Z) : Z :=
  fold_left (fun r i => let r' := r + 2 ^ Z.of_nat i in
                        if r' * r' * r' <=? n then r' else r)
            (rev (seq 0 36)) 0.

(** The round constants: the first 32 bits of the fractional parts of
    the cube roots of the first 64 primes. *)
Definition K : list Z :=
  Eval vm_compute in map (fun p => w32 (cubeRoot (p * 2 ^ 96))) primes.

(** The initial hash value: the first 32 bits of the fractional parts
    of the square roots of the first 8 primes. *)
Definition H0 : list Z :=
  Eval vm_compute in map (fun p => w32 (Z.sqrt (p * 2 ^ 64))) (take 8 primes).

(** The [n] bytes of [x], most significant first. *)
Definition be_bytes (n : nat) (x : Z) : list Z :=
  map (fun i => Z.land (Z.shiftr x (8 * Z.of_nat i)) 255) (rev (seq 0 n)).

Definition be_word (bs : list Z) : Z :=
  fold_left (fun acc b => acc * 256 + b) bs 0.

Definition pad (msg : list Z) : list Z :=
  let len := Z.of_nat (length msg) in
  let k := (55 - len) mod 64 in
  msg ++ [128] ++ repeat 0 (Z.to_nat k) ++ be_bytes 8 (8 * len).

Fixpoint words (n : nat) (bs : list Z) : list Z :=
  match n with
  | O => []
  | S n' => be_word (take 4 bs) :: words n' (drop 4 bs)
  end.

(** The message schedule, most recent word first. *)
Fixpoint extend (n : nat) (w : list Z) : list Z :=
  match n with
  | O => w
  | S n' =>
      let at_ i := nth i w 0 in
      extend n'
        (w32 (ssig1 (at_ 1%nat) + at_ 6%nat + ssig0 (at_ 14%nat) + at_ 15%nat)
         :: w)
  end.

Definition schedule (block : list Z) : list Z :=
  rev (extend 48 (rev (words 16 block))).

Definition round (st : list Z) (kw : Z * Z) : list Z :=
  match st with
  | [a; b; c; d; e; f; g; h] =>
      let t1 := w32 (h + bsig1 e + Ch e f g + kw.1 + kw.2) in
      let t2 := w32 (bsig0 a + Maj a b c) in
      [add32 t1 t2; a; b; c; add32 d t1; e; f; g]
  | _ => st
  end.

Definition compress (h : list Z) (block : list Z) : list Z :=
  zip_with add32 h (fold_left round (zip K (schedule block)) h).

Fixpoint blocks (n : nat) (h : list Z) (bs : list Z) : list Z :=
  match n with
  | O => h
  | S n' => blocks n' (compress h (take 64 bs)) (drop 64 bs)
  end.

Definition bytes_of_string (s : string) : list Z :=
  map (fun a => Z.of_N (N_of_ascii a)) (list_ascii_of_string s).

(** [sha256.Sum256]: the 32 bytes of the digest. *)
Definition Sum256 (data : string) : list Z :=
  let p := pad (bytes_of_string data) in
  flat_map (be_bytes 4) (blocks (length p / 64) H0 p).

End SHA256.

Definition hexdigit (n : Z) : ascii :=
  ascii_of_N (Z.to_N (if n <? 10 then 48 + n else 87 + n)).

(** The verb [%x] of fmt applied to a byte slice. *)
Fixpoint hex (bs : list Z) : string :=
  match bs with
  | [] => ""
  | b :: bs' =>
      String (hexdigit (b / 16)) (String (hexdigit (b mod 16)) (hex bs'))
  end.

(* ===================================================================== *)
(** ** The data types of packages mcp, ai and models *)
(* ===================================================================== *)

Module mcp.

Module Tool.
Record t := mk {
  Name : string;
  Description : string;
  InputSchema : Value;
}.
End Tool.

(** The [Content] interface: a [*TextContent] or another kind of part
    (image, audio, resource), kept as its raw value. *)
Inductive Content : Type :=
| TextContent (Text : string)
| OtherContent (raw : Value).

Module CallToolResult.
Record t := mk {
  Content : list mcp.Content;
  IsError : bool;
}.
End CallToolResult.

End mcp.

Module ai.

Module ToolCall.
Record t := mk {
  ID : string;
  Name : string;
  Arguments : Args;
}.
End ToolCall.

Module ToolResult.
Record t := mk {
  ToolCallID : string;
  Content : string;
  IsError : bool;
}.
End ToolResult.

Module Message.
Record t := mk {
  Role : string;
  Content : string;
  ToolCalls : list ToolCall.t;
  ToolResults : list ToolResult.t;
}.
End Message.

Module Usage.
Record t := mk {
  PromptTokens : Z;
  CompletionTokens : Z;
  TotalTokens : Z;
}.
End Usage.

Module Response.
Record t := mk {
  Content : string;
  ToolCalls : list ToolCall.t;
  FinishReason : string;
  Usage : option Usage.t;
}.
End Response.

End ai.

Module models.

Module ChatRequest.
Record t := mk {
  Prompt : string;
  Provider : string;
  Model : string;
  Context : Args;
}.
End ChatRequest.

Module ToolCall.
Record t := mk {
  ID : string;
  Name : string;
  Arguments : Args;
}.
End ToolCall.

Module ToolResult.
Record t := mk {
  ToolCallID : string;
  Name : string;
  Content : string;
  IsError : bool;
}.
End ToolResult.

(** The values stored in [Metadata]: int, string, bool and the map
    returned by [Stats]. *)
Inductive MetaValue : Type :=
| MInt (n : Z)
| MString (s : string)
| MBool (b : bool)
| MStats (m : gmap string Z).

Module ChatResponse.
Record t := mk {
  Response : string;
  ToolCalls : list ToolCall.t;
  ToolResults : list ToolResult.t;
  Metadata : gmap string MetaValue;
}.
End ChatResponse.

End models.

(* ===================================================================== *)
(** ** encoding/json on argument maps *)
(* ===================================================================== *)

(** The library functions whose text output the orchestration code only
    passes along: the JSON literal of a string, the JSON text of a finite
    float64, and [json.Marshal] of the protocol's [CallToolResult]. *)
Record GoLib := mkGoLib {
  quoteJSON : string -> string;
  formatFloat : float64 -> string;
  marshalCallToolResult : mcp.CallToolResult.t -> option string;
}.

(** [strings.Join]. *)
Fixpoint join (sep : string) (parts : list string) : string :=
  match parts with
  | [] => ""
  | [p] => p
  | p :: rest => p +:+ sep +:+ join sep rest
  end.

(** Insertion of an entry in a list sorted by key (byte-wise order of the
    keys, as [strings.Compare]). *)
Fixpoint insertByKey {A} (kv : string * A) (l : list (string * A))
  : list (string * A) :=
  match l with
  | [] => [kv]
  | kv' :: l' =>
      if String.leb kv.1 kv'.1 then kv :: l
      else kv' :: insertByKey kv l'
  end.

Definition sortByKey {A} (l : list (string * A)) : list (string * A) :=
  foldr insertByKey [] l.

(** All parts present, or a failure. *)
Fixpoint sequence {A} (l : list (option A)) : option (list A) :=
  match l with
  | [] => Some []
  | None :: _ => None
  | Some x :: l' =>
      match sequence l' with
      | Some xs => Some (x :: xs)
      | None => None
      end
  end.

Section Encoding.

Context (lib : GoLib).

Definition encodeArray (parts : list (option string)) : option string :=
  match sequence parts with
  | Some ps => Some ("[" +:+ join "," ps +:+ "]")
  | None => None
  end.

Definition encodeField (f : string * option string) : option string :=
  match f.2 with
  | Some v => Some (quoteJSON lib f.1 +:+ ":" +:+ v)
  | None => None
  end.

Definition encodeObject (fields : list (string * option string))
  : option string :=
  match sequence (map encodeField (sortByKey fields)) with
  | Some fs => Some ("{" +:+ join "," fs +:+ "}")
  | None => None
  end.

(** The JSON text of a value, or [None] where [json.Marshal] returns an
    error (a NaN or infinite number, a channel or function). Map
    entries are written in the sorted order of their keys. *)
Fixpoint encode (v : Value) : option string :=
  match v with
  | VNil => Some "null"
  | VBool b => Some (if b then "true" else "false")
  | VFloat (Finite neg m e) => Some (formatFloat lib (Finite neg m e))
  | VFloat _ => None
  | VString s => Some (quoteJSON lib s)
  | VSlice l => encodeArray (map encode l)
  | VMap m => encodeObject (map (fun kv => match kv with
                                          | (k, v') => (k, encode v')
                                          end) m)
  | VChan => None
  end.

(** [json.Marshal(args)] for [args map[string]interface{}]: the nil map
    is written [null]. *)
Definition Marshal (args : Args) : option string :=
  match args with
  | None => Some "null"
  | Some m => encode (VMap m)
  end.

(** [generateCacheKey] (orchestration.go, lines 132-144). *)
Definition generateCacheKey (toolName : string) (args : Args) : string :=
  match Marshal args with
  | None => toolName
  | Some argsJSON =>
      let hash := SHA256.Sum256 (toolName +:+ ":" +:+ argsJSON) in
      toolName +:+ ":" +:+ hex (take 8 hash)
  end.

End Encoding.

(* ===================================================================== *)
(** ** The orchestration service and its effects *)
(* ===================================================================== *)

(** A computation of the orchestration service: it returns, or performs
    one call on a collaborator and continues with the answer. The
    collaborators are the AI provider ([s.aiProvider]), the protocol
    client ([s.mcpClient]) and the result cache ([s.resultCache]). *)
Inductive Prog (A : Type) : Type :=
| Ret (a : A)
| Chat (prompt : string) (tools : list mcp.Tool.t)
       (conversationHistory : list ai.Message.t)
       (k : result ai.Response.t -> Prog A)
| GetProviderName (k : string -> Prog A)
| CallTool (name : string) (arguments : Args)
           (k : result mcp.CallToolResult.t -> Prog A)
| CacheGet (key : string) (k : option CachedResult -> Prog A)
| CacheSet (key content : string) (isError : bool) (k : Prog A)
| CacheStats (k : gmap string Z -> Prog A).
Arguments Ret {A} a.
Arguments Chat {A} prompt tools conversationHistory k.
Arguments GetProviderName {A} k.
Arguments CallTool {A} name arguments k.
Arguments CacheGet {A} key k.
Arguments CacheSet {A} key content isError k.
Arguments CacheStats {A} k.

Fixpoint bind {A B} (m : Prog A) (f : A -> Prog B) : Prog B :=
  match m with
  | Ret a => f a
  | Chat p ts h k => Chat p ts h (fun r => bind (k r) f)
  | GetProviderName k => GetProviderName (fun r => bind (k r) f)
  | CallTool n a k => CallTool n a (fun r => bind (k r) f)
  | CacheGet key k => CacheGet key (fun r => bind (k r) f)
  | CacheSet key c e k => CacheSet key c e (bind k f)
  | CacheStats k => CacheStats (fun r => bind (k r) f)
  end.

#[global] Instance Prog_ret : MRet Prog := @Ret.
#[global] Instance Prog_bind : MBind Prog := fun A B f m => bind m f.

Definition chat (prompt : string) (tools : list mcp.Tool.t)
    (history : list ai.Message.t) : Prog (result ai.Response.t) :=
  Chat prompt tools history Ret.
Definition getProviderName : Prog string := GetProviderName Ret.
Definition callTool (name : string) (arguments : Args)
  : Prog (result mcp.CallToolResult.t) := CallTool name arguments Ret.
Definition cacheGet (key : string) : Prog (option CachedResult) :=
  CacheGet key Ret.
Definition cacheSet (key content : string) (isError : bool) : Prog unit :=
  CacheSet key content isError (Ret tt).
Definition cacheStats : Prog (gmap string Z) := CacheStats Ret.

(** The fields of [OrchestrationService] that are data. *)
Record OrchestrationService := mkService {
  tools : list mcp.Tool.t;
}.

(** The variables of [ProcessPrompt] that outlive an iteration and are
    updated while invocations are resolved. *)
Record Totals := mkTotals {
  allToolCalls : list models.ToolCall.t;
  allToolResults : list models.ToolResult.t;
  cacheHits : Z;
  cacheMisses : Z;
}.

(** The texts that open an error line and a success line of the next
    prompt, byte for byte as they stand in the source file. *)
Definition errorMark : string :=
  string_of_list_ascii (map ascii_of_nat [195; 162; 197; 146]%nat).
Definition successMark : string :=
  string_of_list_ascii
    (map ascii_of_nat [195; 162; 197; 147; 226; 128; 156]%nat).

Definition maxIterationsMessage : string :=
  "Maximum tool execution iterations reached. Please try breaking down your request.".

Section Orchestration.

Context (lib : GoLib).

(** The text parts of a result, in order. *)
Definition textPartsOf (content : list mcp.Content) : list string :=
  omap (fun c => match c with
                 | mcp.TextContent text => Some text
                 | mcp.OtherContent _ => None
                 end) content.

(** [json.MarshalIndent(textParts, "", "  ")] on a slice of two or more
    strings. *)
Definition marshalIndentStrings (parts : list string) : string :=
  "[" +:+ String "010" "  "
      +:+ join ("," +:+ String "010" "  ") (map (quoteJSON lib) parts)
      +:+ String "010" "]".

(** [formatToolResult] (orchestration.go, lines 343-373). *)
Definition formatToolResult (result : mcp.CallToolResult.t) : string :=
  match mcp.CallToolResult.Content result with
  | [] => "Tool executed successfully with no output"
  | content =>
      match textPartsOf content with
      | [] =>
          match marshalCallToolResult lib result with
          | None => "Tool result could not be formatted"
          | Some jsonBytes => jsonBytes
          end
      | [text] => text
      | textParts => marshalIndentStrings textParts
      end
  end.

(** [formatToolResultsForPrompt] (orchestration.go, lines 375-392). *)
Definition formatToolResultsForPrompt (results : list ai.ToolResult.t)
  : string :=
  match results with
  | [] => ""
  | _ =>
      let nl2 := String "010" (String "010" "") in
      let prompt := "Tool execution results:" +:+ nl2 in
      let prompt :=
        fold_left
          (fun prompt result =>
             if ai.ToolResult.IsError result
             then prompt +:+ errorMark +:+ " Error: "
                         +:+ ai.ToolResult.Content result +:+ nl2
             else prompt +:+ successMark +:+ " Success: "
                         +:+ ai.ToolResult.Content result +:+ nl2)
          results prompt in
      prompt +:+ "Please analyze these results and provide a response to the user."
  end.

(** The message built when [CallTool] returns an error (line 217). *)
Definition callErrorMessage (toolName : string) (err : error) : string :=
  "Error calling tool " +:+ toolName +:+ ": " +:+ err.

(** Lines 249-268: the result and the call are appended to the three
    slices. *)
Definition recordResult (toolCall : ai.ToolCall.t) (resultContent : string)
    (isError : bool) (toolResults : list ai.ToolResult.t) (t : Totals)
  : list ai.ToolResult.t * Totals :=
  (toolResults ++
     [ {| ai.ToolResult.ToolCallID := ai.ToolCall.ID toolCall;
          ai.ToolResult.Content := resultContent;
          ai.ToolResult.IsError := isError |} ],
   {| allToolCalls := allToolCalls t ++
        [ {| models.ToolCall.ID := ai.ToolCall.ID toolCall;
             models.ToolCall.Name := ai.ToolCall.Name toolCall;
             models.ToolCall.Arguments := ai.ToolCall.Arguments toolCall |} ];
      allToolResults := allToolResults t ++
        [ {| models.ToolResult.ToolCallID := ai.ToolCall.ID toolCall;
             models.ToolResult.Name := ai.ToolCall.Name toolCall;
             models.ToolResult.Content := resultContent;
             models.ToolResult.IsError := isError |} ];
      cacheHits := cacheHits t;
      cacheMisses := cacheMisses t |}).

(** The body of the loop over [aiResponse.ToolCalls] (lines 194-269). *)
Definition executeToolCall (toolCall : ai.ToolCall.t)
    (toolResults : list ai.ToolResult.t) (t : Totals)
  : Prog (list ai.ToolResult.t * Totals) :=
  let cacheKey :=
    generateCacheKey lib (ai.ToolCall.Name toolCall)
                     (ai.ToolCall.Arguments toolCall) in
  cached ← cacheGet cacheKey;
  match cached with
  | Some cached =>
      (* cache hit *)
      let t := {| allToolCalls := allToolCalls t;
                  allToolResults := allToolResults t;
                  cacheHits := cacheHits t + 1;
                  cacheMisses := cacheMisses t |} in
      mret (recordResult toolCall (Content cached) (IsError cached)
                         toolResults t)
  | None =>
      (* cache miss: call the tool *)
      let t := {| allToolCalls := allToolCalls t;
                  allToolResults := allToolResults t;
                  cacheHits := cacheHits t;
                  cacheMisses := cacheMisses t + 1 |} in
      r ← callTool (ai.ToolCall.Name toolCall)
                   (ai.ToolCall.Arguments toolCall);
      match r with
      | Err err =>
          let errMsg := callErrorMessage (ai.ToolCall.Name toolCall) err in
          (* continue *)
          mret
            (toolResults ++
               [ {| ai.ToolResult.ToolCallID := ai.ToolCall.ID toolCall;
                    ai.ToolResult.Content := errMsg;
                    ai.ToolResult.IsError := true |} ],
             {| allToolCalls := allToolCalls t;
                allToolResults := allToolResults t ++
                  [ {| models.ToolResult.ToolCallID := ai.ToolCall.ID toolCall;
                       models.ToolResult.Name := ai.ToolCall.Name toolCall;
                       models.ToolResult.Content := errMsg;
                       models.ToolResult.IsError := true |} ];
                cacheHits := cacheHits t;
                cacheMisses := cacheMisses t |})
      | Ok mcpResult =>
          let resultContent := formatToolResult mcpResult in
          let isError := mcp.CallToolResult.IsError mcpResult in
          _ ← (if negb isError
               then cacheSet cacheKey resultContent isError
               else mret tt);
          mret (recordResult toolCall resultContent isError toolResults t)
      end
  end.

(** The loop over [aiResponse.ToolCalls]. *)
Fixpoint executeToolCalls (toolCalls : list ai.ToolCall.t)
    (toolResults : list ai.ToolResult.t) (t : Totals)
  : Prog (list ai.ToolResult.t * Totals) :=
  match toolCalls with
  | [] => mret (toolResults, t)
  | toolCall :: rest =>
      '(toolResults, t) ← executeToolCall toolCall toolResults t;
      executeToolCalls rest toolResults t
  end.

Context (s : OrchestrationService).

(** The response returned when the model asks for no tool
    (lines 176-189), given the answers of [GetProviderName] and
    [Stats]. *)
Definition doneChatResponse (aiResponse : ai.Response.t) (iteration : Z)
    (t : Totals) (provider : string) (stats : gmap string Z)
  : models.ChatResponse.t :=
  {| models.ChatResponse.Response := ai.Response.Content aiResponse;
     models.ChatResponse.ToolCalls := allToolCalls t;
     models.ChatResponse.ToolResults := allToolResults t;
     models.ChatResponse.Metadata :=
       {[ "iterations" := models.MInt iteration;
          "finish_reason" :=
            models.MString (ai.Response.FinishReason aiResponse);
          "provider" := models.MString provider;
          "tools_available" := models.MInt (Z.of_nat (length (tools s)));
          "cache_hits" := models.MInt (cacheHits t);
          "cache_misses" := models.MInt (cacheMisses t);
          "cache_stats" := models.MStats stats ]} |}.

Definition doneResponse (aiResponse : ai.Response.t) (iteration : Z)
    (t : Totals) : Prog (result models.ChatResponse.t) :=
  provider ← getProviderName;
  stats ← cacheStats;
  mret (Ok (doneChatResponse aiResponse iteration t provider stats)).

(** The response returned after the last permitted iteration
    (lines 281-295). *)
Definition maxReachedChatResponse (iteration : Z) (t : Totals)
    (provider : string) (stats : gmap string Z) : models.ChatResponse.t :=
  {| models.ChatResponse.Response := maxIterationsMessage;
     models.ChatResponse.ToolCalls := allToolCalls t;
     models.ChatResponse.ToolResults := allToolResults t;
     models.ChatResponse.Metadata :=
       {[ "iterations" := models.MInt iteration;
          "max_reached" := models.MBool true;
          "provider" := models.MString provider;
          "tools_available" := models.MInt (Z.of_nat (length (tools s)));
          "cache_hits" := models.MInt (cacheHits t);
          "cache_misses" := models.MInt (cacheMisses t);
          "cache_stats" := models.MStats stats ]} |}.

Definition maxReachedResponse (iteration : Z) (t : Totals)
  : Prog (result models.ChatResponse.t) :=
  provider ← getProviderName;
  stats ← cacheStats;
  mret (Ok (maxReachedChatResponse iteration t provider stats)).

(** The two messages appended to the history in an iteration
    (lines 169-172 and 272-275). *)
Definition assistantMessage (aiResponse : ai.Response.t) : ai.Message.t :=
  {| ai.Message.Role := "assistant";
     ai.Message.Content := ai.Response.Content aiResponse;
     ai.Message.ToolCalls := [];
     ai.Message.ToolResults := [] |}.

Definition toolResultsMessage (toolResults : list ai.ToolResult.t)
  : ai.Message.t :=
  {| ai.Message.Role := "assistant";
     ai.Message.Content := "";
     ai.Message.ToolCalls := [];
     ai.Message.ToolResults := toolResults |}.

(** [for iteration < MaxToolIterations { ... }] with [remaining]
    iterations still permitted, that is
    [remaining = MaxToolIterations - iteration]. *)
Fixpoint loop (remaining : nat) (iteration : Z) (currentPrompt : string)
    (conversationHistory : list ai.Message.t) (t : Totals)
  : Prog (result models.ChatResponse.t) :=
  match remaining with
  | O => maxReachedResponse iteration t
  | S remaining =>
      let iteration := iteration + 1 in
      r ← chat currentPrompt (tools s) conversationHistory;
      match r with
      | Err err => mret (Err ("AI provider error: " +:+ err))
      | Ok aiResponse =>
          let conversationHistory :=
            conversationHistory ++ [ assistantMessage aiResponse ] in
          match ai.Response.ToolCalls aiResponse with
          | [] => doneResponse aiResponse iteration t
          | toolCalls =>
              '(toolResults, t) ← executeToolCalls toolCalls [] t;
              let conversationHistory :=
                conversationHistory ++ [ toolResultsMessage toolResults ] in
              let currentPrompt := formatToolResultsForPrompt toolResults in
              loop remaining iteration currentPrompt conversationHistory t
          end
      end
  end.

(** [ProcessPrompt] (orchestration.go, lines 147-296). *)
Definition ProcessPrompt (request : models.ChatRequest.t)
  : Prog (result models.ChatResponse.t) :=
  loop MaxToolIterations 0 (models.ChatRequest.Prompt request) []
       {| allToolCalls := []; allToolResults := [];
          cacheHits := 0; cacheMisses := 0 |}.

End Orchestration.

(* ===================================================================== *)
(** ** Running a computation against its collaborators *)
(* ===================================================================== *)

(** One call on a collaborator together with its answer. *)
Inductive Event : Type :=
| EvChat (prompt : string) (tools : list mcp.Tool.t)
         (conversationHistory : list ai.Message.t)
         (answer : result ai.Response.t)
| EvGetProviderName (answer : string)
| EvCallTool (name : string) (arguments : Args)
             (answer : result mcp.CallToolResult.t)
| EvCacheGet (key : string) (answer : option CachedResult)
| EvCacheSet (key content : string) (isError : bool)
| EvCacheStats (answer : gmap string Z).

(** The collaborators as transitions on a state [S] of the environment. *)
Record Handler (S : Type) := mkHandler {
  onChat : string -> list mcp.Tool.t -> list ai.Message.t -> S ->
           result ai.Response.t * S;
  onGetProviderName : S -> string * S;
  onCallTool : string -> Args -> S -> result mcp.CallToolResult.t * S;
  onCacheGet : string -> S -> option CachedResult * S;
  onCacheSet : string -> string -> bool -> S -> S;
  onCacheStats : S -> gmap string Z * S;
}.
Arguments onChat {S} _ _ _ _ _.
Arguments onGetProviderName {S} _ _.
Arguments onCallTool {S} _ _ _ _.
Arguments onCacheGet {S} _ _ _.
Arguments onCacheSet {S} _ _ _ _ _.
Arguments onCacheStats {S} _ _.

(** The run of a computation: its value, the final state of the
    environment and the calls made, in order. *)
Fixpoint interp {S A} (h : Handler S) (p : Prog A) (st : S)
  : A * S * list Event :=
  match p with
  | Ret a => (a, st, [])
  | Chat prompt ts hist k =>
      let '(r, st) := onChat h prompt ts hist st in
      let '(a, st, tr) := interp h (k r) st in
      (a, st, EvChat prompt ts hist r :: tr)
  | GetProviderName k =>
      let '(r, st) := onGetProviderName h st in
      let '(a, st, tr) := interp h (k r) st in
      (a, st, EvGetProviderName r :: tr)
  | CallTool name args k =>
      let '(r, st) := onCallTool h name args st in
      let '(a, st, tr) := interp h (k r) st in
      (a, st, EvCallTool name args r :: tr)
  | CacheGet key k =>
      let '(r, st) := onCacheGet h key st in
      let '(a, st, tr) := interp h (k r) st in
      (a, st, EvCacheGet key r :: tr)
  | CacheSet key content isError k =>
      let st := onCacheSet h key content isError st in
      let '(a, st, tr) := interp h k st in
      (a, st, EvCacheSet key content isError :: tr)
  | CacheStats k =>
      let '(r, st) := onCacheStats h st in
      let '(a, st, tr) := interp h (k r) st in
      (a, st, EvCacheStats r :: tr)
  end.

(** *** The environment of one process *)

(** What lies outside the process: the answers of the model and of the
    tool endpoint, by call number and request, and the reading of the
    clock, by reading number. [envCallTool] stands for
    [mcpClient.CallTool] with the endpoint behind it, and the record
    puts no condition on its answers. The real clients encode a request
    before they send it, so that they fail for arguments that cannot be
    encoded; a property that depends on this states it as a condition
    on the collaborator ([encodesArguments]). *)
Record Env := mkEnv {
  envChat : nat -> string -> list mcp.Tool.t -> list ai.Message.t ->
            result ai.Response.t;
  envProviderName : string;
  envCallTool : nat -> string -> Args -> result mcp.CallToolResult.t;
  envClock : nat -> Time;
}.

Record World := mkWorld {
  cache : ResultCache;
  chats : nat;       (* calls of Chat so far *)
  toolCalls : nat;   (* calls of CallTool so far *)
  ticks : nat;       (* readings of the clock so far *)
}.

(** The provider, the protocol client and the [ResultCache] of the
    process, the cache reading the clock as [Get] and [Set] do. *)
Definition worldHandler (env : Env) : Handler World :=
  {| onChat prompt ts hist w :=
       (envChat env (chats w) prompt ts hist,
        {| cache := cache w; chats := S (chats w);
           toolCalls := toolCalls w; ticks := ticks w |});
     onGetProviderName w := (envProviderName env, w);
     onCallTool name args w :=
       (envCallTool env (toolCalls w) name args,
        {| cache := cache w; chats := chats w;
           toolCalls := S (toolCalls w); ticks := ticks w |});
     onCacheGet key w :=
       (Get (cache w) (envClock env (ticks w)) key,
        {| cache := cache w; chats := chats w;
           toolCalls := toolCalls w; ticks := S (ticks w) |});
     onCacheSet key content isError w :=
       {| cache := Set_ (cache w) (envClock env (ticks w)) key content isError;
          chats := chats w; toolCalls := toolCalls w; ticks := S (ticks w) |};
     onCacheStats w := (Stats (cache w), w) |}.

(* ===================================================================== *)
(** ** The protocol client over stdio (package mcp: call, notify,
       readResponses, Initialize, ListTools, CallTool) *)
(* ===================================================================== *)

Module stdio.

(** The [Params] field of a request, an [interface{}] holding one of
    the parameter structs. *)
Inductive Params : Type :=
| NoParams
| InitializeParams (ProtocolVersion clientName clientVersion : string)
| ToolsListParams
| ToolCallParams (Name : string) (Arguments : Args).

Module JSONRPCRequest.
Record t := mk {
  JSONRPC : string;
  ID : option Z;          (* absent in a notification *)
  Method : string;
  Params : stdio.Params;
}.
End JSONRPCRequest.

Module JSONRPCError.
Record t := mk {
  Code : Z;
  Message : string;
}.
End JSONRPCError.

Module JSONRPCResponse.
Record t := mk {
  ID : Value;             (* interface{}: VNil when absent *)
  Result : Value;
  Error : option JSONRPCError.t;
}.
End JSONRPCResponse.

(** [int64(v)] for a float64 [v]: truncation toward zero when the
    truncated value is an int64. For every other value (a finite value
    out of range, an infinity, NaN) the language leaves the result to
    the implementation; it is given here as the gc compiler computes
    it on amd64, where the conversion yields [-2^63]. *)
Definition int64_of_float64 (f : float64) : Z :=
  match f with
  | Finite neg m e =>
      let a := if 0 <=? e then Z.of_N m * 2 ^ e
               else Z.of_N m / 2 ^ (- e) in
      let v := if neg then - a else a in
      if (- 2 ^ 63 <=? v) && (v <? 2 ^ 63) then v else - 2 ^ 63
  | _ => - 2 ^ 63
  end.

(** The type switch of [readResponses] on [response.ID]: the request
    id, or [None] for a type it does not know. Decoded ids are nil,
    float64 or string. *)
Definition requestIDOf (id : Value) : option Z :=
  match id with
  | VFloat v => Some (int64_of_float64 v)
  | _ => None
  end.

(** What the goroutines of a client do, one access to shared state or
    one blocking operation at a time. *)
Inductive Prog (A : Type) : Type :=
| Ret (a : A)
| Lock (k : Prog A)                                (* c.mu.Lock() *)
| Unlock (k : Prog A)                              (* c.mu.Unlock() *)
| GetInitialized (k : bool -> Prog A)
| SetInitialized (b : bool) (k : Prog A)
| SetTools (ts : list mcp.Tool.t) (k : Prog A)
| NextRequestID (k : Z -> Prog A)                  (* c.requestID.Add(1) *)
| MakeChan (k : nat -> Prog A)                     (* make(chan, 1) *)
| PutPending (id : Z) (ch : nat) (k : Prog A)      (* c.pendingCalls[id] = ch *)
| DeletePending (id : Z) (k : Prog A)              (* delete(c.pendingCalls, id) *)
| Write (line : string) (k : option error -> Prog A) (* c.stdin.Write *)
| Recv (ch : nat) (k : JSONRPCResponse.t -> Prog A). (* <-responseChan *)
Arguments Ret {A} a.
Arguments Lock {A} k.
Arguments Unlock {A} k.
Arguments GetInitialized {A} k.
Arguments SetInitialized {A} b k.
Arguments SetTools {A} ts k.
Arguments NextRequestID {A} k.
Arguments MakeChan {A} k.
Arguments PutPending {A} id ch k.
Arguments DeletePending {A} id k.
Arguments Write {A} line k.
Arguments Recv {A} ch k.

Fixpoint bind {A B} (m : Prog A) (f : A -> Prog B) : Prog B :=
  match m with
  | Ret a => f a
  | Lock k => Lock (bind k f)
  | Unlock k => Unlock (bind k f)
  | GetInitialized k => GetInitialized (fun b => bind (k b) f)
  | SetInitialized b k => SetInitialized b (bind k f)
  | SetTools ts k => SetTools ts (bind k f)
  | NextRequestID k => NextRequestID (fun i => bind (k i) f)
  | MakeChan k => MakeChan (fun c => bind (k c) f)
  | PutPending i c k => PutPending i c (bind k f)
  | DeletePending i k => DeletePending i (bind k f)
  | Write l k => Write l (fun e => bind (k e) f)
  | Recv c k => Recv c (fun r => bind (k r) f)
  end.

#[global] Instance Prog_ret : MRet Prog := @Ret.
#[global] Instance Prog_bind : MBind Prog := fun A B f m => bind m f.

(** *** The client with its goroutines *)

(** Where the goroutine of [readResponses] stands. *)
Inductive Reader : Type :=
| Scanning                                   (* at [c.scanner.Scan()] *)
| LookingUp (id : Z) (response : JSONRPCResponse.t)
| Sending (ch : nat) (response : JSONRPCResponse.t)
| Returned.                                  (* after the loop *)

(** The fields of [Client] that the goroutines share, the two pipes,
    the channels made so far (capacity 1: empty or holding one
    response) and the goroutines of the callers. *)
Record Client (R : Type) := mkClient {
  initialized : bool;
  tools : list mcp.Tool.t;
  muLocked : bool;
  requestID : Z;
  pendingCalls : gmap Z nat;
  chans : list (option JSONRPCResponse.t);
  stdin : list string;              (* what was written, in order *)
  stdinError : option error;        (* the pipe refuses writes *)
  stdout : list string;             (* lines not yet scanned *)
  stdoutClosed : bool;              (* the stream has ended *)
  reader : Reader;
  callers : list (Prog R);
}.
Arguments initialized {R} _.
Arguments tools {R} _.
Arguments muLocked {R} _.
Arguments requestID {R} _.
Arguments pendingCalls {R} _.
Arguments chans {R} _.
Arguments stdin {R} _.
Arguments stdinError {R} _.
Arguments stdout {R} _.
Arguments stdoutClosed {R} _.
Arguments reader {R} _.
Arguments callers {R} _.

(** What can happen next. *)
Inductive Action (R : Type) : Type :=
| Go (p : Prog R)            (* a new goroutine calls a method *)
| Caller (i : nat)           (* caller [i] performs its next operation *)
| ReadResponses              (* the reader performs its next operation *)
| ServerWrites (text : string) (* the server writes [text] and a newline *)
| ServerCloses               (* the stream of responses ends *)
| StdinBreaks (err : error).
Arguments Go {R} p.
Arguments Caller {R} i.
Arguments ReadResponses {R}.
Arguments ServerWrites {R} text.
Arguments ServerCloses {R}.
Arguments StdinBreaks {R} err.

(** *** The scanner of the reader *)

(** The client reads its responses with [bufio.NewScanner(stdout)]
    (line 279): the split function is [bufio.ScanLines] and the buffer
    is the default one, which grows to [MaxScanTokenSize] bytes. A
    line is returned by [Scan] when it fits in the buffer together
    with its newline; at a longer line [Scan] returns false with
    [ErrTooLong], and it returns false ever after. *)
Definition MaxScanTokenSize : Z := 64 * 1024.

(** The lines of a text that is followed by a newline. *)
Fixpoint splitLines (text : string) : list string :=
  match text with
  | EmptyString => [EmptyString]
  | String c text' =>
      if Ascii.eqb c "010" then EmptyString :: splitLines text'
      else match splitLines text' with
           | line :: lines => String c line :: lines
           | [] => [String c EmptyString]
           end
  end.

(** [dropCR] of package bufio: [ScanLines] returns a line without the
    carriage return at its end, if it has one. *)
Fixpoint dropCR (line : string) : string :=
  match line with
  | EmptyString => EmptyString
  | String c EmptyString =>
      if Ascii.eqb c "013" then EmptyString else line
  | String c line' => String c (dropCR line')
  end.

Section Client.

(** The structs the results are decoded into, and the calls into
    encoding/json. *)
Context {InitializeResult ToolCallResult : Type}.
Context (marshalRequest : JSONRPCRequest.t -> result string)
        (unmarshalResponse : string -> result JSONRPCResponse.t)
        (marshalValue : Value -> result string)
        (unmarshalInitializeResult : string -> result InitializeResult)
        (unmarshalToolsListResult : string -> result (list mcp.Tool.t))
        (unmarshalToolCallResult : string -> result ToolCallResult).

Definition newline : string := String "010" "".

(** [call] (lines 411-448); the deferred deletion runs on every
    return. *)
Definition call (method : string) (params : Params)
  : Prog (result Value) :=
  id ← NextRequestID mret;
  responseChan ← MakeChan mret;
  PutPending id responseChan (
  let request :=
    {| JSONRPCRequest.JSONRPC := "2.0";
       JSONRPCRequest.ID := Some id;
       JSONRPCRequest.Method := method;
       JSONRPCRequest.Params := params |} in
  match marshalRequest request with
  | Err err =>
      DeletePending id
        (mret (Err ("failed to marshal request: " +:+ err)))
  | Ok requestBytes =>
      werr ← Write (requestBytes +:+ newline) mret;
      match werr with
      | Some err =>
          DeletePending id
            (mret (Err ("failed to write request: " +:+ err)))
      | None =>
          response ← Recv responseChan mret;
          DeletePending id (mret (
            match JSONRPCResponse.Error response with
            | Some e =>
                Err ("JSON-RPC error "
                     +:+ pretty (JSONRPCError.Code e) +:+ ": "
                     +:+ JSONRPCError.Message e)
            | None => Ok (JSONRPCResponse.Result response)
            end))
      end
  end).

(** [notify] (lines 451-468). *)
Definition notify (method : string) (params : Params)
  : Prog (option error) :=
  let request :=
    {| JSONRPCRequest.JSONRPC := "2.0";
       JSONRPCRequest.ID := None;
       JSONRPCRequest.Method := method;
       JSONRPCRequest.Params := params |} in
  match marshalRequest request with
  | Err err => mret (Some ("failed to marshal notification: " +:+ err))
  | Ok requestBytes =>
      werr ← Write (requestBytes +:+ newline) mret;
      match werr with
      | Some err =>
          mret (Some ("failed to write notification: " +:+ err))
      | None => mret None
      end
  end.

(** [Initialize] (lines 298-340). The decoded server info is stored
    in a field that no other method reads; it is left out. *)
Definition Initialize : Prog (option error) :=
  Lock (
  initialized ← GetInitialized mret;
  if initialized : bool then Unlock (mret None)
  else
    r ← call "initialize"
             (InitializeParams "2024-11-05" "idp-cloudgenie-backend" "1.0.0");
    match r with
    | Err err => Unlock (mret (Some ("initialization failed: " +:+ err)))
    | Ok result =>
        match marshalValue result with
        | Err err =>
            Unlock (mret (Some ("failed to marshal init result: " +:+ err)))
        | Ok resultBytes =>
            match unmarshalInitializeResult resultBytes with
            | Err err =>
                Unlock (mret (Some ("failed to unmarshal init result: "
                                    +:+ err)))
            | Ok _ =>
                SetInitialized true (
                nerr ← notify "notifications/initialized" NoParams;
                match nerr with
                | Some err =>
                    Unlock (mret (Some
                      ("failed to send initialized notification: " +:+ err)))
                | None => Unlock (mret None)
                end)
            end
        end
    end).

(** [ListTools] (lines 343-370). *)
Definition ListTools : Prog (result (list mcp.Tool.t)) :=
  initialized ← GetInitialized mret;
  ierr ← (if initialized : bool then mret None else Initialize);
  match ierr with
  | Some err => mret (Err err)
  | None =>
      r ← call "tools/list" ToolsListParams;
      match r with
      | Err err => mret (Err ("failed to list tools: " +:+ err))
      | Ok result =>
          match marshalValue result with
          | Err err =>
              mret (Err ("failed to marshal tools result: " +:+ err))
          | Ok resultBytes =>
              match unmarshalToolsListResult resultBytes with
              | Err err =>
                  mret (Err ("failed to unmarshal tools result: " +:+ err))
              | Ok ts => Lock (SetTools ts (Unlock (mret (Ok ts))))
              end
          end
      end
  end.

(** [CallTool] (lines 373-401). *)
Definition CallTool (name : string) (arguments : Args)
  : Prog (result ToolCallResult) :=
  initialized ← GetInitialized mret;
  ierr ← (if initialized : bool then mret None else Initialize);
  match ierr with
  | Some err => mret (Err err)
  | None =>
      let params := ToolCallParams name arguments in
      r ← call "tools/call" params;
      match r with
      | Err err =>
          mret (Err ("failed to call tool " +:+ name +:+ ": " +:+ err))
      | Ok result =>
          match marshalValue result with
          | Err err =>
              mret (Err ("failed to marshal tool call result: " +:+ err))
          | Ok resultBytes =>
              match unmarshalToolCallResult resultBytes with
              | Err err =>
                  mret (Err ("failed to unmarshal tool call result: "
                             +:+ err))
              | Ok toolResult => mret (Ok toolResult)
              end
          end
      end
  end.

Section Steps.

Context {R : Type}.

Definition setCaller (c : Client R) (i : nat) (p : Prog R) : Client R :=
  {| initialized := initialized c; tools := tools c;
     muLocked := muLocked c; requestID := requestID c;
     pendingCalls := pendingCalls c; chans := chans c;
     stdin := stdin c; stdinError := stdinError c;
     stdout := stdout c; stdoutClosed := stdoutClosed c;
     reader := reader c; callers := <[i := p]> (callers c) |}.

(** One operation of caller [i]; [None] when it is blocked or has
    returned. *)
Definition stepCaller (c : Client R) (i : nat) : option (Client R) :=
  match callers c !! i with
  | None => None
  | Some p =>
      match p with
      | Ret _ => None
      | Lock k =>
          if muLocked c then None
          else Some (setCaller
            {| initialized := initialized c; tools := tools c;
               muLocked := true; requestID := requestID c;
               pendingCalls := pendingCalls c; chans := chans c;
               stdin := stdin c; stdinError := stdinError c;
               stdout := stdout c; stdoutClosed := stdoutClosed c;
               reader := reader c; callers := callers c |} i k)
      | Unlock k =>
          Some (setCaller
            {| initialized := initialized c; tools := tools c;
               muLocked := false; requestID := requestID c;
               pendingCalls := pendingCalls c; chans := chans c;
               stdin := stdin c; stdinError := stdinError c;
               stdout := stdout c; stdoutClosed := stdoutClosed c;
               reader := reader c; callers := callers c |} i k)
      | GetInitialized k => Some (setCaller c i (k (initialized c)))
      | SetInitialized b k =>
          Some (setCaller
            {| initialized := b; tools := tools c;
               muLocked := muLocked c; requestID := requestID c;
               pendingCalls := pendingCalls c; chans := chans c;
               stdin := stdin c; stdinError := stdinError c;
               stdout := stdout c; stdoutClosed := stdoutClosed c;
               reader := reader c; callers := callers c |} i k)
      | SetTools ts k =>
          Some (setCaller
            {| initialized := initialized c; tools := ts;
               muLocked := muLocked c; requestID := requestID c;
               pendingCalls := pendingCalls c; chans := chans c;
               stdin := stdin c; stdinError := stdinError c;
               stdout := stdout c; stdoutClosed := stdoutClosed c;
               reader := reader c; callers := callers c |} i k)
      | NextRequestID k =>
          let id := requestID c + 1 in
          Some (setCaller
            {| initialized := initialized c; tools := tools c;
               muLocked := muLocked c; requestID := id;
               pendingCalls := pendingCalls c; chans := chans c;
               stdin := stdin c; stdinError := stdinError c;
               stdout := stdout c; stdoutClosed := stdoutClosed c;
               reader := reader c; callers := callers c |} i (k id))
      | MakeChan k =>
          let ch := length (chans c) in
          Some (setCaller
            {| initialized := initialized c; tools := tools c;
               muLocked := muLocked c; requestID := requestID c;
               pendingCalls := pendingCalls c;
               chans := chans c ++ [None];
               stdin := stdin c; stdinError := stdinError c;
               stdout := stdout c; stdoutClosed := stdoutClosed c;
               reader := reader c; callers := callers c |} i (k ch))
      | PutPending id ch k =>
          Some (setCaller
            {| initialized := initialized c; tools := tools c;
               muLocked := muLocked c; requestID := requestID c;
               pendingCalls := <[id := ch]> (pendingCalls c);
               chans := chans c;
               stdin := stdin c; stdinError := stdinError c;
               stdout := stdout c; stdoutClosed := stdoutClosed c;
               reader := reader c; callers := callers c |} i k)
      | DeletePending id k =>
          Some (setCaller
            {| initialized := initialized c; tools := tools c;
               muLocked := muLocked c; requestID := requestID c;
               pendingCalls := delete id (pendingCalls c);
               chans := chans c;
               stdin := stdin c; stdinError := stdinError c;
               stdout := stdout c; stdoutClosed := stdoutClosed c;
               reader := reader c; callers := callers c |} i k)
      | Write line k =>
          match stdinError c with
          | Some err => Some (setCaller c i (k (Some err)))
          | None =>
              Some (setCaller
                {| initialized := initialized c; tools := tools c;
                   muLocked := muLocked c; requestID := requestID c;
                   pendingCalls := pendingCalls c; chans := chans c;
                   stdin := stdin c ++ [line];
                   stdinError := stdinError c;
                   stdout := stdout c; stdoutClosed := stdoutClosed c;
                   reader := reader c; callers := callers c |} i (k None))
          end
      | Recv ch k =>
          match chans c !! ch with
          | Some (Some response) =>
              Some (setCaller
                {| initialized := initialized c; tools := tools c;
                   muLocked := muLocked c; requestID := requestID c;
                   pendingCalls := pendingCalls c;
                   chans := <[ch := None]> (chans c);
                   stdin := stdin c; stdinError := stdinError c;
                   stdout := stdout c; stdoutClosed := stdoutClosed c;
                   reader := reader c; callers := callers c |}
                i (k response))
          | _ => None          (* nothing to receive: blocked *)
          end
      end
  end.

Definition setReader (c : Client R) (r : Reader)
    (out : list string) (chs : list (option JSONRPCResponse.t))
  : Client R :=
  {| initialized := initialized c; tools := tools c;
     muLocked := muLocked c; requestID := requestID c;
     pendingCalls := pendingCalls c; chans := chs;
     stdin := stdin c; stdinError := stdinError c;
     stdout := out; stdoutClosed := stdoutClosed c;
     reader := r; callers := callers c |}.

(** One operation of [readResponses] (lines 471-509); [None] when
    it is blocked or has returned. At a line that does not fit in
    the buffer of the scanner the loop ends: the error of the
    scanner is printed and [readResponses] returns. *)
Definition readResponses (c : Client R) : option (Client R) :=
  match reader c with
  | Scanning =>
      match stdout c with
      | line :: rest =>
          if Z.of_nat (String.length line) <? MaxScanTokenSize then
            match unmarshalResponse (dropCR line) with
            | Err _ => Some (setReader c Scanning rest (chans c))
            | Ok response =>
                match JSONRPCResponse.ID response with
                | VNil => Some (setReader c Scanning rest (chans c))
                | v =>
                    match requestIDOf v with
                    | None => Some (setReader c Scanning rest (chans c))
                    | Some id =>
                        Some (setReader c (LookingUp id response) rest
                                        (chans c))
                    end
                end
            end
          else Some (setReader c Returned (stdout c) (chans c))
      | [] =>
          if stdoutClosed c
          then Some (setReader c Returned [] (chans c))
          else None            (* Scan waits for input *)
      end
  | LookingUp id response =>
      match pendingCalls c !! id with
      | Some ch => Some (setReader c (Sending ch response) (stdout c)
                                   (chans c))
      | None => Some (setReader c Scanning (stdout c) (chans c))
      end
  | Sending ch response =>
      match chans c !! ch with
      | Some None =>
          Some (setReader c Scanning (stdout c)
                          (<[ch := Some response]> (chans c)))
      | _ => None              (* the buffer is full: blocked *)
      end
  | Returned => None
  end.

Definition step (c : Client R) (a : Action R) : option (Client R) :=
  match a with
  | Go p =>
      Some {| initialized := initialized c; tools := tools c;
              muLocked := muLocked c; requestID := requestID c;
              pendingCalls := pendingCalls c; chans := chans c;
              stdin := stdin c; stdinError := stdinError c;
              stdout := stdout c; stdoutClosed := stdoutClosed c;
              reader := reader c; callers := callers c ++ [p] |}
  | Caller i => stepCaller c i
  | ReadResponses => readResponses c
  | ServerWrites text =>
      if stdoutClosed c then None
      else Some {| initialized := initialized c; tools := tools c;
                   muLocked := muLocked c; requestID := requestID c;
                   pendingCalls := pendingCalls c; chans := chans c;
                   stdin := stdin c; stdinError := stdinError c;
                   stdout := stdout c ++ splitLines text;
                   stdoutClosed := false;
                   reader := reader c; callers := callers c |}
  | ServerCloses =>
      Some {| initialized := initialized c; tools := tools c;
              muLocked := muLocked c; requestID := requestID c;
              pendingCalls := pendingCalls c; chans := chans c;
              stdin := stdin c; stdinError := stdinError c;
              stdout := stdout c; stdoutClosed := true;
              reader := reader c; callers := callers c |}
  | StdinBreaks err =>
      Some {| initialized := initialized c; tools := tools c;
              muLocked := muLocked c; requestID := requestID c;
              pendingCalls := pendingCalls c; chans := chans c;
              stdin := stdin c; stdinError := Some err;
              stdout := stdout c; stdoutClosed := stdoutClosed c;
              reader := reader c; callers := callers c |}
  end.

(** A schedule, performed from left to right; [None] if one of its
    actions cannot be performed when its turn comes. *)
Fixpoint run (c : Client R) (sched : list (Action R))
  : option (Client R) :=
  match sched with
  | [] => Some c
  | a :: sched' =>
      match step c a with
      | Some c' => run c' sched'
      | None => None
      end
  end.

(** [NewClient] once the server process runs: nothing pending, the
    reader at its first [Scan]. *)
Definition NewClient : Client R :=
  {| initialized := false; tools := []; muLocked := false;
     requestID := 0; pendingCalls := ∅; chans := [];
     stdin := []; stdinError := None;
     stdout := []; stdoutClosed := false;
     reader := Scanning; callers := [] |}.

End Steps.

End Client.

End stdio.

(* ===================================================================== *)
(** ** Notions used to state the properties *)
(* ===================================================================== *)

(** Induction on a value together with the values nested in its slices
    and maps. *)
Section ValueInduction.

Variable P : Value -> Prop.
Hypothesis Hnil : P VNil.
Hypothesis Hbool : forall b, P (VBool b).
Hypothesis Hfloat : forall f, P (VFloat f).
Hypothesis Hstring : forall s, P (VString s).
Hypothesis Hslice : forall l, Forall P l -> P (VSlice l).
Hypothesis Hmap : forall m, Forall (fun kv => P kv.2) m -> P (VMap m).
Hypothesis Hchan : P VChan.

Fixpoint Value_nested_ind (v : Value) : P v :=
  match v with
  | VNil => Hnil
  | VBool b => Hbool b
  | VFloat f => Hfloat f
  | VString s => Hstring s
  | VSlice l =>
      Hslice l
        ((fix go (l : list Value) : Forall P l :=
            match l with
            | [] => @List.Forall_nil _ P
            | x :: l' => @List.Forall_cons _ P x l' (Value_nested_ind x) (go l')
            end) l)
  | VMap m =>
      Hmap m
        ((fix go (m : list (string * Value))
            : Forall (fun kv => P kv.2) m :=
            match m with
            | [] => @List.Forall_nil _ (fun kv => P kv.2)
            | (k, x) :: m' =>
                @List.Forall_cons _ (fun kv => P kv.2) (k, x) m'
                            (Value_nested_ind x) (go m')
            end) m)
  | VChan => Hchan
  end.

End ValueInduction.

(** The order in which the entries of a map are written. *)
Definition keyLe {A} (a b : string * A) : Prop := String.leb a.1 b.1 = true.

(** The entries of an argument map; the nil map has none. *)
Definition entries (args : Args) : list (string * Value) :=
  match args with
  | None => []
  | Some m => m
  end.

(** A value in which no map lists a key twice, as in every Go map. *)
#[warnings="-register-all"]
Inductive wfValue : Value -> Prop :=
| wf_nil : wfValue VNil
| wf_bool b : wfValue (VBool b)
| wf_float f : wfValue (VFloat f)
| wf_string s : wfValue (VString s)
| wf_slice l : Forall wfValue l -> wfValue (VSlice l)
| wf_map m :
    NoDup m.*1 -> Forall (fun kv => wfValue kv.2) m -> wfValue (VMap m)
| wf_chan : wfValue VChan.

Definition wfArgs (args : Args) : Prop :=
  match args with
  | None => True
  | Some m => wfValue (VMap m)
  end.

(** Two values that differ at most in the order in which their maps, at
    any depth, enumerate their entries. *)
#[warnings="-register-all"]
Inductive sameValue : Value -> Value -> Prop :=
| same_refl v : sameValue v v
| same_slice l1 l2 :
    Forall2 sameValue l1 l2 -> sameValue (VSlice l1) (VSlice l2)
| same_map m1 m1' m2 :
    m1 ≡ₚ m1' ->
    Forall2 (fun kv1 kv2 => kv1.1 = kv2.1 /\ sameValue kv1.2 kv2.2) m1' m2 ->
    sameValue (VMap m1) (VMap m2).

(** Argument maps equal as sets of key/value pairs. *)
Definition sameEntries (a1 a2 : Args) : Prop :=
  sameValue (VMap (entries a1)) (VMap (entries a2)).

(** Both nil or both non-nil. *)
Definition sameNilness (a1 a2 : Args) : Prop :=
  is_Some a1 <-> is_Some a2.

(** *** Reading a run off its calls *)

(** How an invocation was resolved: from the cache, or by a call of the
    tool with its answer. *)
Inductive Resolution : Type :=
| Hit (cached : CachedResult)
| Miss (answer : result mcp.CallToolResult.t).

Definition isHit (r : Resolution) : bool :=
  match r with Hit _ => true | Miss _ => false end.

(** The answers of the provider, in order. *)
Fixpoint chatAnswers (tr : list Event) : list (result ai.Response.t) :=
  match tr with
  | [] => []
  | EvChat _ _ _ answer :: tr' => answer :: chatAnswers tr'
  | _ :: tr' => chatAnswers tr'
  end.

(** The invocations the provider produced, in order. *)
Fixpoint invocations (tr : list Event) : list ai.ToolCall.t :=
  match tr with
  | [] => []
  | EvChat _ _ _ (Ok aiResponse) :: tr' =>
      ai.Response.ToolCalls aiResponse ++ invocations tr'
  | _ :: tr' => invocations tr'
  end.

(** The resolutions, in order: every invocation starts with one lookup in
    the cache, and a lookup that misses is followed by the call of the
    tool. *)
Fixpoint resolutions (tr : list Event) : list Resolution :=
  match tr with
  | [] => []
  | EvCacheGet _ (Some cached) :: tr' => Hit cached :: resolutions tr'
  | EvCacheGet _ None :: tr' =>
      match tr' with
      | EvCallTool _ _ answer :: _ => Miss answer :: resolutions tr'
      | _ => resolutions tr'
      end
  | _ :: tr' => resolutions tr'
  end.

(** The calls of the tool endpoint, in order. *)
Fixpoint toolRequests (tr : list Event) : list (string * Args) :=
  match tr with
  | [] => []
  | EvCallTool name args _ :: tr' => (name, args) :: toolRequests tr'
  | _ :: tr' => toolRequests tr'
  end.

Section RunShape.

Context (lib : GoLib) (s : OrchestrationService).

(** The calls made while an invocation is resolved in a given way. *)
Definition segment (toolCall : ai.ToolCall.t) (r : Resolution)
  : list Event :=
  let name := ai.ToolCall.Name toolCall in
  let args := ai.ToolCall.Arguments toolCall in
  let key := generateCacheKey lib name args in
  match r with
  | Hit cached => [EvCacheGet key (Some cached)]
  | Miss (Err err) => [EvCacheGet key None; EvCallTool name args (Err err)]
  | Miss (Ok mcpResult) =>
      EvCacheGet key None :: EvCallTool name args (Ok mcpResult) ::
      (if mcp.CallToolResult.IsError mcpResult then []
       else [EvCacheSet key (formatToolResult lib mcpResult) false])
  end.

(** The content and the error flag of the result of an invocation. *)
Definition resultContent (toolCall : ai.ToolCall.t) (r : Resolution)
  : string * bool :=
  match r with
  | Hit cached => (Content cached, IsError cached)
  | Miss (Err err) =>
      (callErrorMessage (ai.ToolCall.Name toolCall) err, true)
  | Miss (Ok mcpResult) =>
      (formatToolResult lib mcpResult, mcp.CallToolResult.IsError mcpResult)
  end.

Definition aiResult (toolCall : ai.ToolCall.t) (r : Resolution)
  : ai.ToolResult.t :=
  {| ai.ToolResult.ToolCallID := ai.ToolCall.ID toolCall;
     ai.ToolResult.Content := (resultContent toolCall r).1;
     ai.ToolResult.IsError := (resultContent toolCall r).2 |}.

Definition modelResult (toolCall : ai.ToolCall.t) (r : Resolution)
  : models.ToolResult.t :=
  {| models.ToolResult.ToolCallID := ai.ToolCall.ID toolCall;
     models.ToolResult.Name := ai.ToolCall.Name toolCall;
     models.ToolResult.Content := (resultContent toolCall r).1;
     models.ToolResult.IsError := (resultContent toolCall r).2 |}.

Definition modelCall (toolCall : ai.ToolCall.t) : models.ToolCall.t :=
  {| models.ToolCall.ID := ai.ToolCall.ID toolCall;
     models.ToolCall.Name := ai.ToolCall.Name toolCall;
     models.ToolCall.Arguments := ai.ToolCall.Arguments toolCall |}.

(** The record of the call that [ProcessPrompt] keeps: none when the
    call of the tool returned an error. *)
Definition callRecord (toolCall : ai.ToolCall.t) (r : Resolution)
  : list models.ToolCall.t :=
  match r with
  | Miss (Err _) => []
  | _ => [modelCall toolCall]
  end.

Definition countHits (rs : list Resolution) : Z :=
  Z.of_nat (length (filter (fun r => isHit r = true) rs)).
Definition countMisses (rs : list Resolution) : Z :=
  Z.of_nat (length (filter (fun r => isHit r = false) rs)).

(** The variables after a list of invocations was resolved. *)
Definition resolved (toolCalls : list ai.ToolCall.t)
    (rs : list Resolution) (toolResults : list ai.ToolResult.t)
    (t : Totals) : list ai.ToolResult.t * Totals :=
  (toolResults ++ zip_with aiResult toolCalls rs,
   {| allToolCalls :=
        allToolCalls t ++ concat (zip_with callRecord toolCalls rs);
      allToolResults :=
        allToolResults t ++ zip_with modelResult toolCalls rs;
      cacheHits := cacheHits t + countHits rs;
      cacheMisses := cacheMisses t + countMisses rs |}).

(** The runs of [loop]: the result and the calls made, whatever the
    collaborators answer. *)
Inductive LoopRun : nat -> Z -> string -> list ai.Message.t -> Totals ->
                    result models.ChatResponse.t -> list Event -> Prop :=
| run_max iteration prompt hist t provider stats :
    LoopRun 0 iteration prompt hist t
      (Ok (maxReachedChatResponse s iteration t provider stats))
      [EvGetProviderName provider; EvCacheStats stats]
| run_chat_error n iteration prompt hist t err :
    LoopRun (S n) iteration prompt hist t
      (Err ("AI provider error: " +:+ err))
      [EvChat prompt (tools s) hist (Err err)]
| run_done n iteration prompt hist t aiResponse provider stats :
    ai.Response.ToolCalls aiResponse = [] ->
    LoopRun (S n) iteration prompt hist t
      (Ok (doneChatResponse s aiResponse (iteration + 1) t provider stats))
      [EvChat prompt (tools s) hist (Ok aiResponse);
       EvGetProviderName provider; EvCacheStats stats]
| run_tools n iteration prompt hist t aiResponse rs res tr :
    ai.Response.ToolCalls aiResponse <> [] ->
    length rs = length (ai.Response.ToolCalls aiResponse) ->
    let toolCalls := ai.Response.ToolCalls aiResponse in
    let toolResults := (resolved toolCalls rs [] t).1 in
    LoopRun n (iteration + 1)
      (formatToolResultsForPrompt toolResults)
      ((hist ++ [assistantMessage aiResponse])
         ++ [toolResultsMessage toolResults])
      (resolved toolCalls rs [] t).2 res tr ->
    LoopRun (S n) iteration prompt hist t res
      (EvChat prompt (tools s) hist (Ok aiResponse)
       :: concat (zip_with segment toolCalls rs) ++ tr).

End RunShape.

(* ===================================================================== *)
(** ** The protocol client over the SDK session (package mcp: Initialize,
       CallTool) *)
(* ===================================================================== *)

Module sdk.

(** The session of the SDK as the client sees it: whether [Connect]
    succeeds and what [session.CallTool] returns for a request. *)
Record Session := mkSession {
  connect : option error;
  sessionCallTool : string -> Args -> result mcp.CallToolResult.t;
}.

Record Client := mkClient {
  tools : list mcp.Tool.t;
  initialized : bool;
  dispatched : list (string * Args);   (* requests handed to the session *)
}.

(** [Initialize] (lines 136-161). *)
Definition Initialize (srv : Session) (c : Client) : option error * Client :=
  if initialized c then (None, c)
  else
    match connect srv with
    | Some err =>
        (Some ("failed to connect to MCP server via HTTP: " +:+ err), c)
    | None =>
        (None, {| tools := tools c; initialized := true;
                  dispatched := dispatched c |})
    end.

(** [CallTool] (lines 185-204). *)
Definition CallTool (srv : Session) (c : Client) (name : string)
    (arguments : Args) : result mcp.CallToolResult.t * Client :=
  let '(ierr, c) :=
    if initialized c then (None, c) else Initialize srv c in
  match ierr with
  | Some err => (Err err, c)
  | None =>
      let c := {| tools := tools c; initialized := initialized c;
                  dispatched := dispatched c ++ [(name, arguments)] |} in
      match sessionCallTool srv name arguments with
      | Err err =>
          (Err ("failed to call tool " +:+ name +:+ ": " +:+ err), c)
      | Ok result => (Ok result, c)
      end
  end.

End sdk.

(** *** Operations on the shared cache *)

(** An operation on the [ResultCache] of the process, by any goroutine,
    with the reading of the clock it makes: a lookup or a store by a
    request being served, or a pass of the sweeping goroutine. *)
Inductive CacheOp : Type :=
| OpGet (now : Time) (key : string)
| OpSet (now : Time) (key content : string) (isError : bool)
| OpSweep (now : Time).

Definition applyOp (c : ResultCache) (op : CacheOp) : ResultCache :=
  match op with
  | OpGet _ _ => c
  | OpSet now key content isError => Set_ c now key content isError
  | OpSweep now => cleanupExpired c now
  end.

(** No entry of the store carries the error flag. *)
Definition noErrorEntry (c : ResultCache) : Prop :=
  forall key cached, store c !! key = Some cached -> IsError cached = false.

(** A call of the tool that failed: an error of the client, or a result
    flagged as an error by the tool. *)
Definition failedAnswer (a : result mcp.CallToolResult.t) : Prop :=
  match a with
  | Err _ => True
  | Ok mcpResult => mcp.CallToolResult.IsError mcpResult = true
  end.

(* ===================================================================== *)
(** ** Examples of services and environments *)
(* ===================================================================== *)

(** The text functions used when the model is evaluated on examples: a
    string is quoted as it stands, which is the JSON literal of a string
    of printable ASCII characters without quote, backslash, ampersand or
    angle bracket. *)
Definition doubleQuote : ascii := ascii_of_nat 34.

Definition plainLib : GoLib :=
  {| quoteJSON s := String doubleQuote (s +:+ String doubleQuote "");
     formatFloat f := "0";
     marshalCallToolResult r := None |}.

Definition exampleService : OrchestrationService :=
  {| tools := [ {| mcp.Tool.Name := "list_blueprints";
                   mcp.Tool.Description := "List the blueprints";
                   mcp.Tool.InputSchema := VMap [] |} ] |}.

Definition exampleRequest : models.ChatRequest.t :=
  {| models.ChatRequest.Prompt := "Show blueprints";
     models.ChatRequest.Provider := "gemini";
     models.ChatRequest.Model := "";
     models.ChatRequest.Context := None |}.

(** The invocation [list_blueprints({})]. *)
Definition listBlueprints : ai.ToolCall.t :=
  {| ai.ToolCall.ID := "gemini_call_0";
     ai.ToolCall.Name := "list_blueprints";
     ai.ToolCall.Arguments := Some [] |}.

Definition askTools (toolCalls : list ai.ToolCall.t) : ai.Response.t :=
  {| ai.Response.Content := "";
     ai.Response.ToolCalls := toolCalls;
     ai.Response.FinishReason := "stop";
     ai.Response.Usage := None |}.

Definition sayText (text : string) : ai.Response.t :=
  {| ai.Response.Content := text;
     ai.Response.ToolCalls := [];
     ai.Response.FinishReason := "stop";
     ai.Response.Usage := None |}.

Definition emptyList : mcp.CallToolResult.t :=
  {| mcp.CallToolResult.Content := [mcp.TextContent "[]"];
     mcp.CallToolResult.IsError := false |}.

(** The provider asks for [list_blueprints] at every even call and
    answers with a text at every odd call; the tool answers as given;
    the clock advances by one second at each reading. *)
Definition alternatingEnv (toolAnswer : result mcp.CallToolResult.t) : Env :=
  {| envChat n _ _ _ :=
       if Nat.even n then Ok (askTools [listBlueprints])
       else Ok (sayText "No blueprints found");
     envProviderName := "gemini";
     envCallTool _ _ _ := toolAnswer;
     envClock n := Z.of_nat n * Second |}.

(** The provider asks for [list_blueprints] at every call. *)
Definition insistingEnv (toolAnswer : result mcp.CallToolResult.t) : Env :=
  {| envChat _ _ _ _ := Ok (askTools [listBlueprints]);
     envProviderName := "gemini";
     envCallTool _ _ _ := toolAnswer;
     envClock n := Z.of_nat n * Second |}.

(** The process after [NewOrchestrationService]. *)
Definition freshWorld : World :=
  {| cache := NewResultCache CacheTTL; chats := 0; toolCalls := 0;
     ticks := 0 |}.

(** The run of scenario A after which a call of the tool fails in the
    client: the provider asks for [list_blueprints], the call returns an
    error, the provider answers with a text. *)
Definition failingRun :=
  interp (worldHandler (alternatingEnv (Err "connection refused")))
         (ProcessPrompt plainLib exampleService exampleRequest) freshWorld.

(** The run in which the provider asks for [list_blueprints] at every
    call and every call of the tool fails in the client. *)
Definition insistingFailingRun :=
  interp (worldHandler (insistingEnv (Err "connection refused")))
         (ProcessPrompt plainLib exampleService exampleRequest) freshWorld.

(** Scenario A: the provider asks for [list_blueprints], the tool
    returns the text of an empty list, the provider answers with a
    text. *)
Definition scenarioARun :=
  interp (worldHandler (alternatingEnv (Ok emptyList)))
         (ProcessPrompt plainLib exampleService exampleRequest) freshWorld.

(** The run in which the provider asks for [list_blueprints] at every
    call and the tool answers. *)
Definition insistingRun :=
  interp (worldHandler (insistingEnv (Ok emptyList)))
         (ProcessPrompt plainLib exampleService exampleRequest) freshWorld.

(** Two invocations of one tool with unserializable arguments. *)
Definition watchWithChannel : ai.ToolCall.t :=
  {| ai.ToolCall.ID := "call_1"; ai.ToolCall.Name := "watch_resource";
     ai.ToolCall.Arguments := Some [("events", VChan)] |}.

Definition watchWithNaN : ai.ToolCall.t :=
  {| ai.ToolCall.ID := "call_2"; ai.ToolCall.Name := "watch_resource";
     ai.ToolCall.Arguments := Some [("timeout", VFloat NaN)] |}.

(** *** An instance of the client over stdio *)

(** The calls into encoding/json used when the client is evaluated on
    examples: a request is written as its id, method and tool name; a
    line that holds one decimal digit is read as the response with that
    id and an empty result, any other line is malformed; results are
    kept as their text. *)
Definition exampleMarshalRequest (r : stdio.JSONRPCRequest.t) : result string :=
  Ok (match stdio.JSONRPCRequest.ID r with
      | Some id => pretty id
      | None => "-"
      end
      +:+ " " +:+ stdio.JSONRPCRequest.Method r
      +:+ match stdio.JSONRPCRequest.Params r with
          | stdio.ToolCallParams name _ => " " +:+ name
          | _ => ""
          end).

Definition exampleUnmarshalResponse (line : string)
  : result stdio.JSONRPCResponse.t :=
  match line with
  | String c "" =>
      let n := N_of_ascii c in
      if ((48 <=? n) && (n <=? 57))%N
      then Ok {| stdio.JSONRPCResponse.ID :=
                   VFloat (Finite false (n - 48) 0);
                 stdio.JSONRPCResponse.Result := VMap [];
                 stdio.JSONRPCResponse.Error := None |}
      else Err "invalid character"
  | _ => Err "invalid character"
  end.

Definition exampleMarshalValue (v : Value) : result string := Ok "{}".

Definition exampleUnmarshal (text : string) : result string := Ok text.

Definition exampleCallTool (name : string) (arguments : Args)
  : stdio.Prog (result string) :=
  stdio.CallTool exampleMarshalRequest exampleMarshalValue
                 exampleUnmarshal exampleUnmarshal name arguments.

(** An initialized client whose catalog holds [list_blueprints] only,
    with one goroutine that calls the tool [name]. *)
Definition exampleClient (name : string) : stdio.Client (result string) :=
  {| stdio.initialized := true;
     stdio.tools := tools exampleService;
     stdio.muLocked := false;
     stdio.requestID := 0;
     stdio.pendingCalls := ∅;
     stdio.chans := [];
     stdio.stdin := [];
     stdio.stdinError := None;
     stdio.stdout := [];
     stdio.stdoutClosed := false;
     stdio.reader := stdio.Scanning;
     stdio.callers := [exampleCallTool name (Some [])] |}.

(** The caller sends its request and waits for the response. *)
Definition sendRequest : list (stdio.Action (result string)) :=
  replicate 5 (stdio.Caller 0).

(** The server answers request 1, the reader delivers the response, the
    caller receives it and returns. *)
Definition serverAnswers : list (stdio.Action (result string)) :=
  [ stdio.ServerWrites "1";
    stdio.ReadResponses; stdio.ReadResponses; stdio.ReadResponses;
    stdio.Caller 0; stdio.Caller 0 ].

(** The stream of responses ends and the reader notices. *)
Definition serverGoesAway : list (stdio.Action (result string)) :=
  [ stdio.ServerCloses; stdio.ReadResponses ].

(** What may follow: the pipe to the server breaks and another goroutine
    calls a tool. *)
Definition lifeGoesOn : list (stdio.Action (result string)) :=
  [ stdio.StdinBreaks "broken pipe";
    stdio.Go (exampleCallTool "list_blueprints" (Some []));
    stdio.Caller 1; stdio.Caller 1; stdio.Caller 1; stdio.Caller 1;
    stdio.Caller 1; stdio.Caller 1 ].

(** A goroutine that has returned. *)
Definition returned {R} (p : stdio.Prog R) : Prop :=
  match p with
  | stdio.Ret _ => True
  | _ => False
  end.

(** The session of the SDK that runs every tool it is asked for. *)
Definition obligingSession : sdk.Session :=
  {| sdk.connect := None;
     sdk.sessionCallTool _ _ := Ok emptyList |}.

Definition exampleSDKClient : sdk.Client :=
  {| sdk.tools := tools exampleService;
     sdk.initialized := true;
     sdk.dispatched := [] |}.


(* ===================================================================== *)
(** ** Package mcp: FormatToolResult (types.go) *)
(* ===================================================================== *)

(** [FormatToolResult] (api.go, lines 83-91): the text parts, each
    followed by a newline. *)
Definition FormatToolResult (result : mcp.CallToolResult.t) : string :=
  fold_left
    (fun text content =>
       match content with
       | mcp.TextContent t => text +:+ (t +:+ String "010" "")
       | mcp.OtherContent _ => text
       end)
    (mcp.CallToolResult.Content result) "".

(** The digits that the verb [%x] writes. *)
Definition lowerHexDigits : list ascii :=
  list_ascii_of_string "0123456789abcdef".

(** The line of the next prompt for one result
    (orchestration.go, lines 382-388). *)
Definition promptLine (result : ai.ToolResult.t) : string :=
  let nl2 := String "010" (String "010" "") in
  if ai.ToolResult.IsError result
  then errorMark +:+ " Error: " +:+ ai.ToolResult.Content result +:+ nl2
  else successMark +:+ " Success: " +:+ ai.ToolResult.Content result +:+ nl2.

(** The concatenation of a list of strings. *)
Definition concatStrings (l : list string) : string :=
  foldr append "" l.

(* ===================================================================== *)
(** ** What a run asks of the provider *)
(* ===================================================================== *)

(** The calls of the provider, in order: the prompt, the tools and the
    conversation history passed to [Chat]. *)
Fixpoint chatCalls (tr : list Event)
  : list (string * list mcp.Tool.t * list ai.Message.t) :=
  match tr with
  | [] => []
  | EvChat prompt ts hist _ :: tr' => (prompt, ts, hist) :: chatCalls tr'
  | _ :: tr' => chatCalls tr'
  end.

(** An invocation whose call of the tool returned an error. *)
Definition isFailedCall (r : Resolution) : bool :=
  match r with
  | Miss (Err _) => true
  | _ => false
  end.

(* ===================================================================== *)
(** ** The Anthropic provider (package ai) *)
(* ===================================================================== *)

Module anthropic.

Record AnthropicProvider := mkProvider {
  apiKey : string;
  model : string;
}.

(** [NewAnthropicProvider]. *)
Definition NewAnthropicProvider (apiKey model : string)
  : result AnthropicProvider :=
  if decide (apiKey = "") then Err "Anthropic API key is required"
  else
    let model :=
      if decide (model = "") then "claude-3-5-sonnet-20241022" else model in
    Ok {| apiKey := apiKey; model := model |}.

Definition GetProviderName (p : AnthropicProvider) : string := "anthropic".

(** [Chat]: the fixed answer. *)
Definition Chat (p : AnthropicProvider) (prompt : string)
    (tools : list mcp.Tool.t) (conversationHistory : list ai.Message.t)
  : result ai.Response.t :=
  Ok {| ai.Response.Content :=
          "Anthropic integration coming soon. Please use OpenAI provider for now.";
        ai.Response.ToolCalls := [];
        ai.Response.FinishReason := "stop";
        ai.Response.Usage := None |}.

End anthropic.

(* ===================================================================== *)
(** ** The HTTP handler of the chat endpoint (handlers.go) *)
(* ===================================================================== *)

Module ErrorResponse.
Record t := mk {
  Error : string;
  Message : string;
  Code : Z;
}.
End ErrorResponse.

Definition StatusOK : Z := 200.
Definition StatusBadRequest : Z := 400.
Definition StatusInternalServerError : Z := 500.

(** What a handler writes with [c.JSON]: the status and the body. *)
Inductive Body : Type :=
| ChatBody (response : models.ChatResponse.t)
| ErrorBody (response : ErrorResponse.t).

(** [ChatHandler] (handlers.go, lines 22-49), given the outcome of
    [c.ShouldBindJSON(&request)]. *)
Definition ChatHandler (lib : GoLib) (s : OrchestrationService)
    (bound : result models.ChatRequest.t) : Prog (Z * Body) :=
  match bound with
  | Err err =>
      mret (StatusBadRequest,
            ErrorBody {| ErrorResponse.Error := "invalid_request";
                         ErrorResponse.Message := err;
                         ErrorResponse.Code := StatusBadRequest |})
  | Ok request =>
      r ← ProcessPrompt lib s request;
      match r with
      | Err err =>
          mret (StatusInternalServerError,
                ErrorBody {| ErrorResponse.Error := "processing_error";
                             ErrorResponse.Message := err;
                             ErrorResponse.Code := StatusInternalServerError |})
      | Ok response => mret (StatusOK, ChatBody response)
      end
  end.

(** A message of the conversation history with the role of the
    assistant. *)
Definition fromAssistant (m : ai.Message.t) : Prop :=
  ai.Message.Role m = "assistant".

(* ===================================================================== *)
(** ** Package strings on byte strings *)
(* ===================================================================== *)

Module strings.

(** [s[:n]] and [s[n:]]. *)
Fixpoint takeString (n : nat) (s : string) : string :=
  match n, s with
  | S n', String c s' => String c (takeString n' s')
  | _, _ => ""
  end.

Fixpoint dropString (n : nat) (s : string) : string :=
  match n, s with
  | S n', String _ s' => dropString n' s'
  | _, _ => s
  end.

(** [strings.Split(s, sep)] for a separator of one byte: the pieces
    between the separators, at least one. *)
Fixpoint Split (s : string) (sep : ascii) : list string :=
  match s with
  | "" => [""]
  | String c s' =>
      if decide (c = sep) then "" :: Split s' sep
      else
        match Split s' sep with
        | piece :: pieces => String c piece :: pieces
        | [] => [String c ""]
        end
  end.

Definition HasPrefix (s prefix : string) : bool := String.prefix prefix s.

Definition TrimPrefix (s prefix : string) : string :=
  if HasPrefix s prefix then dropString (String.length prefix) s else s.

(** [strings.Index(s, sep)] and [strings.LastIndex(s, sep)] for a
    separator of one byte; [None] is the result -1. *)
Fixpoint Index (s : string) (sep : ascii) : option nat :=
  match s with
  | "" => None
  | String c s' =>
      if decide (c = sep) then Some 0%nat
      else match Index s' sep with
           | Some i => Some (S i)
           | None => None
           end
  end.

Fixpoint LastIndex (s : string) (sep : ascii) : option nat :=
  match s with
  | "" => None
  | String c s' =>
      match LastIndex s' sep with
      | Some i => Some (S i)
      | None => if decide (c = sep) then Some 0%nat else None
      end
  end.

(** The white space of ASCII: tab, newline, vertical tab, form feed,
    carriage return and space. *)
Definition asciiSpace (c : ascii) : bool :=
  let n := nat_of_ascii c in
  ((9 <=? n)%nat && (n <=? 13)%nat) || (n =? 32)%nat.

Section TrimSpace.

(** The functions of the package that decode runes,
    [TrimFunc(s, unicode.IsSpace)] and
    [TrimRightFunc(s, unicode.IsSpace)]: [TrimSpace] hands over to
    them when it meets a byte that is not ASCII. *)
Context (TrimFuncIsSpace TrimRightFuncIsSpace : string -> string).

(** The second loop of [TrimSpace], on the bytes in reverse. *)
Fixpoint trimEnd (reversed : list ascii) : string :=
  match reversed with
  | [] => ""
  | c :: reversed' =>
      if (128 <=? nat_of_ascii c)%nat
      then TrimRightFuncIsSpace (string_of_list_ascii (rev reversed))
      else if asciiSpace c then trimEnd reversed'
      else string_of_list_ascii (rev reversed)
  end.

(** [strings.TrimSpace]. *)
Fixpoint TrimSpace (s : string) : string :=
  match s with
  | "" => ""
  | String c s' =>
      if (128 <=? nat_of_ascii c)%nat then TrimFuncIsSpace s
      else if asciiSpace c then TrimSpace s'
      else trimEnd (rev (list_ascii_of_string s))
  end.

End TrimSpace.

End strings.

(* ===================================================================== *)
(** ** The providers that read tool calls off the text of the model
       (package ai: Gemini and Glean) *)
(* ===================================================================== *)

(** The parts of the libraries that the adapters call: the two
    rune-decoding trimming functions of package strings,
    [json.Unmarshal] into a [map[string]interface{}] and
    [regexp.FindAllStringSubmatch] (pattern, text, all matches). *)
Record TextLib := mkTextLib {
  TrimFuncIsSpace : string -> string;
  TrimRightFuncIsSpace : string -> string;
  unmarshalArgs : string -> result Args;
  FindAllStringSubmatch : string -> string -> list (list string);
}.

Definition TrimSpace (tl : TextLib) : string -> string :=
  strings.TrimSpace (TrimFuncIsSpace tl) (TrimRightFuncIsSpace tl).

(** [validTools[toolName]], and the loop that sets [toolExists]. *)
Definition validTool (tools : list mcp.Tool.t) (toolName : string) : bool :=
  bool_decide (toolName ∈ map mcp.Tool.Name tools).

Module gemini.

Section Gemini.

Context (tl : TextLib).

(** The body of the loop of [extractToolCalls] (api.go, lines
    1246-1288): the tool call read off line [i], if any. *)
Definition toolCallOfLine (tools : list mcp.Tool.t) (i : nat)
    (line : string) : option ai.ToolCall.t :=
  let line := TrimSpace tl line in
  if strings.HasPrefix line "TOOL_CALL:" then
    let callPart :=
      TrimSpace tl (strings.TrimPrefix line "TOOL_CALL:") in
    match strings.Index callPart "("%char with
    | None => None
    | Some parenIdx =>
        let toolName :=
          TrimSpace tl (strings.takeString parenIdx callPart) in
        if negb (validTool tools toolName) then None
        else
          let argsStr := strings.dropString (parenIdx + 1) callPart in
          let argsStr :=
            match strings.LastIndex argsStr ")"%char with
            | Some closeParenIdx =>
                strings.takeString closeParenIdx argsStr
            | None => argsStr
            end in
          let args :=
            match unmarshalArgs tl argsStr with
            | Ok args => args
            | Err _ => Some []
            end in
          Some {| ai.ToolCall.ID := "gemini_call_" +:+ pretty i;
                  ai.ToolCall.Name := toolName;
                  ai.ToolCall.Arguments := args |}
    end
  else None.

(** The loop over the lines, from line [i] on. *)
Fixpoint extractLines (tools : list mcp.Tool.t) (i : nat)
    (lines : list string) (toolCalls : list ai.ToolCall.t)
  : list ai.ToolCall.t :=
  match lines with
  | [] => toolCalls
  | line :: lines' =>
      let toolCalls :=
        match toolCallOfLine tools i line with
        | Some toolCall => toolCalls ++ [toolCall]
        | None => toolCalls
        end in
      extractLines tools (S i) lines' toolCalls
  end.

(** [extractToolCalls] (api.go, lines 1235-1292). *)
Definition extractToolCalls (content : string) (tools : list mcp.Tool.t)
  : list ai.ToolCall.t :=
  extractLines tools 0 (strings.Split content "010"%char) [].

(** A candidate of the response of the model: its content, a
    pointer that may be nil, with parts that are texts or of another
    kind, and its finish reason as [%v] writes it. *)
Inductive Part : Type :=
| Text (text : string)
| OtherPart.

Record Candidate := mkCandidate {
  Content : option (list Part);
  FinishReason : string;
}.

(** The system prompt, a text built from the catalog, and the model
    behind [GenerateContent]. *)
Context (buildSystemPromptWithTools : list mcp.Tool.t -> string)
        (GenerateContent : string -> result (list Candidate)).

Definition historyLine (msg : ai.Message.t) : string :=
  if decide (ai.Message.Role msg = "user")
  then "User: " +:+ ai.Message.Content msg +:+ String "010" ""
  else if decide (ai.Message.Role msg = "assistant")
  then "Assistant: " +:+ ai.Message.Content msg +:+ String "010" ""
  else "".

(** The prompt sent to the model (lines 1093-1116). *)
Definition fullPrompt (prompt : string) (tools : list mcp.Tool.t)
    (conversationHistory : list ai.Message.t) : string :=
  let nl := String "010" "" in
  let fullPrompt := buildSystemPromptWithTools tools +:+ nl +:+ nl in
  let fullPrompt :=
    fold_left (fun fullPrompt msg => fullPrompt +:+ historyLine msg)
              conversationHistory fullPrompt in
  let fullPrompt :=
    fullPrompt +:+ (nl +:+ "User: " +:+ prompt +:+ nl +:+ nl) in
  let fullPrompt :=
    fullPrompt +:+ "Assistant: Let me help you with that. " in
  match tools with
  | [] => fullPrompt
  | _ =>
      fullPrompt
      +:+ "I'll use the available tools to accomplish this task. "
  end.

(** [Chat] (api.go, lines 1086-1156); [None] is the panic of
    [candidate.Content.Parts] on a nil content. *)
Definition Chat (prompt : string) (tools : list mcp.Tool.t)
    (conversationHistory : list ai.Message.t)
  : option (result ai.Response.t) :=
  match GenerateContent (fullPrompt prompt tools conversationHistory) with
  | Err err => Some (Err ("Gemini API error: " +:+ err))
  | Ok [] => Some (Err "no response from Gemini")
  | Ok (candidate :: _) =>
      match Content candidate with
      | None => None
      | Some parts =>
          let responseContent :=
            fold_left (fun responseContent part =>
                         match part with
                         | Text text => responseContent +:+ text
                         | OtherPart => responseContent
                         end) parts "" in
          Some (Ok {| ai.Response.Content := responseContent;
                      ai.Response.ToolCalls :=
                        extractToolCalls responseContent tools;
                      ai.Response.FinishReason := FinishReason candidate;
                      ai.Response.Usage :=
                        Some {| ai.Usage.PromptTokens := 0;
                                ai.Usage.CompletionTokens := 0;
                                ai.Usage.TotalTokens := 0 |} |})
      end
  end.

End Gemini.

End gemini.

Module glean.

Section Glean.

Context (tl : TextLib).

Definition pattern1 : string :=
  "TOOL_CALL:\s*([a-zA-Z0-9_-]+)\s*\((.*?)\)".
Definition pattern2 : string :=
  "TOOL_CALL:\s*([a-zA-Z0-9_-]+)\s*(?:\n|$)".

(** The loop over the matches of the first pattern (lines 840-873),
    from match [i] on. *)
Fixpoint withArguments (tools : list mcp.Tool.t) (i : nat)
    (matches : list (list string)) (toolCalls : list ai.ToolCall.t)
  : list ai.ToolCall.t :=
  match matches with
  | [] => toolCalls
  | m :: matches' =>
      let toolCalls :=
        match m with
        | _ :: toolName :: argsJSON :: _ =>
            if negb (validTool tools toolName) then toolCalls
            else
              let args :=
                match unmarshalArgs tl argsJSON with
                | Ok args => args
                | Err _ => Some []
                end in
              toolCalls ++
                [ {| ai.ToolCall.ID := "call_" +:+ pretty (i + 1)%nat;
                     ai.ToolCall.Name := toolName;
                     ai.ToolCall.Arguments := args |} ]
        | _ => toolCalls
        end in
      withArguments tools (S i) matches' toolCalls
  end.

(** The loop over the matches of the second pattern (lines
    877-908). *)
Fixpoint withoutArguments (tools : list mcp.Tool.t) (i : nat)
    (matches : list (list string)) (toolCalls : list ai.ToolCall.t)
  : list ai.ToolCall.t :=
  match matches with
  | [] => toolCalls
  | m :: matches' =>
      let toolCalls :=
        match m with
        | _ :: toolName :: _ =>
            if negb (validTool tools toolName) then toolCalls
            else
              toolCalls ++
                [ {| ai.ToolCall.ID := "call_" +:+ pretty (i + 1)%nat;
                     ai.ToolCall.Name := toolName;
                     ai.ToolCall.Arguments := Some [] |} ]
        | _ => toolCalls
        end in
      withoutArguments tools (S i) matches' toolCalls
  end.

(** [extractToolCallsGlean] (api.go, lines 828-911). *)
Definition extractToolCallsGlean (content : string)
    (tools : list mcp.Tool.t) : list ai.ToolCall.t :=
  let matches1 := FindAllStringSubmatch tl pattern1 content in
  let matches2 := FindAllStringSubmatch tl pattern2 content in
  let toolCalls := withArguments tools 0 matches1 [] in
  match toolCalls with
  | [] => withoutArguments tools 0 matches2 toolCalls
  | _ => toolCalls
  end.

End Glean.

End glean.

(** The shape of the calls that the patterns of the Glean adapter give
    for [n] matches numbered from [i]: names of the catalog, and ids
    "call_<k>" with increasing numbers of matches. *)
Definition gleanCallsOk (tools : list mcp.Tool.t) (i n : nat)
    (calls : list ai.ToolCall.t) : Prop :=
  Forall (fun tc => ai.ToolCall.Name tc ∈ map mcp.Tool.Name tools) calls
  /\ exists ks : list nat,
       map ai.ToolCall.ID calls = map (fun k => "call_" +:+ pretty k) ks
       /\ Forall (fun k => (i + 1 <= k < i + 1 + n)%nat) ks
       /\ StronglySorted lt ks.

(* ===================================================================== *)
(** ** The protocol client over HTTP with the calls it makes on the SDK
       (package mcp: NewClient, Initialize, ListTools, CallTool,
       GetTools, Close) and [NewOrchestrationService] *)
(* ===================================================================== *)

Module httpclient.

(** A session of the SDK, by its number. *)
Definition Session := nat.

(** The calls on the SDK, [Connect] with its outcome. *)
Inductive Call : Type :=
| Connect (endpoint : string) (outcome : result Session)
| SessionListTools (session : Session)
| SessionCallTool (session : Session) (name : string) (arguments : Args)
| SessionClose (session : Session).

(** The SDK and the server behind it, as transitions on a state [S]. *)
Record SDK (S : Type) := mkSDK {
  onConnect : string -> S -> result Session * S;
  onListTools : Session -> S -> result (list mcp.Tool.t) * S;
  onCallTool : Session -> string -> Args -> S ->
               result mcp.CallToolResult.t * S;
  onClose : Session -> S -> option error * S;
}.
Arguments onConnect {S} _ _ _.
Arguments onListTools {S} _ _ _.
Arguments onCallTool {S} _ _ _ _ _.
Arguments onClose {S} _ _ _.

Record Client := mkClient {
  session : option Session;
  serverURL : string;
  tools : list mcp.Tool.t;
  initialized : bool;
}.

(** The client, the state of the SDK and the calls made so far. *)
Record World (S : Type) := mkWorld {
  client : Client;
  sdkState : S;
  calls : list Call;
}.
Arguments mkWorld {S} _ _ _.
Arguments client {S} _.
Arguments sdkState {S} _.
Arguments calls {S} _.

(** [NewClient]. *)
Definition NewClient (mcpServerURL : string) : Client :=
  {| session := None; serverURL := mcpServerURL; tools := [];
     initialized := false |}.

Section Methods.

Context {S : Type} (sdk : SDK S).

(** [Initialize] (api.go, lines 136-161). *)
Definition Initialize (w : World S) : option error * World S :=
  let c := client w in
  if initialized c then (None, w)
  else
    let '(r, st) := onConnect sdk (serverURL c) (sdkState w) in
    let log := calls w ++ [Connect (serverURL c) r] in
    match r with
    | Err err =>
        (Some ("failed to connect to MCP server via HTTP: " +:+ err),
         mkWorld c st log)
    | Ok s =>
        (None,
         mkWorld {| session := Some s; serverURL := serverURL c;
                    tools := tools c; initialized := true |} st log)
    end.

(** The start of [ListTools] and [CallTool]. *)
Definition ensureInitialized (w : World S) : option error * World S :=
  if initialized (client w) then (None, w) else Initialize w.

(** [ListTools] (lines 164-182); [None] is the panic of a call on a
    nil session. *)
Definition ListTools (w : World S)
  : option (result (list mcp.Tool.t) * World S) :=
  let '(ierr, w) := ensureInitialized w in
  match ierr with
  | Some err => Some (Err err, w)
  | None =>
      match session (client w) with
      | None => None
      | Some s =>
          let '(r, st) := onListTools sdk s (sdkState w) in
          let log := calls w ++ [SessionListTools s] in
          match r with
          | Err err =>
              Some (Err ("failed to list tools: " +:+ err),
                    mkWorld (client w) st log)
          | Ok ts =>
              Some (Ok ts,
                    mkWorld {| session := session (client w);
                               serverURL := serverURL (client w);
                               tools := ts;
                               initialized := initialized (client w) |}
                            st log)
          end
      end
  end.

(** [CallTool] (lines 185-204). *)
Definition CallTool (name : string) (arguments : Args) (w : World S)
  : option (result mcp.CallToolResult.t * World S) :=
  let '(ierr, w) := ensureInitialized w in
  match ierr with
  | Some err => Some (Err err, w)
  | None =>
      match session (client w) with
      | None => None
      | Some s =>
          let '(r, st) := onCallTool sdk s name arguments (sdkState w) in
          let log := calls w ++ [SessionCallTool s name arguments] in
          match r with
          | Err err =>
              Some (Err ("failed to call tool " +:+ name +:+ ": " +:+ err),
                    mkWorld (client w) st log)
          | Ok result => Some (Ok result, mkWorld (client w) st log)
          end
      end
  end.

(** [GetTools] (lines 207-211). *)
Definition GetTools (w : World S) : list mcp.Tool.t := tools (client w).

(** [Close] (lines 214-222). *)
Definition Close (w : World S) : option error * World S :=
  match session (client w) with
  | Some s =>
      let '(r, st) := onClose sdk s (sdkState w) in
      (r, mkWorld (client w) st (calls w ++ [SessionClose s]))
  | None => (None, w)
  end.

(** [NewOrchestrationService] (orchestration.go, lines 113-131):
    the service, whose cache is [NewResultCache CacheTTL]. *)
Definition NewOrchestrationService (w : World S)
  : option (result (OrchestrationService * ResultCache) * World S) :=
  let '(ierr, w) := Initialize w in
  match ierr with
  | Some err =>
      Some (Err ("failed to initialize MCP client: " +:+ err), w)
  | None =>
      match ListTools w with
      | None => None
      | Some (Err err, w) =>
          Some (Err ("failed to list tools: " +:+ err), w)
      | Some (Ok ts, w) =>
          Some (Ok (mkService ts, NewResultCache CacheTTL), w)
      end
  end.

End Methods.

(** The methods that talk to the SDK, as operations on a client. *)
Inductive Op : Type :=
| OpInitialize
| OpListTools
| OpCallTool (name : string) (arguments : Args)
| OpClose.

Section Operations.

Context {S : Type} (sdk : SDK S).

(** One operation; [None] if it panics. *)
Definition perform (op : Op) (w : World S) : option (World S) :=
  match op with
  | OpInitialize => Some (Initialize sdk w).2
  | OpListTools =>
      match ListTools sdk w with
      | Some (_, w') => Some w'
      | None => None
      end
  | OpCallTool name arguments =>
      match CallTool sdk name arguments w with
      | Some (_, w') => Some w'
      | None => None
      end
  | OpClose => Some (Close sdk w).2
  end.

Fixpoint performAll (ops : list Op) (w : World S) : option (World S) :=
  match ops with
  | [] => Some w
  | op :: ops' =>
      match perform op w with
      | Some w' => performAll ops' w'
      | None => None
      end
  end.

End Operations.

(** A call on a given session. *)
Definition onSession (s : Session) (call : Call) : Prop :=
  match call with
  | Connect _ _ => False
  | SessionListTools s' => s' = s
  | SessionCallTool s' _ _ => s' = s
  | SessionClose s' => s' = s
  end.

Definition failedConnect (endpoint : string) (call : Call) : Prop :=
  match call with
  | Connect endpoint' (Err _) => endpoint' = endpoint
  | _ => False
  end.

(** The calls a client has made on the SDK: attempts to connect that
    failed, then at most one that succeeded, followed by calls on the
    session it returned. *)
Definition lifecycle {S} (w : World S) : Prop :=
  let endpoint := serverURL (client w) in
  match session (client w) with
  | None =>
      initialized (client w) = false
      /\ Forall (failedConnect endpoint) (calls w)
  | Some s =>
      initialized (client w) = true
      /\ exists failed rest,
           calls w = failed ++ Connect endpoint (Ok s) :: rest
           /\ Forall (failedConnect endpoint) failed
           /\ Forall (onSession s) rest
  end.

End httpclient.

(* ===================================================================== *)
(** ** The client over stdio: what [call] makes of a response *)
(* ===================================================================== *)

(** The value that [call] returns for the response it received
    (api.go, lines 442-447). *)
Definition responseOutcome (response : stdio.JSONRPCResponse.t)
  : result Value :=
  match stdio.JSONRPCResponse.Error response with
  | Some e =>
      Err ("JSON-RPC error " +:+ pretty (stdio.JSONRPCError.Code e)
           +:+ ": " +:+ stdio.JSONRPCError.Message e)
  | None => Ok (stdio.JSONRPCResponse.Result response)
  end.

(** The request that [call] writes. *)
Definition requestOf (id : Z) (method : string) (params : stdio.Params)
  : stdio.JSONRPCRequest.t :=
  {| stdio.JSONRPCRequest.JSONRPC := "2.0";
     stdio.JSONRPCRequest.ID := Some id;
     stdio.JSONRPCRequest.Method := method;
     stdio.JSONRPCRequest.Params := params |}.

(** The caller sends, the server answers with one line, the reader
    delivers the response, the caller receives it and removes its
    pending call. *)
Definition exchange {R} (i : nat) (steps : nat) (answer : string)
  : list (stdio.Action R) :=
  replicate steps (stdio.Caller i)
  ++ [stdio.ServerWrites answer]
  ++ replicate 3 stdio.ReadResponses
  ++ replicate 2 (stdio.Caller i).

Section Decoding.

Context {ToolCallResult : Type}.
Context (marshalValue : Value -> result string)
        (unmarshalToolCallResult : string -> result ToolCallResult).

(** What [CallTool] returns for the value that [call] returned
    (api.go, lines 385-400). *)
Definition toolCallOutcome (name : string) (r : result Value)
  : result ToolCallResult :=
  match r with
  | Err err => Err ("failed to call tool " +:+ name +:+ ": " +:+ err)
  | Ok result =>
      match marshalValue result with
      | Err err => Err ("failed to marshal tool call result: " +:+ err)
      | Ok resultBytes =>
          match unmarshalToolCallResult resultBytes with
          | Err err =>
              Err ("failed to unmarshal tool call result: " +:+ err)
          | Ok toolResult => Ok toolResult
          end
      end
  end.

End Decoding.

(** *** Instances for the examples *)

(** The response with id 1 and an empty result, and the one with id 1
    and an error of the server. *)
Definition answerOne : stdio.JSONRPCResponse.t :=
  {| stdio.JSONRPCResponse.ID := VFloat (Finite false 1 0);
     stdio.JSONRPCResponse.Result := VMap [];
     stdio.JSONRPCResponse.Error := None |}.

Definition refusalOne : stdio.JSONRPCResponse.t :=
  {| stdio.JSONRPCResponse.ID := VFloat (Finite false 1 0);
     stdio.JSONRPCResponse.Result := VNil;
     stdio.JSONRPCResponse.Error :=
       Some {| stdio.JSONRPCError.Code := -32602;
               stdio.JSONRPCError.Message := "Unknown tool" |} |}.

(** A decoder that reads the line "E" as [refusalOne] and every other
    line as [exampleUnmarshalResponse] does. *)
Definition refusingUnmarshalResponse (line : string)
  : result stdio.JSONRPCResponse.t :=
  if decide (line = "E") then Ok refusalOne
  else exampleUnmarshalResponse line.

(** A client that has not been initialized, with one goroutine in
    [Initialize]. *)
Definition exampleInitialize : stdio.Prog (option error) :=
  stdio.Initialize exampleMarshalRequest exampleMarshalValue exampleUnmarshal.

Definition newClientInitializing : stdio.Client (option error) :=
  {| stdio.initialized := false;
     stdio.tools := [];
     stdio.muLocked := false;
     stdio.requestID := 0;
     stdio.pendingCalls := ∅;
     stdio.chans := [];
     stdio.stdin := [];
     stdio.stdinError := None;
     stdio.stdout := [];
     stdio.stdoutClosed := false;
     stdio.reader := stdio.Scanning;
     stdio.callers := [exampleInitialize] |}.

(** An idle client whose reader finds a line that answers request 7. *)
Definition clientWithStrayLine : stdio.Client (result string) :=
  {| stdio.initialized := true;
     stdio.tools := [];
     stdio.muLocked := false;
     stdio.requestID := 3;
     stdio.pendingCalls := ∅;
     stdio.chans := [];
     stdio.stdin := [];
     stdio.stdinError := None;
     stdio.stdout := ["7"];
     stdio.stdoutClosed := false;
     stdio.reader := stdio.Scanning;
     stdio.callers := [] |}.

(** The example client on a pipe that refuses writes. *)
Definition exampleClientBrokenPipe : stdio.Client (result string) :=
  {| stdio.initialized := true;
     stdio.tools := tools exampleService;
     stdio.muLocked := false;
     stdio.requestID := 0;
     stdio.pendingCalls := ∅;
     stdio.chans := [];
     stdio.stdin := [];
     stdio.stdinError := Some "broken pipe";
     stdio.stdout := [];
     stdio.stdoutClosed := false;
     stdio.reader := stdio.Scanning;
     stdio.callers := [exampleCallTool "list_blueprints" (Some [])] |}.

(** The schedule in which a goroutine runs [Initialize], the server
    answers the request, and the pipe to the server breaks before the
    notification is written. *)
Definition initializeThenPipeBreaks {R} (i : nat) (answer : string)
    (err : error) : list (stdio.Action R) :=
  replicate 2 (stdio.Caller i)
  ++ exchange i 4 answer
  ++ [stdio.Caller i; stdio.StdinBreaks err; stdio.Caller i; stdio.Caller i].

(** The parameters of the request "initialize". *)
Definition initializeParams : stdio.Params :=
  stdio.InitializeParams "2024-11-05" "idp-cloudgenie-backend" "1.0.0".

(** The notification that [Initialize] sends. *)
Definition initializedNotification : stdio.JSONRPCRequest.t :=
  {| stdio.JSONRPCRequest.JSONRPC := "2.0";
     stdio.JSONRPCRequest.ID := None;
     stdio.JSONRPCRequest.Method := "notifications/initialized";
     stdio.JSONRPCRequest.Params := stdio.NoParams |}.

(** The schedule in which a goroutine runs [ListTools] on an
    initialized client and the server answers. *)
Definition listToolsAnswered {R} (i : nat) (answer : string)
  : list (stdio.Action R) :=
  exchange i 5 answer ++ replicate 3 (stdio.Caller i).

(* ===================================================================== *)
(** ** Resources and blueprints (packages entities, crossplane and
       usecases) *)
(* ===================================================================== *)

Module entities.

Module Parameter_.
Record t := mk {
  Description : string;
  Type_ : string;
  Required : bool;
}.
End Parameter_.

(** [Parameters] is a [map[string]Parameter]. *)
Module Blueprint.
Record t := mk {
  Kind : string;
  Name : string;
  Description : string;
  Parameters : gmap string Parameter_.t;
  Category : string;
  Version : string;
}.
End Blueprint.

Module Resource.
Record t := mk {
  ID : string;
  Name : string;
  BlueprintName : string;
  Description : string;
  Status : string;
  Spec : Args;
  Metadata : Args;
  CreatedAt : Z;
  UpdatedAt : Z;
}.
End Resource.

End entities.

(** [m[key]] with its [ok] for a [map[string]interface{}]; a nil map has
    no entry. *)
Fixpoint lookupEntry (m : list (string * Value)) (key : string)
  : option Value :=
  match m with
  | [] => None
  | (k, v) :: m' => if decide (k = key) then Some v else lookupEntry m' key
  end.

Definition lookupArg (m : Args) (key : string) : option Value :=
  match m with
  | None => None
  | Some entries => lookupEntry entries key
  end.

Module crossplane.

(** The condition under which [BuildXRD] reports a parameter as
    missing (part of line 192): it is required, and the spec has no
    entry for it, or the entry is nil, or the parameter is of type
    "string" and the entry is the empty string. *)
Definition missing (param : entities.Parameter_.t) (entry : option Value)
  : bool :=
  entities.Parameter_.Required param
  && match entry with
     | None => true
     | Some VNil => true
     | Some (VString s) =>
         bool_decide (entities.Parameter_.Type_ param = "string")
         && bool_decide (s = "")
     | Some _ => false
     end.

(** The loop of [BuildXRD] over the parameters of the blueprint: the
    names of the missing required parameters and the filtered spec. *)
Fixpoint checkParameters (parameters : list (string * entities.Parameter_.t))
    (spec : Args) (requiredMissing : list string)
    (filteredSpec : list (string * Value))
  : list string * list (string * Value) :=
  match parameters with
  | [] => (requiredMissing, filteredSpec)
  | (pname, param) :: parameters' =>
      let entry := lookupArg spec pname in
      let requiredMissing :=
        if missing param entry then requiredMissing ++ [pname]
        else requiredMissing in
      let filteredSpec :=
        match entry with
        | Some val => filteredSpec ++ [(pname, val)]
        | None => filteredSpec
        end in
      checkParameters parameters' spec requiredMissing filteredSpec
  end.

(** [BuildXRD] (crossplane adaptor, lines 187-218), with
    [yaml.Marshal] as [marshalYAML]. The loop ranges over the map
    [blueprint.Parameters], and the language does not specify the
    order in which [range] visits the entries of a map: [rangeOrder]
    gives the order of this execution. The verb [%v] writes a slice
    of strings between brackets with spaces. *)
Definition BuildXRD (marshalYAML : Value -> result string)
    (rangeOrder : gmap string entities.Parameter_.t ->
                  list (string * entities.Parameter_.t))
    (resource : entities.Resource.t) (blueprint : entities.Blueprint.t)
  : result string :=
  let '(requiredMissing, filteredSpec) :=
    checkParameters (rangeOrder (entities.Blueprint.Parameters blueprint))
                    (entities.Resource.Spec resource) [] [] in
  match requiredMissing with
  | _ :: _ =>
      Err ("missing required fields in spec: "
           +:+ "[" +:+ join " " requiredMissing +:+ "]")
  | [] =>
      let xrd :=
        VMap [ ("apiVersion",
                VString (entities.Blueprint.Category blueprint +:+ "/"
                         +:+ entities.Blueprint.Version blueprint));
               ("kind", VString (entities.Blueprint.Kind blueprint));
               ("metadata",
                VMap [ ("name", VString (entities.Resource.Name resource));
                       ("annotations",
                        VMap [ ("description",
                                VString (entities.Resource.Description
                                           resource)) ]) ]);
               ("spec", VMap filteredSpec) ] in
      match marshalYAML xrd with
      | Err err => Err ("failed to marshal XRD to YAML: " +:+ err)
      | Ok xrdYAML => Ok xrdYAML
      end
  end.

End crossplane.

Module usecases.

Definition ErrBlueprintNotFound : error := "blueprint not found".

(** The calls on the ports of [ResourceService], each with what the
    port returned. *)
Inductive PortCall : Type :=
| ListBlueprints (outcome : result (list entities.Blueprint.t))
| BuildXRD (resource : entities.Resource.t)
           (blueprint : entities.Blueprint.t) (outcome : result string)
| SaveResource (resource : entities.Resource.t)
               (outcome : result entities.Resource.t)
| PushXRDToRepo (xrd repo path : string) (outcome : option error).

(** The error of a call that failed. *)
Definition failure (call : PortCall) : option error :=
  match call with
  | ListBlueprints (Err err) => Some err
  | BuildXRD _ _ (Err err) => Some err
  | SaveResource _ (Err err) => Some err
  | PushXRDToRepo _ _ _ (Some err) => Some err
  | _ => None
  end.

(** The adaptors behind the ports, as transitions on a state [S]. *)
Record Ports (S : Type) := mkPorts {
  onListBlueprints : S -> result (list entities.Blueprint.t) * S;
  onBuildXRD : entities.Resource.t -> entities.Blueprint.t -> S ->
               result string * S;
  onSaveResource : entities.Resource.t -> S ->
                   result entities.Resource.t * S;
  onPushXRDToRepo : string -> string -> string -> S -> option error * S;
}.
Arguments onListBlueprints {S} _ _.
Arguments onBuildXRD {S} _ _ _ _.
Arguments onSaveResource {S} _ _ _.
Arguments onPushXRDToRepo {S} _ _ _ _ _.

(** The loop that looks for the blueprint of a name. *)
Fixpoint findBlueprint (blueprints : list entities.Blueprint.t)
    (name : string) : option entities.Blueprint.t :=
  match blueprints with
  | [] => None
  | bp :: blueprints' =>
      if decide (entities.Blueprint.Name bp = name) then Some bp
      else findBlueprint blueprints' name
  end.

(** [CreateResource] (usecases, lines 421-461): the result, the state
    of the adaptors and the calls made on the ports, in order. *)
Definition CreateResource {S} (ports : Ports S)
    (resource : entities.Resource.t) (st : S)
  : result entities.Resource.t * S * list PortCall :=
  let '(r, st) := onListBlueprints ports st in
  let listed := ListBlueprints r in
  match r with
  | Err err => (Err err, st, [listed])
  | Ok blueprints =>
      match findBlueprint blueprints
                          (entities.Resource.BlueprintName resource) with
      | None => (Err ErrBlueprintNotFound, st, [listed])
      | Some blueprint =>
          let '(r, st) := onBuildXRD ports resource blueprint st in
          let built := BuildXRD resource blueprint r in
          match r with
          | Err err => (Err err, st, [listed; built])
          | Ok xrdYAML =>
              let '(r, st) := onSaveResource ports resource st in
              let saved := SaveResource resource r in
              match r with
              | Err err => (Err err, st, [listed; built; saved])
              | Ok savedResource =>
                  let repoName := "idp-cloudgenie-state" in
                  let xrdPath :=
                    "resources/"
                    +:+ entities.Resource.BlueprintName resource +:+ "/"
                    +:+ entities.Resource.Name resource +:+ ".yaml" in
                  let '(err, st) :=
                    onPushXRDToRepo ports xrdYAML repoName xrdPath st in
                  let calls :=
                    [listed; built; saved;
                     PushXRDToRepo xrdYAML repoName xrdPath err] in
                  match err with
                  | Some err => (Err err, st, calls)
                  | None => (Ok savedResource, st, calls)
                  end
              end
          end
      end
  end.

End usecases.

(** *** Instances for the examples *)

(** A blueprint with a required parameter of type "string" and an
    optional one, and a resource whose spec leaves the required one
    empty and holds a key that the blueprint does not declare. *)
Definition exampleBlueprint : entities.Blueprint.t :=
  {| entities.Blueprint.Kind := "XBucket";
     entities.Blueprint.Name := "bucket";
     entities.Blueprint.Description := "";
     entities.Blueprint.Parameters :=
       {[ "region" := {| entities.Parameter_.Description := "";
                         entities.Parameter_.Type_ := "string";
                         entities.Parameter_.Required := true |};
          "versioning" := {| entities.Parameter_.Description := "";
                             entities.Parameter_.Type_ := "boolean";
                             entities.Parameter_.Required := false |} ]};
     entities.Blueprint.Category := "storage.example.org";
     entities.Blueprint.Version := "v1alpha1" |}.

Definition exampleResource : entities.Resource.t :=
  {| entities.Resource.ID := "";
     entities.Resource.Name := "logs";
     entities.Resource.BlueprintName := "bucket";
     entities.Resource.Description := "";
     entities.Resource.Status := "";
     entities.Resource.Spec :=
       Some [("region", VString ""); ("owner", VString "team-a")];
     entities.Resource.Metadata := None;
     entities.Resource.CreatedAt := 0;
     entities.Resource.UpdatedAt := 0 |}.

Definition exampleMarshalYAML (v : Value) : result string := Ok "---".

(* ===================================================================== *)
(** ** The OpenAI provider (package ai) *)
(* ===================================================================== *)

Module openai.

(** The types of the client library that [Chat] builds and reads. *)
Module ChatCompletionMessage.
Record t := mk {
  Role : string;
  Content : string;
}.
End ChatCompletionMessage.

Module Tool.
Record t := mk {
  Type_ : string;
  Name : string;
  Description : string;
  Parameters : Value;
}.
End Tool.

Module ChatCompletionRequest.
Record t := mk {
  Model : string;
  Messages : list ChatCompletionMessage.t;
  Tools : list Tool.t;
  ToolChoice : option string;
}.
End ChatCompletionRequest.

(** A tool call of the answer: its id, the name of the function and
    the text of its arguments. *)
Module ToolCall.
Record t := mk {
  ID : string;
  Name : string;
  Arguments : string;
}.
End ToolCall.

Module Choice.
Record t := mk {
  Content : string;
  ToolCalls : list ToolCall.t;
  FinishReason : string;
}.
End Choice.

Module ChatCompletionResponse.
Record t := mk {
  Choices : list Choice.t;
  Usage : ai.Usage.t;
}.
End ChatCompletionResponse.

Definition ChatMessageRoleSystem : string := "system".
Definition ChatMessageRoleUser : string := "user".
Definition ChatMessageRoleAssistant : string := "assistant".
Definition ToolTypeFunction : string := "function".

Definition systemMessage : ChatCompletionMessage.t :=
  {| ChatCompletionMessage.Role := ChatMessageRoleSystem;
     ChatCompletionMessage.Content :=
       "You are a helpful AI assistant that can interact with CloudGenie infrastructure management platform. You have access to various tools to help manage cloud resources. When asked to perform operations, use the available tools to accomplish the task." |}.

(** The messages of the request (api.go, lines 948-978). *)
Definition messagesOf (prompt : string)
    (conversationHistory : list ai.Message.t)
  : list ChatCompletionMessage.t :=
  let messages := [systemMessage] in
  let messages :=
    fold_left
      (fun messages msg =>
         let role := ai.Message.Role msg in
         if decide (role = "user") then
           messages ++
             [ {| ChatCompletionMessage.Role := ChatMessageRoleUser;
                  ChatCompletionMessage.Content := ai.Message.Content msg |} ]
         else if decide (role = "assistant") then
           messages ++
             [ {| ChatCompletionMessage.Role := ChatMessageRoleAssistant;
                  ChatCompletionMessage.Content := ai.Message.Content msg |} ]
         else messages)
      conversationHistory messages in
  messages ++
    [ {| ChatCompletionMessage.Role := ChatMessageRoleUser;
         ChatCompletionMessage.Content := prompt |} ].

(** The request (lines 980-1004). *)
Definition requestOf (model prompt : string) (tools : list mcp.Tool.t)
    (conversationHistory : list ai.Message.t) : ChatCompletionRequest.t :=
  let openaiTools :=
    map (fun tool =>
           {| Tool.Type_ := ToolTypeFunction;
              Tool.Name := mcp.Tool.Name tool;
              Tool.Description := mcp.Tool.Description tool;
              Tool.Parameters := mcp.Tool.InputSchema tool |}) tools in
  {| ChatCompletionRequest.Model := model;
     ChatCompletionRequest.Messages := messagesOf prompt conversationHistory;
     ChatCompletionRequest.Tools := openaiTools;
     ChatCompletionRequest.ToolChoice :=
       match openaiTools with
       | [] => None
       | _ => Some "auto"
       end |}.

Section Chat.

Context (unmarshalArgs : string -> result Args)
        (CreateChatCompletion :
           ChatCompletionRequest.t -> result ChatCompletionResponse.t).

(** The loop over the tool calls of the answer (lines 1035-1049):
    it returns at the first arguments that cannot be parsed. *)
Fixpoint toolCallsOf (calls : list ToolCall.t)
    (toolCalls : list ai.ToolCall.t) : result (list ai.ToolCall.t) :=
  match calls with
  | [] => Ok toolCalls
  | tc :: calls' =>
      match unmarshalArgs (ToolCall.Arguments tc) with
      | Err err => Err ("failed to parse tool arguments: " +:+ err)
      | Ok args =>
          toolCallsOf calls'
            (toolCalls ++
               [ {| ai.ToolCall.ID := ToolCall.ID tc;
                    ai.ToolCall.Name := ToolCall.Name tc;
                    ai.ToolCall.Arguments := args |} ])
      end
  end.

(** [Chat] (lines 947-1052) of a provider with the given model. *)
Definition Chat (model prompt : string) (tools : list mcp.Tool.t)
    (conversationHistory : list ai.Message.t) : result ai.Response.t :=
  match CreateChatCompletion
          (requestOf model prompt tools conversationHistory) with
  | Err err => Err ("OpenAI API error: " +:+ err)
  | Ok resp =>
      match ChatCompletionResponse.Choices resp with
      | [] => Err "no response from OpenAI"
      | choice :: _ =>
          match toolCallsOf (Choice.ToolCalls choice) [] with
          | Err err => Err err
          | Ok toolCalls =>
              Ok {| ai.Response.Content := Choice.Content choice;
                    ai.Response.ToolCalls := toolCalls;
                    ai.Response.FinishReason := Choice.FinishReason choice;
                    ai.Response.Usage :=
                      Some (ChatCompletionResponse.Usage resp) |}
          end
      end
  end.

End Chat.

End openai.

(* ===================================================================== *)
(** ** Further examples *)
(* ===================================================================== *)

(** A result with a text part and a part of another kind, flagged as an
    error, and the result with its text part only. *)
Definition textAndImage : mcp.CallToolResult.t :=
  {| mcp.CallToolResult.Content :=
       [mcp.TextContent "quota exceeded"; mcp.OtherContent VNil];
     mcp.CallToolResult.IsError := true |}.

Definition textOnly : mcp.CallToolResult.t :=
  {| mcp.CallToolResult.Content := [mcp.TextContent "quota exceeded"];
     mcp.CallToolResult.IsError := false |}.

(** The process whose provider is the Anthropic provider. *)
Definition anthropicProvider : anthropic.AnthropicProvider :=
  {| anthropic.apiKey := "key";
     anthropic.model := "claude-3-5-sonnet-20241022" |}.

Definition anthropicEnv : Env :=
  {| envChat _ prompt ts hist :=
       anthropic.Chat anthropicProvider prompt ts hist;
     envProviderName := anthropic.GetProviderName anthropicProvider;
     envCallTool _ _ _ := Ok emptyList;
     envClock n := Z.of_nat n * Second |}.

(** The library functions used when the text adapters are evaluated on
    examples of ASCII text: the rune-decoding functions are not reached,
    the only argument text that parses is the empty object, and the
    patterns match nothing. *)
Definition exampleTextLib : TextLib :=
  {| TrimFuncIsSpace s := s;
     TrimRightFuncIsSpace s := s;
     unmarshalArgs s := if decide (s = "{}") then Ok (Some [])
                        else Err "invalid character";
     FindAllStringSubmatch _ _ := [] |}.

(** A model that first asks for a tool that does not exist and for
    [list_blueprints], and then answers with a text. *)
Definition twoToolCalls : string :=
  "TOOL_CALL: delete_everything({})" +:+ String "010" ""
  +:+ "TOOL_CALL: list_blueprints({})".

Definition exampleGenerateContent (n : nat) (fullPrompt : string)
  : result (list gemini.Candidate) :=
  match n with
  | O => Ok [ {| gemini.Content := Some [gemini.Text twoToolCalls];
                 gemini.FinishReason := "FinishReasonStop" |} ]
  | S _ => Ok [ {| gemini.Content := Some [gemini.Text "No blueprints found"];
                   gemini.FinishReason := "FinishReasonStop" |} ]
  end.

Definition exampleSystemPrompt (tools : list mcp.Tool.t) : string :=
  "You are a helpful AI assistant.".

Definition geminiEnv : Env :=
  {| envChat n prompt ts hist :=
       match gemini.Chat exampleTextLib exampleSystemPrompt
                         (exampleGenerateContent n) prompt ts hist with
       | Some r => r
       | None => Err "panic"
       end;
     envProviderName := "gemini";
     envCallTool _ _ _ := Ok emptyList;
     envClock n := Z.of_nat n * Second |}.

(** An initialized client over stdio with a stale catalog and one
    goroutine in [ListTools]; the answer of the server decodes to the
    catalog of the example service. *)
Definition exampleUnmarshalTools (text : string) : result (list mcp.Tool.t) :=
  Ok (tools exampleService).

Definition staleTool : mcp.Tool.t :=
  {| mcp.Tool.Name := "retired_tool";
     mcp.Tool.Description := "";
     mcp.Tool.InputSchema := VNil |}.

Definition exampleListToolsClient : stdio.Client (result (list mcp.Tool.t)) :=
  {| stdio.initialized := true;
     stdio.tools := [staleTool];
     stdio.muLocked := false;
     stdio.requestID := 0;
     stdio.pendingCalls := ∅;
     stdio.chans := [];
     stdio.stdin := [];
     stdio.stdinError := None;
     stdio.stdout := [];
     stdio.stdoutClosed := false;
     stdio.reader := stdio.Scanning;
     stdio.callers :=
       [stdio.ListTools exampleMarshalRequest exampleMarshalValue
                        exampleUnmarshal exampleUnmarshalTools] |}.

(* ===================================================================== *)
(** ** The protocol client encodes the arguments of a request *)
(* ===================================================================== *)

(** Both protocol clients encode the arguments of a request as JSON
    before anything is sent: [session.CallTool] of the SDK encodes the
    parameters of the request (api.go, lines 193-201), and [call] of the
    client over stdio starts with [json.Marshal(request)] (lines
    432-435). For arguments that [json.Marshal] refuses, [CallTool]
    therefore returns an error. The collaborator behind [onCallTool]
    is a client of this kind when: *)
Definition encodesArguments (lib : GoLib) {W : Type} (h : Handler W) : Prop :=
  forall (name : string) (args : Args) (st : W),
    Marshal lib args = None ->
    exists err, (onCallTool h name args st).1 = Err err.

(** The tool endpoint behind a client that encodes the arguments with
    the encoder of the examples: a request whose arguments cannot be
    encoded fails in the client, every other request is answered with
    the text of an empty list. *)
Definition encodingEnv : Env :=
  {| envChat n _ _ _ :=
       if Nat.even n then Ok (askTools [watchWithChannel; watchWithNaN])
       else Ok (sayText "Cannot watch the resource");
     envProviderName := "gemini";
     envCallTool _ name args :=
       match Marshal plainLib args with
       | None => Err "json: unsupported type"
       | Some _ => Ok emptyList
       end;
     envClock n := Z.of_nat n * Second |}.

Definition noTotals : Totals :=
  {| allToolCalls := []; allToolResults := [];
     cacheHits := 0; cacheMisses := 0 |}.

(** *** A line that the scanner of the client over stdio refuses *)

Definition longLine : string :=
  string_of_list_ascii
    (replicate (Z.to_nat stdio.MaxScanTokenSize) "x"%char).

(** A client with a caller that waits for the response to request 1,
    whose reader finds a line of 64 KiB. *)
Definition clientWithLongLine : stdio.Client (result string) :=
  {| stdio.initialized := true;
     stdio.tools := tools exampleService;
     stdio.muLocked := false;
     stdio.requestID := 1;
     stdio.pendingCalls := {[ 1 := 0%nat ]};
     stdio.chans := [None];
     stdio.stdin := ["1 tools/call list_blueprints" +:+ stdio.newline];
     stdio.stdinError := None;
     stdio.stdout := [longLine];
     stdio.stdoutClosed := false;
     stdio.reader := stdio.Scanning;
     stdio.callers := [stdio.Recv 0 (fun _ => stdio.Ret (Ok "{}"))] |}.
(* ===================================================================== *)
(** * Properties *)
(* ===================================================================== *)

Section CacheLemmas.

Lemma Sub_mono_l (t t' u : Time) : t <= t' -> Sub t u <= Sub t' u.
Proof.
  unfold Sub, minDuration, maxDuration. intros H.
  repeat case_match; lia.
Qed.

Lemma Sub_anti_r (t u u' : Time) : u <= u' -> Sub t u' <= Sub t u.
Proof.
  unfold Sub, minDuration, maxDuration. intros H.
  repeat case_match; lia.
Qed.

Lemma Sub_diag (t : Time) : Sub t t = 0.
Proof. unfold Sub. replace (t - t) with 0 by lia. reflexivity. Qed.

Lemma Sub_exact (t u : Time) :
  minDuration <= t - u <= maxDuration -> Sub t u = t - u.
Proof.
  unfold Sub. intros H. repeat case_match; lia.
Qed.

Lemma Get_Some (c : ResultCache) now key e :
  Get c now key = Some e <->
  store c !! key = Some e /\ Sub now (Timestamp e) <= ttl c.
Proof.
  unfold Get. destruct (store c !! key) as [r|] eqn:Hk.
  - destruct (ttl c <? Sub now (Timestamp r)) eqn:Hexp.
    + apply Z.ltb_lt in Hexp. split; [discriminate|].
      intros [[= ->] Hle]. lia.
    + apply Z.ltb_ge in Hexp. split.
      * intros [= ->]. auto.
      * intros [[= ->] _]. reflexivity.
  - split; [discriminate|]. intros [[=] _].
Qed.

Lemma Get_None (c : ResultCache) now key :
  Get c now key = None <->
  ~ exists e, store c !! key = Some e /\ Sub now (Timestamp e) <= ttl c.
Proof.
  split.
  - intros HN [e He]. apply Get_Some in He. congruence.
  - intros HN. destruct (Get c now key) as [e|] eqn:HG; [|reflexivity].
    exfalso. apply HN. exists e. by apply Get_Some.
Qed.

Lemma cleanupExpired_lookup (c : ResultCache) t0 key e :
  store (cleanupExpired c t0) !! key = Some e <->
  store c !! key = Some e /\ Sub t0 (Timestamp e) <= ttl c.
Proof.
  unfold cleanupExpired; simpl. rewrite map_lookup_filter_Some; simpl.
  split; intros [? ?]; split; auto; lia.
Qed.

Lemma Get_cleanupExpired (c : ResultCache) t0 now key :
  t0 <= now -> Get (cleanupExpired c t0) now key = Get c now key.
Proof.
  intros Hmono.
  destruct (Get c now key) as [e|] eqn:HG.
  - apply Get_Some in HG as [Hk Hle]. apply Get_Some. split; [|exact Hle].
    apply cleanupExpired_lookup. split; [exact Hk|].
    pose proof (Sub_mono_l t0 now (Timestamp e) Hmono). lia.
  - apply Get_None. intros [e [Hk Hle]].
    apply cleanupExpired_lookup in Hk as [Hk _].
    rewrite Get_None in HG. apply HG. eauto.
Qed.

Lemma Get_Set_same (c : ResultCache) t now key content isError :
  Get (Set_ c t key content isError) now key =
  if ttl c <? Sub now t then None
  else Some {| Content := content; Timestamp := t; IsError := isError |}.
Proof.
  unfold Get, Set_; simpl. rewrite lookup_insert_eq. reflexivity.
Qed.

Lemma Get_Set_other (c : ResultCache) t now key key' content isError :
  key <> key' ->
  Get (Set_ c t key content isError) now key' = Get c now key'.
Proof.
  intros Hne. unfold Get, Set_; simpl. by rewrite lookup_insert_ne.
Qed.

End CacheLemmas.

(** C3. [Get k] yields the stored entry exactly when one is present and
    [now - Timestamp <= ttl], and nothing otherwise; a sweep that ran at
    any earlier instant does not change the answer; an entry that was
    just [Set] is returned while the ttl has not elapsed and is refused
    once more than the ttl has elapsed. *)
Theorem C3_get_respects_ttl (c : ResultCache) (now : Time) (k : string) :
  (forall e, Get c now k = Some e <->
             store c !! k = Some e /\ Sub now (Timestamp e) <= ttl c)
  /\ (Get c now k = None <->
      ~ exists e, store c !! k = Some e /\ Sub now (Timestamp e) <= ttl c)
  /\ (forall t0, t0 <= now -> Get (cleanupExpired c t0) now k = Get c now k)
  /\ (forall t v, Sub now t <= ttl c ->
        Get (Set_ c t k v false) now k =
        Some {| Content := v; Timestamp := t; IsError := false |})
  /\ (forall v, 0 <= ttl c ->
        Get (Set_ c now k v false) now k =
        Some {| Content := v; Timestamp := now; IsError := false |})
  /\ (forall t v b, ttl c < Sub now t -> Get (Set_ c t k v b) now k = None).
Proof.
  split; [intros e; apply Get_Some|].
  split; [apply Get_None|].
  split; [intros t0; apply Get_cleanupExpired|].
  split; [|split].
  - intros t v Hle. rewrite Get_Set_same.
    destruct (ttl c <? Sub now t) eqn:E; [apply Z.ltb_lt in E; lia|reflexivity].
  - intros v Hle. rewrite Get_Set_same, Sub_diag.
    destruct (ttl c <? 0) eqn:E; [apply Z.ltb_lt in E; lia|reflexivity].
  - intros t v b Hlt. rewrite Get_Set_same.
    destruct (ttl c <? Sub now t) eqn:E; [reflexivity|apply Z.ltb_ge in E; lia].
Qed.
(* --------------------------------------------------------------------- *)
(** ** Cache keys *)
(* --------------------------------------------------------------------- *)

Section SortByKey.

Context {A : Type}.

Lemma leb_refl (s : string) : String.leb s s = true.
Proof. destruct (String.leb_total s s); assumption. Qed.

Lemma leb_trans (s1 s2 s3 : string) :
  String.leb s1 s2 = true -> String.leb s2 s3 = true ->
  String.leb s1 s3 = true.
Proof.
  unfold String.leb.
  destruct (String.compare s1 s2) eqn:E12; [| |discriminate]; intros _;
    destruct (String.compare s2 s3) eqn:E23; try discriminate; intros _.
  - apply String.compare_eq_iff in E12, E23. subst.
    destruct (String.leb_total s3 s3) as [H|H]; exact H.
  - apply String.compare_eq_iff in E12. subst. by rewrite E23.
  - apply String.compare_eq_iff in E23. subst. by rewrite E12.
  - apply OrderedTypeEx.String_as_OT.cmp_lt in E12, E23.
    pose proof (OrderedTypeEx.String_as_OT.lt_trans _ _ _ E12 E23) as H.
    apply OrderedTypeEx.String_as_OT.cmp_lt in H.
    unfold OrderedTypeEx.String_as_OT.cmp in H. by rewrite H.
Qed.

Lemma insertByKey_perm (a : string * A) l : insertByKey a l ≡ₚ a :: l.
Proof.
  induction l as [|b l IH]; simpl; [done|].
  destruct (String.leb a.1 b.1); [done|].
  rewrite IH. apply Permutation_swap.
Qed.

Lemma sortByKey_perm (l : list (string * A)) : sortByKey l ≡ₚ l.
Proof.
  induction l as [|a l IH]; simpl; [done|].
  unfold sortByKey in *; simpl. by rewrite insertByKey_perm, IH.
Qed.

Lemma insertByKey_sorted (a : string * A) l :
  StronglySorted keyLe l -> StronglySorted keyLe (insertByKey a l).
Proof.
  induction 1 as [|b l Hl IH Hb]; simpl.
  - repeat constructor.
  - destruct (String.leb a.1 b.1) eqn:E.
    + constructor; [by constructor|].
      constructor; [exact E|].
      eapply Forall_impl; [exact Hb|]. intros c Hc.
      eapply leb_trans; [exact E|exact Hc].
    + constructor; [exact IH|].
      rewrite insertByKey_perm. constructor; [|exact Hb].
      destruct (String.leb_total a.1 b.1) as [H|H]; [congruence|exact H].
Qed.

Lemma sortByKey_sorted (l : list (string * A)) :
  StronglySorted keyLe (sortByKey l).
Proof.
  induction l as [|a l IH]; simpl; [constructor|].
  by apply insertByKey_sorted.
Qed.

(** Sorting forgets the order of enumeration when keys are unique. *)
Lemma sortByKey_permutation (l1 l2 : list (string * A)) :
  NoDup l1.*1 -> l1 ≡ₚ l2 -> sortByKey l1 = sortByKey l2.
Proof.
  intros Hnd Hp.
  apply (StronglySorted_unique_strong keyLe);
    [|apply sortByKey_sorted..|by rewrite !sortByKey_perm].
  intros x1 x2 Hx1 Hx2 H12 H21.
  rewrite sortByKey_perm in Hx1. rewrite sortByKey_perm, <- Hp in Hx2.
  pose proof (String.leb_antisym _ _ H12 H21) as Hk.
  apply list_elem_of_lookup in Hx1 as [i Hi], Hx2 as [j Hj].
  assert (i = j) as ->.
  { eapply NoDup_lookup; [exact Hnd| |].
    - rewrite list_lookup_fmap, Hi. reflexivity.
    - rewrite list_lookup_fmap, Hj. simpl. by rewrite Hk. }
  congruence.
Qed.

End SortByKey.

Section KeyProperties.

Context (lib : GoLib).

Lemma wfValue_map_perm m m' :
  m ≡ₚ m' -> wfValue (VMap m) -> wfValue (VMap m').
Proof.
  intros Hp Hwf. inversion Hwf as [| | | | |? Hnd Hall|]; subst.
  constructor; by rewrite <- Hp.
Qed.

(** Values that differ only in the enumeration order of their maps
    have the same JSON text, and fail together. *)
Lemma encode_sameValue (v1 : Value) :
  forall v2, sameValue v1 v2 -> wfValue v1 -> encode lib v1 = encode lib v2.
Proof.
  induction v1 as [| | | |l IH|m IH|] using Value_nested_ind;
    intros v2 Hs Hwf;
    inversion Hs as [|l1 l2 HF2|m1 m' m2 Hperm HF2]; subst;
    try reflexivity.
  - (* slices *)
    simpl. f_equal.
    inversion Hwf as [| | | |? Hall| |]; subst.
    clear Hs Hwf. induction HF2 as [|a b l1 l2 Hab HF2 IH2]; [done|].
    inversion IH as [|? ? IHa IHl]; subst.
    inversion Hall as [|? ? Ha Hl]; subst.
    simpl. f_equal; [by apply IHa|by apply IH2].
  - (* maps *)
    simpl. unfold encodeObject.
    set (f := fun kv : string * Value =>
                match kv with (k, v') => (k, encode lib v') end).
    assert (Hsort : sortByKey (map f m) = sortByKey (map f m')).
    { apply sortByKey_permutation.
      - inversion Hwf as [| | | | |? Hnd _|]; subst.
        replace ((map f m).*1) with (m.*1); [exact Hnd|].
        clear. induction m as [|[k v] m IHm]; simpl; [done|]. by f_equal.
      - by apply Permutation_map. }
    rewrite Hsort.
    enough (Hmap : map f m' = map f m2) by (by rewrite Hmap).
    assert (IH' : Forall (fun kv => forall v2, sameValue kv.2 v2 ->
                     wfValue kv.2 -> encode lib kv.2 = encode lib v2) m')
      by (by rewrite <- Hperm).
    assert (Hwf' : Forall (fun kv => wfValue kv.2) m').
    { apply (wfValue_map_perm _ _ Hperm) in Hwf.
      by inversion Hwf; subst. }
    clear -HF2 IH' Hwf'.
    induction HF2 as [|a b l1 l2 [Hk Hab] HF2 IH2]; [done|].
    inversion IH' as [|? ? IHa IHl]; subst.
    inversion Hwf' as [|? ? Ha Hl]; subst.
    simpl. f_equal; [|by apply IH2].
    destruct a as [ka va], b as [kb vb]; simpl in *. subst.
    f_equal. by apply IHa.
Qed.

Lemma generateCacheKey_unserializable toolName args :
  Marshal lib args = None -> generateCacheKey lib toolName args = toolName.
Proof. intros H. unfold generateCacheKey. by rewrite H. Qed.

End KeyProperties.

(** C4, the claim as stated fails: the nil map and the empty map hold the
    same (empty) set of key/value pairs and get different keys, since
    the one is written [null] and the other [{}]. *)
Lemma C4_nil_and_empty_map_differ :
  sameEntries None (Some [])
  /\ generateCacheKey plainLib "list_blueprints" None
     = "list_blueprints:82486d615e1eb3c8"
  /\ generateCacheKey plainLib "list_blueprints" (Some [])
     = "list_blueprints:540a4b5a53f9977b"
  /\ ~ (forall (T : string) (A1 A2 : Args),
          wfArgs A1 -> wfArgs A2 -> sameEntries A1 A2 ->
          generateCacheKey plainLib T A1 = generateCacheKey plainLib T A2).
Proof.
  split; [apply same_refl|].
  split; [vm_compute; reflexivity|].
  split; [vm_compute; reflexivity|].
  intros H.
  specialize (H "list_blueprints" None (Some []) I).
  assert (Hwf : wfArgs (Some [])) by (repeat constructor).
  specialize (H Hwf (same_refl _)). vm_compute in H. discriminate H.
Qed.

(** C4, amended. For argument maps that are both nil or both non-nil and
    hold the same key/value pairs, whatever the order in which the maps,
    at any depth, enumerate them, [generateCacheKey] returns the same
    key. *)
Theorem C4_cache_key_order_independent (lib : GoLib) (T : string)
    (A1 A2 : Args) :
  wfArgs A1 -> sameNilness A1 A2 -> sameEntries A1 A2 ->
  generateCacheKey lib T A1 = generateCacheKey lib T A2.
Proof.
  intros Hwf Hnil Hsame. unfold generateCacheKey.
  replace (Marshal lib A2) with (Marshal lib A1); [reflexivity|].
  destruct A1 as [m1|], A2 as [m2|]; cbn [Marshal].
  - by apply encode_sameValue.
  - destruct Hnil as [Hn _]. destruct Hn as [? [=]]. by eexists.
  - destruct Hnil as [_ Hn]. destruct Hn as [? [=]]. by eexists.
  - reflexivity.
Qed.

(** C4 amended, on two enumerations of the arguments of
    [create_resource], the nested map enumerated in two orders too. *)
Lemma C4_cache_key_order_independent_witness :
  generateCacheKey plainLib "create_resource"
    (Some [("name", VString "web");
           ("spec", VMap [("size", VString "small"); ("replicas", VBool true)])])
  = generateCacheKey plainLib "create_resource"
    (Some [("spec", VMap [("replicas", VBool true); ("size", VString "small")]);
           ("name", VString "web")]).
Proof.
  apply C4_cache_key_order_independent.
  - constructor; [compute_done|].
    repeat first [constructor | compute_done].
  - split; intros _; by eexists.
  - unfold sameEntries; simpl.
    eapply same_map; [apply Permutation_swap|].
    constructor; [split; [reflexivity|]|constructor; [|constructor]].
    + eapply same_map; [apply Permutation_swap|].
      repeat constructor.
    + split; [reflexivity|apply same_refl].
Defined.

(* --------------------------------------------------------------------- *)
(** ** Runs of the orchestration loop *)
(* --------------------------------------------------------------------- *)

Section InterpLemmas.

Context {S : Type} (h : Handler S).

Lemma interp_bind {A B} (m : Prog A) (f : A -> Prog B) (st : S) :
  interp h (bind m f) st =
  let '(a, st1, tr1) := interp h m st in
  let '(b, st2, tr2) := interp h (f a) st1 in
  (b, st2, tr1 ++ tr2).
Proof.
  revert st. induction m as [a|p ts hs k IH|k IH|n a k IH|key k IH
                             |key c e k IH|k IH]; intros st; simpl.
  - by destruct (interp h (f a) st) as [[b st2] tr2].
  - destruct (onChat h p ts hs st) as [r st1]. rewrite IH.
    destruct (interp h (k r) st1) as [[a st2] tr1].
    by destruct (interp h (f a) st2) as [[b st3] tr2].
  - destruct (onGetProviderName h st) as [r st1]. rewrite IH.
    destruct (interp h (k r) st1) as [[a st2] tr1].
    by destruct (interp h (f a) st2) as [[b st3] tr2].
  - destruct (onCallTool h n a st) as [r st1]. rewrite IH.
    destruct (interp h (k r) st1) as [[a' st2] tr1].
    by destruct (interp h (f a') st2) as [[b st3] tr2].
  - destruct (onCacheGet h key st) as [r st1]. rewrite IH.
    destruct (interp h (k r) st1) as [[a st2] tr1].
    by destruct (interp h (f a) st2) as [[b st3] tr2].
  - rewrite IH.
    destruct (interp h k (onCacheSet h key c e st)) as [[a st2] tr1].
    by destruct (interp h (f a) st2) as [[b st3] tr2].
  - destruct (onCacheStats h st) as [r st1]. rewrite IH.
    destruct (interp h (k r) st1) as [[a st2] tr1].
    by destruct (interp h (f a) st2) as [[b st3] tr2].
Qed.

Context (lib : GoLib).

(** The body of the loop over the invocations, answer by answer. *)
Lemma interp_executeToolCall (toolCall : ai.ToolCall.t)
    (toolResults : list ai.ToolResult.t) (t : Totals) (st : S) :
  let name := ai.ToolCall.Name toolCall in
  let args := ai.ToolCall.Arguments toolCall in
  let key := generateCacheKey lib name args in
  interp h (executeToolCall lib toolCall toolResults t) st =
  match onCacheGet h key st with
  | (Some cached, st1) =>
      (resolved lib [toolCall] [Hit cached] toolResults t, st1,
       segment lib toolCall (Hit cached))
  | (None, st1) =>
      match onCallTool h name args st1 with
      | (Err err, st2) =>
          (resolved lib [toolCall] [Miss (Err err)] toolResults t, st2,
           segment lib toolCall (Miss (Err err)))
      | (Ok mcpResult, st2) =>
          (resolved lib [toolCall] [Miss (Ok mcpResult)] toolResults t,
           if mcp.CallToolResult.IsError mcpResult then st2
           else onCacheSet h key (formatToolResult lib mcpResult) false st2,
           segment lib toolCall (Miss (Ok mcpResult)))
      end
  end.
Proof.
  unfold executeToolCall, resolved, countHits, countMisses, recordResult,
    aiResult, modelResult, modelCall, resultContent; simpl.
  destruct (onCacheGet h _ st) as [[cached|] st1]; simpl.
  - rewrite !Z.add_0_r. reflexivity.
  - destruct (onCallTool h _ _ st1) as [[mcpResult|err] st2]; simpl.
    + destruct (mcp.CallToolResult.IsError mcpResult) eqn:E; simpl;
        rewrite ?E, !Z.add_0_r; reflexivity.
    + rewrite app_nil_r, !Z.add_0_r. reflexivity.
Qed.

End InterpLemmas.

Section LoopRuns.

Context (lib : GoLib) (svc : OrchestrationService).

Lemma countHits_cons r rs :
  countHits (r :: rs) = (if isHit r then 1 else 0) + countHits rs.
Proof.
  unfold countHits. rewrite filter_cons.
  destruct (isHit r) eqn:E; case_decide; try congruence; simpl length; lia.
Qed.

Lemma countMisses_cons r rs :
  countMisses (r :: rs) = (if isHit r then 0 else 1) + countMisses rs.
Proof.
  unfold countMisses. rewrite filter_cons.
  destruct (isHit r) eqn:E; case_decide; try congruence; simpl length; lia.
Qed.

Lemma countHits_app rs1 rs2 :
  countHits (rs1 ++ rs2) = countHits rs1 + countHits rs2.
Proof.
  unfold countHits. rewrite filter_app, length_app. lia.
Qed.

Lemma countMisses_app rs1 rs2 :
  countMisses (rs1 ++ rs2) = countMisses rs1 + countMisses rs2.
Proof.
  unfold countMisses. rewrite filter_app, length_app. lia.
Qed.

Lemma resolved_cons toolCall toolCalls r rs toolResults t :
  resolved lib (toolCall :: toolCalls) (r :: rs) toolResults t =
  resolved lib toolCalls rs
    (resolved lib [toolCall] [r] toolResults t).1
    (resolved lib [toolCall] [r] toolResults t).2.
Proof.
  unfold resolved; simpl.
  rewrite !app_nil_r, <- !app_assoc; simpl.
  rewrite countHits_cons, countMisses_cons.
  rewrite (countHits_cons r []), (countMisses_cons r []).
  unfold countHits, countMisses; simpl.
  do 2 f_equal; lia.
Qed.

(** The loop over the invocations resolves each of them once, in
    order. *)
Lemma interp_executeToolCalls {S} (h : Handler S)
    (toolCalls : list ai.ToolCall.t) :
  forall (toolResults : list ai.ToolResult.t) (t : Totals) (st : S),
  exists rs,
    length rs = length toolCalls /\
    (interp h (executeToolCalls lib toolCalls toolResults t) st).1.1 =
      resolved lib toolCalls rs toolResults t /\
    (interp h (executeToolCalls lib toolCalls toolResults t) st).2 =
      concat (zip_with (segment lib) toolCalls rs).
Proof.
  induction toolCalls as [|toolCall rest IH]; intros toolResults t st.
  - exists []. unfold resolved, countHits, countMisses; simpl.
    rewrite !app_nil_r, !Z.add_0_r. by destruct t.
  - cbn [executeToolCalls]. unfold mbind, Prog_bind.
    rewrite interp_bind, (interp_executeToolCall h lib).
    destruct (onCacheGet h _ st) as [[cached|] st1].
    + destruct (resolved lib [toolCall] [Hit cached] toolResults t)
        as [trs' t'] eqn:E1.
      destruct (IH trs' t' st1) as (rs & Hlen & Hout & Htr).
      destruct (interp h (executeToolCalls lib rest trs' t') st1)
        as [[out st2] tr2]; simpl in *.
      exists (Hit cached :: rs). simpl. split; [by rewrite Hlen|].
      rewrite resolved_cons, E1. simpl. by rewrite Hout, Htr.
    + destruct (onCallTool h _ _ st1) as [[mcpResult|err] st2].
      * destruct (resolved lib [toolCall] [Miss (Ok mcpResult)] toolResults t)
          as [trs' t'] eqn:E1.
        match goal with
        | |- context [interp h (executeToolCalls lib rest trs' t') ?stx] =>
            destruct (IH trs' t' stx) as (rs & Hlen & Hout & Htr);
            destruct (interp h (executeToolCalls lib rest trs' t') stx)
              as [[out st3] tr2]
        end; simpl in *.
        exists (Miss (Ok mcpResult) :: rs). simpl. split; [by rewrite Hlen|].
        rewrite resolved_cons, E1. simpl. rewrite Hout, Htr.
        split; [reflexivity|].
        by destruct (mcp.CallToolResult.IsError mcpResult).
      * destruct (resolved lib [toolCall] [Miss (Err err)] toolResults t)
          as [trs' t'] eqn:E1.
        destruct (IH trs' t' st2) as (rs & Hlen & Hout & Htr).
        destruct (interp h (executeToolCalls lib rest trs' t') st2)
          as [[out st3] tr2]; simpl in *.
        exists (Miss (Err err) :: rs). simpl. split; [by rewrite Hlen|].
        rewrite resolved_cons, E1. simpl. by rewrite Hout, Htr.
Qed.

(** Every run of [loop], against any collaborators, has the shape
    described by [LoopRun]. *)
Lemma interp_loop_run {S} (h : Handler S) (n : nat) :
  forall (iteration : Z) (prompt : string) (hist : list ai.Message.t)
         (t : Totals) (st : S),
    LoopRun lib svc n iteration prompt hist t
      (interp h (loop lib svc n iteration prompt hist t) st).1.1
      (interp h (loop lib svc n iteration prompt hist t) st).2.
Proof.
  induction n as [|n IH]; intros iteration prompt hist t st.
  - simpl.
    destruct (onGetProviderName h st) as [provider st1].
    destruct (onCacheStats h st1) as [stats st2]. simpl.
    apply run_max.
  - cbn [loop]. unfold mbind, Prog_bind, chat. cbn [bind interp].
    destruct (onChat h prompt (tools svc) hist st) as [[aiResponse|err] st1].
    + destruct (ai.Response.ToolCalls aiResponse) as [|tc0 tcs] eqn:Etc.
      * simpl.
        destruct (onGetProviderName h st1) as [provider st2].
        destruct (onCacheStats h st2) as [stats st3]. simpl.
        by apply run_done.
      * rewrite interp_bind.
        destruct (interp_executeToolCalls h (tc0 :: tcs) [] t st1)
          as (rs & Hlen & Hout & Htr).
        destruct (interp h (executeToolCalls lib (tc0 :: tcs) [] t) st1)
          as [[[trs' t'] st2] tr1]. simpl in Hout, Htr.
        specialize (IH (iteration + 1) (formatToolResultsForPrompt trs')
                       ((hist ++ [assistantMessage aiResponse])
                          ++ [toolResultsMessage trs']) t' st2).
        destruct (interp h (loop lib svc n _ _ _ t') st2)
          as [[res st3] tr2]. simpl in IH |- *.
        rewrite Htr.
        pose proof (run_tools lib svc n iteration prompt hist t
                      aiResponse rs res tr2) as Hrun.
        cbv zeta in Hrun. rewrite Etc in Hrun.
        rewrite <- Hout in Hrun. simpl in Hrun.
        apply Hrun; [done|exact Hlen|exact IH].
    + simpl. apply run_chat_error.
Qed.

Lemma ProcessPrompt_run {S} (h : Handler S) (request : models.ChatRequest.t)
    (st : S) :
  LoopRun lib svc MaxToolIterations 0 (models.ChatRequest.Prompt request) []
    {| allToolCalls := []; allToolResults := [];
       cacheHits := 0; cacheMisses := 0 |}
    (interp h (ProcessPrompt lib svc request) st).1.1
    (interp h (ProcessPrompt lib svc request) st).2.
Proof. apply interp_loop_run. Qed.

End LoopRuns.

Section TraceLemmas.

Context (lib : GoLib).

Lemma chatAnswers_app tr1 tr2 :
  chatAnswers (tr1 ++ tr2) = chatAnswers tr1 ++ chatAnswers tr2.
Proof.
  induction tr1 as [|e tr1 IH]; [done|].
  destruct e; simpl; by rewrite ?IH.
Qed.

Lemma invocations_app tr1 tr2 :
  invocations (tr1 ++ tr2) = invocations tr1 ++ invocations tr2.
Proof.
  induction tr1 as [|e tr1 IH]; [done|].
  destruct e as [? ? ? [?|?]| | | | |]; simpl; rewrite ?IH, ?app_assoc; done.
Qed.

Lemma toolRequests_app tr1 tr2 :
  toolRequests (tr1 ++ tr2) = toolRequests tr1 ++ toolRequests tr2.
Proof.
  induction tr1 as [|e tr1 IH]; [done|].
  destruct e; simpl; by rewrite ?IH.
Qed.

Lemma chatAnswers_segment toolCall r :
  chatAnswers (segment lib toolCall r) = [].
Proof.
  destruct r as [c|[m|e]]; simpl; [done| |done].
  by destruct (mcp.CallToolResult.IsError m).
Qed.

Lemma invocations_segment toolCall r :
  invocations (segment lib toolCall r) = [].
Proof.
  destruct r as [c|[m|e]]; simpl; [done| |done].
  by destruct (mcp.CallToolResult.IsError m).
Qed.

Lemma chatAnswers_segments toolCalls rs :
  chatAnswers (concat (zip_with (segment lib) toolCalls rs)) = [].
Proof.
  revert rs. induction toolCalls as [|x l IH]; intros [|r rs]; simpl; try done.
  by rewrite chatAnswers_app, chatAnswers_segment, IH.
Qed.

Lemma invocations_segments toolCalls rs :
  invocations (concat (zip_with (segment lib) toolCalls rs)) = [].
Proof.
  revert rs. induction toolCalls as [|x l IH]; intros [|r rs]; simpl; try done.
  by rewrite invocations_app, invocations_segment, IH.
Qed.

Lemma resolutions_segment toolCall r tr :
  resolutions (segment lib toolCall r ++ tr) = r :: resolutions tr.
Proof.
  destruct r as [c|[m|e]]; simpl; [done| |done].
  by destruct (mcp.CallToolResult.IsError m).
Qed.

Lemma resolutions_segments toolCalls rs tr :
  length rs = length toolCalls ->
  resolutions (concat (zip_with (segment lib) toolCalls rs) ++ tr) =
  rs ++ resolutions tr.
Proof.
  revert rs. induction toolCalls as [|x l IH]; intros [|r rs] Hlen;
    simpl in *; try done.
  rewrite <- app_assoc, resolutions_segment, IH; [done|lia].
Qed.

Lemma toolRequests_segment toolCall r :
  toolRequests (segment lib toolCall r) =
  if isHit r then []
  else [(ai.ToolCall.Name toolCall, ai.ToolCall.Arguments toolCall)].
Proof.
  destruct r as [c|[m|e]]; simpl; [done| |done].
  by destruct (mcp.CallToolResult.IsError m).
Qed.

Lemma length_toolRequests_segments toolCalls rs :
  length rs = length toolCalls ->
  Z.of_nat (length (toolRequests (concat (zip_with (segment lib) toolCalls rs))))
  = countMisses rs.
Proof.
  revert rs. induction toolCalls as [|x l IH]; intros [|r rs] Hlen;
    simpl in *; try done.
  rewrite toolRequests_app, length_app, toolRequests_segment,
    countMisses_cons, Nat2Z.inj_add, IH by lia.
  by destruct (isHit r).
Qed.

(** Only results without the error flag are stored. *)
Lemma cacheSet_segment toolCall r key content isError :
  EvCacheSet key content isError ∈ segment lib toolCall r ->
  isError = false.
Proof.
  intros H.
  destruct r as [c|[m|e]]; simpl in H;
    try destruct (mcp.CallToolResult.IsError m);
    repeat (apply elem_of_cons in H as [H|H]; [congruence|]);
    by apply elem_of_nil in H.
Qed.

Lemma cacheSet_segments toolCalls rs key content isError :
  EvCacheSet key content isError
    ∈ concat (zip_with (segment lib) toolCalls rs) ->
  isError = false.
Proof.
  revert rs. induction toolCalls as [|x l IH]; intros [|r rs]; simpl;
    try (intros H; by apply elem_of_nil in H).
  rewrite elem_of_app. intros [H|H].
  - by eapply cacheSet_segment.
  - by eapply IH.
Qed.

End TraceLemmas.

Section RunProperties.

Context (lib : GoLib) (svc : OrchestrationService).

Lemma iterations_done aiResponse iteration t provider stats :
  models.ChatResponse.Metadata
    (doneChatResponse svc aiResponse iteration t provider stats)
    !! "iterations" = Some (models.MInt iteration).
Proof. reflexivity. Qed.

Lemma iterations_max iteration t provider stats :
  models.ChatResponse.Metadata
    (maxReachedChatResponse svc iteration t provider stats)
    !! "iterations" = Some (models.MInt iteration).
Proof. reflexivity. Qed.

Lemma max_reached_max iteration t provider stats :
  models.ChatResponse.Metadata
    (maxReachedChatResponse svc iteration t provider stats)
    !! "max_reached" = Some (models.MBool true).
Proof. reflexivity. Qed.

(** A response without invocation ends the run, with the number of the
    iteration in the metadata. *)
Lemma run_done_at n iteration prompt hist t res tr :
  LoopRun lib svc n iteration prompt hist t res tr ->
  forall (k : nat) aiResponse,
    chatAnswers tr !! k = Some (Ok aiResponse) ->
    ai.Response.ToolCalls aiResponse = [] ->
    (k < n)%nat /\ length (chatAnswers tr) = S k /\
    exists t' provider stats,
      res = Ok (doneChatResponse svc aiResponse
                  (iteration + Z.of_nat (S k)) t' provider stats).
Proof.
  induction 1 as [it p hs t provider stats
                 |n it p hs t err
                 |n it p hs t a provider stats Hnone
                 |n it p hs t a rs res tr Hsome Hlen calls trs Hrun IH];
    intros k aiResponse Hk Hno.
  - done.
  - destruct k; simpl in Hk; [congruence|done].
  - destruct k; simpl in Hk; [|done].
    injection Hk as <-. split; [lia|]. split; [done|].
    exists t, provider, stats.
    replace (it + Z.of_nat 1) with (it + 1) by lia. reflexivity.
  - simpl in Hk. rewrite chatAnswers_app, chatAnswers_segments in Hk.
    simpl in Hk. destruct k as [|k]; simpl in Hk.
    + injection Hk as <-. done.
    + destruct (IH k aiResponse Hk Hno) as (Hlt & Hl & t' & pr & stt & ->).
      split; [lia|]. simpl.
      rewrite chatAnswers_app, chatAnswers_segments. simpl.
      split; [by rewrite Hl|].
      exists t', pr, stt.
      replace (it + 1 + Z.of_nat (S k)) with (it + Z.of_nat (S (S k))) by lia.
      reflexivity.
Qed.

(** When every response asks for a tool, the run makes all the
    permitted iterations and ends with the advisory message. *)
Lemma run_max_reached n iteration prompt hist t res tr :
  LoopRun lib svc n iteration prompt hist t res tr ->
  Forall (fun a => exists aiResponse,
            a = Ok aiResponse /\ ai.Response.ToolCalls aiResponse <> [])
         (chatAnswers tr) ->
  length (chatAnswers tr) = n /\
  exists t' provider stats,
    res = Ok (maxReachedChatResponse svc (iteration + Z.of_nat n) t'
                provider stats).
Proof.
  induction 1 as [it p hs t provider stats
                 |n it p hs t err
                 |n it p hs t a provider stats Hnone
                 |n it p hs t a rs res tr Hsome Hlen calls trs Hrun IH];
    intros Hall.
  - split; [done|]. exists t, provider, stats.
    replace (it + Z.of_nat 0) with it by lia. reflexivity.
  - simpl in Hall. apply Forall_cons in Hall as [(a & Ha & _) _].
    discriminate.
  - simpl in Hall. apply Forall_cons in Hall as [(a' & Ha & Hne) _].
    injection Ha as <-. done.
  - simpl in Hall. rewrite chatAnswers_app, chatAnswers_segments in Hall.
    simpl in Hall. apply Forall_cons in Hall as [_ Hall'].
    destruct (IH Hall') as (Hl & t' & pr & stt & ->).
    simpl. rewrite chatAnswers_app, chatAnswers_segments. simpl.
    split; [by rewrite Hl|]. exists t', pr, stt.
    replace (it + 1 + Z.of_nat n) with (it + Z.of_nat (S n)) by lia.
    reflexivity.
Qed.

End RunProperties.

(** C1. In every run of [ProcessPrompt], against any provider, client and
    cache: if the response of iteration [N = k + 1] has no invocation,
    then [N <= 5], no further call of the provider is made and the call
    returns, without error, the text of that response with
    ["iterations"] equal to [N]; and if every response has at least one
    invocation, the provider is called exactly 5 times and the call
    returns, without error, the fixed advisory message with
    ["iterations"] equal to 5. *)
Theorem C1_loop_termination_and_ceiling (lib : GoLib)
    (svc : OrchestrationService) {W : Type} (h : Handler W)
    (request : models.ChatRequest.t) (st : W) :
  let run := interp h (ProcessPrompt lib svc request) st in
  (forall (k : nat) (aiResponse : ai.Response.t),
     chatAnswers run.2 !! k = Some (Ok aiResponse) ->
     ai.Response.ToolCalls aiResponse = [] ->
     (S k <= MaxToolIterations)%nat /\
     length (chatAnswers run.2) = S k /\
     exists r, run.1.1 = Ok r /\
       models.ChatResponse.Response r = ai.Response.Content aiResponse /\
       models.ChatResponse.Metadata r !! "iterations"
         = Some (models.MInt (Z.of_nat (S k))))
  /\ (Forall (fun a => exists aiResponse,
                a = Ok aiResponse /\ ai.Response.ToolCalls aiResponse <> [])
             (chatAnswers run.2) ->
      length (chatAnswers run.2) = 5%nat /\
      exists r, run.1.1 = Ok r /\
        models.ChatResponse.Response r = maxIterationsMessage /\
        models.ChatResponse.Metadata r !! "iterations"
          = Some (models.MInt 5) /\
        models.ChatResponse.Metadata r !! "max_reached"
          = Some (models.MBool true)).
Proof.
  intros run. pose proof (ProcessPrompt_run lib svc h request st) as Hrun.
  fold run in Hrun. split.
  - intros k aiResponse Hk Hno.
    destruct (run_done_at _ _ _ _ _ _ _ _ _ Hrun k aiResponse Hk Hno)
      as (Hlt & Hlen & t' & provider & stats & Hres).
    split; [exact Hlt|]. split; [exact Hlen|].
    eexists. split; [exact Hres|]. split; [reflexivity|].
    rewrite iterations_done. do 2 f_equal.
  - intros Hall.
    destruct (run_max_reached _ _ _ _ _ _ _ _ _ Hrun Hall)
      as (Hlen & t' & provider & stats & Hres).
    split; [exact Hlen|].
    eexists. split; [exact Hres|]. split; [reflexivity|].
    split; [apply iterations_max|apply max_reached_max].
Qed.

Section RunResults.

Context (lib : GoLib) (svc : OrchestrationService).

Lemma cache_hits_done aiResponse iteration t provider stats :
  models.ChatResponse.Metadata
    (doneChatResponse svc aiResponse iteration t provider stats)
    !! "cache_hits" = Some (models.MInt (cacheHits t)).
Proof. reflexivity. Qed.

Lemma cache_misses_done aiResponse iteration t provider stats :
  models.ChatResponse.Metadata
    (doneChatResponse svc aiResponse iteration t provider stats)
    !! "cache_misses" = Some (models.MInt (cacheMisses t)).
Proof. reflexivity. Qed.

Lemma cache_hits_max iteration t provider stats :
  models.ChatResponse.Metadata
    (maxReachedChatResponse svc iteration t provider stats)
    !! "cache_hits" = Some (models.MInt (cacheHits t)).
Proof. reflexivity. Qed.

Lemma cache_misses_max iteration t provider stats :
  models.ChatResponse.Metadata
    (maxReachedChatResponse svc iteration t provider stats)
    !! "cache_misses" = Some (models.MInt (cacheMisses t)).
Proof. reflexivity. Qed.

(** The lists and counters of the response, read off the calls of the
    run. *)
Lemma run_results n iteration prompt hist t res tr :
  LoopRun lib svc n iteration prompt hist t res tr ->
  length (resolutions tr) = length (invocations tr) /\
  Z.of_nat (length (toolRequests tr)) = countMisses (resolutions tr) /\
  forall r, res = Ok r ->
    models.ChatResponse.ToolResults r =
      allToolResults t
        ++ zip_with (modelResult lib) (invocations tr) (resolutions tr) /\
    models.ChatResponse.ToolCalls r =
      allToolCalls t
        ++ concat (zip_with callRecord (invocations tr) (resolutions tr)) /\
    models.ChatResponse.Metadata r !! "cache_hits" =
      Some (models.MInt (cacheHits t + countHits (resolutions tr))) /\
    models.ChatResponse.Metadata r !! "cache_misses" =
      Some (models.MInt (cacheMisses t + countMisses (resolutions tr))).
Proof.
  induction 1 as [it p hs t provider stats
                 |n it p hs t err
                 |n it p hs t a provider stats Hnone
                 |n it p hs t a rs res tr Hsome Hlen calls trs Hrun IH].
  - split; [done|]. split; [done|]. intros r [= <-].
    rewrite cache_hits_max, cache_misses_max.
    unfold countHits, countMisses; simpl. by rewrite !app_nil_r, !Z.add_0_r.
  - split; [done|]. split; [done|]. intros r [=].
  - simpl. rewrite Hnone. split; [done|]. split; [done|].
    intros r [= <-].
    rewrite cache_hits_done, cache_misses_done.
    unfold countHits, countMisses; simpl. by rewrite !app_nil_r, !Z.add_0_r.
  - destruct IH as (IHlen & IHreq & IH).
    cbn [invocations resolutions toolRequests].
    rewrite invocations_app, invocations_segments, app_nil_l.
    rewrite resolutions_segments by exact Hlen.
    rewrite toolRequests_app, !length_app, IHlen, Hlen.
    split; [done|].
    rewrite Nat2Z.inj_add, length_toolRequests_segments by exact Hlen.
    rewrite countMisses_app, IHreq. split; [done|].
    intros r Hr. destruct (IH r Hr) as (H1 & H2 & H3 & H4).
    rewrite H1, H2, H3, H4. fold calls. simpl.
    rewrite !zip_with_app by (symmetry; exact Hlen).
    rewrite concat_app, ?countHits_app, ?countMisses_app,
      <- !app_assoc, ?Z.add_assoc.
    done.
Qed.

(** The run fails exactly when a call of the provider fails. *)
Lemma run_error n iteration prompt hist t res tr :
  LoopRun lib svc n iteration prompt hist t res tr ->
  (forall e, res = Err e ->
     exists e', e = "AI provider error: " +:+ e' /\
                last (chatAnswers tr) = Some (Err e')) /\
  (forall e', Err e' ∈ chatAnswers tr ->
     res = Err ("AI provider error: " +:+ e')).
Proof.
  induction 1 as [it p hs t provider stats
                 |n it p hs t err
                 |n it p hs t a provider stats Hnone
                 |n it p hs t a rs res tr Hsome Hlen calls trs Hrun IH].
  - split; [intros e [=]|]. intros e' H. by apply elem_of_nil in H.
  - split.
    + intros e [= <-]. by exists err.
    + intros e' H. simpl in H. apply list_elem_of_singleton in H.
      by injection H as ->.
  - split; [intros e [=]|]. intros e' H. simpl in H.
    apply list_elem_of_singleton in H. discriminate.
  - destruct IH as [IH1 IH2]. simpl.
    rewrite chatAnswers_app, chatAnswers_segments. simpl. split.
    + intros e He. destruct (IH1 e He) as (e' & -> & Hlast).
      exists e'. split; [done|].
      rewrite last_cons, Hlast. done.
    + intros e' H. apply elem_of_cons in H as [[=]|H]. by apply IH2.
Qed.

(** Only results without the error flag are stored by a run. *)
Lemma run_cacheSet n iteration prompt hist t res tr :
  LoopRun lib svc n iteration prompt hist t res tr ->
  forall key content isError,
    EvCacheSet key content isError ∈ tr -> isError = false.
Proof.
  induction 1 as [it p hs t provider stats
                 |n it p hs t err
                 |n it p hs t a provider stats Hnone
                 |n it p hs t a rs res tr Hsome Hlen calls trs Hrun IH];
    intros key content isError Hin.
  - repeat (apply elem_of_cons in Hin as [[=]|Hin]).
    by apply elem_of_nil in Hin.
  - repeat (apply elem_of_cons in Hin as [[=]|Hin]).
    by apply elem_of_nil in Hin.
  - repeat (apply elem_of_cons in Hin as [[=]|Hin]).
    by apply elem_of_nil in Hin.
  - apply elem_of_cons in Hin as [[=]|Hin].
    apply elem_of_app in Hin as [Hin|Hin].
    + by eapply cacheSet_segments.
    + by eapply IH.
Qed.

Lemma run_starts_with_chat n iteration prompt hist t res tr :
  LoopRun lib svc (S n) iteration prompt hist t res tr ->
  exists a tr', tr = EvChat prompt (tools svc) hist a :: tr'.
Proof. inversion 1; subst; eauto. Qed.

Lemma failed_call_in_segment toolCall r name args err :
  EvCallTool name args (Err err) ∈ segment lib toolCall r ->
  r = Miss (Err err) /\ ai.ToolCall.Name toolCall = name /\
  ai.ToolCall.Arguments toolCall = args.
Proof.
  intros H.
  destruct r as [c|[m|e]]; simpl in H;
    try destruct (mcp.CallToolResult.IsError m);
    repeat (apply elem_of_cons in H as [H|H]; [try congruence|]);
    try (by apply elem_of_nil in H).
  by injection H as -> -> ->.
Qed.

(** A failed call of the tool leaves its error result among the
    results of the iteration. *)
Lemma failed_call_in_segments toolCalls rs pre name args err post :
  length rs = length toolCalls ->
  concat (zip_with (segment lib) toolCalls rs)
    = pre ++ EvCallTool name args (Err err) :: post ->
  chatAnswers pre = [] /\ chatAnswers post = [] /\
  exists toolCall,
    ai.ToolCall.Name toolCall = name /\
    ai.ToolCall.Arguments toolCall = args /\
    aiResult lib toolCall (Miss (Err err))
      ∈ zip_with (aiResult lib) toolCalls rs.
Proof.
  intros Hlen Heq.
  pose proof (chatAnswers_segments lib toolCalls rs) as Hc.
  rewrite Heq, chatAnswers_app in Hc. simpl in Hc.
  apply app_eq_nil in Hc as [Hc1 Hc2]. do 2 (split; [done|]).
  assert (Hin : EvCallTool name args (Err err)
                  ∈ concat (zip_with (segment lib) toolCalls rs)).
  { rewrite Heq. apply elem_of_app. right. by apply elem_of_cons; left. }
  clear Heq Hc1 Hc2. revert rs Hlen Hin.
  induction toolCalls as [|x l IH]; intros [|r rs] Hlen Hin;
    simpl in *; try (by apply elem_of_nil in Hin).
  apply elem_of_app in Hin as [Hin|Hin].
  - apply failed_call_in_segment in Hin as (-> & Hn & Ha).
    exists x. repeat split; try done. by apply elem_of_cons; left.
  - destruct (IH rs ltac:(lia) Hin) as (tc & Hn & Ha & Hres).
    exists tc. repeat split; try done. by apply elem_of_cons; right.
Qed.

(** After a failed call of the tool in an iteration that is not the
    last permitted one, the provider is called again, with the tool
    results of the iteration, the error result among them, as the last
    message of the history and as the prompt. *)
Lemma run_continues n iteration prompt hist t res tr :
  LoopRun lib svc n iteration prompt hist t res tr ->
  forall pre name args err post,
    tr = pre ++ EvCallTool name args (Err err) :: post ->
    (length (chatAnswers pre) < n)%nat ->
    exists post1 prompt' hist' answer post2 toolResults toolCall,
      post = post1 ++ EvChat prompt' (tools svc) hist' answer :: post2 /\
      chatAnswers post1 = [] /\
      last hist' = Some (toolResultsMessage toolResults) /\
      prompt' = formatToolResultsForPrompt toolResults /\
      ai.ToolCall.Name toolCall = name /\
      ai.ToolCall.Arguments toolCall = args /\
      aiResult lib toolCall (Miss (Err err)) ∈ toolResults.
Proof.
  induction 1 as [it p hs t provider stats
                 |n it p hs t err0
                 |n it p hs t a provider stats Hnone
                 |n it p hs t a rs res tr Hsome Hlen calls trs Hrun IH];
    intros pre name args err post Heq Hlt.
  - lia.
  - destruct pre as [|? [|? ?]]; simpl in Heq; congruence.
  - destruct pre as [|? [|? [|? [|? ?]]]]; simpl in Heq; congruence.
  - destruct pre as [|e pre]; simpl in Heq; [congruence|].
    injection Heq as <- Heq. simpl in Hlt.
    apply app_eq_inv in Heq as [(k & Hseg & Hk)|(k & -> & Hk)].
    + destruct k as [|e k].
      * (* the failed call is the first call of the rest of the run *)
        simpl in Hk. rewrite app_nil_r in Hseg. subst pre.
        rewrite chatAnswers_segments in Hlt. simpl in Hlt.
        destruct n as [|n]; [lia|].
        apply run_starts_with_chat in Hrun as (a' & tr' & Htr).
        congruence.
      * (* the failed call belongs to this iteration *)
        simpl in Hk. injection Hk as <- ->.
        destruct (failed_call_in_segments calls rs pre name args err k
                    Hlen Hseg) as (Hpre & Hk & tc & Hn & Ha & Hres).
        rewrite Hpre in Hlt. simpl in Hlt.
        destruct n as [|n]; [lia|].
        apply run_starts_with_chat in Hrun as (a' & tr' & ->).
        exists k, (formatToolResultsForPrompt trs),
          ((hs ++ [assistantMessage a]) ++ [toolResultsMessage trs]),
          a', tr', trs, tc.
        split; [done|]. split; [done|].
        split; [apply last_snoc|]. by repeat split.
    + (* the failed call belongs to a later iteration *)
      rewrite chatAnswers_app, chatAnswers_segments in Hlt. simpl in Hlt.
      destruct (IH k name args err post Hk ltac:(lia))
        as (post1 & p' & h' & a' & post2 & trs' & tc & H1 & H2 & H3 & H4
            & H5 & H6 & H7).
      exists post1, p', h', a', post2, trs', tc. done.
Qed.

End RunResults.

(* --------------------------------------------------------------------- *)
(** ** The trace returned to the caller *)
(* --------------------------------------------------------------------- *)

(** C6, at the failing input: the provider produced the invocation
    [list_blueprints], its error result is in [ToolResults], and
    [ToolCalls] is empty: the record of the invocation is missing. *)
Theorem C6_failed_invocation_has_no_call_record :
  invocations failingRun.2 = [listBlueprints]
  /\ exists r,
       failingRun.1.1 = Ok r /\
       models.ChatResponse.ToolCalls r = [] /\
       models.ChatResponse.ToolResults r =
         [ {| models.ToolResult.ToolCallID := "gemini_call_0";
              models.ToolResult.Name := "list_blueprints";
              models.ToolResult.Content :=
                "Error calling tool list_blueprints: connection refused";
              models.ToolResult.IsError := true |} ].
Proof.
  split; [vm_compute; reflexivity|].
  eexists. split; [vm_compute; reflexivity|].
  split; reflexivity.
Qed.

(** In every run, the results returned are those of the invocations, one
    each and in order, and the call records returned are those of the
    invocations in order without the ones whose call of the tool
    returned an error. *)
Lemma ProcessPrompt_trace (lib : GoLib) (svc : OrchestrationService)
    {W : Type} (h : Handler W) (request : models.ChatRequest.t) (st : W) :
  let run := interp h (ProcessPrompt lib svc request) st in
  length (resolutions run.2) = length (invocations run.2) /\
  forall r, run.1.1 = Ok r ->
    models.ChatResponse.ToolResults r =
      zip_with (modelResult lib) (invocations run.2) (resolutions run.2) /\
    models.ChatResponse.ToolCalls r =
      concat (zip_with callRecord (invocations run.2) (resolutions run.2)).
Proof.
  intros run.
  destruct (run_results lib svc _ _ _ _ _ _ _
              (ProcessPrompt_run lib svc h request st))
    as (Hlen & _ & Hres).
  split; [exact Hlen|]. intros r Hr.
  destruct (Hres r Hr) as (H1 & H2 & _). by split.
Qed.

(* --------------------------------------------------------------------- *)
(** ** Failures of the tool endpoint *)
(* --------------------------------------------------------------------- *)

Section LastIteration.

Context (lib : GoLib) (svc : OrchestrationService).

(** A call of the tool that fails in the last permitted iteration is
    followed by no call of the provider: the run ends with the
    advisory response. *)
Lemma run_last_iteration n iteration prompt hist t res tr :
  LoopRun lib svc n iteration prompt hist t res tr ->
  forall pre name args answer post,
    tr = pre ++ EvCallTool name args answer :: post ->
    (n <= length (chatAnswers pre))%nat ->
    length (chatAnswers pre) = n /\ chatAnswers post = [] /\
    exists t' provider stats,
      res = Ok (maxReachedChatResponse svc (iteration + Z.of_nat n) t'
                  provider stats).
Proof.
  induction 1 as [it p hs t provider stats
                 |n it p hs t err0
                 |n it p hs t a provider stats Hnone
                 |n it p hs t a rs res tr Hsome Hlen calls trs Hrun IH];
    intros pre name args answer post Heq Hle.
  - destruct pre as [|? [|? [|? ?]]]; simpl in Heq; congruence.
  - destruct pre as [|? [|? ?]]; simpl in Heq; congruence.
  - destruct pre as [|? [|? [|? [|? ?]]]]; simpl in Heq; congruence.
  - destruct pre as [|e pre]; simpl in Heq; [congruence|].
    injection Heq as <- Heq. simpl in Hle |- *.
    assert (Hsegs : forall pre1 post1,
              concat (zip_with (segment lib) calls rs) = pre1 ++ post1 ->
              chatAnswers pre1 = [] /\ chatAnswers post1 = []).
    { intros pre1 post1 E.
      pose proof (chatAnswers_segments lib calls rs) as Hc.
      rewrite E, chatAnswers_app in Hc. by apply app_eq_nil in Hc. }
    apply app_eq_inv in Heq as [(k & Hseg & Hk)|(k & -> & Hk)].
    + destruct (Hsegs _ _ Hseg) as [Hpre Hk0].
      rewrite Hpre in Hle |- *. simpl in Hle.
      assert (n = 0)%nat as -> by lia.
      inversion Hrun; subst.
      destruct k as [|e k]; simpl in Hk; [congruence|].
      injection Hk as <- ->.
      split; [done|]. rewrite chatAnswers_app. simpl in Hk0.
      split; [by rewrite Hk0|].
      eexists _, _, _. reflexivity.
    + rewrite chatAnswers_app, chatAnswers_segments in Hle |- *.
      simpl in Hle |- *.
      destruct (IH k name args answer post Hk ltac:(lia))
        as (Hl & Hpost & t' & pr & stt & ->).
      split; [by rewrite Hl|]. split; [done|].
      exists t', pr, stt.
      replace (it + 1 + Z.of_nat n) with (it + Z.of_nat (S n)) by lia.
      reflexivity.
Qed.

End LastIteration.

(** C7, the claim as stated fails: when the provider asks for a tool at
    every call and the fifth call of the tool fails in the client, no
    call of the provider follows that failure; the run ends there with
    the advisory response. *)
Lemma C7_no_chat_after_failure_in_last_iteration :
  exists pre post,
    insistingFailingRun.2 =
      pre ++ EvCallTool "list_blueprints" (Some [])
                        (Err "connection refused") :: post
    /\ length (chatAnswers pre) = 5%nat
    /\ chatAnswers post = []
    /\ Forall (fun e => match e with EvChat _ _ _ _ => False | _ => True end)
              post
    /\ exists r, insistingFailingRun.1.1 = Ok r /\
                 models.ChatResponse.Response r = maxIterationsMessage.
Proof.
  exists (take 14 insistingFailingRun.2), (drop 15 insistingFailingRun.2).
  split; [vm_compute; reflexivity|].
  split; [vm_compute; reflexivity|].
  split; [vm_compute; reflexivity|].
  split; [vm_compute; repeat constructor|].
  eexists. split; [vm_compute; reflexivity|reflexivity].
Qed.

(** C7, amended. In every run of [ProcessPrompt], a call of the tool that
    returns an error does not end the run: the result at the position of
    that invocation, in a list with one result per invocation, is the
    error result with the message [Error calling tool <name>: <error>];
    if the failure happens before the fifth iteration, the provider is
    called again with the tool results of the iteration, the error
    result among them, as last message of the history and as prompt; if
    it happens in the fifth iteration, no call of the provider follows
    and the advisory response is returned without error. The run returns
    an error only when its last call of the provider failed. *)
Theorem C7_tool_failure_is_absorbed (lib : GoLib)
    (svc : OrchestrationService) {W : Type} (h : Handler W)
    (request : models.ChatRequest.t) (st : W) :
  let run := interp h (ProcessPrompt lib svc request) st in
  (forall (j : nat) toolCall err r,
     invocations run.2 !! j = Some toolCall ->
     resolutions run.2 !! j = Some (Miss (Err err)) ->
     run.1.1 = Ok r ->
     length (models.ChatResponse.ToolResults r) = length (invocations run.2) /\
     models.ChatResponse.ToolResults r !! j =
       Some {| models.ToolResult.ToolCallID := ai.ToolCall.ID toolCall;
               models.ToolResult.Name := ai.ToolCall.Name toolCall;
               models.ToolResult.Content :=
                 callErrorMessage (ai.ToolCall.Name toolCall) err;
               models.ToolResult.IsError := true |})
  /\ (forall pre name args err post,
        run.2 = pre ++ EvCallTool name args (Err err) :: post ->
        (length (chatAnswers pre) < MaxToolIterations)%nat ->
        exists post1 prompt' hist' answer post2 toolResults id,
          post = post1 ++ EvChat prompt' (tools svc) hist' answer :: post2 /\
          chatAnswers post1 = [] /\
          last hist' = Some (toolResultsMessage toolResults) /\
          prompt' = formatToolResultsForPrompt toolResults /\
          {| ai.ToolResult.ToolCallID := id;
             ai.ToolResult.Content := callErrorMessage name err;
             ai.ToolResult.IsError := true |} ∈ toolResults)
  /\ (forall pre name args err post,
        run.2 = pre ++ EvCallTool name args (Err err) :: post ->
        (MaxToolIterations <= length (chatAnswers pre))%nat ->
        chatAnswers post = [] /\
        exists r, run.1.1 = Ok r /\
                  models.ChatResponse.Response r = maxIterationsMessage)
  /\ (forall e, run.1.1 = Err e ->
        exists e', e = "AI provider error: " +:+ e' /\
                   last (chatAnswers run.2) = Some (Err e')).
Proof.
  intros run. pose proof (ProcessPrompt_run lib svc h request st) as Hrun.
  fold run in Hrun.
  destruct (run_results _ _ _ _ _ _ _ _ _ Hrun) as (Hlen & _ & Hres).
  split; [|split; [|split]].
  - intros j toolCall err r Hj Hrj Hr.
    destruct (Hres r Hr) as (-> & _). simpl.
    rewrite length_zip_with, lookup_zip_with, Hj, Hrj.
    split; [lia|reflexivity].
  - intros pre name args err post Heq Hlt.
    destruct (run_continues _ _ _ _ _ _ _ _ _ Hrun pre name args err post
                Heq Hlt)
      as (post1 & p' & h' & a' & post2 & trs & tc & H1 & H2 & H3 & H4
          & H5 & H6 & H7).
    exists post1, p', h', a', post2, trs, (ai.ToolCall.ID tc).
    repeat split; try done.
    unfold aiResult in H7. simpl in H7. by rewrite H5 in H7.
  - intros pre name args err post Heq Hle.
    destruct (run_last_iteration _ _ _ _ _ _ _ _ _ Hrun pre name args
                (Err err) post Heq Hle)
      as (_ & Hpost & t' & pr & stt & Hmax).
    split; [exact Hpost|].
    eexists. split; [exact Hmax|reflexivity].
  - intros e He. by apply (run_error _ _ _ _ _ _ _ _ _ Hrun).
Qed.

(* --------------------------------------------------------------------- *)
(** ** The cache in the loop *)
(* --------------------------------------------------------------------- *)

Section Unfolding.

Context {W : Type} (h : Handler W) (lib : GoLib)
        (svc : OrchestrationService).

Lemma interp_executeToolCalls_nil toolResults t st :
  interp h (executeToolCalls lib [] toolResults t) st
  = ((toolResults, t), st, []).
Proof. reflexivity. Qed.

Lemma interp_executeToolCalls_cons toolCall rest toolResults t st :
  interp h (executeToolCalls lib (toolCall :: rest) toolResults t) st =
  let '(out, st1, tr1) :=
    interp h (executeToolCall lib toolCall toolResults t) st in
  let '(out2, st2, tr2) :=
    interp h (executeToolCalls lib rest out.1 out.2) st1 in
  (out2, st2, tr1 ++ tr2).
Proof.
  cbn [executeToolCalls]. unfold mbind, Prog_bind. rewrite interp_bind.
  by destruct (interp h (executeToolCall lib toolCall toolResults t) st)
    as [[[trs' t'] st1] tr1].
Qed.

Lemma interp_loop_S n iteration prompt hist t st :
  interp h (loop lib svc (S n) iteration prompt hist t) st =
  match onChat h prompt (tools svc) hist st with
  | (Err err, st1) =>
      (Err ("AI provider error: " +:+ err), st1,
       [EvChat prompt (tools svc) hist (Err err)])
  | (Ok aiResponse, st1) =>
      match ai.Response.ToolCalls aiResponse with
      | [] =>
          let '(provider, st2) := onGetProviderName h st1 in
          let '(stats, st3) := onCacheStats h st2 in
          (Ok (doneChatResponse svc aiResponse (iteration + 1) t
                                provider stats),
           st3,
           [EvChat prompt (tools svc) hist (Ok aiResponse);
            EvGetProviderName provider; EvCacheStats stats])
      | toolCalls =>
          let '(out, st2, tr1) :=
            interp h (executeToolCalls lib toolCalls [] t) st1 in
          let '(res, st3, tr2) :=
            interp h (loop lib svc n (iteration + 1)
                        (formatToolResultsForPrompt out.1)
                        ((hist ++ [assistantMessage aiResponse])
                           ++ [toolResultsMessage out.1])
                        out.2) st2 in
          (res, st3,
           EvChat prompt (tools svc) hist (Ok aiResponse) :: tr1 ++ tr2)
      end
  end.
Proof.
  cbn [loop]. unfold mbind, Prog_bind, chat. cbn [bind interp].
  destruct (onChat h prompt (tools svc) hist st) as [[a|err] st1];
    [|reflexivity].
  destruct (ai.Response.ToolCalls a) as [|tc0 tcs].
  - simpl.
    destruct (onGetProviderName h st1) as [provider st2].
    by destruct (onCacheStats h st2) as [stats st3].
  - rewrite interp_bind.
    destruct (interp h (executeToolCalls lib (tc0 :: tcs) [] t) st1)
      as [[[trs' t'] st2] tr1]. simpl.
    by destruct (interp h (loop lib svc n _ _ _ t') st2)
      as [[res st3] tr2].
Qed.

End Unfolding.

Section CacheInTheLoop.

Context (lib : GoLib) (env : Env).

(** An invocation whose key is present and not expired is resolved
    from the cache: the tool is not called. *)
Lemma world_hit (toolCall : ai.ToolCall.t) toolResults t (w : World)
    (cached : CachedResult) :
  Get (cache w) (envClock env (ticks w))
      (generateCacheKey lib (ai.ToolCall.Name toolCall)
                        (ai.ToolCall.Arguments toolCall)) = Some cached ->
  interp (worldHandler env) (executeToolCall lib toolCall toolResults t) w
  = (resolved lib [toolCall] [Hit cached] toolResults t,
     {| cache := cache w; chats := chats w; toolCalls := toolCalls w;
        ticks := S (ticks w) |},
     segment lib toolCall (Hit cached)).
Proof.
  intros HG. rewrite interp_executeToolCall. simpl. by rewrite HG.
Qed.

(** An invocation whose key is absent or expired calls the tool; a
    result without error flag is stored. *)
Lemma world_miss_stored (toolCall : ai.ToolCall.t) toolResults t (w : World)
    (mcpResult : mcp.CallToolResult.t) :
  let name := ai.ToolCall.Name toolCall in
  let args := ai.ToolCall.Arguments toolCall in
  let key := generateCacheKey lib name args in
  Get (cache w) (envClock env (ticks w)) key = None ->
  envCallTool env (toolCalls w) name args = Ok mcpResult ->
  mcp.CallToolResult.IsError mcpResult = false ->
  interp (worldHandler env) (executeToolCall lib toolCall toolResults t) w
  = (resolved lib [toolCall] [Miss (Ok mcpResult)] toolResults t,
     {| cache := Set_ (cache w) (envClock env (S (ticks w))) key
                      (formatToolResult lib mcpResult) false;
        chats := chats w; toolCalls := S (toolCalls w);
        ticks := S (S (ticks w)) |},
     segment lib toolCall (Miss (Ok mcpResult))).
Proof.
  intros name args key HG HC HE. rewrite interp_executeToolCall. simpl.
  fold name args key. rewrite HG, HC, HE. reflexivity.
Qed.

(** A call that fails leaves the cache as it was. *)
Lemma world_miss_failed (toolCall : ai.ToolCall.t) toolResults t (w : World)
    (answer : result mcp.CallToolResult.t) :
  let name := ai.ToolCall.Name toolCall in
  let args := ai.ToolCall.Arguments toolCall in
  let key := generateCacheKey lib name args in
  Get (cache w) (envClock env (ticks w)) key = None ->
  envCallTool env (toolCalls w) name args = answer ->
  failedAnswer answer ->
  interp (worldHandler env) (executeToolCall lib toolCall toolResults t) w
  = (resolved lib [toolCall] [Miss answer] toolResults t,
     {| cache := cache w; chats := chats w; toolCalls := S (toolCalls w);
        ticks := S (ticks w) |},
     segment lib toolCall (Miss answer)).
Proof.
  intros name args key HG HC HF. rewrite interp_executeToolCall. simpl.
  fold name args key. rewrite HG, HC.
  destruct answer as [m|e]; simpl in HF |- *; [|reflexivity].
  by rewrite HF.
Qed.

(** A lookup that misses keeps missing while nothing is stored. *)
Lemma Get_None_later (c : ResultCache) now now' key :
  now <= now' -> Get c now key = None -> Get c now' key = None.
Proof.
  intros Hle HN. apply Get_None. rewrite Get_None in HN.
  intros (e & Hk & Hfresh). apply HN. exists e. split; [exact Hk|].
  pose proof (Sub_mono_l now now' (Timestamp e) Hle). lia.
Qed.

End CacheInTheLoop.

Section CacheInvariant.

Lemma noErrorEntry_new ttl : noErrorEntry (NewResultCache ttl).
Proof. intros key cached H. simpl in H. by rewrite lookup_empty in H. Qed.

Lemma noErrorEntry_applyOp c op :
  (forall t key content isError,
     op = OpSet t key content isError -> isError = false) ->
  noErrorEntry c -> noErrorEntry (applyOp c op).
Proof.
  intros Hop Hc key cached. destruct op as [now k|now k v e|now]; simpl.
  - apply Hc.
  - rewrite lookup_insert. case_decide.
    + intros [= <-]. simpl. by eapply Hop.
    + apply Hc.
  - rewrite map_lookup_filter_Some. intros [H _]. by eapply Hc.
Qed.

Lemma noErrorEntry_applyOps ops :
  forall c,
    (forall t key content isError,
       OpSet t key content isError ∈ ops -> isError = false) ->
    noErrorEntry c -> noErrorEntry (foldl applyOp c ops).
Proof.
  induction ops as [|op ops IH]; intros c Hops Hc; [exact Hc|].
  simpl. apply IH.
  - intros t key content isError Hin. eapply Hops.
    apply elem_of_cons. right. exact Hin.
  - apply noErrorEntry_applyOp; [|exact Hc].
    intros t key content isError ->. eapply Hops.
    apply elem_of_cons. by left.
Qed.

End CacheInvariant.

(** C2. A run of [ProcessPrompt], against any provider, client and cache,
    calls [Set] only with the error flag unset. Hence after any sequence
    of operations on a new cache (lookups, sweeps, and stores that are
    stores of runs of [ProcessPrompt], in any interleaving and at any
    times) no lookup returns an entry with the error flag. And an
    invocation whose call of the tool failed (in the client, or with the
    error flag) stores nothing: when it occurs again next, the lookup
    misses again and the tool is called again. *)
Theorem C2_error_results_never_cached :
  (forall (lib : GoLib) (svc : OrchestrationService) (W : Type)
          (h : Handler W) (request : models.ChatRequest.t) (st : W)
          (key content : string) (isError : bool),
     EvCacheSet key content isError
       ∈ (interp h (ProcessPrompt lib svc request) st).2 ->
     isError = false)
  /\ (forall (ttl : Duration) (ops : list CacheOp),
        (forall t key content isError,
           OpSet t key content isError ∈ ops ->
           exists (lib : GoLib) (svc : OrchestrationService) (W : Type)
                  (h : Handler W) (request : models.ChatRequest.t) (st : W),
             EvCacheSet key content isError
               ∈ (interp h (ProcessPrompt lib svc request) st).2) ->
        forall now key cached,
          Get (foldl applyOp (NewResultCache ttl) ops) now key = Some cached ->
          IsError cached = false)
  /\ (forall (lib : GoLib) (env : Env) (toolCall : ai.ToolCall.t)
             (toolResults : list ai.ToolResult.t) (t : Totals) (w : World)
             (answer : result mcp.CallToolResult.t),
        envClock env (ticks w) <= envClock env (S (ticks w)) ->
        let run :=
          interp (worldHandler env)
                 (executeToolCalls lib [toolCall; toolCall] toolResults t) w in
        resolutions run.2 !! 0%nat = Some (Miss answer) ->
        failedAnswer answer ->
        exists answer',
          resolutions run.2 !! 1%nat = Some (Miss answer') /\
          toolRequests run.2 =
            [ (ai.ToolCall.Name toolCall, ai.ToolCall.Arguments toolCall);
              (ai.ToolCall.Name toolCall, ai.ToolCall.Arguments toolCall) ]).
Proof.
  assert (Hset : forall lib svc (W : Type) (h : Handler W) request (st : W)
                        key content isError,
             EvCacheSet key content isError
               ∈ (interp h (ProcessPrompt lib svc request) st).2 ->
             isError = false).
  { intros lib svc W h request st key content isError Hin.
    eapply run_cacheSet; [apply (ProcessPrompt_run lib svc h request st)|].
    exact Hin. }
  split; [exact Hset|]. split.
  - intros ttl ops Hops now key cached HG.
    apply Get_Some in HG as [Hk _].
    eapply (noErrorEntry_applyOps ops (NewResultCache ttl));
      [|apply noErrorEntry_new|exact Hk].
    intros t k v e Hin.
    destruct (Hops t k v e Hin) as (lib & svc & W & h & request & st & Hev).
    by eapply Hset.
  - intros lib env toolCall toolResults t w answer Hclock run H0 Hfail.
    subst run.
    rewrite interp_executeToolCalls_cons in H0 |- *.
    destruct (Get (cache w) (envClock env (ticks w))
                (generateCacheKey lib (ai.ToolCall.Name toolCall)
                   (ai.ToolCall.Arguments toolCall))) as [cached|] eqn:HG.
    { rewrite (world_hit lib env toolCall toolResults t w cached HG) in H0.
      rewrite interp_executeToolCalls_cons in H0.
      destruct (interp _ (executeToolCall _ _ _ _) _) as [[o1 s1] t1] in H0.
      rewrite interp_executeToolCalls_nil in H0. cbn [fst snd] in H0.
      rewrite resolutions_segment in H0. simpl in H0. congruence. }
    remember (envCallTool env (toolCalls w) (ai.ToolCall.Name toolCall)
                (ai.ToolCall.Arguments toolCall)) as a0 eqn:Ha0.
    assert (Hdis : failedAnswer a0 \/ exists m, a0 = Ok m /\
                     mcp.CallToolResult.IsError m = false).
    { destruct a0 as [m|e]; simpl; [|by left].
      destruct (mcp.CallToolResult.IsError m) eqn:E; [by left|].
      right. by exists m. }
    destruct Hdis as [Hf0|(m & -> & Hm)].
    + rewrite (world_miss_failed lib env toolCall toolResults t w a0 HG
                 (eq_sym Ha0) Hf0) in H0 |- *.
      rewrite interp_executeToolCalls_cons.
      set (w1 := {| cache := cache w; chats := chats w;
                    toolCalls := S (toolCalls w); ticks := S (ticks w) |}).
      assert (HG1 : Get (cache w1) (envClock env (ticks w1))
                      (generateCacheKey lib (ai.ToolCall.Name toolCall)
                         (ai.ToolCall.Arguments toolCall)) = None).
      { simpl. eapply Get_None_later; [exact Hclock|exact HG]. }
      rewrite interp_executeToolCall. simpl onCacheGet. cbv beta.
      simpl in HG1. rewrite HG1. simpl onCallTool.
      destruct (envCallTool env (S (toolCalls w)) _ _) as [m1|e1];
        cbv beta iota; rewrite interp_executeToolCalls_nil; cbn [fst snd];
        rewrite !resolutions_segment, !toolRequests_app,
          !toolRequests_segment; simpl; eexists; split; reflexivity.
    + rewrite (world_miss_stored lib env toolCall toolResults t w m HG
                 (eq_sym Ha0) Hm) in H0.
      rewrite interp_executeToolCalls_cons in H0.
      destruct (interp _ (executeToolCall _ _ _ _) _) as [[o1 s1] t1] in H0.
      rewrite interp_executeToolCalls_nil in H0.
      cbn [fst snd] in H0. rewrite resolutions_segment in H0. simpl in H0.
      injection H0 as <-. simpl in Hfail. congruence.
Qed.

Section ScenarioB.

Context (lib : GoLib) (svc : OrchestrationService) (env : Env).

(** The run of a request whose first response asks for one invocation
    and whose second response asks for none, the invocation being
    resolved as [r]. *)
Lemma world_two_iterations (request : models.ChatRequest.t) (w w1 : World)
    (toolCall : ai.ToolCall.t) (r : Resolution)
    (first second : ai.Response.t) :
  (forall p ts hs, envChat env (chats w) p ts hs = Ok first) ->
  (forall p ts hs, envChat env (S (chats w)) p ts hs = Ok second) ->
  ai.Response.ToolCalls first = [toolCall] ->
  ai.Response.ToolCalls second = [] ->
  let t0 := {| allToolCalls := []; allToolResults := [];
               cacheHits := 0; cacheMisses := 0 |} in
  chats w1 = chats w ->
  interp (worldHandler env) (executeToolCall lib toolCall [] t0)
         {| cache := cache w; chats := S (chats w);
            toolCalls := toolCalls w; ticks := ticks w |}
  = (resolved lib [toolCall] [r] [] t0,
     {| cache := cache w1; chats := S (chats w1);
        toolCalls := toolCalls w1; ticks := ticks w1 |},
     segment lib toolCall r) ->
  let run := interp (worldHandler env) (ProcessPrompt lib svc request) w in
  run.1.1 = Ok (doneChatResponse svc second 2
                  (resolved lib [toolCall] [r] [] t0).2
                  (envProviderName env) (Stats (cache w1)))
  /\ run.1.2 = {| cache := cache w1; chats := S (S (chats w1));
                  toolCalls := toolCalls w1; ticks := ticks w1 |}
  /\ toolRequests run.2 = toolRequests (segment lib toolCall r).
Proof.
  intros H1 H2 Hc1 Hc2 t0 Hchats Hexec run. subst run.
  unfold ProcessPrompt, MaxToolIterations.
  rewrite interp_loop_S. simpl onChat. rewrite H1, Hc1.
  rewrite interp_executeToolCalls_cons. fold t0. rewrite Hexec.
  rewrite interp_executeToolCalls_nil. cbn [fst snd].
  rewrite interp_loop_S. simpl onChat. rewrite Hchats, H2, Hc2.
  simpl. rewrite toolRequests_app. simpl. rewrite !app_nil_r.
  repeat split.
Qed.

End ScenarioB.

(** C5. An invocation whose key is present and not expired in the cache
    of the process is resolved from the cache: the tool is not called
    and [cacheHits] is incremented; an invocation whose key is absent or
    expired increments [cacheMisses] and calls the tool. In every run
    the counters of the response are the numbers of lookups that hit and
    that missed, and the tool is called once per miss. Hence, when a
    request whose invocation missed and whose call returned a result
    without error flag is followed within the ttl by a request with the
    same tool name and arguments, the second run reports
    [cache_hits: 1], [cache_misses: 0] and does not call the tool. *)
Theorem C5_cache_hit_skips_the_tool (lib : GoLib) :
  (forall (env : Env) (toolCall : ai.ToolCall.t)
          (toolResults : list ai.ToolResult.t) (t : Totals) (w : World),
     let name := ai.ToolCall.Name toolCall in
     let args := ai.ToolCall.Arguments toolCall in
     let key := generateCacheKey lib name args in
     let run :=
       interp (worldHandler env) (executeToolCall lib toolCall toolResults t)
              w in
     (forall cached,
        Get (cache w) (envClock env (ticks w)) key = Some cached ->
        run.2 = [EvCacheGet key (Some cached)] /\
        toolCalls run.1.2 = toolCalls w /\
        cacheHits run.1.1.2 = cacheHits t + 1 /\
        cacheMisses run.1.1.2 = cacheMisses t /\
        run.1.1.1 = toolResults ++
          [ {| ai.ToolResult.ToolCallID := ai.ToolCall.ID toolCall;
               ai.ToolResult.Content := Content cached;
               ai.ToolResult.IsError := IsError cached |} ])
     /\ (Get (cache w) (envClock env (ticks w)) key = None ->
         (exists rest,
            run.2 = EvCacheGet key None
                    :: EvCallTool name args
                         (envCallTool env (toolCalls w) name args)
                    :: rest) /\
         toolCalls run.1.2 = S (toolCalls w) /\
         cacheHits run.1.1.2 = cacheHits t /\
         cacheMisses run.1.1.2 = cacheMisses t + 1))
  /\ (forall (svc : OrchestrationService) (W : Type) (h : Handler W)
             (request : models.ChatRequest.t) (st : W)
             (r : models.ChatResponse.t),
        let run := interp h (ProcessPrompt lib svc request) st in
        run.1.1 = Ok r ->
        models.ChatResponse.Metadata r !! "cache_hits"
          = Some (models.MInt (countHits (resolutions run.2))) /\
        models.ChatResponse.Metadata r !! "cache_misses"
          = Some (models.MInt (countMisses (resolutions run.2))) /\
        Z.of_nat (length (toolRequests run.2))
          = countMisses (resolutions run.2))
  /\ (forall (svc : OrchestrationService) (env : Env) (w : World)
             (toolCall : ai.ToolCall.t) (mcpResult : mcp.CallToolResult.t)
             (first second third fourth : ai.Response.t)
             (request request' : models.ChatRequest.t),
        let name := ai.ToolCall.Name toolCall in
        let args := ai.ToolCall.Arguments toolCall in
        let key := generateCacheKey lib name args in
        (forall p ts hs, envChat env (chats w) p ts hs = Ok first) ->
        (forall p ts hs, envChat env (1 + chats w) p ts hs = Ok second) ->
        (forall p ts hs, envChat env (2 + chats w) p ts hs = Ok third) ->
        (forall p ts hs, envChat env (3 + chats w) p ts hs = Ok fourth) ->
        ai.Response.ToolCalls first = [toolCall] ->
        ai.Response.ToolCalls second = [] ->
        ai.Response.ToolCalls third = [toolCall] ->
        ai.Response.ToolCalls fourth = [] ->
        Get (cache w) (envClock env (ticks w)) key = None ->
        envCallTool env (toolCalls w) name args = Ok mcpResult ->
        mcp.CallToolResult.IsError mcpResult = false ->
        Sub (envClock env (2 + ticks w)) (envClock env (1 + ticks w))
          <= ttl (cache w) ->
        let run := interp (worldHandler env) (ProcessPrompt lib svc request) w in
        let run' :=
          interp (worldHandler env) (ProcessPrompt lib svc request') run.1.2 in
        exists r r',
          run.1.1 = Ok r /\ run'.1.1 = Ok r' /\
          models.ChatResponse.Metadata r !! "cache_hits"
            = Some (models.MInt 0) /\
          models.ChatResponse.Metadata r !! "cache_misses"
            = Some (models.MInt 1) /\
          toolRequests run.2 = [(name, args)] /\
          models.ChatResponse.Metadata r' !! "cache_hits"
            = Some (models.MInt 1) /\
          models.ChatResponse.Metadata r' !! "cache_misses"
            = Some (models.MInt 0) /\
          toolRequests run'.2 = [] /\
          toolCalls run'.1.2 = toolCalls run.1.2 /\
          models.ChatResponse.ToolResults r' =
            [ {| models.ToolResult.ToolCallID := ai.ToolCall.ID toolCall;
                 models.ToolResult.Name := name;
                 models.ToolResult.Content := formatToolResult lib mcpResult;
                 models.ToolResult.IsError := false |} ]).
Proof.
  split; [|split].
  - intros env toolCall toolResults t w name args key run. split.
    + intros cached HG. subst run.
      rewrite (world_hit lib env toolCall toolResults t w cached HG).
      unfold resolved, countHits, countMisses, aiResult; simpl.
      repeat split; lia.
    + intros HG. subst run.
      rewrite interp_executeToolCall. fold name args key.
      simpl onCacheGet. cbv beta. rewrite HG. simpl onCallTool.
      destruct (envCallTool env (toolCalls w) name args) as [m|e];
        cbv beta iota; unfold resolved, countHits, countMisses; simpl;
        (split; [eexists; reflexivity|]).
      * destruct (mcp.CallToolResult.IsError m); simpl; repeat split; lia.
      * repeat split; lia.
  - intros svc W h request st r run Hr.
    destruct (run_results lib svc _ _ _ _ _ _ _
                (ProcessPrompt_run lib svc h request st))
      as (_ & Hreq & Hres).
    destruct (Hres r Hr) as (_ & _ & H3 & H4).
    split; [exact H3|]. split; [exact H4|exact Hreq].
  - intros svc env w toolCall mcpResult first second third fourth
      request request' name args key H1 H2 H3 H4 Hc1 Hc2 Hc3 Hc4
      HG HC HE Httl run run'.
    set (t0 := {| allToolCalls := []; allToolResults := [];
                  cacheHits := 0; cacheMisses := 0 |}).
    set (c1 := Set_ (cache w) (envClock env (S (ticks w))) key
                    (formatToolResult lib mcpResult) false).
    set (w1 := {| cache := c1; chats := chats w;
                  toolCalls := S (toolCalls w); ticks := S (S (ticks w)) |}).
    destruct (world_two_iterations lib svc env request w w1 toolCall
                (Miss (Ok mcpResult)) first second H1 H2 Hc1 Hc2 eq_refl)
      as (Hr & Hw & Hreq).
    { apply (world_miss_stored lib env toolCall [] t0
               {| cache := cache w; chats := S (chats w);
                  toolCalls := toolCalls w; ticks := ticks w |} mcpResult);
        assumption. }
    fold run in Hr, Hw, Hreq.
    set (cached := {| Content := formatToolResult lib mcpResult;
                      Timestamp := envClock env (S (ticks w));
                      IsError := false |}).
    assert (HG' : Get c1 (envClock env (S (S (ticks w)))) key = Some cached).
    { unfold c1. rewrite Get_Set_same.
      destruct (ttl (cache w) <? _) eqn:E; [|reflexivity].
      apply Z.ltb_lt in E. simpl in Httl. lia. }
    set (w2 := {| cache := c1; chats := S (S (chats w));
                  toolCalls := S (toolCalls w);
                  ticks := S (S (S (ticks w))) |}).
    destruct (world_two_iterations lib svc env request' run.1.2 w2 toolCall
                (Hit cached) third fourth) as (Hr' & Hw' & Hreq').
    { rewrite Hw. simpl. apply H3. }
    { rewrite Hw. simpl. apply H4. }
    { exact Hc3. }
    { exact Hc4. }
    { by rewrite Hw. }
    { rewrite Hw. simpl.
      apply (world_hit lib env toolCall [] t0
               {| cache := c1; chats := S (S (S (chats w)));
                  toolCalls := S (toolCalls w);
                  ticks := S (S (ticks w)) |} cached).
      exact HG'. }
    fold run' in Hr', Hw', Hreq'.
    eexists _, _. split; [exact Hr|]. split; [exact Hr'|].
    rewrite !cache_hits_done, !cache_misses_done, Hreq, Hreq', Hw, Hw'.
    rewrite !toolRequests_segment. simpl.
    unfold countHits, countMisses. simpl. rewrite ?HE.
    repeat split.
Qed.

(* --------------------------------------------------------------------- *)
(** ** The properties on the examples *)
(* --------------------------------------------------------------------- *)

Example Sum256_abc :
  hex (SHA256.Sum256 "abc")
  = "ba7816bf8f01cfea414140de5dae2223b00361a396177a9cb410ff61f20015ad".
Proof. vm_compute. reflexivity. Qed.

Example generateCacheKey_list_blueprints :
  generateCacheKey plainLib "list_blueprints" (Some [])
  = "list_blueprints:540a4b5a53f9977b".
Proof. vm_compute. reflexivity. Qed.

(** C3 on a cache of the production ttl: an entry stored at second 10 is
    returned at second 11 and refused at minute 11, swept or not. *)
Lemma C3_get_respects_ttl_witness :
  let c := Set_ (NewResultCache CacheTTL) (10 * Second) "k" "v" false in
  Get c (11 * Second) "k"
    = Some {| Content := "v"; Timestamp := 10 * Second; IsError := false |}
  /\ Get (cleanupExpired c (10 * Minute)) (11 * Minute) "k"
     = Get c (11 * Minute) "k"
  /\ Get c (11 * Minute) "k" = None.
Proof.
  intros c.
  pose proof (C3_get_respects_ttl (NewResultCache CacheTTL) (11 * Second) "k")
    as (_ & _ & _ & Hfresh & _ & _).
  pose proof (C3_get_respects_ttl c (11 * Minute) "k")
    as (_ & _ & Hsweep & _ & _ & _).
  pose proof (C3_get_respects_ttl (NewResultCache CacheTTL) (11 * Minute) "k")
    as (_ & _ & _ & _ & _ & Hstale).
  split; [apply Hfresh; vm_compute; discriminate|].
  split; [apply Hsweep; vm_compute; discriminate|].
  apply Hstale. vm_compute. reflexivity.
Defined.

(** C1 on scenario A (two iterations) and on a provider that asks for a
    tool at every call (five iterations). *)
Lemma C1_loop_termination_and_ceiling_witness :
  (exists r, scenarioARun.1.1 = Ok r /\
     models.ChatResponse.Response r = "No blueprints found" /\
     models.ChatResponse.Metadata r !! "iterations" = Some (models.MInt 2))
  /\ (exists r, insistingRun.1.1 = Ok r /\
        models.ChatResponse.Response r = maxIterationsMessage /\
        models.ChatResponse.Metadata r !! "iterations"
          = Some (models.MInt 5)).
Proof.
  pose proof (C1_loop_termination_and_ceiling plainLib exampleService
                (worldHandler (alternatingEnv (Ok emptyList)))
                exampleRequest freshWorld) as [Hdone _].
  pose proof (C1_loop_termination_and_ceiling plainLib exampleService
                (worldHandler (insistingEnv (Ok emptyList)))
                exampleRequest freshWorld) as [_ Hmax].
  split.
  - destruct (Hdone 1%nat (sayText "No blueprints found"))
      as (_ & _ & r & Hr & Htext & Hit);
      [vm_compute; reflexivity|reflexivity|].
    exists r. split; [exact Hr|]. split; [exact Htext|exact Hit].
  - destruct Hmax as (_ & r & Hr & Htext & Hit & _).
    { vm_compute. repeat constructor; eexists; split;
        try reflexivity; discriminate. }
    exists r. split; [exact Hr|]. split; [exact Htext|exact Hit].
Defined.

(** C2 on the store made by scenario A followed by a sweep, and on an
    invocation repeated after its call failed. *)
Lemma C2_error_results_never_cached_witness :
  (forall now cached,
     Get (foldl applyOp (NewResultCache CacheTTL)
            [ OpGet 0 "list_blueprints:540a4b5a53f9977b";
              OpSet Second "list_blueprints:540a4b5a53f9977b" "[]" false;
              OpSweep Minute ])
         now "list_blueprints:540a4b5a53f9977b" = Some cached ->
     IsError cached = false)
  /\ exists answer',
       resolutions
         (interp (worldHandler (alternatingEnv (Err "connection refused")))
                 (executeToolCalls plainLib [listBlueprints; listBlueprints]
                    [] {| allToolCalls := []; allToolResults := [];
                          cacheHits := 0; cacheMisses := 0 |})
                 freshWorld).2 !! 1%nat = Some (Miss answer').
Proof.
  destruct C2_error_results_never_cached as (_ & Hget & Hretry). split.
  - intros now cached. apply Hget.
    intros t key content isError Hin.
    exists plainLib, exampleService, World,
      (worldHandler (alternatingEnv (Ok emptyList))), exampleRequest,
      freshWorld.
    repeat (apply elem_of_cons in Hin as [Hin|Hin]; [try discriminate|]).
    + injection Hin as -> -> -> ->. vm_compute.
      do 3 (apply elem_of_cons; right). apply elem_of_cons. by left.
    + by apply elem_of_nil in Hin.
  - destruct (Hretry plainLib (alternatingEnv (Err "connection refused"))
                listBlueprints []
                {| allToolCalls := []; allToolResults := [];
                   cacheHits := 0; cacheMisses := 0 |}
                freshWorld (Err "connection refused"))
      as (answer' & Hres & _);
      [vm_compute; discriminate|vm_compute; reflexivity|exact I|].
    exists answer'. exact Hres.
Defined.

(** C5 on scenario A followed by scenario B: the same request again,
    two seconds later. *)
Lemma C5_cache_hit_skips_the_tool_witness :
  let run := scenarioARun in
  let run' :=
    interp (worldHandler (alternatingEnv (Ok emptyList)))
           (ProcessPrompt plainLib exampleService exampleRequest) run.1.2 in
  exists r r',
    run.1.1 = Ok r /\ run'.1.1 = Ok r' /\
    models.ChatResponse.Metadata r !! "cache_misses" = Some (models.MInt 1) /\
    models.ChatResponse.Metadata r' !! "cache_hits" = Some (models.MInt 1) /\
    models.ChatResponse.Metadata r' !! "cache_misses" = Some (models.MInt 0) /\
    toolRequests run'.2 = [].
Proof.
  intros run run'.
  destruct (C5_cache_hit_skips_the_tool plainLib) as (_ & _ & Hscenario).
  destruct (Hscenario exampleService (alternatingEnv (Ok emptyList))
              freshWorld listBlueprints emptyList
              (askTools [listBlueprints]) (sayText "No blueprints found")
              (askTools [listBlueprints]) (sayText "No blueprints found")
              exampleRequest exampleRequest)
    as (r & r' & Hr & Hr' & _ & Hm & _ & Hh' & Hm' & Hreq' & _);
    try reflexivity.
  - vm_compute. discriminate.
  - exists r, r'. repeat split; assumption.
Defined.

(** C7 on scenario C: the call of the tool fails in the first
    iteration, the error result is returned and the provider is called
    again. *)
Lemma C7_tool_failure_is_absorbed_witness :
  (exists r, failingRun.1.1 = Ok r /\
     models.ChatResponse.ToolResults r !! 0%nat =
       Some {| models.ToolResult.ToolCallID := "gemini_call_0";
               models.ToolResult.Name := "list_blueprints";
               models.ToolResult.Content :=
                 "Error calling tool list_blueprints: connection refused";
               models.ToolResult.IsError := true |})
  /\ exists post1 prompt' hist' answer post2,
       drop 3 failingRun.2
         = post1 ++ EvChat prompt' (tools exampleService) hist' answer :: post2.
Proof.
  pose proof (C7_tool_failure_is_absorbed plainLib exampleService
                (worldHandler (alternatingEnv (Err "connection refused")))
                exampleRequest freshWorld) as (Hres & Hnext & _ & _).
  split.
  - assert (Hr : exists r, failingRun.1.1 = Ok r)
      by (eexists; vm_compute; reflexivity).
    destruct Hr as [r Hr]. exists r. split; [exact Hr|].
    destruct (Hres 0%nat listBlueprints "connection refused" r)
      as [_ Hj]; [vm_compute; reflexivity..|exact Hr|exact Hj].
  - destruct (Hnext (take 2 failingRun.2) "list_blueprints" (Some [])
                "connection refused" (drop 3 failingRun.2))
      as (post1 & p' & h' & a' & post2 & trs & id & Hpost & _);
      [vm_compute; reflexivity|vm_compute; lia|].
    exists post1, p', h', a', post2. exact Hpost.
Defined.


(* --------------------------------------------------------------------- *)
(** ** The protocol client *)
(* --------------------------------------------------------------------- *)

Ltac client_fields :=
  cbn [stdio.setCaller stdio.callers stdio.initialized stdio.tools
       stdio.muLocked stdio.requestID stdio.pendingCalls stdio.chans
       stdio.stdin stdio.stdinError stdio.stdout stdio.stdoutClosed
       stdio.reader].

Ltac client_caller :=
  client_fields; apply list_lookup_insert_eq; rewrite ?length_insert;
  assumption.

Section ClientSends.

Context {InitializeResult ToolCallResult : Type}.
Context (marshalRequest : stdio.JSONRPCRequest.t -> result string)
        (unmarshalResponse : string -> result stdio.JSONRPCResponse.t)
        (marshalValue : Value -> result string)
        (unmarshalInitializeResult : string -> result InitializeResult)
        (unmarshalToolCallResult : string -> result ToolCallResult).

Lemma run_app {R} (c : stdio.Client R) (s1 s2 : list (stdio.Action R)) :
  stdio.run unmarshalResponse c (s1 ++ s2) =
  match stdio.run unmarshalResponse c s1 with
  | Some c1 => stdio.run unmarshalResponse c1 s2
  | None => None
  end.
Proof.
  revert c. induction s1 as [|a s1 IH]; intros c; [reflexivity|].
  simpl. destruct (stdio.step unmarshalResponse c a); [apply IH|reflexivity].
Qed.

Lemma lookup_setCaller {R} (c : stdio.Client R) (i : nat) (p : stdio.Prog R) :
  (i < length (stdio.callers c))%nat ->
  stdio.callers (stdio.setCaller c i p) !! i = Some p.
Proof. intros Hlt. by apply list_lookup_insert_eq. Qed.

Lemma stepCaller_GetInitialized {R} (c : stdio.Client R) (i : nat) k :
  stdio.callers c !! i = Some (stdio.GetInitialized k) ->
  stdio.stepCaller c i =
  Some (stdio.setCaller c i (k (stdio.initialized c))).
Proof. intros H. unfold stdio.stepCaller. by rewrite H. Qed.

Lemma stepCaller_NextRequestID {R} (c : stdio.Client R) (i : nat) k :
  stdio.callers c !! i = Some (stdio.NextRequestID k) ->
  stdio.stepCaller c i =
  Some (stdio.setCaller
          {| stdio.initialized := stdio.initialized c;
             stdio.tools := stdio.tools c;
             stdio.muLocked := stdio.muLocked c;
             stdio.requestID := stdio.requestID c + 1;
             stdio.pendingCalls := stdio.pendingCalls c;
             stdio.chans := stdio.chans c;
             stdio.stdin := stdio.stdin c;
             stdio.stdinError := stdio.stdinError c;
             stdio.stdout := stdio.stdout c;
             stdio.stdoutClosed := stdio.stdoutClosed c;
             stdio.reader := stdio.reader c;
             stdio.callers := stdio.callers c |}
          i (k (stdio.requestID c + 1))).
Proof. intros H. unfold stdio.stepCaller. by rewrite H. Qed.

Lemma stepCaller_MakeChan {R} (c : stdio.Client R) (i : nat) k :
  stdio.callers c !! i = Some (stdio.MakeChan k) ->
  stdio.stepCaller c i =
  Some (stdio.setCaller
          {| stdio.initialized := stdio.initialized c;
             stdio.tools := stdio.tools c;
             stdio.muLocked := stdio.muLocked c;
             stdio.requestID := stdio.requestID c;
             stdio.pendingCalls := stdio.pendingCalls c;
             stdio.chans := stdio.chans c ++ [None];
             stdio.stdin := stdio.stdin c;
             stdio.stdinError := stdio.stdinError c;
             stdio.stdout := stdio.stdout c;
             stdio.stdoutClosed := stdio.stdoutClosed c;
             stdio.reader := stdio.reader c;
             stdio.callers := stdio.callers c |}
          i (k (length (stdio.chans c)))).
Proof. intros H. unfold stdio.stepCaller. by rewrite H. Qed.

Lemma stepCaller_PutPending {R} (c : stdio.Client R) (i : nat) id ch k :
  stdio.callers c !! i = Some (stdio.PutPending id ch k) ->
  stdio.stepCaller c i =
  Some (stdio.setCaller
          {| stdio.initialized := stdio.initialized c;
             stdio.tools := stdio.tools c;
             stdio.muLocked := stdio.muLocked c;
             stdio.requestID := stdio.requestID c;
             stdio.pendingCalls := <[id := ch]> (stdio.pendingCalls c);
             stdio.chans := stdio.chans c;
             stdio.stdin := stdio.stdin c;
             stdio.stdinError := stdio.stdinError c;
             stdio.stdout := stdio.stdout c;
             stdio.stdoutClosed := stdio.stdoutClosed c;
             stdio.reader := stdio.reader c;
             stdio.callers := stdio.callers c |}
          i k).
Proof. intros H. unfold stdio.stepCaller. by rewrite H. Qed.

Lemma stepCaller_Write {R} (c : stdio.Client R) (i : nat) line k :
  stdio.callers c !! i = Some (stdio.Write line k) ->
  stdio.stdinError c = None ->
  stdio.stepCaller c i =
  Some (stdio.setCaller
          {| stdio.initialized := stdio.initialized c;
             stdio.tools := stdio.tools c;
             stdio.muLocked := stdio.muLocked c;
             stdio.requestID := stdio.requestID c;
             stdio.pendingCalls := stdio.pendingCalls c;
             stdio.chans := stdio.chans c;
             stdio.stdin := stdio.stdin c ++ [line];
             stdio.stdinError := stdio.stdinError c;
             stdio.stdout := stdio.stdout c;
             stdio.stdoutClosed := stdio.stdoutClosed c;
             stdio.reader := stdio.reader c;
             stdio.callers := stdio.callers c |}
          i (k None)).
Proof. intros H He. unfold stdio.stepCaller. by rewrite H, He. Qed.

(** The first five operations of [CallTool] on an initialized client:
    it takes the next request id, makes its channel, registers the
    pending call, writes the request and waits on the channel. The
    catalog is not read. *)
Lemma CallTool_sends (c : stdio.Client (result ToolCallResult)) (i : nat)
    (name : string) (args : Args) (line : string) :
  stdio.callers c !! i =
    Some (stdio.CallTool marshalRequest marshalValue
            unmarshalInitializeResult unmarshalToolCallResult name args) ->
  stdio.initialized c = true ->
  stdio.stdinError c = None ->
  marshalRequest
    {| stdio.JSONRPCRequest.JSONRPC := "2.0";
       stdio.JSONRPCRequest.ID := Some (stdio.requestID c + 1);
       stdio.JSONRPCRequest.Method := "tools/call";
       stdio.JSONRPCRequest.Params := stdio.ToolCallParams name args |}
    = Ok line ->
  exists k,
    stdio.run unmarshalResponse c (replicate 5 (stdio.Caller i)) =
    Some {| stdio.initialized := true;
            stdio.tools := stdio.tools c;
            stdio.muLocked := stdio.muLocked c;
            stdio.requestID := stdio.requestID c + 1;
            stdio.pendingCalls :=
              <[stdio.requestID c + 1 := length (stdio.chans c)]>
                (stdio.pendingCalls c);
            stdio.chans := stdio.chans c ++ [None];
            stdio.stdin := stdio.stdin c ++ [line +:+ stdio.newline];
            stdio.stdinError := None;
            stdio.stdout := stdio.stdout c;
            stdio.stdoutClosed := stdio.stdoutClosed c;
            stdio.reader := stdio.reader c;
            stdio.callers :=
              <[i := stdio.Recv (length (stdio.chans c)) k]>
                (stdio.callers c) |}.
Proof.
  intros Hi Hinit Herr Hline.
  assert (Hlt : (i < length (stdio.callers c))%nat)
    by (by eapply lookup_lt_Some).
  unfold stdio.CallTool, stdio.call, mbind, stdio.Prog_bind, mret,
    stdio.Prog_ret in Hi. cbn [stdio.bind] in Hi.
  cbn [replicate stdio.run stdio.step].
  erewrite stepCaller_GetInitialized by exact Hi.
  rewrite Hinit. cbn [stdio.bind].
  erewrite stepCaller_NextRequestID by (by apply lookup_setCaller).
  cbv beta. client_fields.
  erewrite stepCaller_MakeChan by client_caller.
  cbv beta. client_fields.
  erewrite stepCaller_PutPending by client_caller.
  cbv beta. client_fields.
  rewrite Hline. cbn [stdio.bind].
  erewrite stepCaller_Write; [|client_caller|exact Herr].
  cbn [stdio.bind]. eexists. unfold stdio.setCaller. client_fields.
  rewrite !list_insert_insert_eq, Hinit, Herr. reflexivity.
Qed.

End ClientSends.

Section WaitingCaller.

Context (unmarshalResponse : string -> result stdio.JSONRPCResponse.t).
Context {R : Type}.


(** An operation of another caller leaves a waiting caller, its empty
    channel and the reader as they are. *)
Lemma stepCaller_other (c c' : stdio.Client R) (i j ch : nat) :
  stdio.stepCaller c j = Some c' -> i <> j ->
  stdio.chans c !! ch = Some None ->
  stdio.reader c' = stdio.reader c /\
  stdio.callers c' !! i = stdio.callers c !! i /\
  stdio.chans c' !! ch = Some None.
Proof.
  intros Hstep Hij Hch. unfold stdio.stepCaller in Hstep.
  destruct (stdio.callers c !! j) as [p|]; [|discriminate].
  destruct p; repeat case_match; try discriminate;
    injection Hstep as <-; simpl;
    (split; [reflexivity|]);
    (split; [by apply list_lookup_insert_ne|]); try exact Hch.
  - apply lookup_app_l_Some. exact Hch.
  - destruct (decide (ch = ch0)) as [->|Hne].
    + apply list_lookup_insert_eq. by eapply lookup_lt_Some.
    + by rewrite list_lookup_insert_ne.
Qed.

(** Once [readResponses] has returned, a caller that waits on an empty
    channel waits whatever happens next. *)
Lemma waits_forever (sched : list (stdio.Action R)) :
  forall (c c' : stdio.Client R) (i ch : nat) k,
    stdio.reader c = stdio.Returned ->
    stdio.callers c !! i = Some (stdio.Recv ch k) ->
    stdio.chans c !! ch = Some None ->
    stdio.run unmarshalResponse c sched = Some c' ->
    stdio.reader c' = stdio.Returned /\
    stdio.callers c' !! i = Some (stdio.Recv ch k) /\
    stdio.chans c' !! ch = Some None.
Proof.
  induction sched as [|a sched IH]; intros c c' i ch k Hr Hi Hch Hrun.
  - injection Hrun as <-. done.
  - simpl in Hrun.
    destruct (stdio.step unmarshalResponse c a) as [c1|] eqn:Hstep;
      [|discriminate].
    apply (IH c1 c' i ch k); [| | |exact Hrun];
      destruct a as [p|j| |line| |err]; simpl in Hstep.
    + by injection Hstep as <-.
    + destruct (decide (i = j)) as [<-|Hij].
      * unfold stdio.stepCaller in Hstep. by rewrite Hi, Hch in Hstep.
      * destruct (stepCaller_other c c1 i j ch Hstep Hij Hch) as (-> & _).
        exact Hr.
    + unfold stdio.readResponses in Hstep. by rewrite Hr in Hstep.
    + destruct (stdio.stdoutClosed c); [discriminate|].
      by injection Hstep as <-.
    + by injection Hstep as <-.
    + by injection Hstep as <-.
    + injection Hstep as <-. simpl. by apply lookup_app_l_Some.
    + destruct (decide (i = j)) as [<-|Hij].
      * unfold stdio.stepCaller in Hstep. by rewrite Hi, Hch in Hstep.
      * destruct (stepCaller_other c c1 i j ch Hstep Hij Hch)
          as (_ & -> & _). exact Hi.
    + unfold stdio.readResponses in Hstep. by rewrite Hr in Hstep.
    + destruct (stdio.stdoutClosed c); [discriminate|].
      by injection Hstep as <-.
    + by injection Hstep as <-.
    + by injection Hstep as <-.
    + by injection Hstep as <-.
    + destruct (decide (i = j)) as [<-|Hij].
      * unfold stdio.stepCaller in Hstep. by rewrite Hi, Hch in Hstep.
      * by destruct (stepCaller_other c c1 i j ch Hstep Hij Hch)
          as (_ & _ & ?).
    + unfold stdio.readResponses in Hstep. by rewrite Hr in Hstep.
    + destruct (stdio.stdoutClosed c); [discriminate|].
      by injection Hstep as <-.
    + by injection Hstep as <-.
    + by injection Hstep as <-.
Qed.

End WaitingCaller.

(** C9, what the code does when the transport closes. When the stream of
    responses has ended, [readResponses] leaves its loop and returns
    without touching the channels of the pending calls; a caller that
    waits for its response at that moment is never unblocked, whatever
    happens next: it keeps waiting on its channel and receives no
    error. *)
Theorem C9_pending_caller_is_left_waiting
    (unmarshalResponse : string -> result stdio.JSONRPCResponse.t)
    {R : Type} (c : stdio.Client R) (i ch : nat)
    (k : stdio.JSONRPCResponse.t -> stdio.Prog R) :
  stdio.reader c = stdio.Scanning ->
  stdio.stdout c = [] ->
  stdio.stdoutClosed c = true ->
  stdio.callers c !! i = Some (stdio.Recv ch k) ->
  stdio.chans c !! ch = Some None ->
  exists c1,
    stdio.step unmarshalResponse c stdio.ReadResponses = Some c1 /\
    stdio.reader c1 = stdio.Returned /\
    stdio.chans c1 = stdio.chans c /\
    stdio.pendingCalls c1 = stdio.pendingCalls c /\
    forall sched c',
      stdio.run unmarshalResponse c1 sched = Some c' ->
      stdio.callers c' !! i = Some (stdio.Recv ch k) /\
      stdio.stepCaller c' i = None.
Proof.
  intros Hr Hout Hclosed Hi Hch.
  exists (stdio.setReader c stdio.Returned [] (stdio.chans c)).
  split; [simpl; unfold stdio.readResponses; by rewrite Hr, Hout, Hclosed|].
  split; [reflexivity|]. split; [reflexivity|]. split; [reflexivity|].
  intros sched c' Hrun.
  destruct (waits_forever unmarshalResponse sched
              (stdio.setReader c stdio.Returned [] (stdio.chans c))
              c' i ch k eq_refl Hi Hch Hrun) as (_ & Hi' & Hch').
  split; [exact Hi'|]. unfold stdio.stepCaller. by rewrite Hi', Hch'.
Qed.

(** C9 at the failing input: the caller has sent request 1 and waits, the
    server closes its output, the reader returns; the call is still
    pending and the caller still waits after what follows. *)
Lemma C9_pending_caller_is_left_waiting_witness :
  exists c c1 c' k,
    stdio.run exampleUnmarshalResponse (exampleClient "list_blueprints")
              (sendRequest ++ [stdio.ServerCloses]) = Some c
    /\ stdio.pendingCalls c !! 1 = Some 0%nat
    /\ stdio.step exampleUnmarshalResponse c stdio.ReadResponses = Some c1
    /\ stdio.run exampleUnmarshalResponse c1 lifeGoesOn = Some c'
    /\ stdio.callers c' !! 0%nat = Some (stdio.Recv 0 k)
    /\ stdio.stepCaller c' 0 = None.
Proof.
  destruct (CallTool_sends exampleMarshalRequest exampleUnmarshalResponse
              exampleMarshalValue exampleUnmarshal exampleUnmarshal
              (exampleClient "list_blueprints") 0%nat "list_blueprints"
              (Some []) "1 tools/call list_blueprints")
    as [k Hsend]; [reflexivity..|].
  assert (Hc : stdio.run exampleUnmarshalResponse
                 (exampleClient "list_blueprints")
                 (sendRequest ++ [stdio.ServerCloses])
               = Some {| stdio.initialized := true;
                         stdio.tools := tools exampleService;
                         stdio.muLocked := false;
                         stdio.requestID := 1;
                         stdio.pendingCalls := {[ 1 := 0%nat ]};
                         stdio.chans := [None];
                         stdio.stdin :=
                           ["1 tools/call list_blueprints" +:+ stdio.newline];
                         stdio.stdinError := None;
                         stdio.stdout := [];
                         stdio.stdoutClosed := true;
                         stdio.reader := stdio.Scanning;
                         stdio.callers := [stdio.Recv 0 k] |}).
  { unfold sendRequest. rewrite run_app, Hsend. reflexivity. }
  match type of Hc with _ = Some ?c0 => set (c := c0) in * end.
  destruct (C9_pending_caller_is_left_waiting exampleUnmarshalResponse
              c 0%nat 0%nat k) as (c1 & Hstep & Hret & _ & _ & Hwait);
    [reflexivity..|].
  destruct (stdio.run exampleUnmarshalResponse c1 lifeGoesOn) as [c'|] eqn:Hc'.
  - destruct (Hwait lifeGoesOn c' Hc') as [H1 H2].
    exists c, c1, c', k.
    split; [exact Hc|]. split; [vm_compute; reflexivity|].
    split; [exact Hstep|]. split; [exact Hc'|]. split; [exact H1|exact H2].
  - exfalso. vm_compute in Hstep. injection Hstep as <-.
    vm_compute in Hc'. discriminate.
Defined.

(** C8, the claim as stated fails: with a catalog that holds
    [list_blueprints] only, a call of the tool [no_such_tool] is written
    to the server, and when the server answers the call returns its
    result; the client over the SDK session hands the request to the
    session likewise. *)
Lemma C8_unknown_tool_is_dispatched :
  Forall (fun t => mcp.Tool.Name t <> "no_such_tool") (tools exampleService)
  /\ (exists c',
        stdio.run exampleUnmarshalResponse (exampleClient "no_such_tool")
                  (sendRequest ++ serverAnswers) = Some c' /\
        stdio.tools c' = tools exampleService /\
        stdio.stdin c' = ["1 tools/call no_such_tool" +:+ stdio.newline] /\
        stdio.callers c' = [stdio.Ret (Ok "{}")])
  /\ sdk.CallTool obligingSession exampleSDKClient "no_such_tool" (Some [])
     = (Ok emptyList,
        {| sdk.tools := tools exampleService; sdk.initialized := true;
           sdk.dispatched := [("no_such_tool", Some [])] |}).
Proof.
  split; [repeat constructor; discriminate|].
  split; [|reflexivity].
  eexists. split; [vm_compute; reflexivity|]. repeat split.
Qed.

(* ===================================================================== *)
(** * Further properties of the code *)
(* ===================================================================== *)

Section Strings.

Lemma append_cons (a : ascii) (s t : string) :
  String a s +:+ t = String a (s +:+ t).
Proof. reflexivity. Qed.

Lemma append_nil_r (s : string) : s +:+ "" = s.
Proof.
  induction s as [|a s IH]; [reflexivity|by rewrite append_cons, IH].
Qed.

Lemma append_assoc (s1 s2 s3 : string) :
  (s1 +:+ s2) +:+ s3 = s1 +:+ (s2 +:+ s3).
Proof.
  induction s1 as [|a s1 IH]; [reflexivity|by rewrite !append_cons, IH].
Qed.

Lemma length_append (s1 s2 : string) :
  String.length (s1 +:+ s2) = (String.length s1 + String.length s2)%nat.
Proof.
  induction s1 as [|a s1 IH]; [reflexivity|].
  rewrite append_cons. simpl. by rewrite IH.
Qed.

Lemma list_of_append (s1 s2 : string) :
  list_ascii_of_string (s1 +:+ s2) =
  list_ascii_of_string s1 ++ list_ascii_of_string s2.
Proof.
  induction s1 as [|a s1 IH]; [reflexivity|].
  rewrite append_cons. simpl. by rewrite IH.
Qed.

Lemma length_list_of_string (s : string) :
  length (list_ascii_of_string s) = String.length s.
Proof. induction s as [|a s IH]; simpl; [reflexivity|by rewrite IH]. Qed.

Lemma list_of_string_inj (s1 s2 : string) :
  list_ascii_of_string s1 = list_ascii_of_string s2 -> s1 = s2.
Proof.
  intros H. rewrite <- (string_of_list_ascii_of_string s1),
    <- (string_of_list_ascii_of_string s2). by rewrite H.
Qed.

(** Two texts with tails of one length are equal only if their heads
    are. *)
Lemma append_inj_tail (s1 s2 t1 t2 : string) :
  String.length t1 = String.length t2 ->
  s1 +:+ t1 = s2 +:+ t2 -> s1 = s2 /\ t1 = t2.
Proof.
  intros Hlen Heq.
  apply (f_equal list_ascii_of_string) in Heq.
  rewrite !list_of_append in Heq.
  apply app_inj_2 in Heq as [H1 H2];
    [|by rewrite !length_list_of_string].
  split; by apply list_of_string_inj.
Qed.

End Strings.

Section Digest.

Lemma length_round st kw : length (SHA256.round st kw) = length st.
Proof.
  unfold SHA256.round.
  do 9 (destruct st as [|? st]; [reflexivity|]). reflexivity.
Qed.

Lemma length_rounds l st :
  length (fold_left SHA256.round l st) = length st.
Proof.
  revert st. induction l as [|kw l IH]; intros st; simpl; [reflexivity|].
  by rewrite IH, length_round.
Qed.

Lemma length_compress h block :
  length (SHA256.compress h block) = length h.
Proof.
  unfold SHA256.compress.
  rewrite length_zip_with, length_rounds. lia.
Qed.

Lemma length_blocks n h bs : length (SHA256.blocks n h bs) = length h.
Proof.
  revert h bs. induction n as [|n IH]; intros h bs; simpl; [reflexivity|].
  by rewrite IH, length_compress.
Qed.

Lemma length_be_bytes n x : length (SHA256.be_bytes n x) = n.
Proof.
  unfold SHA256.be_bytes.
  by rewrite length_map, length_rev, length_seq.
Qed.

Lemma be_bytes_range n x :
  Forall (fun b => 0 <= b < 256) (SHA256.be_bytes n x).
Proof.
  unfold SHA256.be_bytes. apply Forall_map, Forall_forall. intros i _.
  change 255 with (Z.ones 8). rewrite Z.land_ones by lia.
  apply Z.mod_pos_bound. lia.
Qed.

Lemma length_flat_map_const {A B} (f : A -> list B) (n : nat) (l : list A) :
  (forall x, length (f x) = n) ->
  length (flat_map f l) = (n * length l)%nat.
Proof.
  intros Hf. induction l as [|x l IH]; simpl; [lia|].
  rewrite length_app, Hf, IH. lia.
Qed.

(** The digest has 32 bytes. *)
Lemma length_Sum256 data : length (SHA256.Sum256 data) = 32%nat.
Proof.
  unfold SHA256.Sum256. cbv zeta.
  rewrite (length_flat_map_const _ 4) by (intros; apply length_be_bytes).
  by rewrite length_blocks.
Qed.

Lemma Sum256_range data :
  Forall (fun b => 0 <= b < 256) (SHA256.Sum256 data).
Proof.
  unfold SHA256.Sum256. cbv zeta.
  generalize (SHA256.blocks
    (length (SHA256.pad (SHA256.bytes_of_string data)) / 64) SHA256.H0
    (SHA256.pad (SHA256.bytes_of_string data))).
  intros l. induction l as [|x l IH]; [constructor|].
  change (flat_map (SHA256.be_bytes 4) (x :: l))
    with (SHA256.be_bytes 4 x ++ flat_map (SHA256.be_bytes 4) l).
  apply Forall_app. split; [apply be_bytes_range|exact IH].
Qed.

Lemma length_hex bs : String.length (hex bs) = (2 * length bs)%nat.
Proof.
  induction bs as [|b bs IH]; simpl; [reflexivity|]. rewrite IH. lia.
Qed.

Lemma hexdigit_lower n :
  0 <= n < 16 -> In (hexdigit n) lowerHexDigits.
Proof.
  intros Hn. replace n with (Z.of_nat (Z.to_nat n)) by lia.
  assert (Hm : (Z.to_nat n < 16)%nat) by lia.
  revert Hm. generalize (Z.to_nat n). intros m Hm.
  do 16 (destruct m as [|m]; [vm_compute; tauto|]). lia.
Qed.

Lemma hex_lower bs :
  Forall (fun b => 0 <= b < 256) bs ->
  Forall (fun a => In a lowerHexDigits) (list_ascii_of_string (hex bs)).
Proof.
  induction 1 as [|b bs Hb _ IH]; simpl; [constructor|].
  constructor; [|constructor; [|exact IH]].
  - apply hexdigit_lower. split; [apply Z.div_pos; lia|].
    apply Z.div_lt_upper_bound; lia.
  - apply hexdigit_lower. apply Z.mod_pos_bound. lia.
Qed.

(** The eight bytes of the digest kept in a key, written with [%x]. *)
Lemma keyDigest_shape data :
  String.length (hex (take 8 (SHA256.Sum256 data))) = 16%nat
  /\ Forall (fun a => In a lowerHexDigits)
            (list_ascii_of_string (hex (take 8 (SHA256.Sum256 data)))).
Proof.
  split.
  - rewrite length_hex, length_take, length_Sum256. reflexivity.
  - apply hex_lower, Forall_take, Sum256_range.
Qed.

End Digest.

(* --------------------------------------------------------------------- *)
(** ** The result cache *)
(* --------------------------------------------------------------------- *)

Section Sweep.

Lemma cleanupExpired_store (c : ResultCache) (now : Time) (key : string) :
  store (cleanupExpired c now) !! key = Get c now key.
Proof.
  apply option_eq. intros e.
  rewrite cleanupExpired_lookup, Get_Some. reflexivity.
Qed.

Lemma cleanupExpired_twice (c : ResultCache) (now later : Time) :
  now <= later ->
  cleanupExpired (cleanupExpired c now) later = cleanupExpired c later.
Proof.
  intros Hle.
  assert (Hs : store (cleanupExpired (cleanupExpired c now) later) =
               store (cleanupExpired c later)).
  { apply map_eq. intros key. apply option_eq. intros e.
    rewrite !cleanupExpired_lookup. simpl.
    pose proof (Sub_mono_l now later (Timestamp e) Hle). intuition lia. }
  unfold cleanupExpired in *. simpl in *. by rewrite Hs.
Qed.

End Sweep.

(** X1. A pass of [cleanupExpired] at an instant keeps exactly the
    entries that [Get] returns at that instant: what the store holds
    after the pass is what [Get] answered before it. A later pass makes
    an earlier one redundant, and the number of entries reported by
    [Stats] never grows by a pass. *)
Theorem X1_sweep_keeps_what_Get_returns (c : ResultCache) (now : Time) :
  (forall key, store (cleanupExpired c now) !! key = Get c now key)
  /\ (forall later, now <= later ->
        cleanupExpired (cleanupExpired c now) later = cleanupExpired c later)
  /\ (forall n m,
        Stats c !! "total_entries" = Some n ->
        Stats (cleanupExpired c now) !! "total_entries" = Some m ->
        0 <= m <= n)
  /\ ttl (cleanupExpired c now) = ttl c.
Proof.
  split; [apply cleanupExpired_store|].
  split; [intros later; apply cleanupExpired_twice|].
  split; [|reflexivity].
  intros n m. unfold Stats. rewrite !lookup_singleton_eq.
  intros [= <-] [= <-].
  pose proof (map_size_filter
    (fun kv : string * CachedResult =>
       ¬ (ttl c < Sub now (Timestamp kv.2))) (store c)) as Hsz.
  unfold cleanupExpired. simpl. lia.
Qed.

(** X2. [Set] replaces the entry of its key and nothing else: the
    answers of [Get] for every other key are unchanged, the last of two
    stores under one key wins (the earlier one leaves no trace, and the
    age of the entry starts again), and the number of entries grows by
    one exactly when the key was absent. *)
Theorem X2_Set_replaces_one_key (c : ResultCache) (t : Time)
    (key content : string) (isError : bool) :
  (forall now key', key' <> key ->
     Get (Set_ c t key content isError) now key' = Get c now key')
  /\ (forall t0 content0 isError0,
        Set_ (Set_ c t0 key content0 isError0) t key content isError =
        Set_ c t key content isError)
  /\ Stats (Set_ c t key content isError) !! "total_entries" =
     Some (Z.of_nat (size (store c))
           + match store c !! key with Some _ => 0 | None => 1 end)
  /\ ttl (Set_ c t key content isError) = ttl c.
Proof.
  split; [intros now key' Hne; by apply Get_Set_other|].
  split.
  { intros t0 content0 isError0. unfold Set_. simpl.
    by rewrite insert_insert_eq. }
  split; [|reflexivity].
  unfold Stats, Set_. simpl. rewrite lookup_singleton_eq. f_equal.
  destruct (store c !! key) as [e|] eqn:Hk.
  - rewrite map_size_insert_Some by (rewrite Hk; eauto). lia.
  - rewrite map_size_insert_None by exact Hk. lia.
Qed.

(* --------------------------------------------------------------------- *)
(** ** Cache keys *)
(* --------------------------------------------------------------------- *)

(** X3. The key of an invocation whose arguments can be serialized is
    the tool name, a colon and sixteen lower-case hexadecimal digits; the
    key of one whose arguments cannot be serialized is the tool name. *)
Theorem X3_cache_key_format (lib : GoLib) (toolName : string) (args : Args) :
  match Marshal lib args with
  | Some _ =>
      exists digest,
        generateCacheKey lib toolName args = toolName +:+ ":" +:+ digest
        /\ String.length digest = 16%nat
        /\ Forall (fun a => In a lowerHexDigits) (list_ascii_of_string digest)
        /\ String.length (generateCacheKey lib toolName args)
           = (String.length toolName + 17)%nat
  | None => generateCacheKey lib toolName args = toolName
  end.
Proof.
  unfold generateCacheKey.
  destruct (Marshal lib args) as [argsJSON|]; [|reflexivity].
  cbv zeta.
  destruct (keyDigest_shape (toolName +:+ ":" +:+ argsJSON)) as [Hlen Hhex].
  eexists. split; [reflexivity|]. split; [exact Hlen|].
  split; [exact Hhex|].
  rewrite !length_append, Hlen. simpl. lia.
Qed.

(** X4. Invocations of different tools never share a key when their
    arguments can be serialized, and for one tool an invocation with
    serializable arguments never shares the key of one whose arguments
    cannot be serialized. *)
Theorem X4_cache_keys_separate_tools (lib : GoLib) (T1 T2 : string)
    (A1 A2 : Args) :
  is_Some (Marshal lib A1) ->
  (is_Some (Marshal lib A2) -> T1 <> T2 ->
   generateCacheKey lib T1 A1 <> generateCacheKey lib T2 A2)
  /\ (Marshal lib A2 = None ->
      generateCacheKey lib T1 A1 <> generateCacheKey lib T1 A2).
Proof.
  intros [j1 H1].
  pose proof (X := keyDigest_shape (T1 +:+ ":" +:+ j1)).
  destruct X as [Hl1 _].
  split.
  - intros [j2 H2] Hne Heq. unfold generateCacheKey in Heq.
    rewrite H1, H2 in Heq. cbv zeta in Heq.
    destruct (keyDigest_shape (T2 +:+ ":" +:+ j2)) as [Hl2 _].
    apply append_inj_tail in Heq as [Heq _]; [contradiction|].
    rewrite !length_append, Hl1, Hl2. reflexivity.
  - intros H2 Heq. unfold generateCacheKey in Heq.
    rewrite H1, H2 in Heq. cbv zeta in Heq.
    apply (f_equal String.length) in Heq.
    rewrite !length_append, Hl1 in Heq. simpl in Heq. lia.
Qed.

(* --------------------------------------------------------------------- *)
(** ** The texts built from results *)
(* --------------------------------------------------------------------- *)

Section PromptText.

Lemma fold_left_promptLine (results : list ai.ToolResult.t) (prompt : string) :
  fold_left
    (fun prompt result =>
       if ai.ToolResult.IsError result
       then prompt +:+ errorMark +:+ " Error: "
                   +:+ ai.ToolResult.Content result
                   +:+ String "010" (String "010" "")
       else prompt +:+ successMark +:+ " Success: "
                   +:+ ai.ToolResult.Content result
                   +:+ String "010" (String "010" ""))
    results prompt
  = prompt +:+ concatStrings (map promptLine results).
Proof.
  revert prompt. induction results as [|r results IH]; intros prompt.
  - simpl. by rewrite append_nil_r.
  - cbn [fold_left map concatStrings foldr]. rewrite IH.
    fold (concatStrings (map promptLine results)).
    unfold promptLine at 2. cbv zeta.
    destruct (ai.ToolResult.IsError r); by rewrite !append_assoc.
Qed.

Lemma textPartsOf_app (c1 c2 : list mcp.Content) :
  textPartsOf (c1 ++ c2) = textPartsOf c1 ++ textPartsOf c2.
Proof. unfold textPartsOf. apply omap_app. Qed.

Lemma fold_left_FormatToolResult (content : list mcp.Content) (text : string) :
  fold_left
    (fun text content =>
       match content with
       | mcp.TextContent t => text +:+ (t +:+ String "010" "")
       | mcp.OtherContent _ => text
       end) content text
  = text +:+ concatStrings
               (map (fun t => t +:+ String "010" "") (textPartsOf content)).
Proof.
  revert text. induction content as [|p content IH]; intros text.
  - simpl. by rewrite append_nil_r.
  - cbn [fold_left]. rewrite IH. destruct p as [t|raw].
    + change (textPartsOf (mcp.TextContent t :: content))
        with (t :: textPartsOf content).
      cbn [map concatStrings foldr].
      fold (concatStrings
              (map (fun t => t +:+ String "010" "") (textPartsOf content))).
      by rewrite !append_assoc.
    + reflexivity.
Qed.

End PromptText.

(** X5. The prompt built from the results of an iteration is the
    heading, one line per result in the order of the results (the error
    mark and the content for a failed one, the success mark and the
    content otherwise) and the closing request; for no result it is
    empty. *)
Theorem X5_prompt_lists_every_result (result : ai.ToolResult.t)
    (results : list ai.ToolResult.t) :
  formatToolResultsForPrompt (result :: results) =
    "Tool execution results:" +:+ String "010" (String "010" "")
    +:+ concatStrings (map promptLine (result :: results))
    +:+ "Please analyze these results and provide a response to the user."
  /\ formatToolResultsForPrompt [] = "".
Proof.
  split; [|reflexivity].
  unfold formatToolResultsForPrompt. cbv zeta.
  rewrite fold_left_promptLine. by rewrite !append_assoc.
Qed.

(** X6. When a tool result holds at least one text part, the text that
    [formatToolResult] returns depends on the text parts only: parts of
    other kinds and the error flag of the result do not show in it. A
    single text part is returned as it stands. *)
Theorem X6_formatToolResult_reads_text_parts_only (lib : GoLib)
    (r1 r2 : mcp.CallToolResult.t) :
  textPartsOf (mcp.CallToolResult.Content r1) <> [] ->
  textPartsOf (mcp.CallToolResult.Content r1) =
  textPartsOf (mcp.CallToolResult.Content r2) ->
  formatToolResult lib r1 = formatToolResult lib r2
  /\ (forall text, textPartsOf (mcp.CallToolResult.Content r1) = [text] ->
        formatToolResult lib r1 = text).
Proof.
  intros Hne Heq. unfold formatToolResult.
  destruct (mcp.CallToolResult.Content r1) as [|p1 c1] eqn:E1;
    [by destruct Hne|].
  destruct (mcp.CallToolResult.Content r2) as [|p2 c2] eqn:E2;
    [rewrite Heq in Hne; by destruct Hne|].
  rewrite <- Heq.
  destruct (textPartsOf (p1 :: c1)) as [|t [|t' ts]] eqn:Et;
    [by destruct Hne| |].
  - split; [reflexivity|]. by intros text [= ->].
  - split; [reflexivity|]. intros text [=].
Qed.

(** X7. [FormatToolResult] of package mcp returns the text parts of the
    result in order, each followed by a newline, and nothing for the
    parts of other kinds; it is empty exactly when the result has no text
    part, and the text of a result is the text of a first portion of its
    parts followed by the text of the rest. *)
Theorem X7_FormatToolResult_joins_text_parts (r : mcp.CallToolResult.t) :
  FormatToolResult r =
    concatStrings (map (fun t => t +:+ String "010" "")
                       (textPartsOf (mcp.CallToolResult.Content r)))
  /\ (FormatToolResult r = "" <->
      textPartsOf (mcp.CallToolResult.Content r) = [])
  /\ (forall c1 c2 e1 e2,
        mcp.CallToolResult.Content r = c1 ++ c2 ->
        FormatToolResult r =
          FormatToolResult {| mcp.CallToolResult.Content := c1;
                              mcp.CallToolResult.IsError := e1 |}
          +:+ FormatToolResult {| mcp.CallToolResult.Content := c2;
                                  mcp.CallToolResult.IsError := e2 |}).
Proof.
  assert (Hform : forall r', FormatToolResult r' =
            concatStrings (map (fun t => t +:+ String "010" "")
                               (textPartsOf (mcp.CallToolResult.Content r')))).
  { intros r'. unfold FormatToolResult.
    by rewrite fold_left_FormatToolResult. }
  split; [apply Hform|]. split.
  - rewrite Hform.
    destruct (textPartsOf (mcp.CallToolResult.Content r)) as [|t ts].
    + split; reflexivity.
    + split; [|discriminate]. cbn [map concatStrings foldr]. intros H.
      apply (f_equal String.length) in H.
      rewrite !length_append in H. simpl in H. lia.
  - intros c1 c2 e1 e2 Hc. rewrite !Hform. simpl. rewrite Hc.
    rewrite textPartsOf_app, map_app.
    generalize (map (fun t => t +:+ String "010" "") (textPartsOf c1)).
    intros l1. induction l1 as [|s l1 IH]; [reflexivity|].
    cbn [app concatStrings foldr]. fold (concatStrings (l1 ++ map
      (fun t => t +:+ String "010" "") (textPartsOf c2))).
    fold (concatStrings l1). by rewrite IH, append_assoc.
Qed.

(* --------------------------------------------------------------------- *)
(** ** What the loop passes to the provider and what it reports *)
(* --------------------------------------------------------------------- *)

Section ChatCalls.

Context (lib : GoLib) (svc : OrchestrationService).

Lemma chatCalls_app tr1 tr2 :
  chatCalls (tr1 ++ tr2) = chatCalls tr1 ++ chatCalls tr2.
Proof.
  induction tr1 as [|e tr1 IH]; [done|].
  destruct e; simpl; by rewrite ?IH.
Qed.

Lemma chatCalls_segment toolCall r :
  chatCalls (segment lib toolCall r) = [].
Proof.
  destruct r as [c|[m|e]]; simpl; [done| |done].
  by destruct (mcp.CallToolResult.IsError m).
Qed.

Lemma chatCalls_segments toolCalls rs :
  chatCalls (concat (zip_with (segment lib) toolCalls rs)) = [].
Proof.
  revert rs. induction toolCalls as [|x l IH]; intros [|r rs]; simpl; try done.
  by rewrite chatCalls_app, chatCalls_segment, IH.
Qed.

(** The calls of the provider in a run of the loop. *)
Lemma run_chatCalls n iteration prompt hist t res tr :
  LoopRun lib svc n iteration prompt hist t res tr ->
  forall k prompt' ts' hist',
    chatCalls tr !! k = Some (prompt', ts', hist') ->
    ts' = tools svc
    /\ length hist' = (length hist + 2 * k)%nat
    /\ (Forall fromAssistant hist -> Forall fromAssistant hist')
    /\ (k = 0%nat -> prompt' = prompt /\ hist' = hist)
    /\ (k <> 0%nat ->
        exists results,
          results <> []
          /\ prompt' = formatToolResultsForPrompt results
          /\ last hist' = Some (toolResultsMessage results)).
Proof.
  induction 1 as [it p hs t provider stats
                 |n it p hs t err
                 |n it p hs t a provider stats Hnone
                 |n it p hs t a rs res tr Hsome Hlen calls trs Hrun IH];
    intros k prompt' ts' hist' Hk.
  - destruct k; discriminate Hk.
  - destruct k as [|k]; [|destruct k; discriminate Hk].
    injection Hk as <- <- <-.
    split; [done|]. split; [simpl; lia|]. split; [done|]. split; done.
  - destruct k as [|k]; [|destruct k; discriminate Hk].
    injection Hk as <- <- <-.
    split; [done|]. split; [simpl; lia|]. split; [done|]. split; done.
  - cbn [chatCalls] in Hk.
    rewrite chatCalls_app, chatCalls_segments, app_nil_l in Hk.
    destruct k as [|k].
    + injection Hk as <- <- <-.
      split; [done|]. split; [simpl; lia|]. split; [done|]. split; done.
    + cbn [lookup list_lookup] in Hk.
      destruct (IH k prompt' ts' hist' Hk) as (Hts & Hl & Hall & H0 & HS).
      split; [exact Hts|]. split.
      { rewrite Hl, !length_app. simpl. lia. }
      split.
      { intros Hhs. apply Hall. apply Forall_app. split.
        - apply Forall_app. split; [exact Hhs|].
          apply Forall_cons. split; [reflexivity|constructor].
        - apply Forall_cons. split; [reflexivity|constructor]. }
      split; [discriminate|]. intros _.
      destruct k as [|k].
      * destruct (H0 eq_refl) as [-> ->].
        exists trs. split; [|split; [reflexivity|apply last_snoc]].
        subst trs calls. unfold resolved. simpl.
        destruct (ai.Response.ToolCalls a) as [|tc tcs]; [done|].
        destruct rs as [|r rs]; [discriminate Hlen|]. discriminate.
      * apply HS. discriminate.
Qed.

Lemma countHits_countMisses rs :
  countHits rs + countMisses rs = Z.of_nat (length rs).
Proof.
  induction rs as [|r rs IH]; [reflexivity|].
  rewrite countHits_cons, countMisses_cons. simpl length.
  destruct (isHit r); lia.
Qed.

Lemma length_callRecords (toolCalls : list ai.ToolCall.t)
    (rs : list Resolution) :
  length toolCalls = length rs ->
  (length (concat (zip_with callRecord toolCalls rs))
     + length (filter (fun r => isFailedCall r = true) rs))%nat
  = length rs.
Proof.
  revert rs. induction toolCalls as [|x l IH]; intros [|r rs] Hlen;
    try discriminate Hlen; [reflexivity|].
  injection Hlen as Hlen. specialize (IH rs Hlen).
  cbn [zip_with concat]. rewrite length_app, filter_cons.
  destruct r as [c|[m|e]]; simpl; lia.
Qed.

End ChatCalls.

(** X8. In every run of [ProcessPrompt], the call number [k] of the
    provider (counted from 0) is made with the tools of the service and
    a history of [2 k] messages, all of them with the role "assistant";
    the first call is made with the prompt of the request and an empty
    history, and every later call with the prompt built from the results
    of the iteration before, which are the last message of its history.
    The prompt of the request is thus passed to the first call only and
    is never a message of the history. *)
Theorem X8_what_every_Chat_call_is_given (lib : GoLib)
    (svc : OrchestrationService) {W : Type} (h : Handler W)
    (request : models.ChatRequest.t) (st : W) (k : nat)
    (prompt : string) (ts : list mcp.Tool.t) (hist : list ai.Message.t) :
  chatCalls (interp h (ProcessPrompt lib svc request) st).2 !! k
    = Some (prompt, ts, hist) ->
  ts = tools svc
  /\ length hist = (2 * k)%nat
  /\ Forall (fun m => ai.Message.Role m = "assistant") hist
  /\ (k = 0%nat -> prompt = models.ChatRequest.Prompt request /\ hist = [])
  /\ (k <> 0%nat ->
      exists results,
        results <> []
        /\ prompt = formatToolResultsForPrompt results
        /\ last hist = Some (toolResultsMessage results)).
Proof.
  intros Hk.
  destruct (run_chatCalls lib svc _ _ _ _ _ _ _
              (ProcessPrompt_run lib svc h request st) k prompt ts hist Hk)
    as (H1 & H2 & H3 & H4 & H5).
  split; [exact H1|]. split; [exact H2|].
  split; [apply H3; constructor|]. split; [exact H4|exact H5].
Qed.

(** X9. In every response that [ProcessPrompt] returns, the number of
    tool results is the sum of the counters "cache_hits" and
    "cache_misses" of the metadata, and the number of tool calls
    recorded is the number of tool results less the number of
    invocations whose call of the tool returned an error. *)
Theorem X9_response_counts_agree (lib : GoLib)
    (svc : OrchestrationService) {W : Type} (h : Handler W)
    (request : models.ChatRequest.t) (st : W) (r : models.ChatResponse.t) :
  let run := interp h (ProcessPrompt lib svc request) st in
  run.1.1 = Ok r ->
  exists hits misses,
    models.ChatResponse.Metadata r !! "cache_hits" = Some (models.MInt hits)
    /\ models.ChatResponse.Metadata r !! "cache_misses"
       = Some (models.MInt misses)
    /\ 0 <= hits /\ 0 <= misses
    /\ Z.of_nat (length (models.ChatResponse.ToolResults r)) = hits + misses
    /\ (length (models.ChatResponse.ToolCalls r)
          + length (filter (fun x => isFailedCall x = true)
                           (resolutions run.2)))%nat
       = length (models.ChatResponse.ToolResults r).
Proof.
  intros run Hr.
  destruct (run_results lib svc _ _ _ _ _ _ _
              (ProcessPrompt_run lib svc h request st))
    as (Hlen & _ & Hres).
  destruct (Hres r Hr) as (H1 & H2 & H3 & H4). fold run in Hlen, H1, H2, H3, H4.
  simpl in H1, H2, H3, H4.
  exists (countHits (resolutions run.2)), (countMisses (resolutions run.2)).
  split; [exact H3|]. split; [exact H4|].
  split; [unfold countHits; lia|]. split; [unfold countMisses; lia|].
  rewrite H1, H2, length_zip_with, Hlen, countHits_countMisses.
  split; [lia|].
  rewrite length_callRecords by (symmetry; exact Hlen). lia.
Qed.

(** X10. With the Anthropic provider, [ProcessPrompt] answers every
    request after one call of the provider with the provider's fixed
    text: no tool is called, the cache is not looked up, and the
    response holds no tool call and no tool result, with "iterations"
    1 and "finish_reason" "stop". *)
Theorem X10_anthropic_provider_never_uses_tools (lib : GoLib)
    (svc : OrchestrationService) (p : anthropic.AnthropicProvider)
    {W : Type} (h : Handler W) (request : models.ChatRequest.t) (st : W) :
  (forall prompt ts hist w,
     (onChat h prompt ts hist w).1 = anthropic.Chat p prompt ts hist) ->
  let run := interp h (ProcessPrompt lib svc request) st in
  exists r,
    run.1.1 = Ok r
    /\ models.ChatResponse.Response r =
       "Anthropic integration coming soon. Please use OpenAI provider for now."
    /\ models.ChatResponse.ToolCalls r = []
    /\ models.ChatResponse.ToolResults r = []
    /\ models.ChatResponse.Metadata r !! "iterations" = Some (models.MInt 1)
    /\ models.ChatResponse.Metadata r !! "finish_reason"
       = Some (models.MString "stop")
    /\ length (chatCalls run.2) = 1%nat
    /\ toolRequests run.2 = []
    /\ resolutions run.2 = [].
Proof.
  intros Hchat run. subst run.
  unfold ProcessPrompt, MaxToolIterations. rewrite interp_loop_S.
  specialize (Hchat (models.ChatRequest.Prompt request) (tools svc) [] st).
  destruct (onChat h (models.ChatRequest.Prompt request) (tools svc) [] st)
    as [answer st1].
  simpl in Hchat. subst answer. unfold anthropic.Chat.
  cbn [ai.Response.ToolCalls].
  destruct (onGetProviderName h st1) as [provider st2].
  destruct (onCacheStats h st2) as [stats st3].
  eexists. cbn [fst snd].
  split; [reflexivity|]. repeat split.
Qed.

(* --------------------------------------------------------------------- *)
(** ** The chat endpoint *)
(* --------------------------------------------------------------------- *)

Section ChatEndpoint.

Context (lib : GoLib) (svc : OrchestrationService).
Context {W : Type} (h : Handler W).

Lemma interp_ChatHandler_Ok (request : models.ChatRequest.t) (st : W) :
  interp h (ChatHandler lib svc (Ok request)) st =
  let '(r, st1, tr) := interp h (ProcessPrompt lib svc request) st in
  (match r with
   | Err err =>
       (StatusInternalServerError,
        ErrorBody {| ErrorResponse.Error := "processing_error";
                     ErrorResponse.Message := err;
                     ErrorResponse.Code := StatusInternalServerError |})
   | Ok response => (StatusOK, ChatBody response)
   end, st1, tr).
Proof.
  unfold ChatHandler, mbind, Prog_bind. rewrite interp_bind.
  destruct (interp h (ProcessPrompt lib svc request) st) as [[[r|e] st1] tr];
    simpl; by rewrite app_nil_r.
Qed.

End ChatEndpoint.

(** X11. The status that [ChatHandler] writes: 400, with the error
    "invalid_request" and without any call of the provider, the tools
    or the cache, when the request cannot be bound; 500, with the error
    "processing_error" and the message of the provider's error, exactly
    when a call of the provider fails; 200 with the chat response in
    every other case, whatever the calls of the tools returned. *)
Theorem X11_ChatHandler_status (lib : GoLib) (svc : OrchestrationService)
    {W : Type} (h : Handler W) (bound : result models.ChatRequest.t)
    (st : W) :
  let run := interp h (ChatHandler lib svc bound) st in
  (forall err, bound = Err err ->
     run.1.1 =
       (StatusBadRequest,
        ErrorBody {| ErrorResponse.Error := "invalid_request";
                     ErrorResponse.Message := err;
                     ErrorResponse.Code := StatusBadRequest |})
     /\ run.2 = [])
  /\ (forall request e, bound = Ok request ->
        Err e ∈ chatAnswers run.2 ->
        run.1.1 =
          (StatusInternalServerError,
           ErrorBody {| ErrorResponse.Error := "processing_error";
                        ErrorResponse.Message := "AI provider error: " +:+ e;
                        ErrorResponse.Code := StatusInternalServerError |}))
  /\ (forall request, bound = Ok request ->
        (forall e, Err e ∉ chatAnswers run.2) ->
        exists response, run.1.1 = (StatusOK, ChatBody response))
  /\ (run.1.1.1 = StatusInternalServerError ->
      exists e, Err e ∈ chatAnswers run.2).
Proof.
  intros run. subst run. destruct bound as [request|err].
  - rewrite interp_ChatHandler_Ok.
    pose proof (ProcessPrompt_run lib svc h request st) as Hrun.
    apply run_error in Hrun as [Herr Hin].
    destruct (interp h (ProcessPrompt lib svc request) st)
      as [[[r|e0] st1] tr]; cbn [fst snd] in *.
    + split; [intros err [=]|]. split.
      { intros rq e _ He. by specialize (Hin e He). }
      split; [intros _ _ _; by eexists|]. intros [=].
    + split; [intros err [=]|]. split.
      { intros rq e _ He. specialize (Hin e He). by injection Hin as ->. }
      destruct (Herr e0 eq_refl) as (e' & -> & Hlast).
      assert (Hel : Err e' ∈ chatAnswers tr)
        by (apply last_Some_elem_of; exact Hlast).
      split; [|intros _; by exists e'].
      intros rq _ Hno. by destruct (Hno e').
  - simpl. split; [by intros e [= ->]|].
    split; [intros rq e [=]|]. split; [intros rq [=]|]. intros [=].
Qed.

(* --------------------------------------------------------------------- *)
(** ** Tool calls read off the text of the model *)
(* --------------------------------------------------------------------- *)

Section ExtractToolCalls.

Context (tl : TextLib) (tools : list mcp.Tool.t).

Lemma validTool_elem (toolName : string) :
  validTool tools toolName = true ->
  toolName ∈ map mcp.Tool.Name tools.
Proof. unfold validTool. apply bool_decide_eq_true_1. Qed.

Lemma toolCallOfLine_Some i line tc :
  gemini.toolCallOfLine tl tools i line = Some tc ->
  ai.ToolCall.ID tc = "gemini_call_" +:+ pretty i
  /\ ai.ToolCall.Name tc ∈ map mcp.Tool.Name tools.
Proof.
  unfold gemini.toolCallOfLine. cbv zeta.
  destruct (strings.HasPrefix _ _); [|discriminate].
  destruct (strings.Index _ _) as [parenIdx|]; [|discriminate].
  destruct (validTool tools _) eqn:Hv; [|discriminate]. simpl.
  intros [= <-]. simpl. split; [reflexivity|by apply validTool_elem].
Qed.

Lemma extractLines_acc i lines acc :
  gemini.extractLines tl tools i lines acc =
  acc ++ gemini.extractLines tl tools i lines [].
Proof.
  revert i acc. induction lines as [|line lines IH]; intros i acc.
  - simpl. by rewrite app_nil_r.
  - cbn [gemini.extractLines]. cbv zeta.
    destruct (gemini.toolCallOfLine tl tools i line) as [tc|].
    + rewrite (IH (S i) (acc ++ [tc])), (IH (S i) ([] ++ [tc])).
      by rewrite <- app_assoc.
    + apply IH.
Qed.

Lemma extractLines_cons i line lines :
  gemini.extractLines tl tools i (line :: lines) [] =
  match gemini.toolCallOfLine tl tools i line with
  | Some tc => [tc]
  | None => []
  end ++ gemini.extractLines tl tools (S i) lines [].
Proof.
  cbn [gemini.extractLines]. cbv zeta.
  destruct (gemini.toolCallOfLine tl tools i line) as [tc|];
    [|reflexivity].
  by rewrite extractLines_acc.
Qed.

(** The calls read off the lines from line [i] on: their names are in
    the catalog and their ids carry increasing line numbers. *)
Lemma extractLines_spec lines : forall i,
  let calls := gemini.extractLines tl tools i lines [] in
  Forall (fun tc => ai.ToolCall.Name tc ∈ map mcp.Tool.Name tools) calls
  /\ exists ks : list nat,
       map ai.ToolCall.ID calls
         = map (fun k => "gemini_call_" +:+ pretty k) ks
       /\ Forall (fun k => (i <= k < i + length lines)%nat) ks
       /\ StronglySorted lt ks.
Proof.
  induction lines as [|line lines IH]; intros i calls.
  - split; [constructor|]. exists []. repeat split; constructor.
  - subst calls. rewrite extractLines_cons.
    destruct (IH (S i)) as (Hn & ks & Hid & Hr & Hs).
    destruct (gemini.toolCallOfLine tl tools i line) as [tc|] eqn:E.
    + apply toolCallOfLine_Some in E as [Hid0 Hn0]. split.
      * constructor; [exact Hn0|exact Hn].
      * exists (i :: ks). simpl. rewrite Hid0, Hid.
        split; [reflexivity|]. split.
        -- constructor; [lia|]. eapply Forall_impl; [exact Hr|].
           simpl. intros k Hk. lia.
        -- constructor; [exact Hs|]. eapply Forall_impl; [exact Hr|].
           simpl. intros k Hk. lia.
    + split; [exact Hn|]. exists ks. simpl.
      split; [exact Hid|]. split; [|exact Hs].
      eapply Forall_impl; [exact Hr|]. simpl. intros k Hk. lia.
Qed.

Lemma NoDup_numbered (prefix : string) (ks : list nat) :
  StronglySorted lt ks ->
  NoDup (map (fun k => prefix +:+ pretty k) ks).
Proof.
  intros Hs. apply NoDup_fmap_2.
  - intros k1 k2 H. apply String.app_inj in H.
    by apply pretty_nat_inj in H.
  - induction Hs as [|k ks Hs IH Hlt]; constructor; [|exact IH].
    intros Hin. rewrite Forall_forall in Hlt.
    specialize (Hlt k Hin). lia.
Qed.

Lemma withArguments_acc i matches acc :
  glean.withArguments tl tools i matches acc =
  acc ++ glean.withArguments tl tools i matches [].
Proof.
  revert i acc. induction matches as [|m matches IH]; intros i acc.
  - simpl. by rewrite app_nil_r.
  - cbn [glean.withArguments]. cbv zeta.
    rewrite IH. symmetry. rewrite IH. symmetry.
    destruct m as [|m0 [|toolName [|argsJSON m']]]; try reflexivity.
    destruct (negb (validTool tools toolName)); [reflexivity|].
    by rewrite app_nil_l, app_assoc.
Qed.

Lemma withoutArguments_acc i matches acc :
  glean.withoutArguments tools i matches acc =
  acc ++ glean.withoutArguments tools i matches [].
Proof.
  revert i acc. induction matches as [|m matches IH]; intros i acc.
  - simpl. by rewrite app_nil_r.
  - cbn [glean.withoutArguments]. cbv zeta.
    rewrite IH. symmetry. rewrite IH. symmetry.
    destruct m as [|m0 [|toolName m']]; try reflexivity.
    destruct (negb (validTool tools toolName)); [reflexivity|].
    by rewrite app_nil_l, app_assoc.
Qed.

Lemma gleanCallsOk_nil i n : gleanCallsOk tools i n [].
Proof. split; [constructor|]. exists []. repeat split; constructor. Qed.

Lemma gleanCallsOk_skip i n calls :
  gleanCallsOk tools (S i) n calls -> gleanCallsOk tools i (S n) calls.
Proof.
  intros (Hn & ks & Hid & Hr & Hs). split; [exact Hn|].
  exists ks. split; [exact Hid|]. split; [|exact Hs].
  eapply Forall_impl; [exact Hr|]. simpl. intros k Hk. lia.
Qed.

Lemma gleanCallsOk_cons i n tc calls :
  ai.ToolCall.ID tc = "call_" +:+ pretty (i + 1)%nat ->
  ai.ToolCall.Name tc ∈ map mcp.Tool.Name tools ->
  gleanCallsOk tools (S i) n calls -> gleanCallsOk tools i (S n) (tc :: calls).
Proof.
  intros Hid0 Hn0 (Hn & ks & Hid & Hr & Hs). split.
  - constructor; [exact Hn0|exact Hn].
  - exists ((i + 1)%nat :: ks). simpl. rewrite Hid0, Hid.
    split; [reflexivity|]. split.
    + constructor; [lia|]. eapply Forall_impl; [exact Hr|].
      simpl. intros k Hk. lia.
    + constructor; [exact Hs|]. eapply Forall_impl; [exact Hr|].
      simpl. intros k Hk. lia.
Qed.

Lemma withArguments_spec matches : forall i,
  gleanCallsOk tools i (length matches)
               (glean.withArguments tl tools i matches []).
Proof.
  induction matches as [|m matches IH]; intros i.
  - apply gleanCallsOk_nil.
  - cbn [glean.withArguments length]. cbv zeta.
    rewrite withArguments_acc.
    destruct m as [|m0 [|toolName [|argsJSON m']]];
      try (apply gleanCallsOk_skip, IH).
    destruct (validTool tools toolName) eqn:Hv; simpl.
    + apply gleanCallsOk_cons; [reflexivity| |apply IH].
      simpl. by apply validTool_elem.
    + apply gleanCallsOk_skip, IH.
Qed.

Lemma withoutArguments_spec matches : forall i,
  gleanCallsOk tools i (length matches)
               (glean.withoutArguments tools i matches [])
  /\ Forall (fun tc => ai.ToolCall.Arguments tc = Some [])
            (glean.withoutArguments tools i matches []).
Proof.
  induction matches as [|m matches IH]; intros i.
  - split; [apply gleanCallsOk_nil|constructor].
  - cbn [glean.withoutArguments length]. cbv zeta.
    rewrite withoutArguments_acc.
    destruct (IH (S i)) as [IH1 IH2].
    destruct m as [|m0 [|toolName m']];
      try (split; [apply gleanCallsOk_skip, IH1|exact IH2]).
    destruct (validTool tools toolName) eqn:Hv; simpl.
    + split.
      * apply gleanCallsOk_cons; [reflexivity| |exact IH1].
        simpl. by apply validTool_elem.
      * constructor; [reflexivity|exact IH2].
    + split; [apply gleanCallsOk_skip, IH1|exact IH2].
Qed.

End ExtractToolCalls.

(** X12. The tool calls that [extractToolCalls] reads off a text of the
    model name tools of the catalog only (a line that names another tool
    is dropped), carry ids that are pairwise different (the id of a call
    is "gemini_call_" followed by the number of its line, and the calls
    are in the order of the lines), and are at most one per line; with
    an empty catalog no call is read at all. *)
Theorem X12_extractToolCalls_validates_names (tl : TextLib)
    (content : string) (tools : list mcp.Tool.t) :
  let calls := gemini.extractToolCalls tl content tools in
  Forall (fun tc => ai.ToolCall.Name tc ∈ map mcp.Tool.Name tools) calls
  /\ NoDup (map ai.ToolCall.ID calls)
  /\ (exists ks : list nat,
        map ai.ToolCall.ID calls
          = map (fun k => "gemini_call_" +:+ pretty k) ks
        /\ StronglySorted lt ks
        /\ Forall (fun k =>
             (k < length (strings.Split content "010"%char))%nat) ks)
  /\ (length calls <= length (strings.Split content "010"%char))%nat
  /\ (tools = [] -> calls = []).
Proof.
  intros calls. subst calls. unfold gemini.extractToolCalls.
  destruct (extractLines_spec tl tools (strings.Split content "010"%char) 0)
    as (Hn & ks & Hid & Hr & Hs).
  split; [exact Hn|]. split; [rewrite Hid; by apply NoDup_numbered|].
  split.
  { exists ks. split; [exact Hid|]. split; [exact Hs|].
    eapply Forall_impl; [exact Hr|]. simpl. intros k Hk. lia. }
  split.
  { apply (f_equal length) in Hid. rewrite !length_map in Hid.
    rewrite Hid.
    assert (Hnd : NoDup ks).
    { clear -Hs. induction Hs as [|k ks Hs IH Hlt]; constructor; [|exact IH].
      intros Hin. rewrite Forall_forall in Hlt.
      specialize (Hlt k Hin). lia. }
    assert (Hsub : ks ⊆ seq 0 (length (strings.Split content "010"%char))).
    { intros k Hk. rewrite Forall_forall in Hr. specialize (Hr k Hk).
      apply elem_of_seq. lia. }
    pose proof (submseteq_length _ _ (NoDup_submseteq _ _ Hnd Hsub)) as Hle.
    by rewrite length_seq in Hle. }
  intros ->.
  destruct (gemini.extractLines tl [] 0 _ []) as [|tc calls]; [reflexivity|].
  apply Forall_cons in Hn as [Hin _]. simpl in Hin.
  by apply elem_of_nil in Hin.
Qed.

(** X13. The tool calls that [extractToolCallsGlean] returns name tools
    of the catalog only and carry pairwise different ids; when a match
    of the first pattern (a call with arguments) names a tool of the
    catalog, the matches of the second pattern are not used; otherwise
    the calls are those of the second pattern, each with an empty
    argument map. *)
Theorem X13_extractToolCallsGlean_validates_names (tl : TextLib)
    (content : string) (tools : list mcp.Tool.t) :
  let calls := glean.extractToolCallsGlean tl content tools in
  let matches1 := FindAllStringSubmatch tl glean.pattern1 content in
  let matches2 := FindAllStringSubmatch tl glean.pattern2 content in
  Forall (fun tc => ai.ToolCall.Name tc ∈ map mcp.Tool.Name tools) calls
  /\ NoDup (map ai.ToolCall.ID calls)
  /\ (glean.withArguments tl tools 0 matches1 [] <> [] ->
      calls = glean.withArguments tl tools 0 matches1 [])
  /\ (glean.withArguments tl tools 0 matches1 [] = [] ->
      calls = glean.withoutArguments tools 0 matches2 []
      /\ Forall (fun tc => ai.ToolCall.Arguments tc = Some []) calls)
  /\ (tools = [] -> calls = []).
Proof.
  intros calls matches1 matches2.
  assert (Hgen : exists n, gleanCallsOk tools 0 n calls).
  { subst calls. unfold glean.extractToolCallsGlean. cbv zeta.
    fold matches1 matches2.
    pose proof (withArguments_spec tl tools matches1 0) as H1.
    destruct (glean.withArguments tl tools 0 matches1 []) as [|tc l].
    - eexists. apply withoutArguments_spec.
    - eexists. exact H1. }
  destruct Hgen as (n & Hn & ks & Hid & Hr & Hs).
  split; [exact Hn|]. split; [rewrite Hid; by apply NoDup_numbered|].
  split.
  { intros Hne. subst calls. unfold glean.extractToolCallsGlean. cbv zeta.
    fold matches1.
    by destruct (glean.withArguments tl tools 0 matches1 []). }
  split.
  { intros He. subst calls. unfold glean.extractToolCallsGlean. cbv zeta.
    fold matches1 matches2. rewrite He.
    split; [reflexivity|apply withoutArguments_spec]. }
  intros ->. destruct calls as [|tc calls']; [reflexivity|].
  apply Forall_cons in Hn as [Hin _]. simpl in Hin.
  by apply elem_of_nil in Hin.
Qed.

(* --------------------------------------------------------------------- *)
(** ** The loop with a provider that validates tool names *)
(* --------------------------------------------------------------------- *)

Section CatalogOnly.

Context (lib : GoLib) (svc : OrchestrationService).

Lemma toolRequests_segments_elem toolCalls rs name args :
  (name, args) ∈ toolRequests (concat (zip_with (segment lib) toolCalls rs)) ->
  exists tc, tc ∈ toolCalls /\ name = ai.ToolCall.Name tc
             /\ args = ai.ToolCall.Arguments tc.
Proof.
  revert rs. induction toolCalls as [|x l IH]; intros [|r rs]; simpl;
    try (intros H; by apply elem_of_nil in H).
  rewrite toolRequests_app, elem_of_app, toolRequests_segment.
  intros [H|H].
  - destruct (isHit r); [by apply elem_of_nil in H|].
    apply list_elem_of_singleton in H. injection H as -> ->.
    exists x. split; [left|done].
  - destruct (IH rs H) as (tc & Hin & Hn & Ha).
    exists tc. split; [by right|done].
Qed.

(** Every call of a tool is made for an invocation of the provider. *)
Lemma run_toolRequests n iteration prompt hist t res tr :
  LoopRun lib svc n iteration prompt hist t res tr ->
  forall name args, (name, args) ∈ toolRequests tr ->
    exists tc, tc ∈ invocations tr /\ name = ai.ToolCall.Name tc
               /\ args = ai.ToolCall.Arguments tc.
Proof.
  induction 1 as [it p hs t provider stats
                 |n it p hs t err
                 |n it p hs t a provider stats Hnone
                 |n it p hs t a rs res tr Hsome Hlen calls trs Hrun IH];
    intros name args Hin; try (by apply elem_of_nil in Hin).
  cbn [toolRequests invocations] in *.
  rewrite toolRequests_app, elem_of_app in Hin.
  rewrite invocations_app, invocations_segments, app_nil_l.
  destruct Hin as [Hin|Hin].
  - apply toolRequests_segments_elem in Hin as (tc & Hin & Hn & Ha).
    exists tc. split; [|done]. apply elem_of_app. by left.
  - destruct (IH name args Hin) as (tc & Hin' & Hn & Ha).
    exists tc. split; [|done]. apply elem_of_app. by right.
Qed.

Lemma invocations_elem tr tc :
  tc ∈ invocations tr ->
  exists prompt ts hist r,
    EvChat prompt ts hist (Ok r) ∈ tr /\ tc ∈ ai.Response.ToolCalls r.
Proof.
  induction tr as [|e tr IH]; [intros H; by apply elem_of_nil in H|].
  intros H.
  assert (Hrest : tc ∈ invocations tr ->
    exists prompt ts hist r,
      EvChat prompt ts hist (Ok r) ∈ e :: tr
      /\ tc ∈ ai.Response.ToolCalls r).
  { intros H'. destruct (IH H') as (p & ts & hs & r & Hin & Htc).
    exists p, ts, hs, r. split; [by right|done]. }
  destruct e as [p ts hs [r|err]| | | | |]; simpl in H; try by apply Hrest.
  apply elem_of_app in H as [H|H]; [|by apply Hrest].
  exists p, ts, hs, r. split; [left|done].
Qed.

Lemma chatCalls_elem tr prompt ts hist a :
  EvChat prompt ts hist a ∈ tr -> (prompt, ts, hist) ∈ chatCalls tr.
Proof.
  induction tr as [|e tr IH]; [intros H; by apply elem_of_nil in H|].
  intros H. apply elem_of_cons in H as [<-|H].
  - simpl. left.
  - specialize (IH H). destruct e; simpl; try done. by right.
Qed.

Lemma run_chat_tools n iteration prompt hist t res tr :
  LoopRun lib svc n iteration prompt hist t res tr ->
  forall prompt' ts hist' a,
    EvChat prompt' ts hist' a ∈ tr -> ts = tools svc.
Proof.
  intros Hrun prompt' ts hist' a Hin.
  apply chatCalls_elem, list_elem_of_lookup in Hin as [k Hk].
  by destruct (run_chatCalls lib svc _ _ _ _ _ _ _ Hrun k _ _ _ Hk)
    as [-> _].
Qed.

(** The answers of the provider in a run are answers of the handler. *)
Lemma interp_chat_events {S A} (h : Handler S) (prog : Prog A) : forall st,
  forall prompt ts hist a,
    EvChat prompt ts hist a ∈ (interp h prog st).2 ->
    exists w, a = (onChat h prompt ts hist w).1.
Proof.
  induction prog as [x|p ts hs k IH|k IH|n args k IH|key k IH
                     |key c e k IH|k IH]; intros st prompt ts' hist a Hin.
  - by apply elem_of_nil in Hin.
  - simpl in Hin. destruct (onChat h p ts hs st) as [r st1] eqn:E.
    specialize (IH r st1 prompt ts' hist a).
    destruct (interp h (k r) st1) as [[x st2] tr]. simpl in *.
    apply elem_of_cons in Hin as [[= -> -> -> ->]|Hin]; [|by apply IH].
    exists st. by rewrite E.
  - simpl in Hin. destruct (onGetProviderName h st) as [r st1].
    specialize (IH r st1 prompt ts' hist a).
    destruct (interp h (k r) st1) as [[x st2] tr]. simpl in *.
    apply elem_of_cons in Hin as [[=]|Hin]. by apply IH.
  - simpl in Hin. destruct (onCallTool h n args st) as [r st1].
    specialize (IH r st1 prompt ts' hist a).
    destruct (interp h (k r) st1) as [[x st2] tr]. simpl in *.
    apply elem_of_cons in Hin as [[=]|Hin]. by apply IH.
  - simpl in Hin. destruct (onCacheGet h key st) as [r st1].
    specialize (IH r st1 prompt ts' hist a).
    destruct (interp h (k r) st1) as [[x st2] tr]. simpl in *.
    apply elem_of_cons in Hin as [[=]|Hin]. by apply IH.
  - simpl in Hin.
    specialize (IH (onCacheSet h key c e st) prompt ts' hist a).
    destruct (interp h k (onCacheSet h key c e st)) as [[x st2] tr].
    simpl in *.
    apply elem_of_cons in Hin as [[=]|Hin]. by apply IH.
  - simpl in Hin. destruct (onCacheStats h st) as [r st1].
    specialize (IH r st1 prompt ts' hist a).
    destruct (interp h (k r) st1) as [[x st2] tr]. simpl in *.
    apply elem_of_cons in Hin as [[=]|Hin]. by apply IH.
Qed.

Lemma Forall_zip_with_l {A B C} (P : C -> Prop) (Q : A -> Prop)
    (f : A -> B -> C) (l : list A) (k : list B) :
  (forall a b, Q a -> P (f a b)) ->
  Forall Q l -> Forall P (zip_with f l k).
Proof.
  intros Hf Hl. revert k.
  induction Hl as [|a l Ha Hl IH]; intros [|b k]; simpl; constructor; auto.
Qed.

Lemma Forall_callRecords (P : string -> Prop) (l : list ai.ToolCall.t)
    (rs : list Resolution) :
  Forall (fun tc => P (ai.ToolCall.Name tc)) l ->
  Forall (fun c => P (models.ToolCall.Name c))
         (concat (zip_with callRecord l rs)).
Proof.
  intros Hl. revert rs.
  induction Hl as [|a l Ha Hl IH]; intros [|r rs]; simpl;
    try constructor.
  apply Forall_app. split; [|apply IH].
  destruct r as [c|[m|e]]; simpl; repeat constructor; exact Ha.
Qed.

End CatalogOnly.

(** X14. With the Gemini provider, whatever the model answers,
    [ProcessPrompt] calls tools of the catalog of the service only, and
    the tool calls and tool results of its response name tools of the
    catalog only: a tool call in the text of the model that names
    another tool never reaches the protocol client. *)
Theorem X14_gemini_calls_catalog_tools_only (lib : GoLib) (tl : TextLib)
    (svc : OrchestrationService) {W : Type} (h : Handler W)
    (request : models.ChatRequest.t) (st : W) :
  (forall prompt ts hist w,
     exists systemPrompt generateContent,
       gemini.Chat tl systemPrompt generateContent prompt ts hist
       = Some (onChat h prompt ts hist w).1) ->
  let run := interp h (ProcessPrompt lib svc request) st in
  let inCatalog name := name ∈ map mcp.Tool.Name (tools svc) in
  Forall (fun request => inCatalog request.1) (toolRequests run.2)
  /\ (forall r, run.1.1 = Ok r ->
        Forall (fun c => inCatalog (models.ToolCall.Name c))
               (models.ChatResponse.ToolCalls r)
        /\ Forall (fun x => inCatalog (models.ToolResult.Name x))
                  (models.ChatResponse.ToolResults r))
  /\ (tools svc = [] -> toolRequests run.2 = []).
Proof.
  intros Hg run inCatalog.
  pose proof (ProcessPrompt_run lib svc h request st) as Hrun.
  fold run in Hrun.
  assert (Hinv : Forall (fun tc => inCatalog (ai.ToolCall.Name tc))
                        (invocations run.2)).
  { apply Forall_forall. intros tc Htc.
    apply invocations_elem in Htc as (p & ts & hs & r & Hin & Htc).
    pose proof (run_chat_tools lib svc _ _ _ _ _ _ _ Hrun _ _ _ _ Hin) as ->.
    apply interp_chat_events in Hin as [w Hw].
    destruct (Hg p (tools svc) hs w) as (sys & gen & Hchat).
    rewrite <- Hw in Hchat. unfold gemini.Chat in Hchat.
    destruct (gen _) as [[|candidate cs]|err]; try discriminate Hchat.
    destruct (gemini.Content candidate) as [parts|]; [|discriminate Hchat].
    injection Hchat as <-. simpl in Htc.
    unfold gemini.extractToolCalls in Htc.
    destruct (extractLines_spec tl (tools svc)
                (strings.Split
                   (fold_left
                      (fun responseContent part =>
                         match part with
                         | gemini.Text text => responseContent +:+ text
                         | gemini.OtherPart => responseContent
                         end) parts "") "010"%char) 0) as [Hn _].
    rewrite Forall_forall in Hn. by apply Hn. }
  assert (Hreq : Forall (fun request => inCatalog request.1)
                        (toolRequests run.2)).
  { apply Forall_forall. intros [name args] Hin.
    destruct (run_toolRequests lib svc _ _ _ _ _ _ _ Hrun name args Hin)
      as (tc & Htc & -> & _).
    rewrite Forall_forall in Hinv. by apply Hinv. }
  split; [exact Hreq|]. split.
  - intros r Hr.
    destruct (run_results lib svc _ _ _ _ _ _ _ Hrun) as (_ & _ & Hres).
    destruct (Hres r Hr) as (H1 & H2 & _). simpl in H1, H2.
    rewrite H1, H2. split.
    + by apply Forall_callRecords.
    + eapply Forall_zip_with_l; [|exact Hinv]. by intros tc r0 Htc.
  - intros Hnil.
    destruct (toolRequests run.2) as [|[name args] l]; [reflexivity|].
    apply Forall_cons in Hreq as [Hin _]. unfold inCatalog in Hin.
    rewrite Hnil in Hin. simpl in Hin. by apply elem_of_nil in Hin.
Qed.

(* --------------------------------------------------------------------- *)
(** ** The protocol client over HTTP *)
(* --------------------------------------------------------------------- *)

Section HTTPClient.

Context {S : Type} (sdk : httpclient.SDK S).

Lemma lifecycle_Initialize (w : httpclient.World S) :
  httpclient.lifecycle w ->
  httpclient.lifecycle (httpclient.Initialize sdk w).2
  /\ httpclient.serverURL (httpclient.client (httpclient.Initialize sdk w).2)
     = httpclient.serverURL (httpclient.client w)
  /\ ((httpclient.Initialize sdk w).1 = None ->
      is_Some (httpclient.session
                 (httpclient.client (httpclient.Initialize sdk w).2))).
Proof.
  unfold httpclient.lifecycle, httpclient.Initialize. cbv zeta.
  destruct w as [[s url ts ini] st log]. simpl.
  destruct s as [s|].
  - intros [-> H]. simpl. split; [by split|]. split; [done|]. by eauto.
  - intros [-> H]. simpl.
    destruct (httpclient.onConnect sdk url st) as [[s|err] st1]; simpl.
    + split; [|split; [done|by eauto]]. split; [done|].
      exists log, []. split; [done|]. split; [exact H|constructor].
    + split; [|split; [done|discriminate]]. split; [done|].
      apply Forall_app. split; [exact H|]. by repeat constructor.
Qed.

Lemma lifecycle_extend (c : httpclient.Client) (st st' : S)
    (log : list httpclient.Call) (s : httpclient.Session)
    (call : httpclient.Call) (ts : list mcp.Tool.t) :
  httpclient.session c = Some s ->
  httpclient.onSession s call ->
  httpclient.lifecycle (httpclient.mkWorld c st log) ->
  httpclient.lifecycle
    (httpclient.mkWorld
       {| httpclient.session := httpclient.session c;
          httpclient.serverURL := httpclient.serverURL c;
          httpclient.tools := ts;
          httpclient.initialized := httpclient.initialized c |}
       st' (log ++ [call])).
Proof.
  unfold httpclient.lifecycle. simpl. intros -> Hcall.
  intros (Hini & failed & rest & -> & Hf & Hr). split; [exact Hini|].
  exists failed, (rest ++ [call]). split; [by rewrite <- app_assoc|].
  split; [exact Hf|]. apply Forall_app. split; [exact Hr|].
  by repeat constructor.
Qed.

Lemma lifecycle_same_client (c : httpclient.Client) (st st' : S)
    (log : list httpclient.Call) (s : httpclient.Session)
    (call : httpclient.Call) :
  httpclient.session c = Some s ->
  httpclient.onSession s call ->
  httpclient.lifecycle (httpclient.mkWorld c st log) ->
  httpclient.lifecycle (httpclient.mkWorld c st' (log ++ [call])).
Proof.
  intros Hs Hcall Hl.
  pose proof (lifecycle_extend c st st' log s call (httpclient.tools c)
                Hs Hcall Hl) as H.
  by destruct c.
Qed.

Lemma lifecycle_perform (op : httpclient.Op) (w : httpclient.World S) :
  httpclient.lifecycle w ->
  exists w',
    httpclient.perform sdk op w = Some w'
    /\ httpclient.lifecycle w'
    /\ httpclient.serverURL (httpclient.client w')
       = httpclient.serverURL (httpclient.client w).
Proof.
  intros Hl. destruct op as [| |name args|]; simpl.
  - eexists. split; [reflexivity|].
    destruct (lifecycle_Initialize w Hl) as (H1 & H2 & _). by split.
  - unfold httpclient.ListTools, httpclient.ensureInitialized.
    destruct (lifecycle_Initialize w Hl) as (H1 & H2 & H3).
    assert (Hw : exists ierr w1,
      (if httpclient.initialized (httpclient.client w)
       then (None, w) else httpclient.Initialize sdk w) = (ierr, w1)
      /\ httpclient.lifecycle w1
      /\ httpclient.serverURL (httpclient.client w1)
         = httpclient.serverURL (httpclient.client w)
      /\ (ierr = None -> is_Some (httpclient.session (httpclient.client w1)))).
    { destruct (httpclient.initialized (httpclient.client w)) eqn:Hi.
      - exists None, w. split; [done|]. split; [done|]. split; [done|].
        intros _. unfold httpclient.lifecycle in Hl.
        destruct (httpclient.session (httpclient.client w)); [by eauto|].
        destruct Hl as [Hl _]. congruence.
      - destruct (httpclient.Initialize sdk w) as [ierr w1].
        exists ierr, w1. by repeat split. }
    destruct Hw as (ierr & w1 & -> & Hl1 & Hu1 & Hs1).
    destruct ierr as [err|]; [by eauto|].
    destruct (Hs1 eq_refl) as [s Hs].
    destruct w1 as [c1 st1 log1]. simpl in *.
    destruct (httpclient.session c1) as [s'|] eqn:Hs'; [|discriminate Hs].
    injection Hs as ->.
    destruct (httpclient.onListTools sdk s st1) as [[ts|err] st2].
    + eexists. split; [reflexivity|]. split; [|exact Hu1].
      rewrite <- Hs'.
      apply (lifecycle_extend c1 st1 st2 log1 s);
        [exact Hs'|reflexivity|exact Hl1].
    + eexists. split; [reflexivity|]. split; [|exact Hu1].
      apply (lifecycle_same_client c1 st1 st2 log1 s);
        [exact Hs'|reflexivity|exact Hl1].
  - unfold httpclient.CallTool, httpclient.ensureInitialized.
    destruct (lifecycle_Initialize w Hl) as (H1 & H2 & H3).
    assert (Hw : exists ierr w1,
      (if httpclient.initialized (httpclient.client w)
       then (None, w) else httpclient.Initialize sdk w) = (ierr, w1)
      /\ httpclient.lifecycle w1
      /\ httpclient.serverURL (httpclient.client w1)
         = httpclient.serverURL (httpclient.client w)
      /\ (ierr = None -> is_Some (httpclient.session (httpclient.client w1)))).
    { destruct (httpclient.initialized (httpclient.client w)) eqn:Hi.
      - exists None, w. split; [done|]. split; [done|]. split; [done|].
        intros _. unfold httpclient.lifecycle in Hl.
        destruct (httpclient.session (httpclient.client w)); [by eauto|].
        destruct Hl as [Hl _]. congruence.
      - destruct (httpclient.Initialize sdk w) as [ierr w1].
        exists ierr, w1. by repeat split. }
    destruct Hw as (ierr & w1 & -> & Hl1 & Hu1 & Hs1).
    destruct ierr as [err|]; [by eauto|].
    destruct (Hs1 eq_refl) as [s Hs].
    destruct w1 as [c1 st1 log1]. simpl in *.
    destruct (httpclient.session c1) as [s'|] eqn:Hs'; [|discriminate Hs].
    injection Hs as ->.
    destruct (httpclient.onCallTool sdk s name args st1) as [[r|err] st2].
    + eexists. split; [reflexivity|]. split; [|exact Hu1].
      apply (lifecycle_same_client c1 st1 st2 log1 s);
        [exact Hs'|reflexivity|exact Hl1].
    + eexists. split; [reflexivity|]. split; [|exact Hu1].
      apply (lifecycle_same_client c1 st1 st2 log1 s);
        [exact Hs'|reflexivity|exact Hl1].
  - unfold httpclient.Close.
    destruct (httpclient.session (httpclient.client w)) as [s|] eqn:Hs.
    + destruct w as [c st log]. simpl in *.
      destruct (httpclient.onClose sdk s st) as [r st1].
      eexists. split; [reflexivity|]. split; [|reflexivity].
      apply (lifecycle_same_client c st st1 log s);
        [exact Hs|reflexivity|exact Hl].
    + eexists. split; [reflexivity|]. by split.
Qed.

Lemma lifecycle_performAll (ops : list httpclient.Op) :
  forall w : httpclient.World S,
    httpclient.lifecycle w ->
    exists w',
      httpclient.performAll sdk ops w = Some w'
      /\ httpclient.lifecycle w'
      /\ httpclient.serverURL (httpclient.client w')
         = httpclient.serverURL (httpclient.client w).
Proof.
  induction ops as [|op ops IH]; intros w Hl.
  - exists w. by repeat split.
  - destruct (lifecycle_perform op w Hl) as (w1 & Hp & Hl1 & Hu1).
    destruct (IH w1 Hl1) as (w2 & Hp2 & Hl2 & Hu2).
    exists w2. simpl. rewrite Hp. split; [exact Hp2|].
    split; [exact Hl2|]. by rewrite Hu2.
Qed.

End HTTPClient.

(** X15. A client made by [NewClient], whatever methods are called on it
    and in whatever order, connects to its own endpoint only, never
    connects again once an attempt has succeeded, and makes every call of
    the session on the session that this attempt returned, also after
    [Close]; no method call fails on a missing session. *)
Theorem X15_client_connects_once (S : Type) (sdk : httpclient.SDK S)
    (mcpServerURL : string) (st : S) (ops : list httpclient.Op) :
  exists w,
    httpclient.performAll sdk ops
      (httpclient.mkWorld (httpclient.NewClient mcpServerURL) st []) = Some w
    /\ httpclient.serverURL (httpclient.client w) = mcpServerURL
    /\ match httpclient.session (httpclient.client w) with
       | None =>
           httpclient.initialized (httpclient.client w) = false
           /\ Forall (httpclient.failedConnect mcpServerURL) (httpclient.calls w)
       | Some s =>
           httpclient.initialized (httpclient.client w) = true
           /\ exists failed rest,
                httpclient.calls w
                  = failed ++ httpclient.Connect mcpServerURL (Ok s) :: rest
                /\ Forall (httpclient.failedConnect mcpServerURL) failed
                /\ Forall (httpclient.onSession s) rest
       end.
Proof.
  destruct (lifecycle_performAll sdk ops
              (httpclient.mkWorld (httpclient.NewClient mcpServerURL) st []))
    as (w & Hp & Hl & Hu).
  { split; [reflexivity|constructor]. }
  exists w. split; [exact Hp|]. split; [exact Hu|].
  unfold httpclient.lifecycle in Hl. cbv zeta in Hl. by rewrite Hu in Hl.
Qed.

(** X16. [NewOrchestrationService] on a new client: when it succeeds the
    client has connected once and listed the tools once, the tools of
    the service are those the server listed and those that [GetTools]
    returns, and the cache of the service is empty with the ttl
    [CacheTTL]; when the connection fails the tools are not asked for
    and the client stays uninitialized; when listing the tools fails the
    client stays initialized with an empty catalog. The error is the
    error of the SDK behind the prefixes of the two methods. *)
Theorem X16_NewOrchestrationService_outcomes (S : Type)
    (sdk : httpclient.SDK S) (mcpServerURL : string) (st : S) :
  let w0 := httpclient.mkWorld (httpclient.NewClient mcpServerURL) st [] in
  match httpclient.NewOrchestrationService sdk w0 with
  | None => False
  | Some (Ok (svc, cache), w) =>
      exists s,
        httpclient.calls w =
          [httpclient.Connect mcpServerURL (Ok s);
           httpclient.SessionListTools s]
        /\ (httpclient.onConnect sdk mcpServerURL st).1 = Ok s
        /\ (httpclient.onListTools sdk s
              (httpclient.onConnect sdk mcpServerURL st).2).1
           = Ok (tools svc)
        /\ httpclient.GetTools w = tools svc
        /\ httpclient.initialized (httpclient.client w) = true
        /\ cache = NewResultCache CacheTTL
        /\ Stats cache !! "total_entries" = Some 0
  | Some (Err e, w) =>
      (exists err,
         (httpclient.onConnect sdk mcpServerURL st).1 = Err err
         /\ e = "failed to initialize MCP client: "
                +:+ "failed to connect to MCP server via HTTP: " +:+ err
         /\ httpclient.calls w = [httpclient.Connect mcpServerURL (Err err)]
         /\ httpclient.client w = httpclient.NewClient mcpServerURL)
      \/ (exists s err,
            (httpclient.onConnect sdk mcpServerURL st).1 = Ok s
            /\ e = "failed to list tools: " +:+ "failed to list tools: "
                   +:+ err
            /\ httpclient.calls w =
                 [httpclient.Connect mcpServerURL (Ok s);
                  httpclient.SessionListTools s]
            /\ httpclient.initialized (httpclient.client w) = true
            /\ httpclient.GetTools w = [])
  end.
Proof.
  intros w0. subst w0.
  unfold httpclient.NewOrchestrationService, httpclient.Initialize.
  cbv zeta. simpl.
  destruct (httpclient.onConnect sdk mcpServerURL st) as [[s|err] st1]; simpl.
  - unfold httpclient.ListTools, httpclient.ensureInitialized. simpl.
    destruct (httpclient.onListTools sdk s st1) as [[ts|err] st2] eqn:E;
      simpl.
    + exists s. rewrite E. by repeat split.
    + right. exists s, err. by repeat split.
  - left. exists err. by repeat split.
Qed.

(* --------------------------------------------------------------------- *)
(** ** The protocol client over stdio *)
(* --------------------------------------------------------------------- *)

Section StdioSteps.

Context {R : Type}.
Context (unmarshalResponse : string -> result stdio.JSONRPCResponse.t).

Lemma run_cons (c : stdio.Client R) a sched :
  stdio.run unmarshalResponse c (a :: sched) =
  match stdio.step unmarshalResponse c a with
  | Some c' => stdio.run unmarshalResponse c' sched
  | None => None
  end.
Proof. reflexivity. Qed.

Lemma stepCaller_Write_fails (c : stdio.Client R) (i : nat) line k err :
  stdio.callers c !! i = Some (stdio.Write line k) ->
  stdio.stdinError c = Some err ->
  stdio.stepCaller c i = Some (stdio.setCaller c i (k (Some err))).
Proof. intros H He. unfold stdio.stepCaller. by rewrite H, He. Qed.

Lemma stepCaller_DeletePending (c : stdio.Client R) (i : nat) id k :
  stdio.callers c !! i = Some (stdio.DeletePending id k) ->
  stdio.stepCaller c i =
  Some (stdio.setCaller
          {| stdio.initialized := stdio.initialized c;
             stdio.tools := stdio.tools c;
             stdio.muLocked := stdio.muLocked c;
             stdio.requestID := stdio.requestID c;
             stdio.pendingCalls := delete id (stdio.pendingCalls c);
             stdio.chans := stdio.chans c;
             stdio.stdin := stdio.stdin c;
             stdio.stdinError := stdio.stdinError c;
             stdio.stdout := stdio.stdout c;
             stdio.stdoutClosed := stdio.stdoutClosed c;
             stdio.reader := stdio.reader c;
             stdio.callers := stdio.callers c |}
          i k).
Proof. intros H. unfold stdio.stepCaller. by rewrite H. Qed.

Lemma stepCaller_Recv (c : stdio.Client R) (i : nat) ch k response :
  stdio.callers c !! i = Some (stdio.Recv ch k) ->
  stdio.chans c !! ch = Some (Some response) ->
  stdio.stepCaller c i =
  Some (stdio.setCaller
          {| stdio.initialized := stdio.initialized c;
             stdio.tools := stdio.tools c;
             stdio.muLocked := stdio.muLocked c;
             stdio.requestID := stdio.requestID c;
             stdio.pendingCalls := stdio.pendingCalls c;
             stdio.chans := <[ch := None]> (stdio.chans c);
             stdio.stdin := stdio.stdin c;
             stdio.stdinError := stdio.stdinError c;
             stdio.stdout := stdio.stdout c;
             stdio.stdoutClosed := stdio.stdoutClosed c;
             stdio.reader := stdio.reader c;
             stdio.callers := stdio.callers c |}
          i (k response)).
Proof. intros H Hc. unfold stdio.stepCaller. by rewrite H, Hc. Qed.

Lemma stepCaller_Lock (c : stdio.Client R) (i : nat) k :
  stdio.callers c !! i = Some (stdio.Lock k) ->
  stdio.muLocked c = false ->
  stdio.stepCaller c i =
  Some (stdio.setCaller
          {| stdio.initialized := stdio.initialized c;
             stdio.tools := stdio.tools c;
             stdio.muLocked := true;
             stdio.requestID := stdio.requestID c;
             stdio.pendingCalls := stdio.pendingCalls c;
             stdio.chans := stdio.chans c;
             stdio.stdin := stdio.stdin c;
             stdio.stdinError := stdio.stdinError c;
             stdio.stdout := stdio.stdout c;
             stdio.stdoutClosed := stdio.stdoutClosed c;
             stdio.reader := stdio.reader c;
             stdio.callers := stdio.callers c |}
          i k).
Proof. intros H Hm. unfold stdio.stepCaller. by rewrite H, Hm. Qed.

Lemma stepCaller_Unlock (c : stdio.Client R) (i : nat) k :
  stdio.callers c !! i = Some (stdio.Unlock k) ->
  stdio.stepCaller c i =
  Some (stdio.setCaller
          {| stdio.initialized := stdio.initialized c;
             stdio.tools := stdio.tools c;
             stdio.muLocked := false;
             stdio.requestID := stdio.requestID c;
             stdio.pendingCalls := stdio.pendingCalls c;
             stdio.chans := stdio.chans c;
             stdio.stdin := stdio.stdin c;
             stdio.stdinError := stdio.stdinError c;
             stdio.stdout := stdio.stdout c;
             stdio.stdoutClosed := stdio.stdoutClosed c;
             stdio.reader := stdio.reader c;
             stdio.callers := stdio.callers c |}
          i k).
Proof. intros H. unfold stdio.stepCaller. by rewrite H. Qed.

Lemma stepCaller_SetInitialized (c : stdio.Client R) (i : nat) b k :
  stdio.callers c !! i = Some (stdio.SetInitialized b k) ->
  stdio.stepCaller c i =
  Some (stdio.setCaller
          {| stdio.initialized := b;
             stdio.tools := stdio.tools c;
             stdio.muLocked := stdio.muLocked c;
             stdio.requestID := stdio.requestID c;
             stdio.pendingCalls := stdio.pendingCalls c;
             stdio.chans := stdio.chans c;
             stdio.stdin := stdio.stdin c;
             stdio.stdinError := stdio.stdinError c;
             stdio.stdout := stdio.stdout c;
             stdio.stdoutClosed := stdio.stdoutClosed c;
             stdio.reader := stdio.reader c;
             stdio.callers := stdio.callers c |}
          i k).
Proof. intros H. unfold stdio.stepCaller. by rewrite H. Qed.

(** The reader takes a line that answers a pending call, looks the
    call up and puts the response in its channel. *)
Lemma reader_delivers (c : stdio.Client R) line rest response id ch :
  stdio.reader c = stdio.Scanning ->
  stdio.stdout c = line :: rest ->
  Z.of_nat (String.length line) < stdio.MaxScanTokenSize ->
  unmarshalResponse (stdio.dropCR line) = Ok response ->
  stdio.requestIDOf (stdio.JSONRPCResponse.ID response) = Some id ->
  stdio.pendingCalls c !! id = Some ch ->
  stdio.chans c !! ch = Some None ->
  stdio.run unmarshalResponse c (replicate 3 stdio.ReadResponses) =
  Some (stdio.setReader c stdio.Scanning rest
          (<[ch := Some response]> (stdio.chans c))).
Proof.
  intros Hr Hout Hlen Hline Hid Hp Hch. apply Z.ltb_lt in Hlen.
  cbn [replicate stdio.run stdio.step].
  unfold stdio.readResponses at 1. rewrite Hr, Hout, Hlen, Hline.
  destruct (stdio.JSONRPCResponse.ID response) eqn:EID;
    try discriminate Hid.
  rewrite Hid.
  unfold stdio.readResponses at 1. cbn [stdio.setReader stdio.reader
    stdio.pendingCalls]. rewrite Hp.
  unfold stdio.readResponses at 1. cbn [stdio.setReader stdio.reader
    stdio.chans]. rewrite Hch. reflexivity.
Qed.

(** The reader drops a line that answers no pending call. *)
Lemma reader_drops (c : stdio.Client R) line rest :
  stdio.reader c = stdio.Scanning ->
  stdio.stdout c = line :: rest ->
  Z.of_nat (String.length line) < stdio.MaxScanTokenSize ->
  match unmarshalResponse (stdio.dropCR line) with
  | Err _ => True
  | Ok response =>
      match stdio.requestIDOf (stdio.JSONRPCResponse.ID response) with
      | None => True
      | Some id => stdio.pendingCalls c !! id = None
      end
  end ->
  exists n, (1 <= n <= 2)%nat
    /\ stdio.run unmarshalResponse c (replicate n stdio.ReadResponses) =
       Some (stdio.setReader c stdio.Scanning rest (stdio.chans c)).
Proof.
  intros Hr Hout Hlen Hnone. apply Z.ltb_lt in Hlen.
  destruct (unmarshalResponse (stdio.dropCR line)) as [response|err]
    eqn:Hline.
  - destruct (stdio.requestIDOf (stdio.JSONRPCResponse.ID response))
      as [id|] eqn:Hid.
    + exists 2%nat. split; [lia|].
      cbn [replicate stdio.run stdio.step].
      unfold stdio.readResponses at 1. rewrite Hr, Hout, Hlen, Hline.
      destruct (stdio.JSONRPCResponse.ID response);
        try discriminate Hid.
      rewrite Hid.
      unfold stdio.readResponses at 1.
      cbn [stdio.setReader stdio.reader stdio.pendingCalls].
      by rewrite Hnone.
    + exists 1%nat. split; [lia|].
      cbn [replicate stdio.run stdio.step].
      unfold stdio.readResponses at 1. rewrite Hr, Hout, Hlen, Hline.
      destruct (stdio.JSONRPCResponse.ID response);
        try reflexivity.
      by rewrite Hid.
  - exists 1%nat. split; [lia|].
    cbn [replicate stdio.run stdio.step].
    unfold stdio.readResponses at 1. by rewrite Hr, Hout, Hlen, Hline.
Qed.

(** The reader leaves its loop at a line that does not fit in the
    buffer of the scanner. *)
Lemma reader_stops (c : stdio.Client R) line rest :
  stdio.reader c = stdio.Scanning ->
  stdio.stdout c = line :: rest ->
  stdio.MaxScanTokenSize <= Z.of_nat (String.length line) ->
  stdio.readResponses unmarshalResponse c =
  Some (stdio.setReader c stdio.Returned (line :: rest) (stdio.chans c)).
Proof.
  intros Hr Hout Hlen. unfold stdio.readResponses. rewrite Hr, Hout.
  destruct (Z.ltb_spec (Z.of_nat (String.length line))
                       stdio.MaxScanTokenSize); [lia|reflexivity].
Qed.

End StdioSteps.

Section StdioCall.

Context {R : Type}.
Context (marshalRequest : stdio.JSONRPCRequest.t -> result string)
        (unmarshalResponse : string -> result stdio.JSONRPCResponse.t).

(** The first four operations of [call]: the id, the channel, the
    pending call, the request written. *)
Lemma call_sends (c : stdio.Client R) (i : nat) (method : string)
    (params : stdio.Params) (f : result Value -> stdio.Prog R)
    (line : string) :
  stdio.callers c !! i =
    Some (stdio.bind (stdio.call marshalRequest method params) f) ->
  stdio.stdinError c = None ->
  marshalRequest (requestOf (stdio.requestID c + 1) method params)
    = Ok line ->
  stdio.run unmarshalResponse c (replicate 4 (stdio.Caller i)) =
  Some {| stdio.initialized := stdio.initialized c;
          stdio.tools := stdio.tools c;
          stdio.muLocked := stdio.muLocked c;
          stdio.requestID := stdio.requestID c + 1;
          stdio.pendingCalls :=
            <[stdio.requestID c + 1 := length (stdio.chans c)]>
              (stdio.pendingCalls c);
          stdio.chans := stdio.chans c ++ [None];
          stdio.stdin := stdio.stdin c ++ [line +:+ stdio.newline];
          stdio.stdinError := None;
          stdio.stdout := stdio.stdout c;
          stdio.stdoutClosed := stdio.stdoutClosed c;
          stdio.reader := stdio.reader c;
          stdio.callers :=
            <[i := stdio.Recv (length (stdio.chans c))
                     (fun response =>
                        stdio.DeletePending (stdio.requestID c + 1)
                          (f (responseOutcome response)))]>
              (stdio.callers c) |}.
Proof.
  intros Hi Herr Hline.
  assert (Hlt : (i < length (stdio.callers c))%nat)
    by (by eapply lookup_lt_Some).
  unfold stdio.call, mbind, stdio.Prog_bind, mret, stdio.Prog_ret in Hi.
  cbn [stdio.bind] in Hi. unfold requestOf in Hline.
  cbn [replicate stdio.run stdio.step].
  erewrite stepCaller_NextRequestID by exact Hi.
  cbv beta. client_fields.
  erewrite stepCaller_MakeChan by client_caller.
  cbv beta. client_fields.
  erewrite stepCaller_PutPending by client_caller.
  cbv beta. client_fields.
  rewrite Hline. cbn [stdio.bind].
  erewrite stepCaller_Write; [|client_caller|exact Herr].
  cbn [stdio.bind]. unfold stdio.setCaller. client_fields.
  rewrite !list_insert_insert_eq, Herr. reflexivity.
Qed.

(** A call that is answered: the value [call] returns is what its
    caller goes on with, and the pending call is gone. *)
Lemma call_exchange (c : stdio.Client R) (i : nat) (method : string)
    (params : stdio.Params) (f : result Value -> stdio.Prog R)
    (line answer : string) (response : stdio.JSONRPCResponse.t) :
  stdio.callers c !! i =
    Some (stdio.bind (stdio.call marshalRequest method params) f) ->
  stdio.stdinError c = None ->
  stdio.reader c = stdio.Scanning ->
  stdio.stdout c = [] ->
  stdio.stdoutClosed c = false ->
  marshalRequest (requestOf (stdio.requestID c + 1) method params)
    = Ok line ->
  stdio.splitLines answer = [answer] ->
  Z.of_nat (String.length answer) < stdio.MaxScanTokenSize ->
  unmarshalResponse (stdio.dropCR answer) = Ok response ->
  stdio.requestIDOf (stdio.JSONRPCResponse.ID response)
    = Some (stdio.requestID c + 1) ->
  stdio.run unmarshalResponse c (exchange i 4 answer) =
  Some {| stdio.initialized := stdio.initialized c;
          stdio.tools := stdio.tools c;
          stdio.muLocked := stdio.muLocked c;
          stdio.requestID := stdio.requestID c + 1;
          stdio.pendingCalls :=
            delete (stdio.requestID c + 1) (stdio.pendingCalls c);
          stdio.chans := stdio.chans c ++ [None];
          stdio.stdin := stdio.stdin c ++ [line +:+ stdio.newline];
          stdio.stdinError := None;
          stdio.stdout := [];
          stdio.stdoutClosed := false;
          stdio.reader := stdio.Scanning;
          stdio.callers :=
            <[i := f (responseOutcome response)]> (stdio.callers c) |}.
Proof.
  intros Hi Herr Hr Hout Hclosed Hline Hone Hlen Hans Hid.
  assert (Hlt : (i < length (stdio.callers c))%nat)
    by (by eapply lookup_lt_Some).
  unfold exchange. rewrite run_app.
  rewrite (call_sends c i method params f line Hi Herr Hline).
  rewrite Hr, Hout, Hclosed. cbv beta iota. cbn [app].
  rewrite run_cons. cbn [stdio.step]. client_fields. rewrite Hone.
  cbv beta iota. cbn [app]. rewrite run_app.
  erewrite reader_delivers;
    [|client_fields; reflexivity|client_fields; reflexivity|exact Hlen
     |exact Hans
     |exact Hid|client_fields; apply lookup_insert_eq
     |client_fields; by apply list_lookup_middle].
  unfold stdio.setReader. client_fields.
  cbn [replicate stdio.run stdio.step].
  erewrite stepCaller_Recv;
    [|client_caller
     |client_fields; apply list_lookup_insert_eq;
      rewrite length_app; simpl; lia].
  cbv beta. client_fields.
  erewrite stepCaller_DeletePending by client_caller.
  unfold stdio.setCaller. client_fields.
  rewrite !list_insert_insert_eq, delete_insert_eq.
  rewrite (list_insert_id (stdio.chans c ++ [None]))
    by (by apply list_lookup_middle).
  reflexivity.
Qed.

(** A call on a pipe that refuses writes: [call] returns without
    waiting, and its pending call is gone. *)
Lemma call_write_fails (c : stdio.Client R) (i : nat) (method : string)
    (params : stdio.Params) (f : result Value -> stdio.Prog R)
    (line : string) (err : error) :
  stdio.callers c !! i =
    Some (stdio.bind (stdio.call marshalRequest method params) f) ->
  stdio.stdinError c = Some err ->
  marshalRequest (requestOf (stdio.requestID c + 1) method params)
    = Ok line ->
  stdio.run unmarshalResponse c (replicate 5 (stdio.Caller i)) =
  Some {| stdio.initialized := stdio.initialized c;
          stdio.tools := stdio.tools c;
          stdio.muLocked := stdio.muLocked c;
          stdio.requestID := stdio.requestID c + 1;
          stdio.pendingCalls :=
            delete (stdio.requestID c + 1) (stdio.pendingCalls c);
          stdio.chans := stdio.chans c ++ [None];
          stdio.stdin := stdio.stdin c;
          stdio.stdinError := Some err;
          stdio.stdout := stdio.stdout c;
          stdio.stdoutClosed := stdio.stdoutClosed c;
          stdio.reader := stdio.reader c;
          stdio.callers :=
            <[i := f (Err ("failed to write request: " +:+ err))]>
              (stdio.callers c) |}.
Proof.
  intros Hi Herr Hline.
  assert (Hlt : (i < length (stdio.callers c))%nat)
    by (by eapply lookup_lt_Some).
  unfold stdio.call, mbind, stdio.Prog_bind, mret, stdio.Prog_ret in Hi.
  cbn [stdio.bind] in Hi. unfold requestOf in Hline.
  cbn [replicate stdio.run stdio.step].
  erewrite stepCaller_NextRequestID by exact Hi.
  cbv beta. client_fields.
  erewrite stepCaller_MakeChan by client_caller.
  cbv beta. client_fields.
  erewrite stepCaller_PutPending by client_caller.
  cbv beta. client_fields.
  rewrite Hline. cbn [stdio.bind].
  erewrite stepCaller_Write_fails; [|client_caller|exact Herr].
  cbv beta iota. cbn [stdio.bind]. client_fields.
  erewrite stepCaller_DeletePending by client_caller.
  unfold stdio.setCaller. client_fields.
  rewrite !list_insert_insert_eq, delete_insert_eq, Herr. reflexivity.
Qed.

End StdioCall.

Section StdioCallTool.

Context {InitializeResult ToolCallResult : Type}.
Context (marshalRequest : stdio.JSONRPCRequest.t -> result string)
        (unmarshalResponse : string -> result stdio.JSONRPCResponse.t)
        (marshalValue : Value -> result string)
        (unmarshalInitializeResult : string -> result InitializeResult)
        (unmarshalToolCallResult : string -> result ToolCallResult).

Lemma toolCallOutcome_Ret name (r : result Value) :
  match r with
  | Err err =>
      stdio.Ret (Err ("failed to call tool " +:+ name +:+ ": " +:+ err))
  | Ok result =>
      match marshalValue result with
      | Ok resultBytes =>
          match unmarshalToolCallResult resultBytes with
          | Ok toolResult => stdio.Ret (Ok toolResult)
          | Err err =>
              stdio.Ret
                (Err ("failed to unmarshal tool call result: " +:+ err))
          end
      | Err err =>
          stdio.Ret (Err ("failed to marshal tool call result: " +:+ err))
      end
  end = stdio.Ret (toolCallOutcome marshalValue unmarshalToolCallResult
                                   name r).
Proof.
  unfold toolCallOutcome. destruct r as [result|err]; [|reflexivity].
  destruct (marshalValue result) as [bytes|err]; [|reflexivity].
  by destruct (unmarshalToolCallResult bytes).
Qed.

(** [CallTool] on an initialized client whose request is answered. *)
Lemma CallTool_exchange (c : stdio.Client (result ToolCallResult))
    (i : nat) (name : string) (args : Args) (line answer : string)
    (response : stdio.JSONRPCResponse.t) :
  stdio.callers c !! i =
    Some (stdio.CallTool marshalRequest marshalValue
            unmarshalInitializeResult unmarshalToolCallResult name args) ->
  stdio.initialized c = true ->
  stdio.stdinError c = None ->
  stdio.reader c = stdio.Scanning ->
  stdio.stdout c = [] ->
  stdio.stdoutClosed c = false ->
  marshalRequest (requestOf (stdio.requestID c + 1) "tools/call"
                            (stdio.ToolCallParams name args)) = Ok line ->
  stdio.splitLines answer = [answer] ->
  Z.of_nat (String.length answer) < stdio.MaxScanTokenSize ->
  unmarshalResponse (stdio.dropCR answer) = Ok response ->
  stdio.requestIDOf (stdio.JSONRPCResponse.ID response)
    = Some (stdio.requestID c + 1) ->
  stdio.run unmarshalResponse c (exchange i 5 answer) =
  Some {| stdio.initialized := true;
          stdio.tools := stdio.tools c;
          stdio.muLocked := stdio.muLocked c;
          stdio.requestID := stdio.requestID c + 1;
          stdio.pendingCalls :=
            delete (stdio.requestID c + 1) (stdio.pendingCalls c);
          stdio.chans := stdio.chans c ++ [None];
          stdio.stdin := stdio.stdin c ++ [line +:+ stdio.newline];
          stdio.stdinError := None;
          stdio.stdout := [];
          stdio.stdoutClosed := false;
          stdio.reader := stdio.Scanning;
          stdio.callers :=
            <[i := stdio.Ret
                     (toolCallOutcome marshalValue unmarshalToolCallResult
                        name (responseOutcome response))]>
              (stdio.callers c) |}.
Proof.
  intros Hi Hinit Herr Hr Hout Hclosed Hline Hone Hlen Hans Hid.
  assert (Hlt : (i < length (stdio.callers c))%nat)
    by (by eapply lookup_lt_Some).
  unfold stdio.CallTool, mbind, stdio.Prog_bind, mret, stdio.Prog_ret in Hi.
  cbn [stdio.bind] in Hi.
  change (exchange i 5 answer)
    with (stdio.Caller (R:=result ToolCallResult) i :: exchange i 4 answer).
  rewrite run_cons. cbn [stdio.step].
  erewrite stepCaller_GetInitialized by exact Hi.
  rewrite Hinit. cbn [stdio.bind].
  erewrite call_exchange;
    [|client_caller|exact Herr|exact Hr|exact Hout|exact Hclosed
     |exact Hline|exact Hone|exact Hlen|exact Hans|exact Hid].
  client_fields.
  rewrite list_insert_insert_eq, Hinit, toolCallOutcome_Ret. reflexivity.
Qed.

(** [CallTool] on an initialized client whose pipe refuses writes. *)
Lemma CallTool_write_fails (c : stdio.Client (result ToolCallResult))
    (i : nat) (name : string) (args : Args) (line : string) (err : error) :
  stdio.callers c !! i =
    Some (stdio.CallTool marshalRequest marshalValue
            unmarshalInitializeResult unmarshalToolCallResult name args) ->
  stdio.initialized c = true ->
  stdio.stdinError c = Some err ->
  marshalRequest (requestOf (stdio.requestID c + 1) "tools/call"
                            (stdio.ToolCallParams name args)) = Ok line ->
  stdio.run unmarshalResponse c (replicate 6 (stdio.Caller i)) =
  Some {| stdio.initialized := true;
          stdio.tools := stdio.tools c;
          stdio.muLocked := stdio.muLocked c;
          stdio.requestID := stdio.requestID c + 1;
          stdio.pendingCalls :=
            delete (stdio.requestID c + 1) (stdio.pendingCalls c);
          stdio.chans := stdio.chans c ++ [None];
          stdio.stdin := stdio.stdin c;
          stdio.stdinError := Some err;
          stdio.stdout := stdio.stdout c;
          stdio.stdoutClosed := stdio.stdoutClosed c;
          stdio.reader := stdio.reader c;
          stdio.callers :=
            <[i := stdio.Ret
                     (Err ("failed to call tool " +:+ name +:+ ": "
                           +:+ "failed to write request: " +:+ err))]>
              (stdio.callers c) |}.
Proof.
  intros Hi Hinit Herr Hline.
  assert (Hlt : (i < length (stdio.callers c))%nat)
    by (by eapply lookup_lt_Some).
  unfold stdio.CallTool, mbind, stdio.Prog_bind, mret, stdio.Prog_ret in Hi.
  cbn [stdio.bind] in Hi.
  change (replicate 6 (stdio.Caller (R:=result ToolCallResult) i))
    with (stdio.Caller (R:=result ToolCallResult) i
          :: replicate 5 (stdio.Caller i)).
  rewrite run_cons. cbn [stdio.step].
  erewrite stepCaller_GetInitialized by exact Hi.
  rewrite Hinit. cbn [stdio.bind].
  erewrite call_write_fails; [|client_caller|exact Herr|exact Hline].
  client_fields. rewrite list_insert_insert_eq, Hinit. reflexivity.
Qed.

End StdioCallTool.

Section StdioInitialize.

Context {InitializeResult : Type}.
Context (marshalRequest : stdio.JSONRPCRequest.t -> result string)
        (unmarshalResponse : string -> result stdio.JSONRPCResponse.t)
        (marshalValue : Value -> result string)
        (unmarshalInitializeResult : string -> result InitializeResult).

(** [Initialize] on a client that is marked initialized: it takes the
    lock, looks at the mark and returns. *)
Lemma Initialize_when_initialized (c : stdio.Client (option error))
    (j : nat) :
  stdio.callers c !! j =
    Some (stdio.Initialize marshalRequest marshalValue
                           unmarshalInitializeResult) ->
  stdio.initialized c = true ->
  stdio.muLocked c = false ->
  stdio.run unmarshalResponse c (replicate 3 (stdio.Caller j)) =
  Some {| stdio.initialized := true;
          stdio.tools := stdio.tools c;
          stdio.muLocked := false;
          stdio.requestID := stdio.requestID c;
          stdio.pendingCalls := stdio.pendingCalls c;
          stdio.chans := stdio.chans c;
          stdio.stdin := stdio.stdin c;
          stdio.stdinError := stdio.stdinError c;
          stdio.stdout := stdio.stdout c;
          stdio.stdoutClosed := stdio.stdoutClosed c;
          stdio.reader := stdio.reader c;
          stdio.callers := <[j := stdio.Ret None]> (stdio.callers c) |}.
Proof.
  intros Hj Hinit Hmu.
  assert (Hlt : (j < length (stdio.callers c))%nat)
    by (by eapply lookup_lt_Some).
  unfold stdio.Initialize, mbind, stdio.Prog_bind, mret, stdio.Prog_ret
    in Hj.
  cbn [stdio.bind] in Hj.
  cbn [replicate stdio.run stdio.step].
  erewrite stepCaller_Lock; [|exact Hj|exact Hmu].
  client_fields.
  erewrite stepCaller_GetInitialized by client_caller.
  client_fields. rewrite Hinit.
  erewrite stepCaller_Unlock by client_caller.
  unfold stdio.setCaller. client_fields.
  rewrite !list_insert_insert_eq. reflexivity.
Qed.

(** [Initialize] when the server answers and the pipe breaks before
    the notification is written. *)
Lemma Initialize_pipe_breaks (c : stdio.Client (option error)) (i : nat)
    (line answer notification : string)
    (response : stdio.JSONRPCResponse.t) (resultBytes : string)
    (initResult : InitializeResult) (err : error) :
  stdio.callers c !! i =
    Some (stdio.Initialize marshalRequest marshalValue
                           unmarshalInitializeResult) ->
  stdio.initialized c = false ->
  stdio.muLocked c = false ->
  stdio.stdinError c = None ->
  stdio.reader c = stdio.Scanning ->
  stdio.stdout c = [] ->
  stdio.stdoutClosed c = false ->
  marshalRequest (requestOf (stdio.requestID c + 1) "initialize"
                            initializeParams) = Ok line ->
  stdio.splitLines answer = [answer] ->
  Z.of_nat (String.length answer) < stdio.MaxScanTokenSize ->
  unmarshalResponse (stdio.dropCR answer) = Ok response ->
  stdio.requestIDOf (stdio.JSONRPCResponse.ID response)
    = Some (stdio.requestID c + 1) ->
  stdio.JSONRPCResponse.Error response = None ->
  marshalValue (stdio.JSONRPCResponse.Result response) = Ok resultBytes ->
  unmarshalInitializeResult resultBytes = Ok initResult ->
  marshalRequest initializedNotification = Ok notification ->
  stdio.run unmarshalResponse c (initializeThenPipeBreaks i answer err) =
  Some {| stdio.initialized := true;
          stdio.tools := stdio.tools c;
          stdio.muLocked := false;
          stdio.requestID := stdio.requestID c + 1;
          stdio.pendingCalls :=
            delete (stdio.requestID c + 1) (stdio.pendingCalls c);
          stdio.chans := stdio.chans c ++ [None];
          stdio.stdin := stdio.stdin c ++ [line +:+ stdio.newline];
          stdio.stdinError := Some err;
          stdio.stdout := [];
          stdio.stdoutClosed := false;
          stdio.reader := stdio.Scanning;
          stdio.callers :=
            <[i := stdio.Ret
                     (Some ("failed to send initialized notification: "
                            +:+ "failed to write notification: " +:+ err))]>
              (stdio.callers c) |}.
Proof.
  intros Hi Hinit Hmu Herr Hr Hout Hclosed Hline Hone Hlen Hans Hid Hnoerr
    HmV HuI Hnote.
  assert (Hlt : (i < length (stdio.callers c))%nat)
    by (by eapply lookup_lt_Some).
  unfold stdio.Initialize, mbind, stdio.Prog_bind, mret, stdio.Prog_ret
    in Hi.
  cbn [stdio.bind] in Hi. unfold initializeParams in Hline.
  unfold initializeThenPipeBreaks.
  cbn [replicate app]. rewrite run_cons. cbn [stdio.step].
  erewrite stepCaller_Lock; [|exact Hi|exact Hmu].
  client_fields. rewrite run_cons. cbn [stdio.step].
  erewrite stepCaller_GetInitialized by client_caller.
  client_fields. rewrite Hinit. rewrite run_app.
  erewrite call_exchange;
    [|client_caller|exact Herr|exact Hr|exact Hout|exact Hclosed
     |exact Hline|exact Hone|exact Hlen|exact Hans|exact Hid].
  client_fields. unfold responseOutcome. rewrite Hnoerr, HmV, HuI.
  rewrite list_insert_insert_eq.
  rewrite run_cons. cbn [stdio.step].
  erewrite stepCaller_SetInitialized by client_caller.
  client_fields. cbv beta iota.
  rewrite run_cons. cbn [stdio.step]. client_fields.
  rewrite run_cons. cbn [stdio.step].
  unfold stdio.notify at 1.
  unfold initializedNotification in Hnote. rewrite Hnote.
  unfold mbind, stdio.Prog_bind, mret, stdio.Prog_ret. cbn [stdio.bind].
  erewrite stepCaller_Write_fails;
    [|client_caller|client_fields; reflexivity].
  cbv beta iota. cbn [stdio.bind]. client_fields.
  rewrite run_cons. cbn [stdio.step].
  erewrite stepCaller_Unlock by client_caller.
  unfold stdio.setCaller. client_fields.
  rewrite !list_insert_insert_eq. reflexivity.
Qed.

End StdioInitialize.

(** X17. [CallTool] of the client over stdio, on an initialized client
    with an idle reader: when the server answers the request with one
    line, short enough for the scanner (less than 64 KiB), that decodes
    to a response with the id of the request and no error, and the
    result decodes, the caller returns the decoded result; the request
    was written as one line, the pending call is removed again, the
    channel made for the call is left empty, and no other goroutine is
    touched. *)
Theorem X17_CallTool_returns_the_decoded_result
    {InitializeResult ToolCallResult : Type}
    (marshalRequest : stdio.JSONRPCRequest.t -> result string)
    (unmarshalResponse : string -> result stdio.JSONRPCResponse.t)
    (marshalValue : Value -> result string)
    (unmarshalInitializeResult : string -> result InitializeResult)
    (unmarshalToolCallResult : string -> result ToolCallResult)
    (c : stdio.Client (result ToolCallResult)) (i : nat)
    (name : string) (args : Args) (line answer : string)
    (response : stdio.JSONRPCResponse.t) (resultBytes : string)
    (toolResult : ToolCallResult) :
  stdio.callers c !! i =
    Some (stdio.CallTool marshalRequest marshalValue
            unmarshalInitializeResult unmarshalToolCallResult name args) ->
  stdio.initialized c = true ->
  stdio.stdinError c = None ->
  stdio.reader c = stdio.Scanning ->
  stdio.stdout c = [] ->
  stdio.stdoutClosed c = false ->
  marshalRequest (requestOf (stdio.requestID c + 1) "tools/call"
                            (stdio.ToolCallParams name args)) = Ok line ->
  stdio.splitLines answer = [answer] ->
  Z.of_nat (String.length answer) < stdio.MaxScanTokenSize ->
  unmarshalResponse (stdio.dropCR answer) = Ok response ->
  stdio.requestIDOf (stdio.JSONRPCResponse.ID response)
    = Some (stdio.requestID c + 1) ->
  stdio.JSONRPCResponse.Error response = None ->
  marshalValue (stdio.JSONRPCResponse.Result response) = Ok resultBytes ->
  unmarshalToolCallResult resultBytes = Ok toolResult ->
  exists c',
    stdio.run unmarshalResponse c (exchange i 5 answer) = Some c'
    /\ stdio.callers c' !! i = Some (stdio.Ret (Ok toolResult))
    /\ stdio.stdin c' = stdio.stdin c ++ [line +:+ stdio.newline]
    /\ stdio.pendingCalls c'
       = delete (stdio.requestID c + 1) (stdio.pendingCalls c)
    /\ stdio.chans c' = stdio.chans c ++ [None]
    /\ stdio.reader c' = stdio.Scanning
    /\ (forall j, j <> i -> stdio.callers c' !! j = stdio.callers c !! j).
Proof.
  intros Hi Hinit Herr Hr Hout Hclosed Hline Hone Hlen Hans Hid Hnoerr HmV HuT.
  eexists. split.
  { eapply CallTool_exchange; eassumption. }
  client_fields.
  assert (Hlt : (i < length (stdio.callers c))%nat)
    by (by eapply lookup_lt_Some).
  split.
  { rewrite list_lookup_insert_eq by exact Hlt.
    unfold toolCallOutcome, responseOutcome. by rewrite Hnoerr, HmV, HuT. }
  repeat (split; [reflexivity|]).
  intros j Hj. by apply list_lookup_insert_ne.
Qed.

(** X18. [CallTool] of the client over stdio when the server answers
    the request, with one line of less than 64 KiB, by a JSON-RPC error:
    the caller returns the error "failed to call tool <name>: JSON-RPC
    error <code>: <message>", and the pending call is removed as for an
    answer without error. *)
Theorem X18_CallTool_returns_the_server_error
    {InitializeResult ToolCallResult : Type}
    (marshalRequest : stdio.JSONRPCRequest.t -> result string)
    (unmarshalResponse : string -> result stdio.JSONRPCResponse.t)
    (marshalValue : Value -> result string)
    (unmarshalInitializeResult : string -> result InitializeResult)
    (unmarshalToolCallResult : string -> result ToolCallResult)
    (c : stdio.Client (result ToolCallResult)) (i : nat)
    (name : string) (args : Args) (line answer : string)
    (response : stdio.JSONRPCResponse.t) (e : stdio.JSONRPCError.t) :
  stdio.callers c !! i =
    Some (stdio.CallTool marshalRequest marshalValue
            unmarshalInitializeResult unmarshalToolCallResult name args) ->
  stdio.initialized c = true ->
  stdio.stdinError c = None ->
  stdio.reader c = stdio.Scanning ->
  stdio.stdout c = [] ->
  stdio.stdoutClosed c = false ->
  marshalRequest (requestOf (stdio.requestID c + 1) "tools/call"
                            (stdio.ToolCallParams name args)) = Ok line ->
  stdio.splitLines answer = [answer] ->
  Z.of_nat (String.length answer) < stdio.MaxScanTokenSize ->
  unmarshalResponse (stdio.dropCR answer) = Ok response ->
  stdio.requestIDOf (stdio.JSONRPCResponse.ID response)
    = Some (stdio.requestID c + 1) ->
  stdio.JSONRPCResponse.Error response = Some e ->
  exists c',
    stdio.run unmarshalResponse c (exchange i 5 answer) = Some c'
    /\ stdio.callers c' !! i =
       Some (stdio.Ret
               (Err ("failed to call tool " +:+ name +:+ ": "
                     +:+ "JSON-RPC error "
                     +:+ pretty (stdio.JSONRPCError.Code e) +:+ ": "
                     +:+ stdio.JSONRPCError.Message e)))
    /\ stdio.pendingCalls c'
       = delete (stdio.requestID c + 1) (stdio.pendingCalls c)
    /\ stdio.chans c' = stdio.chans c ++ [None].
Proof.
  intros Hi Hinit Herr Hr Hout Hclosed Hline Hone Hlen Hans Hid He.
  eexists. split.
  { eapply CallTool_exchange; eassumption. }
  client_fields.
  assert (Hlt : (i < length (stdio.callers c))%nat)
    by (by eapply lookup_lt_Some).
  split; [|by split].
  rewrite list_lookup_insert_eq by exact Hlt.
  unfold toolCallOutcome, responseOutcome. by rewrite He.
Qed.

(** X19. A line from the server that the scanner accepts (less than
    64 KiB) and that cannot be decoded, that carries no id or an id
    that is not a number, or whose id, converted to an int64, is the id
    of no pending call, is dropped by [readResponses]: after at most two
    of its operations the reader is at the next line, and no channel,
    no pending call and no goroutine has changed. *)
Theorem X19_reader_drops_unmatched_lines {R : Type}
    (unmarshalResponse : string -> result stdio.JSONRPCResponse.t)
    (c : stdio.Client R) (line : string) (rest : list string) :
  stdio.reader c = stdio.Scanning ->
  stdio.stdout c = line :: rest ->
  Z.of_nat (String.length line) < stdio.MaxScanTokenSize ->
  match unmarshalResponse (stdio.dropCR line) with
  | Err _ => True
  | Ok response =>
      match stdio.requestIDOf (stdio.JSONRPCResponse.ID response) with
      | None => True
      | Some id => stdio.pendingCalls c !! id = None
      end
  end ->
  exists n c',
    (1 <= n <= 2)%nat
    /\ stdio.run unmarshalResponse c (replicate n stdio.ReadResponses)
       = Some c'
    /\ stdio.reader c' = stdio.Scanning
    /\ stdio.stdout c' = rest
    /\ stdio.chans c' = stdio.chans c
    /\ stdio.pendingCalls c' = stdio.pendingCalls c
    /\ stdio.callers c' = stdio.callers c.
Proof.
  intros Hr Hout Hlen Hnone.
  destruct (reader_drops unmarshalResponse c line rest Hr Hout Hlen Hnone)
    as (n & Hn & Hrun).
  exists n. eexists. split; [exact Hn|]. split; [exact Hrun|].
  by repeat split.
Qed.

(** X20. [CallTool] of the client over stdio on a pipe that refuses
    writes: the caller returns the error "failed to call tool <name>:
    failed to write request: <error>" after six operations, without
    waiting for a response; nothing was written, and the pending call
    that it registered is removed again. *)
Theorem X20_CallTool_fails_when_the_write_fails
    {InitializeResult ToolCallResult : Type}
    (marshalRequest : stdio.JSONRPCRequest.t -> result string)
    (unmarshalResponse : string -> result stdio.JSONRPCResponse.t)
    (marshalValue : Value -> result string)
    (unmarshalInitializeResult : string -> result InitializeResult)
    (unmarshalToolCallResult : string -> result ToolCallResult)
    (c : stdio.Client (result ToolCallResult)) (i : nat)
    (name : string) (args : Args) (line : string) (err : error) :
  stdio.callers c !! i =
    Some (stdio.CallTool marshalRequest marshalValue
            unmarshalInitializeResult unmarshalToolCallResult name args) ->
  stdio.initialized c = true ->
  stdio.stdinError c = Some err ->
  marshalRequest (requestOf (stdio.requestID c + 1) "tools/call"
                            (stdio.ToolCallParams name args)) = Ok line ->
  exists c',
    stdio.run unmarshalResponse c (replicate 6 (stdio.Caller i)) = Some c'
    /\ stdio.callers c' !! i =
       Some (stdio.Ret
               (Err ("failed to call tool " +:+ name +:+ ": "
                     +:+ "failed to write request: " +:+ err)))
    /\ stdio.stdin c' = stdio.stdin c
    /\ stdio.pendingCalls c'
       = delete (stdio.requestID c + 1) (stdio.pendingCalls c)
    /\ stdio.requestID c' = stdio.requestID c + 1.
Proof.
  intros Hi Hinit Herr Hline.
  eexists. split.
  { eapply CallTool_write_fails; eassumption. }
  client_fields.
  assert (Hlt : (i < length (stdio.callers c))%nat)
    by (by eapply lookup_lt_Some).
  split; [by rewrite list_lookup_insert_eq by exact Hlt|]. by repeat split.
Qed.

(** X21. [Initialize] of the client over stdio marks the client as
    initialized before it sends the notification
    "notifications/initialized": when the server has answered the
    request "initialize" (with one line of less than 64 KiB that
    decodes) and the pipe breaks before the notification is
    written, [Initialize] returns the error "failed to send initialized
    notification: ..." with the lock released, and the client stays
    marked as initialized, so that a later [Initialize] returns nil
    without writing anything. *)
Theorem X21_Initialize_marks_before_it_notifies {InitializeResult : Type}
    (marshalRequest : stdio.JSONRPCRequest.t -> result string)
    (unmarshalResponse : string -> result stdio.JSONRPCResponse.t)
    (marshalValue : Value -> result string)
    (unmarshalInitializeResult : string -> result InitializeResult)
    (c : stdio.Client (option error)) (i : nat)
    (line answer notification : string)
    (response : stdio.JSONRPCResponse.t) (resultBytes : string)
    (initResult : InitializeResult) (err : error) :
  stdio.callers c !! i =
    Some (stdio.Initialize marshalRequest marshalValue
                           unmarshalInitializeResult) ->
  stdio.initialized c = false ->
  stdio.muLocked c = false ->
  stdio.stdinError c = None ->
  stdio.reader c = stdio.Scanning ->
  stdio.stdout c = [] ->
  stdio.stdoutClosed c = false ->
  marshalRequest (requestOf (stdio.requestID c + 1) "initialize"
                            initializeParams) = Ok line ->
  stdio.splitLines answer = [answer] ->
  Z.of_nat (String.length answer) < stdio.MaxScanTokenSize ->
  unmarshalResponse (stdio.dropCR answer) = Ok response ->
  stdio.requestIDOf (stdio.JSONRPCResponse.ID response)
    = Some (stdio.requestID c + 1) ->
  stdio.JSONRPCResponse.Error response = None ->
  marshalValue (stdio.JSONRPCResponse.Result response) = Ok resultBytes ->
  unmarshalInitializeResult resultBytes = Ok initResult ->
  marshalRequest initializedNotification = Ok notification ->
  exists c',
    stdio.run unmarshalResponse c (initializeThenPipeBreaks i answer err)
      = Some c'
    /\ stdio.callers c' !! i =
       Some (stdio.Ret
               (Some ("failed to send initialized notification: "
                      +:+ "failed to write notification: " +:+ err)))
    /\ stdio.initialized c' = true
    /\ stdio.muLocked c' = false
    /\ stdio.stdin c' = stdio.stdin c ++ [line +:+ stdio.newline]
    /\ exists c'',
         stdio.run unmarshalResponse c'
           (stdio.Go (stdio.Initialize marshalRequest marshalValue
                                       unmarshalInitializeResult)
            :: replicate 3 (stdio.Caller (length (stdio.callers c'))))
           = Some c''
         /\ stdio.callers c'' !! length (stdio.callers c')
            = Some (stdio.Ret None)
         /\ stdio.stdin c'' = stdio.stdin c'
         /\ stdio.requestID c'' = stdio.requestID c'.
Proof.
  intros Hi Hinit Hmu Herr Hr Hout Hclosed Hline Hone Hlen Hans Hid Hnoerr
    HmV HuI Hnote.
  assert (Hlt : (i < length (stdio.callers c))%nat)
    by (by eapply lookup_lt_Some).
  eexists. split.
  { eapply Initialize_pipe_breaks; eassumption. }
  client_fields.
  split; [by rewrite list_lookup_insert_eq by exact Hlt|].
  do 3 (split; [reflexivity|]).
  rewrite run_cons. cbn [stdio.step]. client_fields.
  eexists. split.
  { eapply Initialize_when_initialized;
      [client_fields; by apply list_lookup_middle|reflexivity|reflexivity]. }
  client_fields. split; [|by split].
  apply list_lookup_insert_eq. rewrite length_app. simpl. lia.
Qed.

(* --------------------------------------------------------------------- *)
(** ** Resources and blueprints *)
(* --------------------------------------------------------------------- *)

Section BuildXRD.

Lemma checkParameters_spec parameters spec requiredMissing filteredSpec :
  crossplane.checkParameters parameters spec requiredMissing filteredSpec =
  (requiredMissing
     ++ (filter (fun p => crossplane.missing p.2
                            (lookupArg spec p.1) = true)
                parameters).*1,
   filteredSpec
     ++ omap (fun p => match lookupArg spec p.1 with
                       | Some val => Some (p.1, val)
                       | None => None
                       end) parameters).
Proof.
  revert requiredMissing filteredSpec.
  induction parameters as [|[pname param] parameters IH];
    intros requiredMissing filteredSpec.
  - simpl. by rewrite !app_nil_r.
  - cbn [crossplane.checkParameters]. cbv zeta. rewrite IH.
    rewrite filter_cons. cbn [omap list_omap fst snd].
    destruct (crossplane.missing param (lookupArg spec pname)) eqn:Hm;
      destruct (lookupArg spec pname) as [val|] eqn:Hl;
      simpl; rewrite <- ?app_assoc; try reflexivity.
    all: destruct (decide _) as [_|Hn]; try (by destruct Hn);
      try discriminate; simpl; rewrite <- ?app_assoc; reflexivity.
Qed.

(** The keys of the entries kept by the loop, in the order of the
    enumeration. *)
Lemma filteredSpec_keys (parameters : list (string * entities.Parameter_.t))
    spec :
  (omap (fun p : string * entities.Parameter_.t =>
           match lookupArg spec p.1 with
           | Some val => Some (p.1, val)
           | None => None
           end) parameters).*1 `sublist_of` parameters.*1.
Proof.
  induction parameters as [|[pname param] parameters IH]; [done|].
  cbn [omap list_omap fst snd]. simpl.
  destruct (lookupArg spec pname); simpl.
  - by apply sublist_skip.
  - by apply sublist_cons.
Qed.

(** The blueprint that [CreateResource] picks is the first of the list
    that has the name. *)
Lemma findBlueprint_Some blueprints name blueprint :
  usecases.findBlueprint blueprints name = Some blueprint <->
  exists before after,
    blueprints = before ++ blueprint :: after
    /\ entities.Blueprint.Name blueprint = name
    /\ Forall (fun bp => entities.Blueprint.Name bp <> name) before.
Proof.
  induction blueprints as [|bp blueprints IH]; simpl.
  - split; [discriminate|]. intros (before & after & Heq & _).
    by destruct before.
  - destruct (decide (entities.Blueprint.Name bp = name)) as [Hn|Hn].
    + split.
      * intros [= <-]. exists [], blueprints. by repeat split.
      * intros ([|bp' before] & after & Heq & Hname & Hall).
        -- by injection Heq as ->.
        -- injection Heq as -> _. apply Forall_cons in Hall as [Hne _].
           contradiction.
    + rewrite IH. split.
      * intros (before & after & -> & Hname & Hall).
        exists (bp :: before), after. repeat split; [done|].
        by constructor.
      * intros ([|bp' before] & after & Heq & Hname & Hall).
        -- injection Heq as -> _. contradiction.
        -- injection Heq as -> ->. apply Forall_cons in Hall as [_ Hall].
           by exists before, after.
Qed.

Lemma findBlueprint_None blueprints name :
  usecases.findBlueprint blueprints name = None <->
  Forall (fun bp => entities.Blueprint.Name bp <> name) blueprints.
Proof.
  induction blueprints as [|bp blueprints IH]; simpl.
  - split; [constructor|done].
  - destruct (decide (entities.Blueprint.Name bp = name)) as [Hn|Hn].
    + split; [discriminate|]. intros Hall.
      apply Forall_cons in Hall as [Hne _]. contradiction.
    + rewrite IH. split; [by constructor|].
      intros Hall. by apply Forall_cons in Hall as [_ Hall].
Qed.

End BuildXRD.

(** X22. [BuildXRD] fails with the error "missing required fields in
    spec: [...]" exactly when some required parameter of the blueprint
    has no entry in the spec of the resource, a nil entry or, for a
    parameter of type "string", the entry "". The error names each such
    parameter once and no other; their order is the order in which the
    map of the parameters was ranged over, which is not determined by
    the blueprint. Otherwise the spec of the XRD handed to the YAML
    encoder holds exactly the entries of the spec of the resource whose
    keys are parameters of the blueprint, each key once: keys that the
    blueprint does not declare are left out. *)
Theorem X22_BuildXRD_checks_and_filters_the_spec
    (marshalYAML : Value -> result string)
    (rangeOrder : gmap string entities.Parameter_.t ->
                  list (string * entities.Parameter_.t))
    (resource : entities.Resource.t) (blueprint : entities.Blueprint.t) :
  let parameters := entities.Blueprint.Parameters blueprint in
  let spec := entities.Resource.Spec resource in
  let isMissing pname :=
    exists param, parameters !! pname = Some param
                  /\ crossplane.missing param (lookupArg spec pname) = true in
  rangeOrder parameters ≡ₚ map_to_list parameters ->
  ((exists pname, isMissing pname) ->
   exists requiredMissing,
     crossplane.BuildXRD marshalYAML rangeOrder resource blueprint =
     Err ("missing required fields in spec: "
          +:+ "[" +:+ join " " requiredMissing +:+ "]")
     /\ NoDup requiredMissing
     /\ (forall pname, pname ∈ requiredMissing <-> isMissing pname)
     /\ requiredMissing `sublist_of` (rangeOrder parameters).*1)
  /\ ((forall pname, ~ isMissing pname) ->
      exists filteredSpec,
        crossplane.BuildXRD marshalYAML rangeOrder resource blueprint =
        match marshalYAML
                (VMap [ ("apiVersion",
                         VString (entities.Blueprint.Category blueprint
                                  +:+ "/"
                                  +:+ entities.Blueprint.Version blueprint));
                        ("kind",
                         VString (entities.Blueprint.Kind blueprint));
                        ("metadata",
                         VMap [ ("name",
                                 VString (entities.Resource.Name resource));
                                ("annotations",
                                 VMap [ ("description",
                                         VString
                                           (entities.Resource.Description
                                              resource)) ]) ]);
                        ("spec", VMap filteredSpec) ]) with
        | Err err => Err ("failed to marshal XRD to YAML: " +:+ err)
        | Ok xrdYAML => Ok xrdYAML
        end
        /\ NoDup filteredSpec.*1
        /\ forall key val,
             (key, val) ∈ filteredSpec <->
             is_Some (parameters !! key) /\ lookupArg spec key = Some val).
Proof.
  intros parameters spec isMissing Hperm.
  assert (Hin : forall pname param,
            (pname, param) ∈ rangeOrder parameters <->
            parameters !! pname = Some param).
  { intros pname param. rewrite Hperm. apply elem_of_map_to_list. }
  assert (Hnodup : NoDup (rangeOrder parameters).*1).
  { rewrite Hperm. apply NoDup_fst_map_to_list. }
  unfold crossplane.BuildXRD. fold parameters spec.
  rewrite checkParameters_spec. rewrite !app_nil_l.
  set (requiredMissing :=
         (filter (fun p => crossplane.missing p.2 (lookupArg spec p.1) = true)
                 (rangeOrder parameters)).*1).
  assert (Hsub : requiredMissing `sublist_of` (rangeOrder parameters).*1).
  { apply fmap_sublist, sublist_filter. }
  assert (Hmem : forall pname, pname ∈ requiredMissing <-> isMissing pname).
  { intros pname. unfold requiredMissing. rewrite list_elem_of_fmap. split.
    - intros ([pname' param] & -> & Hf).
      apply list_elem_of_filter in Hf as [Hm Hp]. simpl in Hm |- *.
      exists param. split; [by apply Hin|exact Hm].
    - intros (param & Hl & Hm). exists (pname, param). split; [done|].
      apply list_elem_of_filter. split; [exact Hm|by apply Hin]. }
  split.
  - intros [pname Hm]. exists requiredMissing.
    apply Hmem in Hm.
    destruct requiredMissing as [|x l] eqn:E;
      [by apply elem_of_nil in Hm|].
    split; [reflexivity|]. split; [by eapply sublist_NoDup; [exact Hnodup|]|].
    split; [exact Hmem|exact Hsub].
  - intros Hnone.
    destruct requiredMissing as [|x l] eqn:E.
    2:{ destruct (Hnone x). apply Hmem. by left. }
    eexists. split; [reflexivity|]. split.
    { eapply sublist_NoDup; [exact Hnodup|apply filteredSpec_keys]. }
    intros key val. rewrite list_elem_of_omap. split.
    + intros ([pname param] & Hp & Hsome). simpl in Hsome.
      destruct (lookupArg spec pname) as [v|] eqn:Hl; [|discriminate].
      injection Hsome as <- <-. split; [|exact Hl].
      exists param. by apply Hin.
    + intros [[param Hp] Hl]. exists (key, param).
      split; [by apply Hin|]. simpl. by rewrite Hl.
Qed.

(** X22 on a blueprint with the required parameter "region" and a
    resource whose spec holds an empty region. *)
Lemma X22_BuildXRD_checks_and_filters_the_spec_witness :
  exists requiredMissing,
    crossplane.BuildXRD exampleMarshalYAML map_to_list exampleResource
                        exampleBlueprint =
    Err ("missing required fields in spec: "
         +:+ "[" +:+ join " " requiredMissing +:+ "]")
    /\ NoDup requiredMissing
    /\ "region" ∈ requiredMissing
    /\ "versioning" ∉ requiredMissing.
Proof.
  destruct (X22_BuildXRD_checks_and_filters_the_spec exampleMarshalYAML
              map_to_list exampleResource exampleBlueprint)
    as [Hfails _]; [reflexivity|].
  destruct Hfails as (requiredMissing & Herr & Hnodup & Hmem & _).
  { exists "region". eexists. split; [reflexivity|]. reflexivity. }
  exists requiredMissing. split; [exact Herr|]. split; [exact Hnodup|].
  split.
  - apply Hmem. eexists. split; [reflexivity|]. reflexivity.
  - intros Hin. apply Hmem in Hin as (param & Hl & Hm).
    vm_compute in Hl. injection Hl as <-. discriminate Hm.
Defined.

Ltac port_calls :=
  repeat match goal with
         | H : _ ∈ _ :: _ |- _ => apply elem_of_cons in H as [H|H]
         | H : _ ∈ [] |- _ => by apply elem_of_nil in H
         | H : @eq usecases.PortCall _ _ |- _ =>
             first [discriminate H | injection H as; subst]
         end.

Ltac threading EB ES EP :=
  let Hin := fresh "Hin" in
  intros ? ? Hin; port_calls; cbv zeta; rewrite ?EB; cbn [fst snd];
  (split; [reflexivity|]);
  (split;
   [intros ? Hin; port_calls; rewrite ?ES; reflexivity
   |intros ? ? Hin; port_calls; rewrite ?ES; cbn [fst snd];
    rewrite ?EP; by split]).

(** X23. [CreateResource] calls its ports in the order ListBlueprints,
    BuildXRD, SaveResource, PushXRDToRepo and stops at the first call
    that fails: a call that failed is the last call, and its error is
    the error returned. An error comes from a call that failed, or it is
    "blueprint not found" when the list holds no blueprint of the name
    asked for, and then only ListBlueprints was called. When a resource
    is returned, the four calls were made and succeeded: the XRD was
    built for the first blueprint of the list that has the name, the
    resource returned is the one that SaveResource returned, and the XRD
    that was built was pushed to the repository "idp-cloudgenie-state"
    under "resources/<blueprint>/<name>.yaml". A push is made only after
    the resource was saved, and each port is called in the state that
    the call before it left. *)
Theorem X23_CreateResource_order_of_effects {W : Type}
    (ports : usecases.Ports W) (resource : entities.Resource.t) (st : W) :
  let out := usecases.CreateResource ports resource st in
  let calls := out.2 in
  let name := entities.Resource.BlueprintName resource in
  let repoName := "idp-cloudgenie-state" in
  let xrdPath :=
    "resources/" +:+ name +:+ "/"
    +:+ entities.Resource.Name resource +:+ ".yaml" in
  (exists listed blueprint built saved xrd pushed,
     calls `prefix_of`
       [usecases.ListBlueprints listed;
        usecases.BuildXRD resource blueprint built;
        usecases.SaveResource resource saved;
        usecases.PushXRDToRepo xrd repoName xrdPath pushed])
  /\ head calls
     = Some (usecases.ListBlueprints (usecases.onListBlueprints ports st).1)
  /\ (forall i call err,
        calls !! i = Some call -> usecases.failure call = Some err ->
        S i = length calls /\ out.1.1 = Err err)
  /\ (forall err, out.1.1 = Err err ->
        (exists call, last calls = Some call
                      /\ usecases.failure call = Some err)
        \/ (err = usecases.ErrBlueprintNotFound
            /\ exists blueprints,
                 calls = [usecases.ListBlueprints (Ok blueprints)]
                 /\ Forall (fun bp => entities.Blueprint.Name bp <> name)
                           blueprints))
  /\ (forall r, out.1.1 = Ok r ->
        exists blueprints before blueprint after xrd,
          calls = [usecases.ListBlueprints (Ok blueprints);
                   usecases.BuildXRD resource blueprint (Ok xrd);
                   usecases.SaveResource resource (Ok r);
                   usecases.PushXRDToRepo xrd repoName xrdPath None]
          /\ blueprints = before ++ blueprint :: after
          /\ entities.Blueprint.Name blueprint = name
          /\ Forall (fun bp => entities.Blueprint.Name bp <> name) before)
  /\ (forall resource' blueprint built,
        usecases.BuildXRD resource' blueprint built ∈ calls ->
        resource' = resource
        /\ exists blueprints,
             head calls = Some (usecases.ListBlueprints (Ok blueprints))
             /\ usecases.findBlueprint blueprints name = Some blueprint)
  /\ (forall xrd repo path pushed,
        usecases.PushXRDToRepo xrd repo path pushed ∈ calls ->
        repo = repoName /\ path = xrdPath
        /\ exists blueprint saved,
             calls !! 1%nat
               = Some (usecases.BuildXRD resource blueprint (Ok xrd))
             /\ calls !! 2%nat
                = Some (usecases.SaveResource resource (Ok saved)))
  /\ (forall blueprint built,
        usecases.BuildXRD resource blueprint built ∈ calls ->
        let st1 := (usecases.onListBlueprints ports st).2 in
        let st2 := (usecases.onBuildXRD ports resource blueprint st1).2 in
        let st3 := (usecases.onSaveResource ports resource st2).2 in
        built = (usecases.onBuildXRD ports resource blueprint st1).1
        /\ (forall saved,
              usecases.SaveResource resource saved ∈ calls ->
              saved = (usecases.onSaveResource ports resource st2).1)
        /\ (forall xrd pushed,
              usecases.PushXRDToRepo xrd repoName xrdPath pushed ∈ calls ->
              pushed
              = (usecases.onPushXRDToRepo ports xrd repoName xrdPath st3).1
              /\ out.1.2
                 = (usecases.onPushXRDToRepo ports xrd repoName xrdPath
                                             st3).2)).
Proof.
  intros out calls name repoName xrdPath. subst out calls.
  unfold usecases.CreateResource. fold name.
  set (dummy := {| entities.Blueprint.Kind := "";
                   entities.Blueprint.Name := "";
                   entities.Blueprint.Description := "";
                   entities.Blueprint.Parameters := ∅;
                   entities.Blueprint.Category := "";
                   entities.Blueprint.Version := "" |}).
  destruct (usecases.onListBlueprints ports st) as [[blueprints|err0] st1]
    eqn:EL; cbv zeta; cbn [fst snd].
  2:{ split.
      { exists (Err err0), dummy, (Ok ""), (Err ""), "", None.
        by eexists. }
      split; [done|]. split.
      { intros [|i] call err Hc Hf; simpl in Hc; [|done].
        injection Hc as <-. simpl in Hf. by injection Hf as <-. }
      split.
      { intros err [= <-]. left. by eexists. }
      split; [intros r [=]|]. split.
      { intros r' bp built Hin. port_calls. }
      split.
      { intros xrd repo path pushed Hin. port_calls. }
      intros bp built Hin. port_calls. }
  destruct (usecases.findBlueprint blueprints name) as [blueprint|] eqn:EF;
    cbn [fst snd].
  2:{ split.
      { exists (Ok blueprints), dummy, (Ok ""), (Err ""), "", None.
        by eexists. }
      split; [done|]. split.
      { intros [|i] call err Hc Hf; simpl in Hc; [|done].
        injection Hc as <-. discriminate Hf. }
      split.
      { intros err [= <-]. right. split; [done|]. exists blueprints.
        split; [done|]. by apply findBlueprint_None. }
      split; [intros r [=]|]. split.
      { intros r' bp built Hin. port_calls. }
      split.
      { intros xrd repo path pushed Hin. port_calls. }
      intros bp built Hin. port_calls. }
  destruct (usecases.onBuildXRD ports resource blueprint st1)
    as [[xrdYAML|err1] st2] eqn:EB; cbn [fst snd].
  2:{ split.
      { exists (Ok blueprints), blueprint, (Err err1), (Err ""), "", None.
        by eexists. }
      split; [done|]. split.
      { intros [|[|i]] call err Hc Hf; simpl in Hc; [| |done];
          injection Hc as <-; simpl in Hf; [discriminate|].
        by injection Hf as <-. }
      split.
      { intros err [= <-]. left. by eexists. }
      split; [intros r [=]|]. split.
      { intros r' bp built Hin. port_calls. split; [done|]. by eexists. }
      split.
      { intros xrd repo path pushed Hin. port_calls. }
      threading EB ES EB. }
  destruct (usecases.onSaveResource ports resource st2)
    as [[savedResource|err2] st3] eqn:ES; cbn [fst snd].
  2:{ split.
      { exists (Ok blueprints), blueprint, (Ok xrdYAML), (Err err2), "", None.
        by eexists. }
      split; [done|]. split.
      { intros [|[|[|i]]] call err Hc Hf; simpl in Hc; [| | |done];
          injection Hc as <-; simpl in Hf; try discriminate.
        by injection Hf as <-. }
      split.
      { intros err [= <-]. left. by eexists. }
      split; [intros r [=]|]. split.
      { intros r' bp built Hin. port_calls. split; [done|]. by eexists. }
      split.
      { intros xrd repo path pushed Hin. port_calls. }
      threading EB ES EB. }
  fold repoName. fold xrdPath.
  destruct (usecases.onPushXRDToRepo ports xrdYAML repoName xrdPath st3)
    as [[err3|] st4] eqn:EP; cbn [fst snd].
  - split.
    { exists (Ok blueprints), blueprint, (Ok xrdYAML), (Ok savedResource),
        xrdYAML, (Some err3). by exists []. }
    split; [done|]. split.
    { intros [|[|[|[|i]]]] call err Hc Hf; simpl in Hc; [| | | |done];
        injection Hc as <-; simpl in Hf; try discriminate.
      by injection Hf as <-. }
    split.
    { intros err [= <-]. left. by eexists. }
    split; [intros r [=]|]. split.
    { intros r' bp built Hin. port_calls. split; [done|]. by eexists. }
    split.
    { intros xrd repo path pushed Hin. port_calls.
      split; [done|]. split; [done|]. by eexists _, _. }
    threading EB ES EP.
  - split.
    { exists (Ok blueprints), blueprint, (Ok xrdYAML), (Ok savedResource),
        xrdYAML, None. by exists []. }
    split; [done|]. split.
    { intros [|[|[|[|i]]]] call err Hc Hf; simpl in Hc; [| | | |done];
        injection Hc as <-; simpl in Hf; discriminate. }
    split; [intros err [=]|]. split.
    { intros r [= <-]. apply findBlueprint_Some in EF
        as (before & after & Hb & Hn & Hall).
      by exists blueprints, before, blueprint, after, xrdYAML. }
    split.
    { intros r' bp built Hin. port_calls. split; [done|]. by eexists. }
    split.
    { intros xrd repo path pushed Hin. port_calls.
      split; [done|]. split; [done|]. by eexists _, _. }
    threading EB ES EP.
Qed.

Section StdioListTools.

Context {InitializeResult : Type}.
Context (marshalRequest : stdio.JSONRPCRequest.t -> result string)
        (unmarshalResponse : string -> result stdio.JSONRPCResponse.t)
        (marshalValue : Value -> result string)
        (unmarshalInitializeResult : string -> result InitializeResult)
        (unmarshalToolsListResult : string -> result (list mcp.Tool.t)).

Lemma stepCaller_SetTools {R} (c : stdio.Client R) (i : nat) ts k :
  stdio.callers c !! i = Some (stdio.SetTools ts k) ->
  stdio.stepCaller c i =
  Some (stdio.setCaller
          {| stdio.initialized := stdio.initialized c;
             stdio.tools := ts;
             stdio.muLocked := stdio.muLocked c;
             stdio.requestID := stdio.requestID c;
             stdio.pendingCalls := stdio.pendingCalls c;
             stdio.chans := stdio.chans c;
             stdio.stdin := stdio.stdin c;
             stdio.stdinError := stdio.stdinError c;
             stdio.stdout := stdio.stdout c;
             stdio.stdoutClosed := stdio.stdoutClosed c;
             stdio.reader := stdio.reader c;
             stdio.callers := stdio.callers c |}
          i k).
Proof. intros H. unfold stdio.stepCaller. by rewrite H. Qed.

(** [ListTools] on an initialized client whose request is answered
    with a catalog. *)
Lemma ListTools_exchange (c : stdio.Client (result (list mcp.Tool.t)))
    (i : nat) (line answer : string) (response : stdio.JSONRPCResponse.t)
    (resultBytes : string) (ts : list mcp.Tool.t) :
  stdio.callers c !! i =
    Some (stdio.ListTools marshalRequest marshalValue
            unmarshalInitializeResult unmarshalToolsListResult) ->
  stdio.initialized c = true ->
  stdio.muLocked c = false ->
  stdio.stdinError c = None ->
  stdio.reader c = stdio.Scanning ->
  stdio.stdout c = [] ->
  stdio.stdoutClosed c = false ->
  marshalRequest (requestOf (stdio.requestID c + 1) "tools/list"
                            stdio.ToolsListParams) = Ok line ->
  stdio.splitLines answer = [answer] ->
  Z.of_nat (String.length answer) < stdio.MaxScanTokenSize ->
  unmarshalResponse (stdio.dropCR answer) = Ok response ->
  stdio.requestIDOf (stdio.JSONRPCResponse.ID response)
    = Some (stdio.requestID c + 1) ->
  stdio.JSONRPCResponse.Error response = None ->
  marshalValue (stdio.JSONRPCResponse.Result response) = Ok resultBytes ->
  unmarshalToolsListResult resultBytes = Ok ts ->
  stdio.run unmarshalResponse c (listToolsAnswered i answer) =
  Some {| stdio.initialized := true;
          stdio.tools := ts;
          stdio.muLocked := false;
          stdio.requestID := stdio.requestID c + 1;
          stdio.pendingCalls :=
            delete (stdio.requestID c + 1) (stdio.pendingCalls c);
          stdio.chans := stdio.chans c ++ [None];
          stdio.stdin := stdio.stdin c ++ [line +:+ stdio.newline];
          stdio.stdinError := None;
          stdio.stdout := [];
          stdio.stdoutClosed := false;
          stdio.reader := stdio.Scanning;
          stdio.callers :=
            <[i := stdio.Ret (Ok ts)]> (stdio.callers c) |}.
Proof.
  intros Hi Hinit Hmu Herr Hr Hout Hclosed Hline Hone Hlen Hans Hid Hnoerr HmV HuT.
  assert (Hlt : (i < length (stdio.callers c))%nat)
    by (by eapply lookup_lt_Some).
  unfold stdio.ListTools, mbind, stdio.Prog_bind, mret, stdio.Prog_ret in Hi.
  cbn [stdio.bind] in Hi.
  unfold listToolsAnswered. rewrite run_app.
  change (exchange i 5 answer)
    with (stdio.Caller (R:=result (list mcp.Tool.t)) i
          :: exchange i 4 answer).
  rewrite run_cons. cbn [stdio.step].
  erewrite stepCaller_GetInitialized by exact Hi.
  rewrite Hinit. cbn [stdio.bind].
  erewrite call_exchange;
    [|client_caller|exact Herr|exact Hr|exact Hout|exact Hclosed
     |exact Hline|exact Hone|exact Hlen|exact Hans|exact Hid].
  client_fields. unfold responseOutcome. rewrite Hnoerr, HmV, HuT.
  rewrite list_insert_insert_eq.
  cbn [replicate]. rewrite run_cons. cbn [stdio.step].
  erewrite stepCaller_Lock; [|client_caller|client_fields; exact Hmu].
  client_fields. rewrite run_cons. cbn [stdio.step].
  erewrite stepCaller_SetTools by client_caller.
  client_fields. rewrite run_cons. cbn [stdio.step].
  erewrite stepCaller_Unlock by client_caller.
  unfold stdio.setCaller. client_fields.
  rewrite !list_insert_insert_eq, Hinit. reflexivity.
Qed.

End StdioListTools.

(** X24. [ListTools] of the client over stdio, on an initialized client
    with an idle reader and a free lock: when the server answers the
    request "tools/list" with one line of less than 64 KiB and the
    answer decodes to a list of tools, the
    caller returns this list and the catalog of the client is replaced
    by it (the tools it held before are gone); the lock is free again
    and the pending call is removed. *)
Theorem X24_ListTools_replaces_the_catalog {InitializeResult : Type}
    (marshalRequest : stdio.JSONRPCRequest.t -> result string)
    (unmarshalResponse : string -> result stdio.JSONRPCResponse.t)
    (marshalValue : Value -> result string)
    (unmarshalInitializeResult : string -> result InitializeResult)
    (unmarshalToolsListResult : string -> result (list mcp.Tool.t))
    (c : stdio.Client (result (list mcp.Tool.t))) (i : nat)
    (line answer : string) (response : stdio.JSONRPCResponse.t)
    (resultBytes : string) (ts : list mcp.Tool.t) :
  stdio.callers c !! i =
    Some (stdio.ListTools marshalRequest marshalValue
            unmarshalInitializeResult unmarshalToolsListResult) ->
  stdio.initialized c = true ->
  stdio.muLocked c = false ->
  stdio.stdinError c = None ->
  stdio.reader c = stdio.Scanning ->
  stdio.stdout c = [] ->
  stdio.stdoutClosed c = false ->
  marshalRequest (requestOf (stdio.requestID c + 1) "tools/list"
                            stdio.ToolsListParams) = Ok line ->
  stdio.splitLines answer = [answer] ->
  Z.of_nat (String.length answer) < stdio.MaxScanTokenSize ->
  unmarshalResponse (stdio.dropCR answer) = Ok response ->
  stdio.requestIDOf (stdio.JSONRPCResponse.ID response)
    = Some (stdio.requestID c + 1) ->
  stdio.JSONRPCResponse.Error response = None ->
  marshalValue (stdio.JSONRPCResponse.Result response) = Ok resultBytes ->
  unmarshalToolsListResult resultBytes = Ok ts ->
  exists c',
    stdio.run unmarshalResponse c (listToolsAnswered i answer) = Some c'
    /\ stdio.callers c' !! i = Some (stdio.Ret (Ok ts))
    /\ stdio.tools c' = ts
    /\ stdio.muLocked c' = false
    /\ stdio.pendingCalls c'
       = delete (stdio.requestID c + 1) (stdio.pendingCalls c)
    /\ stdio.stdin c' = stdio.stdin c ++ [line +:+ stdio.newline].
Proof.
  intros Hi Hinit Hmu Herr Hr Hout Hclosed Hline Hone Hlen Hans Hid Hnoerr HmV HuT.
  assert (Hlt : (i < length (stdio.callers c))%nat)
    by (by eapply lookup_lt_Some).
  eexists. split.
  { eapply ListTools_exchange; eassumption. }
  client_fields.
  split; [by rewrite list_lookup_insert_eq by exact Hlt|]. by repeat split.
Qed.

(* --------------------------------------------------------------------- *)
(** ** The OpenAI provider *)
(* --------------------------------------------------------------------- *)

Section OpenAI.

Context (unmarshalArgs : string -> result Args).

Lemma toolCallsOf_spec (calls : list openai.ToolCall.t) :
  forall toolCalls,
    match openai.toolCallsOf unmarshalArgs calls toolCalls with
    | Ok out =>
        exists new,
          out = toolCalls ++ new
          /\ map (fun tc => (ai.ToolCall.ID tc, ai.ToolCall.Name tc)) new
             = map (fun tc => (openai.ToolCall.ID tc,
                               openai.ToolCall.Name tc)) calls
          /\ Forall2 (fun tc call =>
                        unmarshalArgs (openai.ToolCall.Arguments call)
                        = Ok (ai.ToolCall.Arguments tc)) new calls
    | Err e =>
        exists call err,
          call ∈ calls
          /\ unmarshalArgs (openai.ToolCall.Arguments call) = Err err
          /\ e = "failed to parse tool arguments: " +:+ err
    end.
Proof.
  induction calls as [|tc calls IH]; intros toolCalls.
  - simpl. exists []. by rewrite app_nil_r.
  - cbn [openai.toolCallsOf].
    destruct (unmarshalArgs (openai.ToolCall.Arguments tc))
      as [args|err] eqn:E.
    + specialize (IH (toolCalls ++
        [ {| ai.ToolCall.ID := openai.ToolCall.ID tc;
             ai.ToolCall.Name := openai.ToolCall.Name tc;
             ai.ToolCall.Arguments := args |} ])).
      destruct (openai.toolCallsOf unmarshalArgs calls _) as [out|e].
      * destruct IH as (new & -> & Hmap & Hall).
        eexists (_ :: new). rewrite <- app_assoc. split; [reflexivity|].
        simpl. rewrite Hmap. split; [reflexivity|].
        constructor; [exact E|exact Hall].
      * destruct IH as (call & err & Hin & He & ->).
        exists call, err. split; [by right|done].
    + exists tc, err. split; [left|done].
Qed.

Lemma toolCallsOf_fails (calls : list openai.ToolCall.t) call err :
  call ∈ calls ->
  unmarshalArgs (openai.ToolCall.Arguments call) = Err err ->
  forall toolCalls,
    exists e, openai.toolCallsOf unmarshalArgs calls toolCalls = Err e.
Proof.
  intros Hin He. induction calls as [|tc calls IH]; intros toolCalls.
  - by apply elem_of_nil in Hin.
  - cbn [openai.toolCallsOf].
    destruct (unmarshalArgs (openai.ToolCall.Arguments tc))
      as [args|err'] eqn:E; [|by eauto].
    apply elem_of_cons in Hin as [->|Hin]; [congruence|].
    by apply IH.
Qed.

Lemma messagesOf_history (history : list ai.Message.t)
    (messages : list openai.ChatCompletionMessage.t) :
  fold_left
    (fun messages msg =>
       let role := ai.Message.Role msg in
       if decide (role = "user") then
         messages ++
           [ {| openai.ChatCompletionMessage.Role :=
                  openai.ChatMessageRoleUser;
                openai.ChatCompletionMessage.Content :=
                  ai.Message.Content msg |} ]
       else if decide (role = "assistant") then
         messages ++
           [ {| openai.ChatCompletionMessage.Role :=
                  openai.ChatMessageRoleAssistant;
                openai.ChatCompletionMessage.Content :=
                  ai.Message.Content msg |} ]
       else messages)
    history messages
  = messages ++
    map (fun msg =>
           {| openai.ChatCompletionMessage.Role := ai.Message.Role msg;
              openai.ChatCompletionMessage.Content :=
                ai.Message.Content msg |})
        (filter (fun msg => ai.Message.Role msg = "user"
                            \/ ai.Message.Role msg = "assistant")
                history).
Proof.
  revert messages. induction history as [|msg history IH];
    intros messages.
  - simpl. by rewrite app_nil_r.
  - cbn [fold_left]. rewrite IH. cbv zeta. rewrite filter_cons.
    destruct (decide (ai.Message.Role msg = "user")) as [Hu|Hu].
    + rewrite decide_True by (by left).
      simpl. rewrite <- app_assoc. simpl.
      unfold openai.ChatMessageRoleUser. by rewrite Hu.
    + destruct (decide (ai.Message.Role msg = "assistant")) as [Ha|Ha].
      * rewrite decide_True by (by right).
        simpl. rewrite <- app_assoc. simpl.
        unfold openai.ChatMessageRoleAssistant. by rewrite Ha.
      * rewrite decide_False by (by intros [?|?]). reflexivity.
Qed.

End OpenAI.

(** X25. The OpenAI provider passes the tool calls of the model on as
    they are: when [Chat] succeeds, the tool calls of its response are
    those of the first choice of the answer, one for one and in order,
    with the same ids and names (a name is not compared with the
    catalog) and the parsed arguments; when the arguments of one tool
    call cannot be parsed, [Chat] fails as a whole. The request holds
    the system message, then the messages of the history with the role
    "user" or "assistant", content only (the tool results that a message
    carries are not sent), then the prompt as a user message. *)
Theorem X25_openai_passes_tool_calls_unvalidated
    (unmarshalArgs : string -> result Args)
    (CreateChatCompletion :
       openai.ChatCompletionRequest.t ->
       result openai.ChatCompletionResponse.t)
    (model prompt : string) (tools : list mcp.Tool.t)
    (history : list ai.Message.t) :
  let request := openai.requestOf model prompt tools history in
  (forall r, openai.Chat unmarshalArgs CreateChatCompletion model prompt
                         tools history = Ok r ->
     exists resp choice rest,
       CreateChatCompletion request = Ok resp
       /\ openai.ChatCompletionResponse.Choices resp = choice :: rest
       /\ ai.Response.Content r = openai.Choice.Content choice
       /\ map (fun tc => (ai.ToolCall.ID tc, ai.ToolCall.Name tc))
              (ai.Response.ToolCalls r)
          = map (fun tc => (openai.ToolCall.ID tc, openai.ToolCall.Name tc))
                (openai.Choice.ToolCalls choice)
       /\ Forall2 (fun tc call =>
                     unmarshalArgs (openai.ToolCall.Arguments call)
                     = Ok (ai.ToolCall.Arguments tc))
                  (ai.Response.ToolCalls r)
                  (openai.Choice.ToolCalls choice))
  /\ (forall resp choice rest call err,
        CreateChatCompletion request = Ok resp ->
        openai.ChatCompletionResponse.Choices resp = choice :: rest ->
        call ∈ openai.Choice.ToolCalls choice ->
        unmarshalArgs (openai.ToolCall.Arguments call) = Err err ->
        exists e, openai.Chat unmarshalArgs CreateChatCompletion model prompt
                              tools history = Err e)
  /\ openai.ChatCompletionRequest.Messages request =
     openai.systemMessage
     :: map (fun msg =>
               {| openai.ChatCompletionMessage.Role := ai.Message.Role msg;
                  openai.ChatCompletionMessage.Content :=
                    ai.Message.Content msg |})
            (filter (fun msg => ai.Message.Role msg = "user"
                                \/ ai.Message.Role msg = "assistant")
                    history)
     ++ [ {| openai.ChatCompletionMessage.Role := "user";
             openai.ChatCompletionMessage.Content := prompt |} ]
  /\ map openai.Tool.Name (openai.ChatCompletionRequest.Tools request)
     = map mcp.Tool.Name tools.
Proof.
  intros request. split; [|split; [|split]].
  - intros r Hr. unfold openai.Chat in Hr. fold request in Hr.
    destruct (CreateChatCompletion request) as [resp|err]; [|discriminate].
    destruct (openai.ChatCompletionResponse.Choices resp)
      as [|choice rest] eqn:Ec; [discriminate|].
    pose proof (toolCallsOf_spec unmarshalArgs
                  (openai.Choice.ToolCalls choice) []) as Hspec.
    destruct (openai.toolCallsOf unmarshalArgs
                (openai.Choice.ToolCalls choice) []) as [out|e];
      [|discriminate].
    injection Hr as <-. destruct Hspec as (new & -> & Hmap & Hall).
    exists resp, choice, rest. simpl. by repeat split.
  - intros resp choice rest call err Hresp Hc Hin He.
    unfold openai.Chat. fold request. rewrite Hresp, Hc.
    destruct (toolCallsOf_fails unmarshalArgs _ call err Hin He [])
      as [e ->].
    by eauto.
  - subst request. unfold openai.requestOf, openai.messagesOf. simpl.
    by rewrite messagesOf_history.
  - subst request. unfold openai.requestOf. simpl.
    rewrite map_map. reflexivity.
Qed.

(* --------------------------------------------------------------------- *)
(** ** The further properties on examples *)
(* --------------------------------------------------------------------- *)

(** X4 on the tools [list_blueprints] and [get_blueprints] with the
    empty argument map, and on one tool with the empty argument map and
    with a channel. *)
Lemma X4_cache_keys_separate_tools_witness :
  generateCacheKey plainLib "list_blueprints" (Some [])
    <> generateCacheKey plainLib "get_blueprints" (Some [])
  /\ generateCacheKey plainLib "watch_resource" (Some [])
     <> generateCacheKey plainLib "watch_resource" (Some [("events", VChan)]).
Proof.
  split.
  - apply (X4_cache_keys_separate_tools plainLib "list_blueprints"
             "get_blueprints" (Some []) (Some []));
      [eexists; reflexivity|eexists; reflexivity|discriminate].
  - apply (X4_cache_keys_separate_tools plainLib "watch_resource"
             "watch_resource" (Some []) (Some [("events", VChan)]));
      [eexists; reflexivity|reflexivity].
Defined.

(** X6 on a result with a text and an image, flagged as an error, and
    the result with the text only. *)
Lemma X6_formatToolResult_reads_text_parts_only_witness :
  formatToolResult plainLib textAndImage = formatToolResult plainLib textOnly
  /\ formatToolResult plainLib textAndImage = "quota exceeded".
Proof.
  destruct (X6_formatToolResult_reads_text_parts_only plainLib
              textAndImage textOnly) as [Hsame Hone];
    [discriminate|reflexivity|].
  split; [exact Hsame|]. apply Hone. reflexivity.
Defined.

(** X8 on scenario A: the second call of the provider. *)
Lemma X8_what_every_Chat_call_is_given_witness :
  let toolResults :=
    [ {| ai.ToolResult.ToolCallID := "gemini_call_0";
         ai.ToolResult.Content := "[]";
         ai.ToolResult.IsError := false |} ] in
  let hist :=
    [ assistantMessage (askTools [listBlueprints]);
      toolResultsMessage toolResults ] in
  chatCalls scenarioARun.2 !! 1%nat
    = Some (formatToolResultsForPrompt toolResults, tools exampleService, hist)
  /\ length hist = 2%nat
  /\ Forall (fun m => ai.Message.Role m = "assistant") hist.
Proof.
  intros toolResults hist.
  assert (Hk : chatCalls
                 (interp (worldHandler (alternatingEnv (Ok emptyList)))
                         (ProcessPrompt plainLib exampleService exampleRequest)
                         freshWorld).2 !! 1%nat
               = Some (formatToolResultsForPrompt toolResults,
                       tools exampleService, hist))
    by (vm_compute; reflexivity).
  destruct (X8_what_every_Chat_call_is_given plainLib exampleService
              (worldHandler (alternatingEnv (Ok emptyList)))
              exampleRequest freshWorld 1 _ _ _ Hk)
    as (_ & Hlen & Hall & _).
  split; [exact Hk|]. split; [exact Hlen|exact Hall].
Defined.

(** X9 on scenario C, in which the call of the tool fails: one result,
    no call record. *)
Lemma X9_response_counts_agree_witness :
  exists r hits misses,
    failingRun.1.1 = Ok r
    /\ models.ChatResponse.Metadata r !! "cache_hits"
       = Some (models.MInt hits)
    /\ models.ChatResponse.Metadata r !! "cache_misses"
       = Some (models.MInt misses)
    /\ Z.of_nat (length (models.ChatResponse.ToolResults r)) = hits + misses
    /\ (length (models.ChatResponse.ToolCalls r)
          + length (filter (fun x => isFailedCall x = true)
                           (resolutions failingRun.2)))%nat
       = length (models.ChatResponse.ToolResults r).
Proof.
  destruct (failingRun.1.1) as [r|e] eqn:E.
  - destruct (X9_response_counts_agree plainLib exampleService
                (worldHandler (alternatingEnv (Err "connection refused")))
                exampleRequest freshWorld r E)
      as (hits & misses & Hh & Hm & _ & _ & Hsum & Hcalls).
    exists r, hits, misses. split; [reflexivity|]. by repeat split.
  - exfalso. vm_compute in E. discriminate.
Defined.

(** X10 on the example request. *)
Lemma X10_anthropic_provider_never_uses_tools_witness :
  let run :=
    interp (worldHandler anthropicEnv)
           (ProcessPrompt plainLib exampleService exampleRequest) freshWorld in
  exists r,
    run.1.1 = Ok r
    /\ models.ChatResponse.Response r =
       "Anthropic integration coming soon. Please use OpenAI provider for now."
    /\ models.ChatResponse.Metadata r !! "iterations" = Some (models.MInt 1)
    /\ toolRequests run.2 = [].
Proof.
  intros run.
  destruct (X10_anthropic_provider_never_uses_tools plainLib exampleService
              anthropicProvider (worldHandler anthropicEnv) exampleRequest
              freshWorld)
    as (r & Hr & Htext & _ & _ & Hit & _ & _ & Hreq & _);
    [intros; reflexivity|].
  exists r. by repeat split.
Defined.

(** X14 on a model that asks for a tool that does not exist and for
    [list_blueprints]: only [list_blueprints] is called. *)
Lemma X14_gemini_calls_catalog_tools_only_witness :
  let run :=
    interp (worldHandler geminiEnv)
           (ProcessPrompt plainLib exampleService exampleRequest) freshWorld in
  Forall (fun request => request.1 ∈ map mcp.Tool.Name (tools exampleService))
         (toolRequests run.2)
  /\ toolRequests run.2 = [("list_blueprints", Some [])].
Proof.
  intros run.
  destruct (X14_gemini_calls_catalog_tools_only plainLib exampleTextLib
              exampleService (worldHandler geminiEnv) exampleRequest
              freshWorld) as (Hreq & _).
  { intros prompt ts hist w.
    exists exampleSystemPrompt, (exampleGenerateContent (chats w)).
    simpl. by destruct (chats w). }
  split; [exact Hreq|]. vm_compute. reflexivity.
Defined.

(** X17 on the example client: the server answers request 1. *)
Lemma X17_CallTool_returns_the_decoded_result_witness :
  exists c',
    stdio.run exampleUnmarshalResponse (exampleClient "list_blueprints")
              (exchange 0 5 "1") = Some c'
    /\ stdio.callers c' !! 0%nat = Some (stdio.Ret (Ok "{}"))
    /\ stdio.stdin c'
       = ["1 tools/call list_blueprints" +:+ stdio.newline].
Proof.
  destruct (X17_CallTool_returns_the_decoded_result
              exampleMarshalRequest exampleUnmarshalResponse
              exampleMarshalValue exampleUnmarshal exampleUnmarshal
              (exampleClient "list_blueprints") 0 "list_blueprints"
              (Some []) "1 tools/call list_blueprints" "1" answerOne
              "{}" "{}")
    as (c' & Hrun & Hret & Hin & _); try reflexivity.
  exists c'. split; [exact Hrun|]. split; [exact Hret|exact Hin].
Defined.

(** X18 on the example client: the server refuses request 1. *)
Lemma X18_CallTool_returns_the_server_error_witness :
  exists c',
    stdio.run refusingUnmarshalResponse (exampleClient "list_blueprints")
              (exchange 0 5 "E") = Some c'
    /\ stdio.callers c' !! 0%nat =
       Some (stdio.Ret
               (Err ("failed to call tool list_blueprints: "
                     +:+ "JSON-RPC error " +:+ pretty (-32602)
                     +:+ ": Unknown tool"))).
Proof.
  destruct (X18_CallTool_returns_the_server_error
              exampleMarshalRequest refusingUnmarshalResponse
              exampleMarshalValue exampleUnmarshal exampleUnmarshal
              (exampleClient "list_blueprints") 0 "list_blueprints"
              (Some []) "1 tools/call list_blueprints" "E" refusalOne
              {| stdio.JSONRPCError.Code := -32602;
                 stdio.JSONRPCError.Message := "Unknown tool" |})
    as (c' & Hrun & Hret & _); try reflexivity.
  exists c'. split; [exact Hrun|exact Hret].
Defined.

(** X19 on a client without pending call whose reader finds a line that
    answers request 7. *)
Lemma X19_reader_drops_unmatched_lines_witness :
  exists n c',
    (1 <= n <= 2)%nat
    /\ stdio.run exampleUnmarshalResponse clientWithStrayLine
                 (replicate n stdio.ReadResponses) = Some c'
    /\ stdio.reader c' = stdio.Scanning
    /\ stdio.stdout c' = []
    /\ stdio.chans c' = [].
Proof.
  destruct (X19_reader_drops_unmatched_lines exampleUnmarshalResponse
              clientWithStrayLine "7" [])
    as (n & c' & Hn & Hrun & Hr & Hout & Hch & _);
    [reflexivity|reflexivity|reflexivity|vm_compute; reflexivity|].
  exists n, c'. split; [exact Hn|]. split; [exact Hrun|].
  split; [exact Hr|]. split; [exact Hout|exact Hch].
Defined.

(** X20 on the example client with a broken pipe. *)
Lemma X20_CallTool_fails_when_the_write_fails_witness :
  exists c',
    stdio.run exampleUnmarshalResponse exampleClientBrokenPipe
              (replicate 6 (stdio.Caller 0)) = Some c'
    /\ stdio.callers c' !! 0%nat =
       Some (stdio.Ret
               (Err ("failed to call tool list_blueprints: "
                     +:+ "failed to write request: broken pipe")))
    /\ stdio.stdin c' = [].
Proof.
  destruct (X20_CallTool_fails_when_the_write_fails
              exampleMarshalRequest exampleUnmarshalResponse
              exampleMarshalValue exampleUnmarshal exampleUnmarshal
              exampleClientBrokenPipe 0 "list_blueprints" (Some [])
              "1 tools/call list_blueprints" "broken pipe")
    as (c' & Hrun & Hret & Hin & _); try reflexivity.
  exists c'. split; [exact Hrun|]. split; [exact Hret|exact Hin].
Defined.

(** X21 on a new client: the server answers the request "initialize",
    then the pipe breaks. *)
Lemma X21_Initialize_marks_before_it_notifies_witness :
  exists c',
    stdio.run exampleUnmarshalResponse newClientInitializing
              (initializeThenPipeBreaks 0 "1" "broken pipe") = Some c'
    /\ stdio.callers c' !! 0%nat =
       Some (stdio.Ret
               (Some ("failed to send initialized notification: "
                      +:+ "failed to write notification: broken pipe")))
    /\ stdio.initialized c' = true
    /\ stdio.muLocked c' = false.
Proof.
  destruct (X21_Initialize_marks_before_it_notifies
              exampleMarshalRequest exampleUnmarshalResponse
              exampleMarshalValue exampleUnmarshal
              newClientInitializing 0 "1 initialize" "1"
              "- notifications/initialized" answerOne "{}" "{}"
              "broken pipe")
    as (c' & Hrun & Hret & Hinit & Hmu & _); try reflexivity.
  exists c'. by repeat split.
Defined.

(** X24 on a client with a stale catalog. *)
Lemma X24_ListTools_replaces_the_catalog_witness :
  exists c',
    stdio.run exampleUnmarshalResponse exampleListToolsClient
              (listToolsAnswered 0 "1") = Some c'
    /\ stdio.callers c' !! 0%nat
       = Some (stdio.Ret (Ok (tools exampleService)))
    /\ stdio.tools c' = tools exampleService.
Proof.
  destruct (X24_ListTools_replaces_the_catalog
              exampleMarshalRequest exampleUnmarshalResponse
              exampleMarshalValue exampleUnmarshal exampleUnmarshalTools
              exampleListToolsClient 0 "1 tools/list" "1" answerOne
              "{}" (tools exampleService))
    as (c' & Hrun & Hret & Htools & _); try reflexivity.
  exists c'. by repeat split.
Defined.

(** X26. A line of the server that does not fit in the buffer of the
    scanner (64 KiB or more before its newline) ends [readResponses]:
    the reader returns without touching the channels or the pending
    calls, the line and the lines after it are never decoded, and a
    caller that waits for its response at that moment keeps waiting
    whatever happens next. *)
Theorem X26_reader_stops_at_a_long_line
    (unmarshalResponse : string -> result stdio.JSONRPCResponse.t)
    {R : Type} (c : stdio.Client R) (line : string) (rest : list string)
    (i ch : nat) (k : stdio.JSONRPCResponse.t -> stdio.Prog R) :
  stdio.reader c = stdio.Scanning ->
  stdio.stdout c = line :: rest ->
  stdio.MaxScanTokenSize <= Z.of_nat (String.length line) ->
  stdio.callers c !! i = Some (stdio.Recv ch k) ->
  stdio.chans c !! ch = Some None ->
  exists c1,
    stdio.step unmarshalResponse c stdio.ReadResponses = Some c1
    /\ stdio.reader c1 = stdio.Returned
    /\ stdio.chans c1 = stdio.chans c
    /\ stdio.pendingCalls c1 = stdio.pendingCalls c
    /\ forall sched c',
         stdio.run unmarshalResponse c1 sched = Some c' ->
         stdio.reader c' = stdio.Returned
         /\ stdio.callers c' !! i = Some (stdio.Recv ch k)
         /\ stdio.stepCaller c' i = None.
Proof.
  intros Hr Hout Hlen Hi Hch.
  exists (stdio.setReader c stdio.Returned (line :: rest) (stdio.chans c)).
  split; [cbn [stdio.step]; by apply reader_stops|].
  split; [reflexivity|]. split; [reflexivity|]. split; [reflexivity|].
  intros sched c' Hrun.
  destruct (waits_forever unmarshalResponse sched
              (stdio.setReader c stdio.Returned (line :: rest)
                               (stdio.chans c))
              c' i ch k eq_refl Hi Hch Hrun) as (Hr' & Hi' & Hch').
  split; [exact Hr'|]. split; [exact Hi'|].
  unfold stdio.stepCaller. by rewrite Hi', Hch'.
Qed.

(** X26 on a client whose reader finds a line of 64 KiB while a caller
    waits for the response to request 1. *)
Lemma X26_reader_stops_at_a_long_line_witness :
  exists c1,
    stdio.step exampleUnmarshalResponse clientWithLongLine
               stdio.ReadResponses = Some c1
    /\ stdio.reader c1 = stdio.Returned
    /\ stdio.pendingCalls c1 !! 1 = Some 0%nat
    /\ stdio.stepCaller c1 0 = None.
Proof.
  destruct (X26_reader_stops_at_a_long_line exampleUnmarshalResponse
              clientWithLongLine longLine [] 0%nat 0%nat
              (fun _ => stdio.Ret (Ok "{}")))
    as (c1 & Hstep & Hret & _ & Hpending & Hwait);
    [reflexivity|reflexivity|vm_compute; discriminate
    |reflexivity|reflexivity|].
  exists c1. split; [exact Hstep|]. split; [exact Hret|].
  split; [by rewrite Hpending|].
  by destruct (Hwait [] c1 eq_refl) as (_ & _ & Hblocked).
Defined.

(* --------------------------------------------------------------------- *)
(** ** The key of unserializable arguments and the cache *)
(* --------------------------------------------------------------------- *)

Section StoredResults.

Context (lib : GoLib) (svc : OrchestrationService).

(** The calls of the tool in a run are answered by the handler. *)
Lemma interp_callTool_events {S A} (h : Handler S) (prog : Prog A) :
  forall st name args a,
    EvCallTool name args a ∈ (interp h prog st).2 ->
    exists w, a = (onCallTool h name args w).1.
Proof.
  induction prog as [x|p ts hs k IH|k IH|n args k IH|key k IH
                     |key c e k IH|k IH]; intros st name args' a Hin.
  - by apply elem_of_nil in Hin.
  - simpl in Hin. destruct (onChat h p ts hs st) as [r st1].
    specialize (IH r st1 name args' a).
    destruct (interp h (k r) st1) as [[x st2] tr]. simpl in *.
    apply elem_of_cons in Hin as [[=]|Hin]. by apply IH.
  - simpl in Hin. destruct (onGetProviderName h st) as [r st1].
    specialize (IH r st1 name args' a).
    destruct (interp h (k r) st1) as [[x st2] tr]. simpl in *.
    apply elem_of_cons in Hin as [[=]|Hin]. by apply IH.
  - simpl in Hin. destruct (onCallTool h n args st) as [r st1] eqn:E.
    specialize (IH r st1 name args' a).
    destruct (interp h (k r) st1) as [[x st2] tr]. simpl in *.
    apply elem_of_cons in Hin as [[= -> -> ->]|Hin]; [|by apply IH].
    exists st. by rewrite E.
  - simpl in Hin. destruct (onCacheGet h key st) as [r st1].
    specialize (IH r st1 name args' a).
    destruct (interp h (k r) st1) as [[x st2] tr]. simpl in *.
    apply elem_of_cons in Hin as [[=]|Hin]. by apply IH.
  - simpl in Hin.
    specialize (IH (onCacheSet h key c e st) name args' a).
    destruct (interp h k (onCacheSet h key c e st)) as [[x st2] tr].
    simpl in *.
    apply elem_of_cons in Hin as [[=]|Hin]. by apply IH.
  - simpl in Hin. destruct (onCacheStats h st) as [r st1].
    specialize (IH r st1 name args' a).
    destruct (interp h (k r) st1) as [[x st2] tr]. simpl in *.
    apply elem_of_cons in Hin as [[=]|Hin]. by apply IH.
Qed.

(** A result is stored under the key of an invocation whose call of
    the tool returned a result. *)
Lemma cacheSet_segment_origin toolCall r key content isError :
  EvCacheSet key content isError ∈ segment lib toolCall r ->
  key = generateCacheKey lib (ai.ToolCall.Name toolCall)
                         (ai.ToolCall.Arguments toolCall)
  /\ exists mcpResult,
       EvCallTool (ai.ToolCall.Name toolCall)
                  (ai.ToolCall.Arguments toolCall) (Ok mcpResult)
         ∈ segment lib toolCall r.
Proof.
  intros H.
  destruct r as [c|[m|e]]; simpl in H;
    try destruct (mcp.CallToolResult.IsError m) eqn:Em;
    repeat (apply elem_of_cons in H as [H|H]; [try discriminate H|]);
    try (by apply elem_of_nil in H).
  injection H as -> _ _. split; [reflexivity|].
  exists m. simpl. right. left.
Qed.

Lemma cacheSet_segments_origin toolCalls rs key content isError :
  EvCacheSet key content isError
    ∈ concat (zip_with (segment lib) toolCalls rs) ->
  exists toolCall mcpResult,
    toolCall ∈ toolCalls
    /\ key = generateCacheKey lib (ai.ToolCall.Name toolCall)
                              (ai.ToolCall.Arguments toolCall)
    /\ EvCallTool (ai.ToolCall.Name toolCall)
                  (ai.ToolCall.Arguments toolCall) (Ok mcpResult)
         ∈ concat (zip_with (segment lib) toolCalls rs).
Proof.
  revert rs. induction toolCalls as [|x l IH]; intros [|r rs]; simpl;
    try (intros H; by apply elem_of_nil in H).
  rewrite elem_of_app. intros [H|H].
  - apply cacheSet_segment_origin in H as (-> & m & Hin).
    exists x, m. split; [left|]. split; [reflexivity|].
    apply elem_of_app. by left.
  - destruct (IH rs H) as (tc & m & Hin & Hkey & Hcall).
    exists tc, m. split; [by right|]. split; [exact Hkey|].
    apply elem_of_app. by right.
Qed.

Lemma run_cacheSet_origin n iteration prompt hist t res tr :
  LoopRun lib svc n iteration prompt hist t res tr ->
  forall key content isError,
    EvCacheSet key content isError ∈ tr ->
    exists toolCall mcpResult,
      toolCall ∈ invocations tr
      /\ key = generateCacheKey lib (ai.ToolCall.Name toolCall)
                                (ai.ToolCall.Arguments toolCall)
      /\ EvCallTool (ai.ToolCall.Name toolCall)
                    (ai.ToolCall.Arguments toolCall) (Ok mcpResult) ∈ tr.
Proof.
  induction 1 as [it p hs t provider stats
                 |n it p hs t err
                 |n it p hs t a provider stats Hnone
                 |n it p hs t a rs res tr Hsome Hlen calls trs Hrun IH];
    intros key content isError Hin.
  - repeat (apply elem_of_cons in Hin as [[=]|Hin]).
    by apply elem_of_nil in Hin.
  - repeat (apply elem_of_cons in Hin as [[=]|Hin]).
    by apply elem_of_nil in Hin.
  - repeat (apply elem_of_cons in Hin as [[=]|Hin]).
    by apply elem_of_nil in Hin.
  - apply elem_of_cons in Hin as [[=]|Hin].
    cbn [invocations].
    rewrite invocations_app, invocations_segments, app_nil_l.
    apply elem_of_app in Hin as [Hin|Hin].
    + apply cacheSet_segments_origin in Hin as (tc & m & Htc & Hkey & Hcall).
      exists tc, m. split; [apply elem_of_app; by left|].
      split; [exact Hkey|]. right. apply elem_of_app. by left.
    + destruct (IH key content isError Hin) as (tc & m & Htc & Hkey & Hcall).
      exists tc, m. split; [apply elem_of_app; by right|].
      split; [exact Hkey|]. right. apply elem_of_app. by right.
Qed.

End StoredResults.

(** C10, the claim as stated fails. The two invocations of
    [watch_resource], one with a channel and one with a NaN among its
    arguments, have the same key, the bare tool name; but behind a
    client that encodes the arguments the call of the first fails, so
    nothing is stored for it, and the second is not served from the
    cache: its lookup misses as well and the tool is called for it. *)
Lemma C10_unserializable_result_is_not_served :
  let run :=
    interp (worldHandler encodingEnv)
           (executeToolCalls plainLib [watchWithChannel; watchWithNaN] []
                             noTotals)
           freshWorld in
  encodesArguments plainLib (worldHandler encodingEnv)
  /\ generateCacheKey plainLib "watch_resource" (Some [("events", VChan)])
     = "watch_resource"
  /\ generateCacheKey plainLib "watch_resource"
                      (Some [("timeout", VFloat NaN)])
     = "watch_resource"
  /\ run.2 =
     [ EvCacheGet "watch_resource" None;
       EvCallTool "watch_resource" (Some [("events", VChan)])
                  (Err "json: unsupported type");
       EvCacheGet "watch_resource" None;
       EvCallTool "watch_resource" (Some [("timeout", VFloat NaN)])
                  (Err "json: unsupported type") ]
  /\ cache run.1.2 = NewResultCache CacheTTL
  /\ cacheHits run.1.1.2 = 0
  /\ Forall (fun r => ai.ToolResult.IsError r = true) run.1.1.1.
Proof.
  split.
  { intros name args st Hm. simpl. rewrite Hm. by eexists. }
  split; [reflexivity|]. split; [reflexivity|].
  split; [vm_compute; reflexivity|].
  split; [vm_compute; reflexivity|].
  split; [vm_compute; reflexivity|].
  vm_compute. repeat constructor.
Qed.

(** C10, amended. When the argument map cannot be serialized,
    [generateCacheKey] returns the bare tool name, so that all
    unserializable argument maps of one tool have the same key; there
    are two such maps with different entries. No result is stored for
    an invocation of this kind, however: behind a client that encodes
    the arguments the call of the tool fails, and a failure is not
    stored. Two invocations of one tool with unserializable arguments in
    a row, with no entry under the tool name in the cache, both miss and
    both call the tool, and each gets the error of its own call; in
    every run of [ProcessPrompt], every result that is stored is stored
    under the key of an invocation whose arguments can be serialized. *)
Theorem C10_unserializable_arguments_share_a_key (lib : GoLib) :
  (forall toolName args,
     Marshal lib args = None -> generateCacheKey lib toolName args = toolName)
  /\ (exists A1 A2 : Args,
        A1 <> A2 /\ wfArgs A1 /\ wfArgs A2 /\
        (forall k v, (k, v) ∈ entries A1 -> (k, v) ∉ entries A2) /\
        Marshal lib A1 = None /\ Marshal lib A2 = None /\
        forall T, generateCacheKey lib T A1 = T
                  /\ generateCacheKey lib T A2 = T)
  /\ (forall (env : Env) (first second : ai.ToolCall.t)
             (toolResults : list ai.ToolResult.t) (t : Totals) (w : World),
        let name := ai.ToolCall.Name first in
        encodesArguments lib (worldHandler env) ->
        ai.ToolCall.Name second = name ->
        Marshal lib (ai.ToolCall.Arguments first) = None ->
        Marshal lib (ai.ToolCall.Arguments second) = None ->
        store (cache w) !! name = None ->
        let run :=
          interp (worldHandler env)
                 (executeToolCalls lib [first; second] toolResults t) w in
        exists err1 err2,
          run.2 = [ EvCacheGet name None;
                    EvCallTool name (ai.ToolCall.Arguments first) (Err err1);
                    EvCacheGet name None;
                    EvCallTool name (ai.ToolCall.Arguments second)
                               (Err err2) ]
          /\ cache run.1.2 = cache w
          /\ toolCalls run.1.2 = S (S (toolCalls w))
          /\ cacheHits run.1.1.2 = cacheHits t
          /\ run.1.1.1 = toolResults ++
               [ {| ai.ToolResult.ToolCallID := ai.ToolCall.ID first;
                    ai.ToolResult.Content := callErrorMessage name err1;
                    ai.ToolResult.IsError := true |};
                 {| ai.ToolResult.ToolCallID := ai.ToolCall.ID second;
                    ai.ToolResult.Content := callErrorMessage name err2;
                    ai.ToolResult.IsError := true |} ])
  /\ (forall (svc : OrchestrationService) (W : Type) (h : Handler W)
             (request : models.ChatRequest.t) (st : W),
        encodesArguments lib h ->
        let run := interp h (ProcessPrompt lib svc request) st in
        forall key content isError,
          EvCacheSet key content isError ∈ run.2 ->
          exists toolCall,
            toolCall ∈ invocations run.2
            /\ key = generateCacheKey lib (ai.ToolCall.Name toolCall)
                                      (ai.ToolCall.Arguments toolCall)
            /\ is_Some (Marshal lib (ai.ToolCall.Arguments toolCall))).
Proof.
  split; [apply generateCacheKey_unserializable|]. split.
  { exists (Some [("a", VChan)]), (Some [("b", VFloat NaN)]).
    split; [discriminate|].
    split; [constructor; [compute_done|repeat constructor]|].
    split; [constructor; [compute_done|repeat constructor]|].
    split.
    { intros k v H1 H2. simpl in H1, H2.
      apply list_elem_of_singleton in H1, H2. congruence. }
    split; [reflexivity|]. split; [reflexivity|].
    intros T. split; reflexivity. }
  split.
  - intros env first second toolResults t w name Henc Hname Hm1 Hm2 Hstore
      run. subst run.
    assert (Hk1 : generateCacheKey lib (ai.ToolCall.Name first)
                    (ai.ToolCall.Arguments first) = name)
      by (by apply generateCacheKey_unserializable).
    assert (Hk2 : generateCacheKey lib (ai.ToolCall.Name second)
                    (ai.ToolCall.Arguments second) = name)
      by (rewrite <- Hname; by apply generateCacheKey_unserializable).
    assert (Hmiss : forall now, Get (cache w) now name = None).
    { intros now. apply Get_None. intros (e & He & _). congruence. }
    destruct (Henc name (ai.ToolCall.Arguments first) w Hm1) as [err1 He1].
    set (w1 := {| cache := cache w; chats := chats w;
                  toolCalls := S (toolCalls w); ticks := S (ticks w) |}).
    destruct (Henc name (ai.ToolCall.Arguments second) w1 Hm2)
      as [err2 He2].
    simpl in He1, He2.
    exists err1, err2.
    rewrite interp_executeToolCalls_cons.
    rewrite (world_miss_failed lib env first toolResults t w (Err err1));
      [|rewrite Hk1; apply Hmiss|exact He1|exact I].
    rewrite interp_executeToolCalls_cons.
    erewrite (world_miss_failed lib env second _ _ _ (Err err2));
      [|rewrite Hk2; apply Hmiss|rewrite Hname; exact He2|exact I].
    rewrite interp_executeToolCalls_nil. cbn [fst snd].
    unfold segment, resolved, aiResult; simpl.
    rewrite ?Hk1, ?Hk2, ?Hname. fold name.
    split; [reflexivity|]. split; [reflexivity|]. split; [reflexivity|].
    split; [unfold countHits; simpl; lia|].
    by rewrite <- app_assoc.
  - intros svc W h request st Henc run key content isError Hin. subst run.
    pose proof (ProcessPrompt_run lib svc h request st) as Hrun.
    destruct (run_cacheSet_origin lib svc _ _ _ _ _ _ _ Hrun
                key content isError Hin)
      as (toolCall & mcpResult & Htc & Hkey & Hcall).
    exists toolCall. split; [exact Htc|]. split; [exact Hkey|].
    apply interp_callTool_events in Hcall as [w Hw].
    destruct (Marshal lib (ai.ToolCall.Arguments toolCall)) as [text|] eqn:Hm;
      [by eexists|].
    destruct (Henc (ai.ToolCall.Name toolCall)
                (ai.ToolCall.Arguments toolCall) w Hm) as [err Herr].
    congruence.
Qed.

(** C10 amended, on the two invocations of [watch_resource] behind the
    client that encodes the arguments: the tool is called for both. *)
Lemma C10_unserializable_arguments_share_a_key_witness :
  generateCacheKey plainLib "watch_resource" (Some [("events", VChan)])
    = "watch_resource"
  /\ toolRequests
       (interp (worldHandler encodingEnv)
               (executeToolCalls plainLib [watchWithChannel; watchWithNaN] []
                                 noTotals)
               freshWorld).2
     = [ ("watch_resource", Some [("events", VChan)]);
         ("watch_resource", Some [("timeout", VFloat NaN)]) ].
Proof.
  destruct (C10_unserializable_arguments_share_a_key plainLib)
    as (Hkey & _ & Hshare & _).
  split; [apply Hkey; reflexivity|].
  destruct (Hshare encodingEnv watchWithChannel watchWithNaN [] noTotals
              freshWorld) as (err1 & err2 & Htr & _);
    [|reflexivity|reflexivity|reflexivity|reflexivity|].
  { intros name args st Hm. simpl. rewrite Hm. by eexists. }
  rewrite Htr. reflexivity.
Defined.

(* --------------------------------------------------------------------- *)
(** ** [CallTool] and the catalog *)
(* --------------------------------------------------------------------- *)

Section ClientDispatch.

Context {InitializeResult ToolCallResult : Type}.
Context (marshalRequest : stdio.JSONRPCRequest.t -> result string)
        (unmarshalResponse : string -> result stdio.JSONRPCResponse.t)
        (marshalValue : Value -> result string)
        (unmarshalInitializeResult : string -> result InitializeResult)
        (unmarshalToolCallResult : string -> result ToolCallResult).

(** [CallTool] on an initialized client when the request cannot be
    encoded: it returns after it has removed its pending call. *)
Lemma CallTool_marshal_fails (c : stdio.Client (result ToolCallResult))
    (i : nat) (name : string) (args : Args) (err : error) :
  stdio.callers c !! i =
    Some (stdio.CallTool marshalRequest marshalValue
            unmarshalInitializeResult unmarshalToolCallResult name args) ->
  stdio.initialized c = true ->
  marshalRequest (requestOf (stdio.requestID c + 1) "tools/call"
                            (stdio.ToolCallParams name args)) = Err err ->
  stdio.run unmarshalResponse c (replicate 5 (stdio.Caller i)) =
  Some {| stdio.initialized := true;
          stdio.tools := stdio.tools c;
          stdio.muLocked := stdio.muLocked c;
          stdio.requestID := stdio.requestID c + 1;
          stdio.pendingCalls :=
            delete (stdio.requestID c + 1) (stdio.pendingCalls c);
          stdio.chans := stdio.chans c ++ [None];
          stdio.stdin := stdio.stdin c;
          stdio.stdinError := stdio.stdinError c;
          stdio.stdout := stdio.stdout c;
          stdio.stdoutClosed := stdio.stdoutClosed c;
          stdio.reader := stdio.reader c;
          stdio.callers :=
            <[i := stdio.Ret
                     (Err ("failed to call tool " +:+ name +:+ ": "
                           +:+ "failed to marshal request: " +:+ err))]>
              (stdio.callers c) |}.
Proof.
  intros Hi Hinit Hline.
  assert (Hlt : (i < length (stdio.callers c))%nat)
    by (by eapply lookup_lt_Some).
  unfold stdio.CallTool, stdio.call, mbind, stdio.Prog_bind, mret,
    stdio.Prog_ret in Hi. cbn [stdio.bind] in Hi.
  unfold requestOf in Hline.
  cbn [replicate stdio.run stdio.step].
  erewrite stepCaller_GetInitialized by exact Hi.
  rewrite Hinit. cbn [stdio.bind].
  erewrite stepCaller_NextRequestID by (by apply lookup_setCaller).
  cbv beta. client_fields.
  erewrite stepCaller_MakeChan by client_caller.
  cbv beta. client_fields.
  erewrite stepCaller_PutPending by client_caller.
  cbv beta. client_fields.
  rewrite Hline. cbn [stdio.bind].
  erewrite stepCaller_DeletePending by client_caller.
  unfold stdio.setCaller. client_fields.
  rewrite !list_insert_insert_eq, delete_insert_eq, Hinit. reflexivity.
Qed.

(** [CallTool] returns a result exactly when the response carries no
    error and its result decodes. *)
Lemma toolCallOutcome_Ok name response toolResult :
  toolCallOutcome marshalValue unmarshalToolCallResult name
                  (responseOutcome response) = Ok toolResult <->
  stdio.JSONRPCResponse.Error response = None
  /\ exists resultBytes,
       marshalValue (stdio.JSONRPCResponse.Result response) = Ok resultBytes
       /\ unmarshalToolCallResult resultBytes = Ok toolResult.
Proof.
  unfold toolCallOutcome, responseOutcome.
  destruct (stdio.JSONRPCResponse.Error response) as [e|].
  { split; [discriminate|]. by intros [? _]. }
  destruct (marshalValue (stdio.JSONRPCResponse.Result response))
    as [bytes|err] eqn:Hm.
  - destruct (unmarshalToolCallResult bytes) as [r|err] eqn:Hu.
    + split.
      * intros [= <-]. split; [done|]. by exists bytes.
      * intros (_ & bytes' & [= <-] & Hu'). congruence.
    + split; [discriminate|].
      intros (_ & bytes' & [= <-] & Hu'). congruence.
  - split; [discriminate|]. by intros (_ & bytes' & [=] & _).
Qed.

End ClientDispatch.

(** C8, amended. [CallTool] does not look the name up in the catalog,
    whatever the name and whatever the catalog holds.

    The client over the SDK session: when it is initialized or the
    connection succeeds, it hands the request to the session and
    returns the answer of the session, an error of the session behind
    "failed to call tool <name>: "; it fails without handing the request
    over only when it is not initialized and the connection fails.

    The client over stdio, once initialized: when the request cannot be
    encoded or the write fails, it returns that error and nothing is
    written; otherwise it registers a pending call and writes the
    request [tools/call] for the name, and when the server answers with
    a line that carries the id of the request, it returns what the
    answer decodes to: a result exactly when the response carries no
    error and its result decodes, and else the error of the server or of
    the decoding. The catalog is left as it is. *)
Theorem C8_CallTool_dispatches_any_name :
  (forall (srv : sdk.Session) (c : sdk.Client) (name : string) (args : Args),
     let answer :=
       match sdk.sessionCallTool srv name args with
       | Ok r => Ok r
       | Err err => Err ("failed to call tool " +:+ name +:+ ": " +:+ err)
       end in
     (sdk.initialized c = true \/ sdk.connect srv = None ->
      sdk.CallTool srv c name args =
      (answer,
       {| sdk.tools := sdk.tools c; sdk.initialized := true;
          sdk.dispatched := sdk.dispatched c ++ [(name, args)] |}))
     /\ (forall err,
           sdk.initialized c = false -> sdk.connect srv = Some err ->
           sdk.CallTool srv c name args =
           (Err ("failed to connect to MCP server via HTTP: " +:+ err), c)))
  /\ (forall (InitializeResult ToolCallResult : Type)
             (marshalRequest : stdio.JSONRPCRequest.t -> result string)
             (unmarshalResponse : string -> result stdio.JSONRPCResponse.t)
             (marshalValue : Value -> result string)
             (unmarshalInitializeResult : string -> result InitializeResult)
             (unmarshalToolCallResult : string -> result ToolCallResult)
             (c : stdio.Client (result ToolCallResult)) (i : nat)
             (name : string) (args : Args),
        let request :=
          requestOf (stdio.requestID c + 1) "tools/call"
                    (stdio.ToolCallParams name args) in
        let run := stdio.run unmarshalResponse c in
        stdio.callers c !! i =
          Some (stdio.CallTool marshalRequest marshalValue
                  unmarshalInitializeResult unmarshalToolCallResult
                  name args) ->
        stdio.initialized c = true ->
        (forall err,
           marshalRequest request = Err err ->
           exists c',
             run (replicate 5 (stdio.Caller i)) = Some c'
             /\ stdio.callers c' !! i =
                Some (stdio.Ret
                        (Err ("failed to call tool " +:+ name +:+ ": "
                              +:+ "failed to marshal request: " +:+ err)))
             /\ stdio.stdin c' = stdio.stdin c
             /\ stdio.tools c' = stdio.tools c)
        /\ (forall line err,
              marshalRequest request = Ok line ->
              stdio.stdinError c = Some err ->
              exists c',
                run (replicate 6 (stdio.Caller i)) = Some c'
                /\ stdio.callers c' !! i =
                   Some (stdio.Ret
                           (Err ("failed to call tool " +:+ name +:+ ": "
                                 +:+ "failed to write request: " +:+ err)))
                /\ stdio.stdin c' = stdio.stdin c
                /\ stdio.tools c' = stdio.tools c)
        /\ (forall line,
              marshalRequest request = Ok line ->
              stdio.stdinError c = None ->
              (exists c',
                 run (replicate 5 (stdio.Caller i)) = Some c'
                 /\ stdio.stdin c' = stdio.stdin c ++ [line +:+ stdio.newline]
                 /\ stdio.pendingCalls c' !! (stdio.requestID c + 1)
                    = Some (length (stdio.chans c))
                 /\ stdio.tools c' = stdio.tools c)
              /\ (forall answer response,
                    stdio.reader c = stdio.Scanning ->
                    stdio.stdout c = [] ->
                    stdio.stdoutClosed c = false ->
                    stdio.splitLines answer = [answer] ->
                    Z.of_nat (String.length answer)
                      < stdio.MaxScanTokenSize ->
                    unmarshalResponse (stdio.dropCR answer) = Ok response ->
                    stdio.requestIDOf (stdio.JSONRPCResponse.ID response)
                      = Some (stdio.requestID c + 1) ->
                    exists c',
                      run (exchange i 5 answer) = Some c'
                      /\ stdio.callers c' !! i =
                         Some (stdio.Ret
                                 (toolCallOutcome marshalValue
                                    unmarshalToolCallResult name
                                    (responseOutcome response)))
                      /\ stdio.stdin c'
                         = stdio.stdin c ++ [line +:+ stdio.newline]
                      /\ stdio.tools c' = stdio.tools c))
        /\ (forall response toolResult,
              toolCallOutcome marshalValue unmarshalToolCallResult name
                              (responseOutcome response) = Ok toolResult <->
              stdio.JSONRPCResponse.Error response = None
              /\ exists resultBytes,
                   marshalValue (stdio.JSONRPCResponse.Result response)
                     = Ok resultBytes
                   /\ unmarshalToolCallResult resultBytes = Ok toolResult)).
Proof.
  split.
  - intros srv c name args answer. subst answer. unfold sdk.CallTool. split.
    + intros [Hinit|Hconn].
      * rewrite Hinit.
        destruct (sdk.sessionCallTool srv name args); by rewrite ?Hinit.
      * unfold sdk.Initialize. rewrite Hconn.
        destruct (sdk.initialized c) eqn:Hinit; simpl;
          destruct (sdk.sessionCallTool srv name args); by rewrite ?Hinit.
    + intros err Hinit Hconn. unfold sdk.Initialize.
      by rewrite Hinit, Hconn.
  - intros IR TR marshalRequest unmarshalResponse marshalValue unmarshalInit
      unmarshalCall c i name args request run Hi Hinit. subst request run.
    assert (Hlt : (i < length (stdio.callers c))%nat)
      by (by eapply lookup_lt_Some).
    split; [|split; [|split]].
    + intros err Hline. eexists. split.
      { eapply (CallTool_marshal_fails marshalRequest unmarshalResponse);
          eassumption. }
      client_fields.
      split; [by apply list_lookup_insert_eq|]. by split.
    + intros line err Hline Herr. eexists. split.
      { eapply (CallTool_write_fails marshalRequest unmarshalResponse);
          eassumption. }
      client_fields.
      split; [by apply list_lookup_insert_eq|]. by split.
    + intros line Hline Herr. split.
      * destruct (CallTool_sends marshalRequest unmarshalResponse marshalValue
                    unmarshalInit unmarshalCall c i name args line
                    Hi Hinit Herr Hline) as [k Hrun].
        eexists. split; [exact Hrun|]. simpl.
        split; [reflexivity|]. split; [apply lookup_insert_eq|reflexivity].
      * intros answer response Hr Hout Hclosed Hone Hlen Hans Hid.
        eexists. split.
        { eapply (CallTool_exchange marshalRequest unmarshalResponse);
            eassumption. }
        client_fields.
        split; [by apply list_lookup_insert_eq|]. by split.
    + intros response toolResult. apply toolCallOutcome_Ok.
Qed.

(** C8 amended, on the call of [no_such_tool] with a catalog that holds
    [list_blueprints] only: the request is written and the answer of the
    server is returned. *)
Lemma C8_CallTool_dispatches_any_name_witness :
  exists c',
    stdio.run exampleUnmarshalResponse (exampleClient "no_such_tool")
              (exchange 0 5 "1") = Some c'
    /\ stdio.callers c' !! 0%nat
       = Some (stdio.Ret
                 (toolCallOutcome exampleMarshalValue exampleUnmarshal
                                  "no_such_tool" (responseOutcome answerOne)))
    /\ stdio.stdin c' = ["1 tools/call no_such_tool" +:+ stdio.newline]
    /\ stdio.tools c' = tools exampleService.
Proof.
  destruct C8_CallTool_dispatches_any_name as [_ Hstdio].
  destruct (Hstdio string string exampleMarshalRequest exampleUnmarshalResponse
              exampleMarshalValue exampleUnmarshal exampleUnmarshal
              (exampleClient "no_such_tool") 0%nat "no_such_tool" (Some []))
    as (_ & _ & Hsent & _); [reflexivity|reflexivity|].
  destruct (Hsent "1 tools/call no_such_tool") as [_ Hanswered];
    [reflexivity|reflexivity|].
  destruct (Hanswered "1" answerOne) as (c' & Hrun & Hret & Hin & Htools);
    [reflexivity..|].
  exists c'. split; [exact Hrun|]. split; [exact Hret|].
  split; [exact Hin|exact Htools].
Defined.
